(** * sm2pspp: the G-code post-processor of src/sm2pspp.c

    A shallow embedding of [processFile] and of its micro-parsers
    [p_dtms], [p_uint] and [p_float], followed by the properties of the
    lexer, of the geometry tracker and of the header that is written.

    Conventions of the embedding.
    - The input buffer is a [list ascii]; a pointer into it is its offset
      from [inputBuf] (a [Z]), the null pointer is [None].
    - [size_t] is 64 bits wide, [unsigned int] 32 bits; every assignment to
      such a variable is reduced modulo its width.
    - [float] is IEEE 754 binary32, computed with the operations of
      [SpecFloat] at precision 24 and maximal exponent 128, each operation
      rounded to binary32 (FLT_EVAL_METHOD 0). *)

From Stdlib Require Import ZArith List Bool Ascii String Lia.
From Stdlib Require Import Floats.SpecFloat.
Import ListNotations.

Local Open Scope string_scope.
Local Open Scope list_scope.
Local Open Scope Z_scope.

(** ** Characters *)

Definition LF : ascii := "010"%char.
Definition CR : ascii := "013"%char.

Definition char_code (ch : ascii) : Z := Z.of_N (N_of_ascii ch).

(** [isdigit] and [isspace] of the C locale. *)
Definition isdigit (ch : ascii) : bool :=
  (48 <=? char_code ch) && (char_code ch <=? 57).

Definition isspace (ch : ascii) : bool :=
  (char_code ch =? 32) || ((9 <=? char_code ch) && (char_code ch <=? 13)).

Definition chars (s : string) : list ascii := list_ascii_of_string s.

(** A text of several lines, each one closed by a line feed. *)
Fixpoint unlines (ls : list string) : list ascii :=
  match ls with
  | [] => []
  | l :: ls' => chars l ++ LF :: unlines ls'
  end.

(** ** Machine integers *)

Definition size_t (z : Z) : Z := z mod 2 ^ 64.
Definition uint (z : Z) : Z := z mod 2 ^ 32.

(** ** binary32 floats *)

Definition float := spec_float.

Definition prec32 : Z := 24.
Definition emax32 : Z := 128.

Definition NAN : float := S754_nan.
Definition INFINITY : float := S754_infinity false.
Definition NEG_INFINITY : float := S754_infinity true.
Definition f_zero : float := S754_zero false.

Definition f_add : float -> float -> float := SFadd prec32 emax32.
Definition f_sub : float -> float -> float := SFsub prec32 emax32.
Definition f_mul : float -> float -> float := SFmul prec32 emax32.
Definition f_div : float -> float -> float := SFdiv prec32 emax32.
Definition f_lt : float -> float -> bool := SFltb.
Definition f_le : float -> float -> bool := SFleb.
Definition f_eq : float -> float -> bool := SFeqb.

(** Conversion of an integer to [float], and the float [m * 2^e]. *)
Definition f_of_Z (z : Z) : float := binary_normalize prec32 emax32 z 0 false.
Definition f_ldexp (m e : Z) : float := binary_normalize prec32 emax32 m e false.

(** The literals [10.0f] and [0.1f]. *)
Definition f_ten : float := f_of_Z 10.
Definition f_tenth : float := S754_finite false 13421773 (-27).

(** [IS_SET(num)] is [(num) == (num)]: false on NaN only. *)
Definition IS_SET (num : float) : bool := f_eq num num.

(** ** Tokens *)

(** [tPToken]: a view into the input buffer. *)
Record tPToken : Type := mkToken {
  tok_start : option Z;
  tok_length : Z
}.

Definition null_token : tPToken := mkToken None 0.

(** The bytes [start[0 .. length-1]] a token refers to. *)
Definition token_chars (buf : list ascii) (t : tPToken) : list ascii :=
  match tok_start t with
  | None => []
  | Some s => firstn (Z.to_nat (tok_length t)) (skipn (Z.to_nat s) buf)
  end.

(** [p[0]] for a pointer [p] into the buffer. *)
Definition char_at (buf : list ascii) (p : Z) : ascii :=
  nth (Z.to_nat p) buf "000"%char.

Definition is_empty_token (t : tPToken) : bool :=
  match tok_start t with
  | None => true
  | Some _ => tok_length t <=? 0
  end.

(** ** Micro-parsers *)

(** The loop of [p_dtms]. *)
Fixpoint p_dtms_loop (l : list ascii) (res val : Z) : Z :=
  match l with
  | [] => res
  | ch :: l' =>
    if isdigit ch then p_dtms_loop l' res (size_t (val * 10 + (char_code ch - 48)))
    else if Ascii.eqb ch "d" then p_dtms_loop l' (size_t (res + val * 86400)) 0
    else if Ascii.eqb ch "h" then p_dtms_loop l' (size_t (res + val * 3600)) 0
    else if Ascii.eqb ch "m" then p_dtms_loop l' (size_t (res + val * 60)) 0
    else if Ascii.eqb ch "s" then p_dtms_loop l' (size_t (res + val)) 0
    else p_dtms_loop l' res val
  end.

Definition p_dtms_chars (l : list ascii) : Z := p_dtms_loop l 0 0.

Definition p_dtms (buf : list ascii) (aToken : tPToken) : Z :=
  if is_empty_token aToken then 0 else p_dtms_chars (token_chars buf aToken).

(** The loop of [p_uint]; it ends at the first character that is no digit. *)
Fixpoint p_uint_loop (l : list ascii) (val : Z) : Z :=
  match l with
  | [] => val
  | ch :: l' =>
    if isdigit ch then p_uint_loop l' (uint (val * 10 + (char_code ch - 48)))
    else val
  end.

Definition p_uint_chars (l : list ascii) : Z := p_uint_loop l 0.

Definition p_uint (buf : list ascii) (aToken : tPToken) : Z :=
  if is_empty_token aToken then 0 else p_uint_chars (token_chars buf aToken).

(** The local variables of [p_float]. *)
Record tFloatAcc : Type := mkFloatAcc {
  fa_val : Z;
  fa_frac : Z;
  fa_fracDiv : float;
  fa_isFrac : bool
}.

Definition float_acc0 : tFloatAcc := mkFloatAcc 0 0 (f_of_Z 1) false.

(** The loop of [p_float]; it ends at the first character that is neither a
    digit nor a dot. *)
Fixpoint p_float_loop (l : list ascii) (a : tFloatAcc) : tFloatAcc :=
  match l with
  | [] => a
  | ch :: l' =>
    if isdigit ch then
      if fa_isFrac a then
        p_float_loop l'
          (mkFloatAcc (fa_val a) (size_t (fa_frac a * 10 + (char_code ch - 48)))
                      (f_mul (fa_fracDiv a) f_ten) true)
      else
        p_float_loop l'
          (mkFloatAcc (size_t (fa_val a * 10 + (char_code ch - 48))) (fa_frac a)
                      (fa_fracDiv a) false)
    else if Ascii.eqb ch "." then
      p_float_loop l' (mkFloatAcc (fa_val a) (fa_frac a) (fa_fracDiv a) true)
    else a
  end.

(** [(float)sign * ((float)val + ((float)frac / fracDiv))]. *)
Definition p_float_result (sign : Z) (a : tFloatAcc) : float :=
  f_mul (f_of_Z sign)
        (f_add (f_of_Z (fa_val a)) (f_div (f_of_Z (fa_frac a)) (fa_fracDiv a))).

Definition p_float_chars (l : list ascii) : float :=
  match l with
  | [] => f_zero
  | ch :: l' =>
    if Ascii.eqb ch "-" then p_float_result (-1) (p_float_loop l' float_acc0)
    else p_float_result 1 (p_float_loop l float_acc0)
  end.

Definition p_float (buf : list ascii) (aToken : tPToken) : float :=
  if is_empty_token aToken then f_zero else p_float_chars (token_chars buf aToken).

(** ** The helper of sm2pspp.h *)

Fixpoint cmp_chars (a b : list ascii) : Z :=
  match a, b with
  | [], [] => 0
  | [], _ :: _ => -1
  | _ :: _, [] => 1
  | c :: a', d :: b' =>
    if Ascii.eqb c d then cmp_chars a' b' else char_code c - char_code d
  end.

(** Modelled from the spec: [p_cmpToken] is declared in sm2pspp.h, which is
    not part of the sources at hand. The lexer uses it to tell whether a
    captured word equals a marker or a key; as its caller [p_cmpTokenStart]
    documents, it returns what strcmp returns: zero exactly when the bytes of
    the token are the bytes of the string. *)
Definition p_cmpToken (buf : list ascii) (lhs : tPToken) (rhs : string) : Z :=
  cmp_chars (token_chars buf lhs) (chars rhs).

Definition p_cmpTokenStart (buf : list ascii) (lhs : tPToken) (rhs : string) : Z :=
  let rhsLen := Z.of_nat (List.length (chars rhs)) in
  let aToken :=
    mkToken (tok_start lhs)
            (if rhsLen <? tok_length lhs then rhsLen else tok_length lhs) in
  p_cmpToken buf aToken rhs.

(** ** The state of the lexer: the local variables of [processFile] *)

Inductive tState : Type :=
| ST_LINE_START
| ST_FIND_LINE_START
| ST_GCODE
| ST_COMMENT
| ST_PARAMETER_VALUE
| ST_THUMBNAIL
| ST_THUMBNAIL_TAIL.

Inductive tParam : Type := P_G | P_X | P_Y | P_Z | P_E | P_UNKNOWN.

(** The token variables [valueToken] may point to. *)
Inductive tSlot : Type :=
| filamentUsed
| firstLayerHeight
| layerHeight
| estTime
| nozzleTemp0
| nozzleTemp1
| plateTemp
| printSpeed
| thumbnail.

Definition tSlot_eqb (a b : tSlot) : bool :=
  match a, b with
  | filamentUsed, filamentUsed | firstLayerHeight, firstLayerHeight
  | layerHeight, layerHeight | estTime, estTime | nozzleTemp0, nozzleTemp0
  | nozzleTemp1, nozzleTemp1 | plateTemp, plateTemp | printSpeed, printSpeed
  | thumbnail, thumbnail => true
  | _, _ => false
  end.

(** The token variables, as a map from their names. *)
Definition tSlots : Type := tSlot -> tPToken.

Definition set_slot (m : tSlots) (k : tSlot) (t : tPToken) : tSlots :=
  fun k' => if tSlot_eqb k k' then t else m k'.

(** [code] and the parameters of the command being read. *)
Record tCmd : Type := mkCmd {
  code : Z;
  paramX : float;
  paramY : float;
  paramZ : float;
  paramE : float
}.

(** The geometry: position, positioning mode and bounding box. *)
Record tGeom : Type := mkGeom {
  prevExt : bool;
  isAbsPos : bool;
  hasLayerChange : bool;
  x : float;
  y : float;
  z : float;
  minX : float;
  minY : float;
  minZ : float;
  maxX : float;
  maxY : float;
  maxZ : float
}.

Record tLexer : Type := mkLexer {
  state : tState;
  param : tParam;
  aToken : tPToken;
  valueToken : option tSlot;
  lineStart : Z;
  lineNr : Z;
  origThumbnailLines : Z;
  origThumbnail : tPToken;
  cmd : tCmd;
  geom : tGeom;
  slots : tSlots
}.

Definition set_state (s : tLexer) (v : tState) : tLexer :=
  mkLexer v (param s) (aToken s) (valueToken s) (lineStart s) (lineNr s)
          (origThumbnailLines s) (origThumbnail s) (cmd s) (geom s) (slots s).
Definition set_param (s : tLexer) (v : tParam) : tLexer :=
  mkLexer (state s) v (aToken s) (valueToken s) (lineStart s) (lineNr s)
          (origThumbnailLines s) (origThumbnail s) (cmd s) (geom s) (slots s).
Definition set_aToken (s : tLexer) (v : tPToken) : tLexer :=
  mkLexer (state s) (param s) v (valueToken s) (lineStart s) (lineNr s)
          (origThumbnailLines s) (origThumbnail s) (cmd s) (geom s) (slots s).
Definition set_valueToken (s : tLexer) (v : option tSlot) : tLexer :=
  mkLexer (state s) (param s) (aToken s) v (lineStart s) (lineNr s)
          (origThumbnailLines s) (origThumbnail s) (cmd s) (geom s) (slots s).
Definition set_lineStart (s : tLexer) (v : Z) : tLexer :=
  mkLexer (state s) (param s) (aToken s) (valueToken s) v (lineNr s)
          (origThumbnailLines s) (origThumbnail s) (cmd s) (geom s) (slots s).
Definition set_lineNr (s : tLexer) (v : Z) : tLexer :=
  mkLexer (state s) (param s) (aToken s) (valueToken s) (lineStart s) v
          (origThumbnailLines s) (origThumbnail s) (cmd s) (geom s) (slots s).
Definition set_origThumbnailLines (s : tLexer) (v : Z) : tLexer :=
  mkLexer (state s) (param s) (aToken s) (valueToken s) (lineStart s) (lineNr s)
          v (origThumbnail s) (cmd s) (geom s) (slots s).
Definition set_origThumbnail (s : tLexer) (v : tPToken) : tLexer :=
  mkLexer (state s) (param s) (aToken s) (valueToken s) (lineStart s) (lineNr s)
          (origThumbnailLines s) v (cmd s) (geom s) (slots s).
Definition set_cmd (s : tLexer) (v : tCmd) : tLexer :=
  mkLexer (state s) (param s) (aToken s) (valueToken s) (lineStart s) (lineNr s)
          (origThumbnailLines s) (origThumbnail s) v (geom s) (slots s).
Definition set_geom (s : tLexer) (v : tGeom) : tLexer :=
  mkLexer (state s) (param s) (aToken s) (valueToken s) (lineStart s) (lineNr s)
          (origThumbnailLines s) (origThumbnail s) (cmd s) v (slots s).
Definition set_slots (s : tLexer) (v : tSlots) : tLexer :=
  mkLexer (state s) (param s) (aToken s) (valueToken s) (lineStart s) (lineNr s)
          (origThumbnailLines s) (origThumbnail s) (cmd s) (geom s) v.

(** The declarations at the head of [processFile]; [lineStart] is set to
    [inputBuf] before the loop. *)
Definition init_geom : tGeom :=
  mkGeom false true false NAN NAN NAN
         INFINITY INFINITY INFINITY NEG_INFINITY NEG_INFINITY NEG_INFINITY.

Definition init_lexer : tLexer :=
  mkLexer ST_LINE_START P_UNKNOWN null_token None 0 1 0 null_token
          (mkCmd (uint (-1)) NAN NAN NAN NAN) init_geom (fun _ => null_token).

(** ** The geometry tracker *)

(** [GCODE(type, num)]. *)
Definition GCODE (type num : Z) : Z :=
  Z.lor (uint (Z.shiftl (uint type) 16)) (uint num).

Definition G_ (num : Z) : Z := GCODE (char_code "G") num.

(** [if (min > v) min = v; if (max < v) max = v;] on one axis. *)
Definition widen (mn mx v : float) : float * float :=
  (if f_lt v mn then v else mn, if f_lt mx v then v else mx).

(** The same, under the guard [IS_SET(guard)]. *)
Definition widen_if (guard : float) (mn mx v : float) : float * float :=
  if IS_SET guard then widen mn mx v else (mn, mx).

(** [if (IS_SET(p)) { if (isAbsPos != 0) v = p; else v += p; }] *)
Definition move_axis (abs : bool) (v p : float) : float :=
  if IS_SET p then (if abs then p else f_add v p) else v.

(** [IS_SET(paramE) && paramE > 0.0f] *)
Definition extrudes (c : tCmd) : bool :=
  IS_SET (paramE c) && f_lt f_zero (paramE c).

(** The cases [GCODE('G', 0)] and [GCODE('G', 1)]. *)
Definition linear_move (c : tCmd) (g : tGeom) : tGeom :=
  (* extrusion move after non-extrusion move *)
  let before := extrudes c && negb (prevExt g) in
  let bx := if before then widen_if (x g) (minX g) (maxX g) (x g)
            else (minX g, maxX g) in
  let by_ := if before then widen_if (y g) (minY g) (maxY g) (y g)
             else (minY g, maxY g) in
  let bz := if before then widen_if (z g) (minZ g) (maxZ g) (z g)
            else (minZ g, maxZ g) in
  (* calculate new position *)
  let x' := move_axis (isAbsPos g) (x g) (paramX c) in
  let y' := move_axis (isAbsPos g) (y g) (paramY c) in
  let z' := move_axis (isAbsPos g) (z g) (paramZ c) in
  if extrudes c then
    (* extrusion move *)
    let bx' := widen_if (paramX c) (fst bx) (snd bx) x' in
    let by' := widen_if (paramY c) (fst by_) (snd by_) y' in
    let bz' := widen_if (paramZ c) (fst bz) (snd bz) z' in
    mkGeom true (isAbsPos g) (hasLayerChange g) x' y' z'
           (fst bx') (fst by') (fst bz') (snd bx') (snd by') (snd bz')
  else
    mkGeom false (isAbsPos g) (hasLayerChange g) x' y' z'
           (fst bx) (fst by_) (fst bz) (snd bx) (snd by_) (snd bz).

Definition set_isAbsPos (g : tGeom) (v : bool) : tGeom :=
  mkGeom (prevExt g) v (hasLayerChange g) (x g) (y g) (z g)
         (minX g) (minY g) (minZ g) (maxX g) (maxY g) (maxZ g).

(** [switch (code)] at the end of a command line. *)
Definition gcode_end (c : tCmd) (g : tGeom) : tGeom :=
  if (code c =? G_ 0) || (code c =? G_ 1) then linear_move c g
  else if code c =? G_ 90 then set_isAbsPos g true
  else if code c =? G_ 91 then set_isAbsPos g false
  else g.

(** The start of the first layer: reset the dimensions. *)
Definition layer_change (g : tGeom) : tGeom :=
  mkGeom (prevExt g) (isAbsPos g) true (x g) (y g) (z g)
         INFINITY INFINITY INFINITY NEG_INFINITY NEG_INFINITY NEG_INFINITY.

(** ** The lexer *)

(** What one turn of the parsing loop leads to: the next turn, the label
    [onSuccess], or undefined behaviour (a null pointer is used). *)
Inductive tOutcome : Type :=
| Running (s : tLexer)
| OnSuccess
| Fault.

Definition tParam_is_G (p : tParam) : bool :=
  match p with P_G => true | _ => false end.

Definition is_null (t : tPToken) : bool :=
  match tok_start t with None => true | Some _ => false end.

Section Lexer.

(** Whether sm2pspp.h defines the macro FEATURE_REMOVE_ORIG_THUMBNAIL. *)
Variable FEATURE_REMOVE_ORIG_THUMBNAIL : bool.

(** The input buffer, [inputBuf[0 .. inputLen-1]]. *)
Variable buf : list ascii.

Definition step_LINE_START (s : tLexer) (it : Z) (ch : ascii) : tLexer :=
  if Ascii.eqb ch ";" then
    (* comment *)
    set_state (set_aToken s null_token) ST_COMMENT
  else if Ascii.eqb ch "G" then
    (* Gcode *)
    let s := set_param s P_G in
    let s := set_cmd s (mkCmd (code (cmd s)) NAN NAN NAN NAN) in
    let s := set_aToken s (mkToken (Some (it + 1)) 0) in
    set_state s ST_GCODE
  else if negb (isspace ch) then
    (* code *)
    set_state s ST_FIND_LINE_START
  else s.

Definition step_FIND_LINE_START (s : tLexer) (ch : ascii) : tLexer :=
  if Ascii.eqb ch LF then set_state s ST_LINE_START else s.

(** The inner [switch (param)]: the end of a token of a command. *)
Definition end_of_token (s : tLexer) : tCmd :=
  let c := cmd s in
  match param s with
  | P_G => mkCmd (G_ (p_uint buf (aToken s))) (paramX c) (paramY c) (paramZ c) (paramE c)
  | P_X => mkCmd (code c) (p_float buf (aToken s)) (paramY c) (paramZ c) (paramE c)
  | P_Y => mkCmd (code c) (paramX c) (p_float buf (aToken s)) (paramZ c) (paramE c)
  | P_Z => mkCmd (code c) (paramX c) (paramY c) (p_float buf (aToken s)) (paramE c)
  | P_E => mkCmd (code c) (paramX c) (paramY c) (paramZ c) (p_float buf (aToken s))
  | P_UNKNOWN => c
  end.

(** The first condition of [ST_GCODE]: the character continues a number. *)
Definition is_number_char (s : tLexer) (ch : ascii) : bool :=
  isdigit ch
  || (negb (tParam_is_G (param s))
      && (Ascii.eqb ch "." || ((tok_length (aToken s) =? 0) && Ascii.eqb ch "-"))).

(** The character opens a new parameter of the command. *)
Definition axis_of_char (ch : ascii) : option tParam :=
  if Ascii.eqb ch "X" then Some P_X
  else if Ascii.eqb ch "Y" then Some P_Y
  else if Ascii.eqb ch "Z" then Some P_Z
  else if Ascii.eqb ch "E" then Some P_E
  else None.

Definition is_line_end (ch : ascii) : bool :=
  Ascii.eqb ch LF || Ascii.eqb ch ";".

Definition step_GCODE (s : tLexer) (it : Z) (ch : ascii) : tLexer :=
  if is_number_char s ch then
    (* number *)
    set_aToken s (mkToken (tok_start (aToken s)) (size_t (tok_length (aToken s) + 1)))
  else
    match axis_of_char ch with
    | Some p => set_aToken (set_param s p) (mkToken (Some (it + 1)) 0)
    | None =>
      (* end of token *)
      let s := set_cmd s (end_of_token s) in
      let s := set_param s P_UNKNOWN in
      if is_line_end ch then
        (* new line or start of comment *)
        let s := set_geom s (gcode_end (cmd s) (geom s)) in
        if Ascii.eqb ch LF then set_state s ST_LINE_START
        else set_state (set_aToken s null_token) ST_COMMENT
      else s
    end.

(** The keys of the commented parameters, in the order they are compared. *)
Definition key_slot (t : tPToken) : option tSlot :=
  if p_cmpToken buf t "filament used [mm]" =? 0 then Some filamentUsed
  else if p_cmpToken buf t "first_layer_height" =? 0 then Some firstLayerHeight
  else if p_cmpToken buf t "layer_height" =? 0 then Some layerHeight
  else if p_cmpTokenStart buf t "estimated printing time" =? 0 then Some estTime
  else if p_cmpToken buf t "first_layer_temperature" =? 0 then Some nozzleTemp0
  else if p_cmpToken buf t "first_layer_bed_temperature" =? 0 then Some plateTemp
  else if p_cmpToken buf t "max_print_speed" =? 0 then Some printSpeed
  else None.

Definition step_COMMENT (s : tLexer) (it : Z) (ch : ascii) : tOutcome :=
  if Ascii.eqb ch LF then
    (* end of comment line *)
    let s := set_state s ST_LINE_START in
    if (p_cmpToken buf (aToken s) "LAYER_CHANGE" =? 0)
       && negb (hasLayerChange (geom s))
    then Running (set_geom s (layer_change (geom s)))
    else Running s
  else
    match tok_start (aToken s) with
    | None =>
      if negb (isspace ch) then
        (* start of first word in comment *)
        Running (set_aToken s (mkToken (Some it) 1))
      else Running s
    | Some start =>
      if Ascii.eqb ch " " && (0 <? tok_length (aToken s)) then
        if p_cmpToken buf (aToken s) "post-processed by sm2pspp" =? 0 then
          (* already post-processed file *)
          OnSuccess
        else if p_cmpToken buf (aToken s) "thumbnail begin" =? 0 then
          let s :=
            if FEATURE_REMOVE_ORIG_THUMBNAIL && is_null (origThumbnail s) then
              set_origThumbnailLines
                (set_origThumbnail s
                   (mkToken (Some (lineStart s)) (tok_length (origThumbnail s))))
                1
            else s in
          let s := set_aToken s null_token in
          Running (set_state s (if is_null (slots s thumbnail) then ST_THUMBNAIL
                                else ST_FIND_LINE_START))
        else Running s
      else if Ascii.eqb ch "=" then
        (* end of commented parameter key *)
        let s :=
          if tok_length (aToken s) =? 0
          then set_aToken s (mkToken (Some start) (size_t (it - start)))
          else s in
        let s :=
          match key_slot (aToken s) with
          | Some k => set_valueToken s (Some k)
          | None => set_state s ST_FIND_LINE_START
          end in
        match valueToken s with
        | Some k =>
          let s := set_aToken s null_token in
          if is_null (slots s k) then Running (set_state s ST_PARAMETER_VALUE)
          else
            (* ignore duplicate keys *)
            Running (set_state (set_valueToken s None) ST_FIND_LINE_START)
        | None => Running s
        end
      else if negb (isspace ch) then
        (* ignore trailing spaces *)
        Running (set_aToken s (mkToken (Some start) (size_t (it - start + 1))))
      else Running s
    end.

Definition step_PARAMETER_VALUE (s : tLexer) (it : Z) (ch : ascii) : tOutcome :=
  if Ascii.eqb ch LF then
    (* end of comment line *)
    Running (set_state (set_valueToken s None) ST_LINE_START)
  else
    match valueToken s with
    | None => Fault
    | Some k =>
      match tok_start (slots s k) with
      | None =>
        if negb (isspace ch) then
          (* start of comment parameter value *)
          Running (set_slots s (set_slot (slots s) k (mkToken (Some it) 1)))
        else Running s
      | Some start =>
        if Ascii.eqb ch "," && tSlot_eqb k nozzleTemp0 then
          (* end of first extruder nozzle temperature value *)
          let s := set_slots s (set_slot (slots s) k
                                  (mkToken (Some start) (size_t (it - start + 1)))) in
          (* prepare next *)
          Running (set_valueToken s (Some nozzleTemp1))
        else if negb (isspace ch) then
          (* ignore trailing spaces *)
          Running (set_slots s (set_slot (slots s) k
                                  (mkToken (Some start) (size_t (it - start + 1)))))
        else Running s
      end
    end.

Definition step_THUMBNAIL (s : tLexer) (it : Z) (ch : ascii) : tOutcome :=
  let s :=
    if FEATURE_REMOVE_ORIG_THUMBNAIL && Ascii.eqb ch LF then
      (* count thumbnail lines to compensate original thumbnail removal *)
      set_origThumbnailLines s (size_t (origThumbnailLines s + 1))
    else s in
  match tok_start (slots s thumbnail) with
  | None =>
    if Ascii.eqb ch LF then
      (* start of thumbnail data *)
      Running (set_slots s (set_slot (slots s) thumbnail
                              (mkToken (Some (it + 1)) (tok_length (slots s thumbnail)))))
    else Running s
  | Some tstart =>
    if Ascii.eqb ch ";" then
      (* start of comment *)
      Running (set_aToken s (mkToken (Some (it + 1)) 0))
    else
      match tok_start (aToken s) with
      | None => Running s
      | Some astart =>
        if isspace (char_at buf astart) then
          (* ignore leading spaces *)
          Running (set_aToken s (mkToken (Some it) 1))
        else
          let s := set_aToken s (mkToken (Some astart)
                                   (size_t (tok_length (aToken s) + 1))) in
          if p_cmpToken buf (aToken s) "thumbnail end" =? 0 then
            (* got complete Base64 encoded thumbnail image data (PNG) *)
            let s := set_slots s (set_slot (slots s) thumbnail
                                    (mkToken (Some tstart) (size_t (lineStart s - tstart)))) in
            if FEATURE_REMOVE_ORIG_THUMBNAIL then
              match tok_start (origThumbnail s) with
              | None => Fault
              | Some ostart =>
                Running (set_state
                           (set_origThumbnail s (mkToken (Some ostart) (size_t (it - ostart))))
                           ST_THUMBNAIL_TAIL)
              end
            else Running (set_state s ST_FIND_LINE_START)
          else Running s
      end
  end.

Definition step_THUMBNAIL_TAIL (s : tLexer) (it : Z) (ch : ascii) : tOutcome :=
  if Ascii.eqb ch LF then
    (* new line *)
    match tok_start (origThumbnail s) with
    | None => Fault
    | Some ostart =>
      Running (set_state
                 (set_origThumbnail s (mkToken (Some ostart) (size_t (it + 1 - ostart))))
                 ST_LINE_START)
    end
  else Running s.

(** The statements after the [switch (state)]. *)
Definition end_of_turn (s : tLexer) (it : Z) (ch : ascii) : tLexer :=
  if Ascii.eqb ch LF then
    set_lineStart (set_lineNr s (size_t (lineNr s + 1))) (it + 1)
  else if Ascii.eqb ch CR then set_lineStart s (it + 1)
  else s.

(** The [switch (state)]. *)
Definition switch_state (s : tLexer) (it : Z) (ch : ascii) : tOutcome :=
  match state s with
  | ST_LINE_START => Running (step_LINE_START s it ch)
  | ST_FIND_LINE_START => Running (step_FIND_LINE_START s ch)
  | ST_GCODE => Running (step_GCODE s it ch)
  | ST_COMMENT => step_COMMENT s it ch
  | ST_PARAMETER_VALUE => step_PARAMETER_VALUE s it ch
  | ST_THUMBNAIL => step_THUMBNAIL s it ch
  | ST_THUMBNAIL_TAIL => step_THUMBNAIL_TAIL s it ch
  end.

(** One turn of the loop [for (it = inputBuf; it < endIt; it++)]. *)
Definition step (s : tLexer) (it : Z) (ch : ascii) : tOutcome :=
  match switch_state s it ch with
  | Running s' => Running (end_of_turn s' it ch)
  | o => o
  end.

(** The turns for the characters [l], the first of them at offset [it]. *)
Fixpoint lex_loop (s : tLexer) (it : Z) (l : list ascii) : tOutcome :=
  match l with
  | [] => Running s
  | ch :: l' =>
    match step s it ch with
    | Running s' => lex_loop s' (it + 1) l'
    | o => o
    end
  end.

(** The whole pass, and the pass stopped after [n] characters. *)
Definition lex : tOutcome := lex_loop init_lexer 0 buf.

Definition lex_upto (n : nat) : tOutcome := lex_loop init_lexer 0 (firstn n buf).

End Lexer.

(** ** After the pass: the header and the rewritten file *)

(** The messages of [fmsg]. *)
Inductive tMessage : Type :=
| MSGT_SUCCESS
| MSGT_ERR_NO_MEM
| MSGT_ERR_FILE_NOT_FOUND
| MSGT_ERR_FILE_OPEN
| MSGT_ERR_FILE_READ
| MSGT_ERR_FILE_CREATE
| MSGT_ERR_FILE_WRITE
| MSGT_WARN_NO_FILAMENT_USED
| MSGT_WARN_NO_LAYER_HEIGHT
| MSGT_WARN_NO_EST_TIME
| MSGT_WARN_NO_NOZZLE_TEMP
| MSGT_WARN_NO_PLATE_TEMP
| MSGT_WARN_NO_PRINT_SPEED
| MSGT_WARN_NO_THUMBNAIL.

Definition is_warning (m : tMessage) : bool :=
  match m with
  | MSGT_WARN_NO_FILAMENT_USED | MSGT_WARN_NO_LAYER_HEIGHT | MSGT_WARN_NO_EST_TIME
  | MSGT_WARN_NO_NOZZLE_TEMP | MSGT_WARN_NO_PLATE_TEMP | MSGT_WARN_NO_PRINT_SPEED
  | MSGT_WARN_NO_THUMBNAIL => true
  | _ => false
  end.

(** What is passed to [fprintf] for a conversion. *)
Inductive tArg : Type :=
| ArgFloat (f : float)
| ArgULong (n : Z).

(** A call that writes to [fp]. *)
Inductive tWrite : Type :=
| fprintf (format : list ascii) (args : list tArg)
| fwrite (bytes : list ascii).

(** One call [cb(msg, file, lineNr)] and what it returned. *)
Record tCall : Type := mkCall {
  call_msg : tMessage;
  call_line : Z;
  call_ret : Z
}.

(** What [processFile] does to the world, in the order it does it: it calls
    the callback, it creates the file anew with [_tfopen(file, "wb")], it
    writes to the new file. *)
Inductive tEvent : Type :=
| EvCallback (c : tCall)
| EvCreate
| EvWrite (w : tWrite).

(** The callback: its answer may depend on all that happened before. *)
Definition tCallback : Type := list tEvent -> tMessage -> Z -> Z.

Definition invoke (cb : tCallback) (tr : list tEvent) (msg : tMessage) (line : Z)
  : list tEvent :=
  tr ++ [EvCallback (mkCall msg line (cb tr msg line))].

(** The environment: the bytes of the file and which of the library calls
    succeed ([fwrite_ok n] for the call that writes the [n]-th piece of the
    original content). *)
Record tIO : Type := mkIO {
  file_bytes : list ascii;
  fopen_rb_ok : bool;
  malloc_ok : bool;
  fread_ok : bool;
  fopen_wb_ok : bool;
  ferror_fp : bool;
  fwrite_ok : nat -> bool
}.

(** The result [res] and the trace of events. *)
Record tReturn : Type := mkReturn {
  res : Z;
  trace : list tEvent
}.

(** The file named [file] when [processFile] returns: as it was, or created
    anew and written to by these calls. *)
Inductive tFile : Type :=
| Unchanged
| Rewritten (ws : list tWrite).

Fixpoint writes_of (tr : list tEvent) : list tWrite :=
  match tr with
  | [] => []
  | EvWrite w :: tr' => w :: writes_of tr'
  | _ :: tr' => writes_of tr'
  end.

Fixpoint file_after (tr : list tEvent) : tFile :=
  match tr with
  | [] => Unchanged
  | EvCreate :: tr' => Rewritten (writes_of tr')
  | _ :: tr' => file_after tr'
  end.

Fixpoint calls_of (tr : list tEvent) : list tCall :=
  match tr with
  | [] => []
  | EvCallback c :: tr' => c :: calls_of tr'
  | _ :: tr' => calls_of tr'
  end.

Definition ulong (z : Z) : Z := z mod 2 ^ 64.

Definition is_missing (t : tPToken) : bool :=
  is_null t || (tok_length t =? 0).

Definition is_captured (t : tPToken) : bool :=
  negb (is_null t) && (0 <? tok_length t).

Definition set_minZ (g : tGeom) (v : float) : tGeom :=
  mkGeom (prevExt g) (isAbsPos g) (hasLayerChange g) (x g) (y g) (z g)
         (minX g) (minY g) v (maxX g) (maxY g) (maxZ g).

(** The tokens that are checked after the pass, with their warnings. *)
Definition checked_tokens : list (tSlot * tMessage) :=
  [ (filamentUsed, MSGT_WARN_NO_FILAMENT_USED);
    (layerHeight, MSGT_WARN_NO_LAYER_HEIGHT);
    (estTime, MSGT_WARN_NO_EST_TIME);
    (nozzleTemp0, MSGT_WARN_NO_NOZZLE_TEMP);
    (plateTemp, MSGT_WARN_NO_PLATE_TEMP);
    (printSpeed, MSGT_WARN_NO_PRINT_SPEED);
    (thumbnail, MSGT_WARN_NO_THUMBNAIL) ].

(** The sequence of [ON_WARN]: the trace with the calls made, and whether
    none of them made the function leave through [onError]. *)
Fixpoint check_missing (cb : tCallback) (s : tLexer) (l : list (tSlot * tMessage))
         (tr : list tEvent) : list tEvent * bool :=
  match l with
  | [] => (tr, true)
  | (k, msg) :: l' =>
    if is_missing (slots s k) then
      if cb tr msg (lineNr s) =? 1
      then check_missing cb s l' (invoke cb tr msg (lineNr s))
      else (invoke cb tr msg (lineNr s), false)
    else check_missing cb s l' tr
  end.

Definition is_base64 (ch : ascii) : bool :=
  let c := char_code ch in
  ((48 <=? c) && (c <=? 57)) || ((97 <=? c) && (c <=? 122))
  || ((65 <=? c) && (c <=? 90)) || Ascii.eqb ch "+" || Ascii.eqb ch "/"
  || Ascii.eqb ch "=".

(** The loop that writes the thumbnail: [run] are the bytes of [aToken]. *)
Fixpoint thumbnail_runs (l : list ascii) (run : list ascii) : list tWrite :=
  match l with
  | [] => []
  | ch :: l' =>
    if is_base64 ch then thumbnail_runs l' (run ++ [ch])
    else
      match run with
      | [] => thumbnail_runs l' []
      | _ :: _ => fwrite run :: thumbnail_runs l' []
      end
  end.

Definition line (s : string) : list ascii := chars s ++ [LF].

Section Program.

Variable FEATURE_REMOVE_ORIG_THUMBNAIL : bool.

(** The macro PROGRAM_VERSION_STR of sm2pspp.h. *)
Variable PROGRAM_VERSION_STR : string.

(** [correct minZ accordingly] *)
Definition correct_minZ (buf : list ascii) (s : tLexer) : tLexer :=
  let g := geom s in
  if is_captured (slots s firstLayerHeight) && f_lt (minZ g) (maxZ g) then
    set_geom s (set_minZ g (f_sub (minZ g) (p_float buf (slots s firstLayerHeight))))
  else s.

(** [hasThumbnail], as the header sets it. *)
Definition hasThumbnail (s : tLexer) : bool :=
  negb (is_null (slots s thumbnail)) || (0 <? tok_length (slots s thumbnail)).

(** [nozzleTemp1Val] *)
Definition nozzleTemp1Val (buf : list ascii) (s : tLexer) : float :=
  if is_captured (slots s nozzleTemp1) then p_float buf (slots s nozzleTemp1)
  else f_zero.

(** [lineNr] when the field file_total_lines is printed. *)
Definition header_lineNr (buf : list ascii) (s : tLexer) : Z :=
  let lineNr1 :=
    if is_captured (slots s nozzleTemp1)
       && f_lt f_tenth (p_float buf (slots s nozzleTemp1))
    then size_t (lineNr s + 1) else lineNr s in
  if FEATURE_REMOVE_ORIG_THUMBNAIL then size_t (lineNr1 - origThumbnailLines s)
  else lineNr1.

Definition file_total_lines (buf : list ascii) (s : tLexer) : Z :=
  ulong (size_t (header_lineNr buf s + 24 + (if hasThumbnail s then 1 else 0))).

Definition fmt_file_total_lines : list ascii := line ";file_total_lines: %lu".
Definition fmt_thumbnail : list ascii := chars ";thumbnail: data:image/png;base64,".
Definition fmt_nozzle_1_temperature : list ascii :=
  line ";nozzle_1_temperature(°C): %.0f".

(** The Snapmaker 2.0 specific header. *)
Definition header (buf : list ascii) (s : tLexer) : list tWrite :=
  let g := geom s in
  [ fprintf (line (";post-processed by sm2pspp " ++ PROGRAM_VERSION_STR
                   ++ " (https://github.com/daniel-starke/sm2pspp)")) [];
    fprintf (line ";Header Start" ++ [LF]) [];
    fprintf (line ";FLAVOR:Marlin") [];
    fprintf (line ";TIME:6666" ++ [LF; LF]) [];
    fprintf (line ";Filament used: %.0fm")
            [ArgFloat (f_div (p_float buf (slots s filamentUsed)) (f_of_Z 1000))];
    fprintf (line ";Layer height: %.2f") [ArgFloat (p_float buf (slots s layerHeight))];
    fprintf (line ";header_type: 3dp") [] ]
  ++ (if hasThumbnail s then
        (* output thumbnail *)
        fprintf fmt_thumbnail []
        :: thumbnail_runs (token_chars buf (slots s thumbnail)) []
        ++ [fprintf [LF] []]
      else [])
  ++ [ fprintf fmt_file_total_lines [ArgULong (file_total_lines buf s)];
       fprintf (line ";estimated_time(s): %.0f")
               [ArgFloat (f_of_Z (p_dtms buf (slots s estTime)))];
       fprintf (line ";nozzle_temperature(°C): %.0f")
               [ArgFloat (p_float buf (slots s nozzleTemp0))] ]
  ++ (if f_lt f_tenth (nozzleTemp1Val buf s) then
        [fprintf fmt_nozzle_1_temperature [ArgFloat (nozzleTemp1Val buf s)]]
      else [])
  ++ [ fprintf (line ";build_plate_temperature(°C): %.0f")
               [ArgFloat (p_float buf (slots s plateTemp))];
       fprintf (line ";work_speed(mm/minute): %.0f")
               [ArgFloat (f_mul (p_float buf (slots s printSpeed)) (f_of_Z 60))];
       fprintf (line ";max_x(mm): %.2f") [ArgFloat (maxX g)];
       fprintf (line ";max_y(mm): %.2f") [ArgFloat (maxY g)];
       fprintf (line ";max_z(mm): %.2f") [ArgFloat (maxZ g)];
       fprintf (line ";min_x(mm): %.2f") [ArgFloat (minX g)];
       fprintf (line ";min_y(mm): %.2f") [ArgFloat (minY g)];
       fprintf (line ";min_z(mm): %.2f" ++ [LF]) [ArgFloat (minZ g)];
       fprintf (line ";Header End" ++ [LF])
               [ArgFloat (f_mul (p_float buf (slots s printSpeed)) (f_of_Z 60))] ].

(** [fwrite(ptr, size, 1, fp) < 1] holds when nothing is to be written or when
    the call fails. *)
Definition fwrite_fails (io : tIO) (n : nat) (bytes : list ascii) : bool :=
  match bytes with
  | [] => true
  | _ :: _ => negb (fwrite_ok io n)
  end.

(** [output remaining file]: the calls that wrote, and whether all did. *)
Definition remaining_file (io : tIO) (buf : list ascii) (s : tLexer)
  : list tWrite * bool :=
  let o := origThumbnail s in
  match tok_start o with
  | Some ostart =>
    if FEATURE_REMOVE_ORIG_THUMBNAIL && negb (tok_length o =? 0) then
      (* remove original thumbnail *)
      let thumbnailEndIt := ostart + tok_length o in
      let before := firstn (Z.to_nat ostart) buf in
      let after := skipn (Z.to_nat thumbnailEndIt) buf in
      if fwrite_fails io 0 before then ([], false)
      else if fwrite_fails io 1 after then ([fwrite before], false)
      else ([fwrite before; fwrite after], true)
    else if fwrite_fails io 0 buf then ([], false) else ([fwrite buf], true)
  | None => if fwrite_fails io 0 buf then ([], false) else ([fwrite buf], true)
  end.

(** [ON_ERROR(msg)]: the callback is told, its answer is not looked at. *)
Definition on_error (cb : tCallback) (tr : list tEvent) (msg : tMessage) (line : Z)
  : option tReturn :=
  Some (mkReturn 0 (invoke cb tr msg line)).

(** [processFile(file, cb)] for a file and a callback that are not null;
    [None] stands for undefined behaviour. *)
Definition processFile (io : tIO) (cb : tCallback) : option tReturn :=
  (* open input file for reading *)
  if negb (fopen_rb_ok io) then on_error cb [] MSGT_ERR_FILE_OPEN 1
  else
    (* get file size *)
    let buf := file_bytes io in
    if Z.of_nat (List.length buf) <? 1 then Some (mkReturn 1 [])
    else if negb (malloc_ok io) then on_error cb [] MSGT_ERR_NO_MEM 1
    else if negb (fread_ok io) then on_error cb [] MSGT_ERR_FILE_READ 1
    else
      (* parse tokens *)
      match lex FEATURE_REMOVE_ORIG_THUMBNAIL buf with
      | Fault => None
      | OnSuccess => Some (mkReturn 1 [])
      | Running s =>
        let s := correct_minZ buf s in
        (* check missing tokens *)
        let (tr, go_on) := check_missing cb s checked_tokens [] in
        if negb go_on then Some (mkReturn 0 tr)
        else
          (* re-create file *)
          if negb (fopen_wb_ok io) then on_error cb tr MSGT_ERR_FILE_CREATE (lineNr s)
          else
            let tr := tr ++ EvCreate :: List.map EvWrite (header buf s) in
            let lineNr' := header_lineNr buf s in
            if ferror_fp io then on_error cb tr MSGT_ERR_FILE_WRITE lineNr'
            else
              let (ws, ok) := remaining_file io buf s in
              let tr := tr ++ List.map EvWrite ws in
              if ok then Some (mkReturn 1 tr)
              else on_error cb tr MSGT_ERR_FILE_WRITE lineNr'
      end.

End Program.

(** ** Inputs of the examples *)

(** An extruding move with all three axes, then the first layer change. *)
Definition input_reset : list ascii :=
  unlines ["G1 X1 Y1 Z1 E1"; ";LAYER_CHANGE"].

(** An extruding move that names no axis. *)
Definition input_no_axis : list ascii := unlines ["G1 E1"].

(** Two comment lines with the key layer_height. *)
Definition input_two_layer_heights : list ascii :=
  unlines ["; layer_height = 0.2"; "G1 X1"; "; layer_height = 0.3"].

(** A file whose first line gives two nozzle temperatures. *)
Definition input_dual : list ascii :=
  unlines ["; first_layer_temperature = 210,200"].

(** The marker of a file that was processed before, and the space after it. *)
Definition marker : list ascii := chars "post-processed by sm2pspp ".

(** The events after the file was created anew. *)
Fixpoint after_create (tr : list tEvent) : list tEvent :=
  match tr with
  | [] => []
  | EvCreate :: tr' => tr'
  | _ :: tr' => after_create tr'
  end.

(** The number of line feeds of a text. *)
Fixpoint line_feeds (l : list ascii) : Z :=
  match l with
  | [] => 0
  | ch :: l' => (if Ascii.eqb ch LF then 1 else 0) + line_feeds l'
  end.

Definition b2z (b : bool) : Z := if b then 1 else 0.

(** An environment in which every library call succeeds. *)
Definition io_ok (bytes : list ascii) : tIO :=
  mkIO bytes true true true true false (fun _ => true).

(** [errorCallback] always answers 1; a callback that always answers 0. *)
Definition cb_continue : tCallback := fun _ _ _ => 1.
Definition cb_stop : tCallback := fun _ _ _ => 0.

(** A file with a command and no metadata. *)
Definition input_plain : list ascii := unlines ["G1 X1"; "G1 X2"].

(** A file whose thumbnail block is never closed. *)
Definition input_open_thumbnail : list ascii :=
  unlines ["; thumbnail begin 1x1 1"; "; AAAA"].

(** A character of a word in a comment: no white space and not '='. *)
Definition is_word_char (ch : ascii) : bool :=
  negb (isspace ch) && negb (Ascii.eqb ch "=").

(** The bytes of the file that the writes leave, [print] being what fprintf
    writes for a format and its arguments. *)
Definition rendered (print : list ascii -> list tArg -> list ascii)
           (ws : list tWrite) : list ascii :=
  flat_map (fun w => match w with
                     | fprintf f args => print f args
                     | fwrite bytes => bytes
                     end) ws.

(** fprintf copies the characters of the format that are no '%'. *)
Definition copies_plain_chars (print : list ascii -> list tArg -> list ascii) : Prop :=
  forall (c : ascii) (f : list ascii) (args : list tArg),
    c <> "%"%char -> print (c :: f) args = c :: print f args.

(** A stand-in for fprintf that copies the format. *)
Definition print_format : list ascii -> list tArg -> list ascii := fun f _ => f.

(** A file that was processed before. *)
Definition input_processed : list ascii :=
  unlines [";post-processed by sm2pspp 1.0 (x)"; "G1 X1 E1"].

(** Two extruding moves in z, and a negative first layer height. *)
Definition input_negative_height : list ascii :=
  unlines ["G1 Z1 E1"; "G1 Z2 E1"; "; first_layer_height = -5"].

(** ** The grammar the specification gives for the float parser *)

Fixpoint skip_digits (l : list ascii) : list ascii :=
  match l with
  | [] => []
  | c :: t => if isdigit c then skip_digits t else l
  end.

Definition skip_sign (l : list ascii) : list ascii :=
  match l with
  | [] => []
  | c :: t => if Ascii.eqb c "-" then t else l
  end.

(** Follows the specification: an optional single leading '-', digits, an
    optional single '.', digits. *)
Definition simple_float (l : list ascii) : bool :=
  match skip_digits (skip_sign l) with
  | [] => true
  | c :: t =>
    Ascii.eqb c "." && match skip_digits t with [] => true | _ :: _ => false end
  end.

Definition digit_or_dot (c : ascii) : bool := isdigit c || Ascii.eqb c ".".

(** The token that views the whole of a buffer. *)
Definition token_of (l : list ascii) : tPToken :=
  mkToken (Some 0) (Z.of_nat (List.length l)).

(** ** Predicates of the statements *)

(** One axis of the box: still at the sentinel pair, or [min <= max]. *)
Definition axis_ok (mn mx : float) : Prop :=
  (mn = INFINITY /\ mx = NEG_INFINITY) \/ f_le mn mx = true.

Definition box_ok (g : tGeom) : Prop :=
  axis_ok (minX g) (maxX g) /\ axis_ok (minY g) (maxY g)
  /\ axis_ok (minZ g) (maxZ g).

(** All six values are the sentinel infinities. *)
Definition box_unset (g : tGeom) : Prop :=
  minX g = INFINITY /\ minY g = INFINITY /\ minZ g = INFINITY
  /\ maxX g = NEG_INFINITY /\ maxY g = NEG_INFINITY /\ maxZ g = NEG_INFINITY.

(** The lexer is writing the token [k]. *)
Definition capturing (s : tLexer) (k : tSlot) : Prop :=
  valueToken s = Some k \/ (k = thumbnail /\ state s = ST_THUMBNAIL).

(** What holds of the variables of the lexer at every turn. *)
Definition lexer_inv (F : bool) (s : tLexer) : Prop :=
  (state s = ST_PARAMETER_VALUE <-> valueToken s <> None)
  /\ valueToken s <> Some thumbnail
  /\ (valueToken s = Some nozzleTemp0 -> tok_start (slots s nozzleTemp1) = None)
  /\ (valueToken s = Some nozzleTemp1 -> tok_start (slots s nozzleTemp0) <> None)
  /\ (tok_start (slots s nozzleTemp1) <> None -> tok_start (slots s nozzleTemp0) <> None)
  /\ (state s = ST_THUMBNAIL -> F = true -> tok_start (origThumbnail s) <> None)
  /\ (state s = ST_THUMBNAIL_TAIL -> F = true /\ tok_start (origThumbnail s) <> None).

Definition is_warning_call (c : tCall) : bool := is_warning (call_msg c).

(** The three ways [processFile] returns: before the pass is over, at a
    warning the callback refuses, or after the file was created anew. *)
Inductive tCourse (F : bool) (V : string) (io : tIO) (cb : tCallback)
  : tReturn -> Prop :=
| NoPass (r : tReturn) :
    (exists c, is_warning_call c = false /\ r = mkReturn 0 [EvCallback c])
    \/ r = mkReturn 1 [] ->
    lex F (file_bytes io) = OnSuccess \/ file_bytes io = [] \/ fopen_rb_ok io = false
    \/ malloc_ok io = false \/ fread_ok io = false ->
    tCourse F V io cb r
| Refused (s : tLexer) (cs : list tCall) (c : tCall) :
    lex F (file_bytes io) = Running s ->
    Forall (fun c => is_warning_call c = true /\ call_line c = lineNr s
                     /\ call_ret c = 1) cs ->
    is_warning_call c = true -> call_line c = lineNr s -> call_ret c <> 1 ->
    tCourse F V io cb (mkReturn 0 (List.map EvCallback cs ++ [EvCallback c]))
| NotCreated (s : tLexer) (cs : list tCall) (c : tCall) :
    lex F (file_bytes io) = Running s ->
    Forall (fun c => is_warning_call c = true /\ call_line c = lineNr s
                     /\ call_ret c = 1) cs ->
    call_msg c = MSGT_ERR_FILE_CREATE ->
    tCourse F V io cb (mkReturn 0 (List.map EvCallback cs ++ [EvCallback c]))
| Created (s : tLexer) (cs : list tCall) (ws : list tWrite) (tail : list tEvent)
          (res : Z) :
    lex F (file_bytes io) = Running s ->
    Forall (fun c => is_warning_call c = true /\ call_line c = lineNr s
                     /\ call_ret c = 1) cs ->
    Forall (fun w => exists bytes, w = fwrite bytes) ws ->
    (res = 1 /\ tail = [])
    \/ (res = 0 /\ exists c, call_msg c = MSGT_ERR_FILE_WRITE
                             /\ tail = [EvCallback c]) ->
    tCourse F V io cb
      (mkReturn res
         (List.map EvCallback cs
          ++ EvCreate
          :: List.map EvWrite
               (header F V (file_bytes io) (correct_minZ (file_bytes io) s))
          ++ List.map EvWrite ws ++ tail)).

(** ** Predicates of the further properties *)

(** The token is null with length 0, or lies in the first [n] bytes. *)
Definition tok_ok (n : Z) (t : tPToken) : Prop :=
  match tok_start t with
  | None => tok_length t = 0
  | Some a => 0 <= a /\ 0 <= tok_length t /\ a + tok_length t <= n
  end.

(** What holds of the pointers when [it] bytes have been read. *)
Definition bounds_inv (it : Z) (s : tLexer) : Prop :=
  (0 <= lineStart s <= it)
  /\ tok_ok it (aToken s)
  /\ (forall k, tok_ok it (slots s k))
  /\ tok_ok it (origThumbnail s)
  /\ (forall a, tok_start (slots s thumbnail) = Some a -> a <= lineStart s)
  /\ (state s = ST_GCODE -> tok_start (aToken s) <> None).

(** The warnings for the tokens that are missing, in the order of the checks. *)
Definition missing_warnings (s : tLexer) : list tMessage :=
  List.map snd (filter (fun p => is_missing (slots s (fst p))) checked_tokens).

(** The value of a digit, and of a run of digits read as a decimal number. *)
Definition digit_val (ch : ascii) : Z := char_code ch - 48.

Definition decimal (ds : list ascii) : Z :=
  fold_left (fun v ch => v * 10 + digit_val ch) ds 0.

(** The seconds a unit letter of a duration stands for. *)
Definition unit_seconds (ch : ascii) : option Z :=
  if Ascii.eqb ch "d" then Some 86400
  else if Ascii.eqb ch "h" then Some 3600
  else if Ascii.eqb ch "m" then Some 60
  else if Ascii.eqb ch "s" then Some 1
  else None.

Definition is_unit (ch : ascii) : bool :=
  match unit_seconds ch with Some _ => true | None => false end.

(** The bytes that calls of [fwrite] put into the file. *)
Fixpoint fwrite_bytes (ws : list tWrite) : list ascii :=
  match ws with
  | [] => []
  | fwrite bytes :: ws' => bytes ++ fwrite_bytes ws'
  | fprintf _ _ :: ws' => fwrite_bytes ws'
  end.

(** The pointers after the [switch (state)] of a turn. *)
Definition bounds_mid (it : Z) (ch : ascii) (s s1 : tLexer) : Prop :=
  lineStart s1 = lineStart s
  /\ tok_ok (it + 1) (aToken s1)
  /\ (forall k, tok_ok (it + 1) (slots s1 k))
  /\ tok_ok (it + 1) (origThumbnail s1)
  /\ (forall a, tok_start (slots s1 thumbnail) = Some a ->
                a <= lineStart s \/ (ch = LF /\ a = it + 1))
  /\ (state s1 = ST_GCODE -> tok_start (aToken s1) <> None).

(** The warnings the callback was given, in the order of the calls. *)
Definition warnings_of (tr : list tEvent) : list tMessage :=
  filter is_warning (List.map call_msg (calls_of tr)).

(** The line feeds a call puts into the file: those of the format (no
    conversion of the header renders one) or those of the bytes. *)
Definition write_line_feeds (w : tWrite) : Z :=
  match w with
  | fprintf format _ => line_feeds format
  | fwrite bytes => line_feeds bytes
  end.

Fixpoint writes_line_feeds (ws : list tWrite) : Z :=
  match ws with
  | [] => 0
  | w :: ws' => write_line_feeds w + writes_line_feeds ws'
  end.

(** fprintf writes as many line feeds as its format has: no conversion of
    the header renders one. *)
Definition keeps_line_feeds (print : list ascii -> list tArg -> list ascii) : Prop :=
  forall (f : list ascii) (args : list tArg), line_feeds (print f args) = line_feeds f.

(** A file that starts with a thumbnail block, and one that ends with it. *)
Definition input_thumbnail_first : list ascii :=
  unlines ["; thumbnail begin 1x1 4"; "; AAAA"; "; thumbnail end"; "G1 X1"].

Definition input_thumbnail_last : list ascii :=
  unlines ["G1 X1"; "; thumbnail begin 1x1 4"; "; AAAA"; "; thumbnail end"].

(** A file with a thumbnail block between two commands. *)
Definition input_thumbnail_middle : list ascii :=
  unlines ["G1 X1"; "; thumbnail begin 1x1 4"; "; AAAA"; "; thumbnail end"; "G1 X2"].

(** ** The program *)

(** [errorCallback]: it prints the message to [ferr] and answers 1. *)
Definition errorCallback : tCallback := fun _ _ _ => 1.

Definition EXIT_SUCCESS : Z := 0.
Definition EXIT_FAILURE : Z := 1.

(** [_tmain(argc, argv)], [io] being the environment of the file [argv[1]];
    what is printed to [ferr] is left out. *)
Definition _tmain (F : bool) (V : string) (argc : Z) (io : tIO) : option Z :=
  if argc <? 2 then
    (* printHelp() *)
    Some EXIT_FAILURE
  else
    match processFile F V io errorCallback with
    | Some r => Some (if res r =? 1 then EXIT_SUCCESS else EXIT_FAILURE)
    | None => None
    end.

(** The line feed is not among the characters. *)
Definition no_line_feed (l : list ascii) : bool :=
  forallb (fun ch => negb (Ascii.eqb ch LF)) l.

(** The box of [g2] holds the box of [g1], and the first layer change is
    behind both. *)
Definition box_grows (g1 g2 : tGeom) : Prop :=
  hasLayerChange g1 = true /\ hasLayerChange g2 = true
  /\ f_le (minX g2) (minX g1) = true /\ f_le (maxX g1) (maxX g2) = true
  /\ f_le (minY g2) (minY g1) = true /\ f_le (maxY g1) (maxY g2) = true
  /\ f_le (minZ g2) (minZ g1) = true /\ f_le (maxZ g1) (maxZ g2) = true.

Definition axis_grows (mn mx mn' mx' : float) : Prop :=
  f_le mn' mn = true /\ f_le mx mx' = true.

(** Two layer changes with an extruding move before, between and behind. *)
Definition input_two_layers : list ascii :=
  unlines ["G1 X5 Y5 Z1 E1"; ";LAYER_CHANGE"; "G1 X1 Y2 Z3 E1"; ";LAYER_CHANGE";
           "G1 X2 Y1 Z4 E1"].

(** White space that does not end the line. *)
Definition is_blank (ch : ascii) : bool := isspace ch && negb (Ascii.eqb ch LF).

(** The text starts and ends with a character that is no white space. *)
Definition trimmed (l : list ascii) : bool :=
  match l with
  | [] => false
  | ch :: _ => negb (isspace ch) && negb (isspace (last l ch))
  end.

(** The length of a token that starts at [a] after the characters [l], the
    first of them at offset [it], when each character that is no white space
    moves the end of the token behind itself. *)
Fixpoint value_len (a it n : Z) (l : list ascii) : Z :=
  match l with
  | [] => n
  | ch :: l' => value_len a (it + 1) (if isspace ch then n else it - a + 1) l'
  end.

(** [key_slot] on the characters of the token. *)
Definition key_of (l : list ascii) : option tSlot :=
  if cmp_chars l (chars "filament used [mm]") =? 0 then Some filamentUsed
  else if cmp_chars l (chars "first_layer_height") =? 0 then Some firstLayerHeight
  else if cmp_chars l (chars "layer_height") =? 0 then Some layerHeight
  else if cmp_chars (firstn (List.length (chars "estimated printing time")) l)
                    (chars "estimated printing time") =? 0 then Some estTime
  else if cmp_chars l (chars "first_layer_temperature") =? 0 then Some nozzleTemp0
  else if cmp_chars l (chars "first_layer_bed_temperature") =? 0 then Some plateTemp
  else if cmp_chars l (chars "max_print_speed") =? 0 then Some printSpeed
  else None.

(** No head of the text is one of the two markers of a comment. *)
Definition marker_free (l : list ascii) : bool :=
  forallb (fun n =>
             negb (cmp_chars (firstn n l) (chars "post-processed by sm2pspp") =? 0)
             && negb (cmp_chars (firstn n l) (chars "thumbnail begin") =? 0))
          (seq 0 (S (List.length l))).

(** The turns from [s] to [s1] left the geometry, the line count, the span
    of the original thumbnail and every token but [k] as they were. *)
Definition same_but (k : tSlot) (s s1 : tLexer) : Prop :=
  geom s1 = geom s /\ lineNr s1 = lineNr s /\ origThumbnail s1 = origThumbnail s
  /\ forall k', k' <> k -> slots s1 k' = slots s k'.

(** The float is zero or finite and not negative, and: it is no NaN and
    not negative. *)
Definition is_finite_nonneg (f : float) : bool :=
  match f with
  | S754_zero _ => true
  | S754_finite s _ _ => negb s
  | _ => false
  end.

Definition is_nonneg (f : float) : bool :=
  match f with
  | S754_nan => false
  | S754_infinity s => negb s
  | S754_zero _ => true
  | S754_finite s _ _ => negb s
  end.

(** The float is greater than zero. *)
Definition is_positive (f : float) : bool :=
  match f with
  | S754_infinity s => negb s
  | S754_finite s _ _ => negb s
  | _ => false
  end.

(** The float is no NaN, and its sign, if it has one that counts, is [sx]. *)
Definition has_sign (sx : bool) (f : float) : Prop :=
  f = S754_zero sx \/ (exists m e, f = S754_finite sx m e) \/ f = S754_infinity sx.

(** [fracDiv] after [n] digits of the fraction. *)
Definition fracDiv_of (n : nat) : float :=
  Nat.iter n (fun d => f_mul d f_ten) (f_of_Z 1).

(** What holds of the local variables of [p_float] in its loop. *)
Definition float_acc_ok (a : tFloatAcc) : Prop :=
  0 <= fa_val a < 2 ^ 64 /\ 0 <= fa_frac a < 2 ^ 64
  /\ exists n, fa_fracDiv a = fracDiv_of n.

(** ** The words of a command *)

(** A capital letter. *)
Definition is_capital (ch : ascii) : bool :=
  (65 <=? char_code ch) && (char_code ch <=? 90).

(** The text of a number of a command: digits and dots behind an optional
    minus sign. *)
Definition number_text (l : list ascii) : bool :=
  match l with
  | [] => true
  | ch :: l' =>
    (isdigit ch || Ascii.eqb ch "." || Ascii.eqb ch "-")
    && forallb (fun c => isdigit c || Ascii.eqb c ".") l'
  end.

(** A word of a command: a capital letter and the text of a number. *)
Definition word_ok (w : ascii * list ascii) : bool :=
  is_capital (fst w) && number_text (snd w).

(** The characters of the words, a space in front of each. *)
Definition words_chars (ws : list (ascii * list ascii)) : list ascii :=
  flat_map (fun w => " "%char :: fst w :: snd w) ws.

(** What a word does to the parameters of the command: the letters X, Y, Z
    and E set theirs to the number, read by [p_float]; no other letter
    counts. *)
Definition word_cmd (c : tCmd) (w : ascii * list ascii) : tCmd :=
  match axis_of_char (fst w) with
  | Some P_X => mkCmd (code c) (p_float_chars (snd w)) (paramY c) (paramZ c) (paramE c)
  | Some P_Y => mkCmd (code c) (paramX c) (p_float_chars (snd w)) (paramZ c) (paramE c)
  | Some P_Z => mkCmd (code c) (paramX c) (paramY c) (p_float_chars (snd w)) (paramE c)
  | Some P_E => mkCmd (code c) (paramX c) (paramY c) (paramZ c) (p_float_chars (snd w))
  | _ => c
  end.

(** The turns from [s] to [s1] changed nothing but the command that is
    being read. *)
Definition same_line (s s1 : tLexer) : Prop :=
  state s1 = state s /\ valueToken s1 = valueToken s /\ lineStart s1 = lineStart s
  /\ lineNr s1 = lineNr s /\ origThumbnailLines s1 = origThumbnailLines s
  /\ origThumbnail s1 = origThumbnail s /\ geom s1 = geom s /\ slots s1 = slots s.

(** ** The thumbnail block *)

(** The count of the lines of the original thumbnail, at the head of the
    state ST_THUMBNAIL. *)
Definition count_thumbnail_line (F : bool) (s : tLexer) (ch : ascii) : tLexer :=
  if F && Ascii.eqb ch LF
  then set_origThumbnailLines s (size_t (origThumbnailLines s + 1))
  else s.

(** A line of the block as PrusaSlicer writes it: "; " and the data. *)
Definition data_line (payload : list ascii) : list ascii :=
  ";"%char :: " "%char :: payload ++ [LF].

Definition data_lines (payloads : list (list ascii)) : list ascii :=
  flat_map data_line payloads.

(** The first and the last line of the block. *)
Definition begin_line (info : list ascii) : list ascii :=
  chars "; thumbnail begin " ++ info ++ [LF].

Definition end_line (tail : list ascii) : list ascii :=
  chars "; thumbnail end" ++ tail ++ [LF].

(** The turns from [s] to [s1] were [n] lines of a thumbnail block: they
    were counted, and nothing else changed but the token being read and the
    start of the line. *)
Definition block_lines (F : bool) (n : Z) (s s1 : tLexer) : Prop :=
  state s1 = state s /\ valueToken s1 = valueToken s /\ param s1 = param s
  /\ cmd s1 = cmd s /\ geom s1 = geom s /\ slots s1 = slots s
  /\ origThumbnail s1 = origThumbnail s
  /\ size_t (lineNr s1) = size_t (lineNr s + n)
  /\ size_t (origThumbnailLines s1)
     = size_t (origThumbnailLines s + (if F then n else 0)).

(** ** The line of the two nozzle temperatures *)

(** The text starts with a character that is no white space. *)
Definition starts_word (l : list ascii) : bool :=
  match l with
  | [] => false
  | ch :: _ => negb (isspace ch)
  end.

(** The comment line of the key first_layer_temperature with the values
    [t0] and [t1] and a comma between them; the [ws] are white space. *)
Definition dual_temperature_line (ws0 ws1 ws2 t0 ws3 t1 ws4 : list ascii)
  : list ascii :=
  (";"%char :: ws0 ++ chars "first_layer_temperature" ++ ws1 ++ ["="%char])
  ++ ws2 ++ t0 ++ ","%char :: ws3 ++ t1 ++ ws4 ++ [LF].

(** ** Files as lines of text *)

(** A line of a file as its text shows it, without its line feed; [indent]
    and [gap] are white space.
    - [L_command]: 'G', the digits of the number of the command, the words
      (each a blank, a capital letter and the text of a number), and maybe a
      comment behind them;
    - [L_comment]: ';' and a text;
    - [L_other]: a text that is empty or starts with a character that is
      neither 'G' nor ';' nor white space. *)
Inductive tLine : Type :=
| L_command (indent ds : list ascii) (ws : list (ascii * list ascii))
            (gap : list ascii) (comment : option (list ascii))
| L_comment (indent body : list ascii)
| L_other (indent text : list ascii).

Definition comment_chars (comment : option (list ascii)) : list ascii :=
  match comment with
  | Some body => ";"%char :: body
  | None => []
  end.

(** The characters of 'G', the number and the words of a command. *)
Definition command_chars (ds : list ascii) (ws : list (ascii * list ascii))
  : list ascii :=
  "G"%char :: ds ++ words_chars ws.

Definition line_chars (ln : tLine) : list ascii :=
  match ln with
  | L_command indent ds ws gap comment =>
    indent ++ command_chars ds ws ++ gap ++ comment_chars comment ++ [LF]
  | L_comment indent body => indent ++ ";"%char :: body ++ [LF]
  | L_other indent text => indent ++ text ++ [LF]
  end.

Definition file_chars (lines : list tLine) : list ascii :=
  flat_map line_chars lines.

Definition starts_other (text : list ascii) : bool :=
  match text with
  | [] => true
  | ch :: _ => negb (isspace ch) && negb (Ascii.eqb ch "G") && negb (Ascii.eqb ch ";")
  end.

(** The line is of one of the three forms; the number of a command is
    below 65536. *)
Definition line_ok (ln : tLine) : bool :=
  match ln with
  | L_command indent ds ws gap comment =>
    forallb is_blank indent && forallb isdigit ds && (decimal ds <? 65536)
    && forallb word_ok ws && forallb is_blank gap
    && no_line_feed (comment_chars comment)
  | L_comment indent body => forallb is_blank indent && no_line_feed body
  | L_other indent text =>
    forallb is_blank indent && starts_other text && no_line_feed text
  end.

(** The text of the number of the last word with the letter, if there is
    one. *)
Fixpoint word_value (letter : ascii) (ws : list (ascii * list ascii))
  : option (list ascii) :=
  match ws with
  | [] => None
  | w :: ws' =>
    match word_value letter ws' with
    | Some t => Some t
    | None => if Ascii.eqb (fst w) letter then Some (snd w) else None
    end
  end.

(** The command is a linear move, G0 or G1. *)
Definition is_linear_move (ds : list ascii) : bool :=
  (decimal ds =? 0) || (decimal ds =? 1).

(** The words give a positive material feed: the number of the last word
    E, as a float, is greater than zero. *)
Definition feeds (ws : list (ascii * list ascii)) : bool :=
  match word_value "E" ws with
  | Some t => f_lt f_zero (p_float_chars t)
  | None => false
  end.

(** The line is a linear move with a positive material feed. *)
Definition extruding_line (ln : tLine) : bool :=
  match ln with
  | L_command _ ds ws _ _ => is_linear_move ds && feeds ws
  | _ => false
  end.

(** [code] and the parameters when the words of a command are read. *)
Definition line_cmd (ds : list ascii) (ws : list (ascii * list ascii)) : tCmd :=
  fold_left word_cmd ws (mkCmd (G_ (p_uint_chars ds)) NAN NAN NAN NAN).

(** The three axes of the position and of the box. *)
Inductive tAxis : Type := AX | AY | AZ.

Definition axis_letter (a : tAxis) : ascii :=
  match a with AX => "X"%char | AY => "Y"%char | AZ => "Z"%char end.

Definition axis_pos (a : tAxis) (g : tGeom) : float :=
  match a with AX => x g | AY => y g | AZ => z g end.

Definition axis_min (a : tAxis) (g : tGeom) : float :=
  match a with AX => minX g | AY => minY g | AZ => minZ g end.

Definition axis_max (a : tAxis) (g : tGeom) : float :=
  match a with AX => maxX g | AY => maxY g | AZ => maxZ g end.

Definition axis_param (a : tAxis) (c : tCmd) : float :=
  match a with AX => paramX c | AY => paramY c | AZ => paramZ c end.

(** The lexer is in a comment, in a thumbnail or in a line that is skipped:
    not at the start of a line and not in a command. *)
Definition in_comment (s : tLexer) : Prop :=
  state s <> ST_LINE_START /\ state s <> ST_GCODE.

(** The box of [g2] holds the box of [g1]. *)
Definition box_within (g1 g2 : tGeom) : Prop :=
  forall a, axis_grows (axis_min a g1) (axis_max a g1) (axis_min a g2) (axis_max a g2).

(** The six lines of the header that give the box. *)
Inductive tBoxField : Type :=
| F_max_x | F_max_y | F_max_z | F_min_x | F_min_y | F_min_z.

Definition box_format (f : tBoxField) : list ascii :=
  match f with
  | F_max_x => line ";max_x(mm): %.2f"
  | F_max_y => line ";max_y(mm): %.2f"
  | F_max_z => line ";max_z(mm): %.2f"
  | F_min_x => line ";min_x(mm): %.2f"
  | F_min_y => line ";min_y(mm): %.2f"
  | F_min_z => line ";min_z(mm): %.2f" ++ [LF]
  end.

Definition box_value (f : tBoxField) (g : tGeom) : float :=
  match f with
  | F_max_x => maxX g
  | F_max_y => maxY g
  | F_max_z => maxZ g
  | F_min_x => minX g
  | F_min_y => minY g
  | F_min_z => minZ g
  end.

(** The value of a line of the box in the header: that of the box after the
    pass, but for min_z, from which the first layer height is subtracted
    when it was captured and min_z < max_z. *)
Definition header_box_value (f : tBoxField) (buf : list ascii) (s : tLexer) : float :=
  match f with
  | F_min_z =>
    if is_captured (slots s firstLayerHeight) && f_lt (minZ (geom s)) (maxZ (geom s))
    then f_sub (minZ (geom s)) (p_float buf (slots s firstLayerHeight))
    else minZ (geom s)
  | _ => box_value f (geom s)
  end.

(** A move after the first layer change, with the first layer height. *)
Definition input_box : list ascii :=
  unlines ["; first_layer_height = 0.2"; ";LAYER_CHANGE"; "G1 Z0.2"; "G1 X1 Y2";
           "G1 X3 Y4 E1 ; wall"; "G1 Z0.4 E1"].

(** A line G92 whose word follows its number with no blank between. *)
Definition input_stale_code : list ascii := unlines ["G1 X1"; "G92E5"].

(** An extruding move in a thumbnail block that is not closed, and one
    whose line is not ended. *)
Definition input_move_in_thumbnail : list ascii :=
  unlines ["; thumbnail begin 1x1 1"; "G1 X1 E1"].

Definition input_move_not_ended : list ascii := chars "G1 X1 E1".

(** * Properties of the micro-parsers *)

Lemma token_chars_token_of (l : list ascii) : token_chars l (token_of l) = l.
Proof.
  unfold token_chars, token_of; simpl.
  rewrite Nat2Z.id. apply firstn_all.
Qed.

Lemma token_chars_empty (buf : list ascii) (t : tPToken) :
  is_empty_token t = true -> token_chars buf t = [].
Proof.
  unfold is_empty_token, token_chars.
  destruct (tok_start t); [ | reflexivity ].
  intro H. apply Z.leb_le in H.
  replace (Z.to_nat (tok_length t)) with 0%nat by lia. reflexivity.
Qed.

Lemma p_dtms_token_chars (buf : list ascii) (t : tPToken) :
  p_dtms buf t = p_dtms_chars (token_chars buf t).
Proof.
  unfold p_dtms. destruct (is_empty_token t) eqn:E; [ | reflexivity ].
  rewrite token_chars_empty by assumption. reflexivity.
Qed.

Lemma p_float_token_chars (buf : list ascii) (t : tPToken) :
  p_float buf t = p_float_chars (token_chars buf t).
Proof.
  unfold p_float. destruct (is_empty_token t) eqn:E; [ | reflexivity ].
  rewrite token_chars_empty by assumption. reflexivity.
Qed.

Lemma p_dtms_loop_digits (ds : list ascii) :
  forallb isdigit ds = true -> forall res val, p_dtms_loop ds res val = res.
Proof.
  induction ds as [ | c ds IH ]; simpl; intros H res val; [ reflexivity | ].
  apply andb_prop in H. destruct H as [Hc Hds].
  rewrite Hc. now apply IH.
Qed.

Lemma p_dtms_loop_trailing_digits (l ds : list ascii) :
  forallb isdigit ds = true ->
  forall res val, p_dtms_loop (l ++ ds) res val = p_dtms_loop l res val.
Proof.
  intro H. induction l as [ | c l IH ]; intros res val; simpl.
  - now apply p_dtms_loop_digits.
  - repeat match goal with |- context [if ?b then _ else _] => destruct b end;
      apply IH.
Qed.

(** C5. The duration parser maps "1h2m3s" to 3723, "90s" to 90 and "2d" to
    172800 seconds; a run of digits at the end of the token that no unit
    letter closes adds nothing: the token is worth what it is worth without
    that run. *)
Theorem p_dtms_units_and_open_run :
  p_dtms (chars "1h2m3s") (token_of (chars "1h2m3s")) = 3723
  /\ p_dtms (chars "90s") (token_of (chars "90s")) = 90
  /\ p_dtms (chars "2d") (token_of (chars "2d")) = 172800
  /\ forall (buf : list ascii) (aToken : tPToken) (l ds : list ascii),
       token_chars buf aToken = l ++ ds ->
       forallb isdigit ds = true ->
       p_dtms buf aToken = p_dtms_chars l.
Proof.
  repeat split; try reflexivity.
  intros buf aToken l ds Hview Hds.
  rewrite p_dtms_token_chars, Hview.
  unfold p_dtms_chars. now apply p_dtms_loop_trailing_digits.
Qed.

Lemma p_dtms_open_run_witness :
  p_dtms (chars "1h30") (token_of (chars "1h30")) = p_dtms_chars (chars "1h")
  /\ p_dtms_chars (chars "1h") = 3600.
Proof.
  split.
  - apply (proj2 (proj2 (proj2 p_dtms_units_and_open_run))
             (chars "1h30") (token_of (chars "1h30")) (chars "1h") (chars "30"));
      reflexivity.
  - reflexivity.
Defined.

Lemma p_float_loop_stop (g : list ascii) (c : ascii) (rest : list ascii) :
  forallb digit_or_dot g = true ->
  digit_or_dot c = false ->
  forall a, p_float_loop (g ++ c :: rest) a = p_float_loop g a.
Proof.
  intros Hg Hc. unfold digit_or_dot in Hc. apply orb_false_elim in Hc.
  destruct Hc as [Hd Hdot].
  induction g as [ | d g IH ]; intro a; simpl.
  - now rewrite Hd, Hdot.
  - simpl in Hg. apply andb_prop in Hg. destruct Hg as [_ Hg].
    repeat match goal with |- context [if ?b then _ else _] => destruct b end;
      auto.
Qed.

Lemma p_float_loop_skip_dot (rest g : list ascii) :
  forallb digit_or_dot g = true ->
  forall a, fa_isFrac a = true \/ In "."%char g ->
  p_float_loop (g ++ "."%char :: rest) a = p_float_loop (g ++ rest) a.
Proof.
  intro Hg. induction g as [ | d g IH ]; intros a Hfrac.
  - destruct Hfrac as [Hfrac | []]. destruct a as [v f dv fr]; simpl in *.
    now subst fr.
  - simpl in Hg. apply andb_prop in Hg. destruct Hg as [Hd Hg].
    simpl. destruct (isdigit d) eqn:Ed.
    + assert (Hnd : d <> "."%char) by (intro; subst d; discriminate).
      destruct (fa_isFrac a) eqn:Ef; apply IH; auto.
      destruct Hfrac as [Habs | [Habs | Hin]];
        [ discriminate | congruence | now right ].
    + unfold digit_or_dot in Hd. rewrite Ed in Hd. simpl in Hd. rewrite Hd.
      apply IH; auto.
Qed.

Lemma skip_digits_nil (l : list ascii) :
  skip_digits l = [] -> forallb isdigit l = true.
Proof.
  induction l as [ | c l IH ]; simpl; [ reflexivity | ].
  destruct (isdigit c); [ exact IH | discriminate ].
Qed.

Lemma skip_digits_dot (l t : list ascii) :
  skip_digits l = "."%char :: t -> forallb isdigit t = true ->
  forallb digit_or_dot l = true /\ In "."%char l.
Proof.
  intros H Ht. induction l as [ | c l IH ]; simpl in *; [ discriminate | ].
  unfold digit_or_dot at 1. destruct (isdigit c) eqn:Ec.
  - destruct (IH H) as [IH1 IH2]. simpl. auto.
  - injection H as -> ->. simpl. split; [ | now left ].
    clear IH. induction t as [ | d t IHt ]; simpl in *; [ reflexivity | ].
    apply andb_prop in Ht. destruct Ht as [Hd Ht]. unfold digit_or_dot at 1.
    rewrite Hd. simpl. auto.
Qed.

Lemma isdigit_digit_or_dot (l : list ascii) :
  forallb isdigit l = true -> forallb digit_or_dot l = true.
Proof.
  induction l as [ | c l IH ]; simpl; [ reflexivity | ].
  intro H. apply andb_prop in H. destruct H as [Hc Hl].
  unfold digit_or_dot at 1. rewrite Hc. simpl. auto.
Qed.

Lemma simple_float_body (g : list ascii) :
  simple_float g = true -> forallb digit_or_dot (skip_sign g) = true.
Proof.
  unfold simple_float. destruct (skip_digits (skip_sign g)) as [ | c t ] eqn:E.
  - intros _. now apply isdigit_digit_or_dot, skip_digits_nil.
  - intro H. apply andb_prop in H. destruct H as [Hc Ht].
    apply Ascii.eqb_eq in Hc. subst c.
    destruct (skip_digits t) eqn:Et; [ | discriminate ].
    now apply (skip_digits_dot _ t); [ | apply skip_digits_nil ].
Qed.

Lemma skip_digits_snoc_digit (l : list ascii) (c : ascii) :
  isdigit c = true ->
  skip_digits (l ++ [c]) =
  match skip_digits l with [] => [] | _ :: _ => skip_digits l ++ [c] end.
Proof.
  intro Hc. induction l as [ | d l IH ]; simpl.
  - now rewrite Hc.
  - destruct (isdigit d); [ exact IH | reflexivity ].
Qed.

Lemma simple_float_snoc_digit (g : list ascii) (c : ascii) :
  isdigit c = true -> simple_float g = true -> simple_float (g ++ [c]) = true.
Proof.
  intros Hc. unfold simple_float.
  assert (Hs : skip_sign (g ++ [c]) = skip_sign g ++ [c]
               \/ (g = [] /\ skip_sign (g ++ [c]) = [c])).
  { destruct g as [ | d g ]; simpl.
    - right. split; [ reflexivity | ].
      destruct (Ascii.eqb c "-") eqn:E; [ | reflexivity ].
      apply Ascii.eqb_eq in E. subst c. discriminate.
    - left. now destruct (Ascii.eqb d "-"). }
  destruct Hs as [-> | [-> ->]].
  - rewrite skip_digits_snoc_digit by assumption.
    destruct (skip_digits (skip_sign g)) as [ | d t ]; [ reflexivity | ].
    simpl. intro H. apply andb_prop in H. destruct H as [-> H]. simpl.
    rewrite skip_digits_snoc_digit by assumption.
    now destruct (skip_digits t).
  - simpl. now rewrite Hc.
Qed.

Lemma p_float_chars_stop (g : list ascii) (c : ascii) (rest : list ascii) :
  simple_float g = true ->
  simple_float (g ++ [c]) = false ->
  c <> "."%char ->
  p_float_chars (g ++ c :: rest) = p_float_chars g.
Proof.
  intros Hg Hgc Hdot.
  assert (Hd : isdigit c = false).
  { destruct (isdigit c) eqn:E; [ | reflexivity ].
    now rewrite (simple_float_snoc_digit g c E Hg) in Hgc. }
  assert (Hc : digit_or_dot c = false).
  { unfold digit_or_dot. rewrite Hd. simpl. now apply Ascii.eqb_neq. }
  pose proof (simple_float_body g Hg) as Hbody.
  destruct g as [ | d g ].
  - simpl in *. destruct (Ascii.eqb c "-") eqn:E.
    + apply Ascii.eqb_eq in E. subst c. discriminate.
    + apply Ascii.eqb_neq in Hdot. now rewrite Hd, Hdot.
  - simpl in Hbody. change ((d :: g) ++ ?l) with (d :: (g ++ l)).
    unfold p_float_chars. destruct (Ascii.eqb d "-").
    + now rewrite p_float_loop_stop.
    + change (d :: (g ++ ?l)) with ((d :: g) ++ l).
      now rewrite p_float_loop_stop.
Qed.

Lemma p_float_chars_skip_dot (g rest : list ascii) :
  simple_float g = true ->
  In "."%char g ->
  p_float_chars (g ++ "."%char :: rest) = p_float_chars (g ++ rest).
Proof.
  intros Hg Hin. pose proof (simple_float_body g Hg) as Hbody.
  destruct g as [ | d g ]; [ destruct Hin | ].
  simpl in Hbody. change ((d :: g) ++ ?l) with (d :: (g ++ l)).
  unfold p_float_chars. destruct (Ascii.eqb d "-") eqn:E.
  - apply Ascii.eqb_eq in E. subst d.
    destruct Hin as [Habs | Hin]; [ discriminate | ].
    now rewrite p_float_loop_skip_dot by auto.
  - change (d :: (g ++ ?l)) with ((d :: g) ++ l).
    now rewrite p_float_loop_skip_dot by auto.
Qed.

(** C6, as the specification has it, fails: the parser does not stop at a
    second dot. With [g = "1.2"], which is in the grammar, and the next
    character ".", which leaves the grammar, the token "1.2.3" is not
    converted to the value of "1.2" but to that of "1.23". *)
Lemma p_float_second_dot_counterexample :
  ~ (forall (g : list ascii) (c : ascii) (rest : list ascii),
       simple_float g = true ->
       simple_float (g ++ [c]) = false ->
       p_float_chars (g ++ c :: rest) = p_float_chars g).
Proof.
  intro H.
  specialize (H (chars "1.2") "."%char (chars "3") eq_refl eq_refl).
  vm_compute in H. discriminate H.
Qed.

(** C6, amended. The float parser takes an optional single leading '-',
    then digits and dots: it stops converting at the first character that
    leaves the grammar (sign, digits, one dot, digits) unless that character
    is a dot; a dot after the first one is skipped and the digits after it
    go on into the fraction. There is no exponent notation: "e" ends the
    number. It maps "-3.50xyz" to -3.5, that is -7 * 2^-1. *)
Theorem p_float_simple_grammar :
  (forall (g : list ascii) (c : ascii) (rest : list ascii),
     simple_float g = true ->
     simple_float (g ++ [c]) = false ->
     c <> "."%char ->
     p_float (g ++ c :: rest) (token_of (g ++ c :: rest)) = p_float g (token_of g))
  /\ (forall (g rest : list ascii),
        simple_float g = true ->
        In "."%char g ->
        p_float (g ++ "."%char :: rest) (token_of (g ++ "."%char :: rest))
        = p_float (g ++ rest) (token_of (g ++ rest)))
  /\ p_float (chars "-3.50xyz") (token_of (chars "-3.50xyz")) = f_ldexp (-7) (-1)
  /\ p_float (chars "1e3") (token_of (chars "1e3")) = f_of_Z 1.
Proof.
  repeat split; try reflexivity.
  - intros g c rest Hg Hgc Hdot.
    rewrite !p_float_token_chars, !token_chars_token_of.
    now apply p_float_chars_stop.
  - intros g rest Hg Hin.
    rewrite !p_float_token_chars, !token_chars_token_of.
    now apply p_float_chars_skip_dot.
Qed.

Lemma p_float_simple_grammar_witness :
  p_float (chars "-3.50xyz") (token_of (chars "-3.50xyz"))
  = p_float (chars "-3.50") (token_of (chars "-3.50"))
  /\ p_float (chars "1.2.3") (token_of (chars "1.2.3"))
     = p_float (chars "1.23") (token_of (chars "1.23")).
Proof.
  split.
  - apply (proj1 p_float_simple_grammar (chars "-3.50") "x"%char (chars "yz"));
      [ reflexivity | reflexivity | discriminate ].
  - apply (proj1 (proj2 p_float_simple_grammar) (chars "1.2") (chars "3"));
      [ reflexivity | simpl; auto ].
Defined.

(** * Order of binary32 floats *)

Lemma SFcompare_antisym (a b : float) (c : comparison) :
  SFcompare a b = Some c -> SFcompare b a = Some (CompOpp c).
Proof.
  destruct a as [sa | sa | | sa ma ea], b as [sb | sb | | sb mb eb]; simpl;
    try discriminate; intro H; injection H as <-; f_equal;
    try (now destruct sa); try (now destruct sb); try (now destruct sa, sb).
  assert (Hp : Pos.compare_cont Eq mb ma = CompOpp (Pos.compare_cont Eq ma mb))
    by (symmetry; apply (Pos.compare_cont_antisym ma mb Eq)).
  rewrite (Z.compare_antisym ea eb), Hp.
  destruct sa, sb; simpl; try reflexivity;
    destruct (ea ?= eb); simpl; try reflexivity;
    destruct (Pos.compare_cont Eq ma mb); reflexivity.
Qed.

Lemma SFcompare_total (a b : float) :
  a <> NAN -> b <> NAN -> exists c, SFcompare a b = Some c.
Proof.
  unfold NAN.
  destruct a as [sa | sa | | sa ma ea], b as [sb | sb | | sb mb eb]; simpl;
    intros Ha Hb; try congruence; eauto.
Qed.

Lemma f_lt_not_nan (a b : float) : f_lt a b = true -> a <> NAN /\ b <> NAN.
Proof.
  unfold f_lt, SFltb, NAN. destruct a, b; simpl; try discriminate;
    split; discriminate.
Qed.

Lemma f_le_not_nan (a b : float) : f_le a b = true -> a <> NAN /\ b <> NAN.
Proof.
  unfold f_le, SFleb, NAN. destruct a, b; simpl; try discriminate;
    split; discriminate.
Qed.

Lemma f_le_refl (a : float) : a <> NAN -> f_le a a = true.
Proof.
  unfold f_le, SFleb, NAN. destruct a as [s | s | | s m e]; simpl; try congruence.
  - now destruct s.
  - intros _. rewrite Z.compare_refl, Pos.compare_cont_refl. now destruct s.
Qed.

(** [!(b < a)] gives [a <= b] when neither is NaN. *)
Lemma f_not_lt_le (a b : float) :
  a <> NAN -> b <> NAN -> f_lt b a = false -> f_le a b = true.
Proof.
  intros Ha Hb. unfold f_lt, f_le, SFltb, SFleb.
  destruct (SFcompare_total b a Hb Ha) as [c Hc].
  rewrite Hc, (SFcompare_antisym b a c Hc). now destruct c.
Qed.

Lemma f_lt_sentinel : f_lt INFINITY NEG_INFINITY = false.
Proof. reflexivity. Qed.

(** * The geometry tracker *)

Lemma axis_ok_not_nan (mn mx : float) : axis_ok mn mx -> mn <> NAN /\ mx <> NAN.
Proof.
  intros [[-> ->] | H]; [ split; discriminate | now apply f_le_not_nan ].
Qed.

Lemma widen_ok (mn mx v : float) :
  axis_ok mn mx -> axis_ok (fst (widen mn mx v)) (snd (widen mn mx v)).
Proof.
  intro H. destruct (axis_ok_not_nan mn mx H) as [Hmn Hmx].
  unfold widen; simpl.
  destruct (f_lt v mn) eqn:E1, (f_lt mx v) eqn:E2; auto; right.
  - apply f_le_refl. now apply (f_lt_not_nan v mn).
  - apply f_not_lt_le; auto. now apply (f_lt_not_nan v mn).
  - apply f_not_lt_le; auto. now apply (f_lt_not_nan mx v).
Qed.

Lemma widen_if_ok (guard mn mx v : float) :
  axis_ok mn mx -> axis_ok (fst (widen_if guard mn mx v)) (snd (widen_if guard mn mx v)).
Proof.
  intro H. unfold widen_if. destruct (IS_SET guard); [ now apply widen_ok | exact H ].
Qed.

Lemma linear_move_box_ok (c : tCmd) (g : tGeom) :
  box_ok g -> box_ok (linear_move c g).
Proof.
  intros (Hx & Hy & Hz). unfold linear_move, box_ok.
  destruct (extrudes c); simpl;
    destruct (negb (prevExt g)); simpl; repeat split;
    repeat apply widen_if_ok; assumption.
Qed.

Lemma gcode_end_box_ok (c : tCmd) (g : tGeom) : box_ok g -> box_ok (gcode_end c g).
Proof.
  intro H. unfold gcode_end.
  repeat match goal with |- context [if ?b then _ else _] => destruct b end;
    try assumption.
  now apply linear_move_box_ok.
Qed.

Lemma layer_change_box_unset (g : tGeom) : box_unset (layer_change g).
Proof. repeat split. Qed.

Lemma box_unset_ok (g : tGeom) : box_unset g -> box_ok g.
Proof.
  intros (H1 & H2 & H3 & H4 & H5 & H6). repeat split; left; auto.
Qed.

(** A command that feeds no material leaves the box as it is. *)
Lemma gcode_end_no_extrusion (c : tCmd) (g : tGeom) :
  ((code c =? G_ 0) || (code c =? G_ 1)) && extrudes c = false ->
  minX (gcode_end c g) = minX g /\ minY (gcode_end c g) = minY g
  /\ minZ (gcode_end c g) = minZ g /\ maxX (gcode_end c g) = maxX g
  /\ maxY (gcode_end c g) = maxY g /\ maxZ (gcode_end c g) = maxZ g.
Proof.
  unfold gcode_end, linear_move.
  destruct ((code c =? G_ 0) || (code c =? G_ 1)); simpl.
  - intros ->. simpl. repeat split.
  - intros _.
    repeat match goal with |- context [if ?b then _ else _] => destruct b end;
      repeat split.
Qed.

Lemma G_codes_distinct :
  G_ 90 <> G_ 0 /\ G_ 90 <> G_ 1 /\ G_ 91 <> G_ 0 /\ G_ 91 <> G_ 1 /\ G_ 90 <> G_ 91.
Proof. repeat split; discriminate. Qed.

Lemma gcode_end_G90 (c : tCmd) (g : tGeom) :
  code c = G_ 90 -> gcode_end c g = set_isAbsPos g true.
Proof. unfold gcode_end. intros ->. reflexivity. Qed.

Lemma gcode_end_G91 (c : tCmd) (g : tGeom) :
  code c = G_ 91 -> gcode_end c g = set_isAbsPos g false.
Proof. unfold gcode_end. intros ->. reflexivity. Qed.

Lemma gcode_end_mode_kept (c : tCmd) (g : tGeom) :
  code c <> G_ 90 -> code c <> G_ 91 -> isAbsPos (gcode_end c g) = isAbsPos g.
Proof.
  intros H90 H91. unfold gcode_end, linear_move.
  destruct ((code c =? G_ 0) || (code c =? G_ 1)).
  - now destruct (extrudes c).
  - destruct (code c =? G_ 90) eqn:E90; [ apply Z.eqb_eq in E90; contradiction | ].
    destruct (code c =? G_ 91) eqn:E91; [ apply Z.eqb_eq in E91; contradiction | ].
    reflexivity.
Qed.

Lemma gcode_end_linear (c : tCmd) (g : tGeom) :
  code c = G_ 0 \/ code c = G_ 1 ->
  x (gcode_end c g) = move_axis (isAbsPos g) (x g) (paramX c)
  /\ y (gcode_end c g) = move_axis (isAbsPos g) (y g) (paramY c)
  /\ z (gcode_end c g) = move_axis (isAbsPos g) (z g) (paramZ c).
Proof.
  intro H. unfold gcode_end.
  replace ((code c =? G_ 0) || (code c =? G_ 1)) with true
    by (destruct H as [-> | ->]; reflexivity).
  unfold linear_move. now destruct (extrudes c).
Qed.

(** * The turns of the lexer *)

Ltac break_ifs :=
  repeat match goal with
         | |- context [if ?b then _ else _] => destruct b eqn:?
         | |- context [match ?o with Some _ => _ | None => _ end] => destruct o eqn:?
         end.

Ltac break_ifs_in H :=
  repeat match type of H with
         | context [if ?b then _ else _] => destruct b eqn:?
         | context [match ?o with Some _ => _ | None => _ end] => destruct o eqn:?
         end.

Lemma geom_end_of_turn (s : tLexer) (it : Z) (ch : ascii) :
  geom (end_of_turn s it ch) = geom s.
Proof. unfold end_of_turn. now break_ifs. Qed.

Lemma slots_end_of_turn (s : tLexer) (it : Z) (ch : ascii) :
  slots (end_of_turn s it ch) = slots s.
Proof. unfold end_of_turn. now break_ifs. Qed.

Lemma state_end_of_turn (s : tLexer) (it : Z) (ch : ascii) :
  state (end_of_turn s it ch) = state s.
Proof. unfold end_of_turn. now break_ifs. Qed.

Lemma valueToken_end_of_turn (s : tLexer) (it : Z) (ch : ascii) :
  valueToken (end_of_turn s it ch) = valueToken s.
Proof. unfold end_of_turn. now break_ifs. Qed.

Lemma origThumbnail_end_of_turn (s : tLexer) (it : Z) (ch : ascii) :
  origThumbnail (end_of_turn s it ch) = origThumbnail s.
Proof. unfold end_of_turn. now break_ifs. Qed.

Section LexerFacts.

Variable F : bool.
Variable buf : list ascii.

(** What a turn does to the geometry: nothing, the reset at the first
    layer change, or the end of a command line. *)
Lemma switch_state_geom (s : tLexer) (it : Z) (ch : ascii) (s' : tLexer) :
  switch_state F buf s it ch = Running s' ->
  geom s' = geom s
  \/ (state s = ST_COMMENT /\ hasLayerChange (geom s) = false
      /\ geom s' = layer_change (geom s))
  \/ (state s = ST_GCODE /\ is_number_char s ch = false /\ is_line_end ch = true
      /\ geom s' = gcode_end (end_of_token buf s) (geom s)).
Proof.
  unfold switch_state. destruct (state s) eqn:St; intro H.
  - injection H as <-. left. unfold step_LINE_START. now break_ifs.
  - injection H as <-. left. unfold step_FIND_LINE_START. now break_ifs.
  - injection H as <-. unfold step_GCODE.
    destruct (is_number_char s ch) eqn:En; [ now left | ].
    destruct (axis_of_char ch); [ now left | ].
    destruct (is_line_end ch) eqn:El; [ | now left ].
    right; right. repeat split. now destruct (Ascii.eqb ch LF).
  - unfold step_COMMENT in H.
    destruct (Ascii.eqb ch LF).
    + destruct (_ && _) eqn:E in H; injection H as <-; [ | now left ].
      right; left. apply andb_prop in E. destruct E as [_ E].
      simpl in E. apply negb_true_iff in E. now repeat split.
    + left. break_ifs_in H; try discriminate; injection H as <-; reflexivity.
  - left. unfold step_PARAMETER_VALUE in H.
    break_ifs_in H; try discriminate; injection H as <-; reflexivity.
  - left. unfold step_THUMBNAIL in H.
    break_ifs_in H; try discriminate; injection H as <-; reflexivity.
  - left. unfold step_THUMBNAIL_TAIL in H.
    break_ifs_in H; try discriminate; injection H as <-; reflexivity.
Qed.

Lemma step_inv (s : tLexer) (it : Z) (ch : ascii) (s' : tLexer) :
  step F buf s it ch = Running s' ->
  exists s1, switch_state F buf s it ch = Running s1 /\ s' = end_of_turn s1 it ch.
Proof.
  unfold step. destruct (switch_state F buf s it ch); try discriminate.
  intro H. injection H as <-. eauto.
Qed.

Lemma step_geom (s : tLexer) (it : Z) (ch : ascii) (s' : tLexer) :
  step F buf s it ch = Running s' ->
  geom s' = geom s
  \/ (state s = ST_COMMENT /\ hasLayerChange (geom s) = false
      /\ geom s' = layer_change (geom s))
  \/ (state s = ST_GCODE /\ is_number_char s ch = false /\ is_line_end ch = true
      /\ geom s' = gcode_end (end_of_token buf s) (geom s)).
Proof.
  intro H. apply step_inv in H. destruct H as (s1 & H1 & ->).
  rewrite geom_end_of_turn. exact (switch_state_geom s it ch s1 H1).
Qed.

(** An invariant of the turns holds after any number of them. *)
Lemma lex_loop_invariant (P : tLexer -> Prop) :
  (forall s it ch s', P s -> step F buf s it ch = Running s' -> P s') ->
  forall l s it s', P s -> lex_loop F buf s it l = Running s' -> P s'.
Proof.
  intro Hstep. induction l as [ | ch l IH ]; simpl; intros s it s' Hs H.
  - now injection H as <-.
  - destruct (step F buf s it ch) as [ s1 | | ] eqn:E; try discriminate.
    apply (IH s1 (it + 1)); [ | exact H ]. now apply (Hstep s it ch).
Qed.

Lemma lex_loop_app (l1 l2 : list ascii) :
  forall s it,
    lex_loop F buf s it (l1 ++ l2) =
    match lex_loop F buf s it l1 with
    | Running s1 => lex_loop F buf s1 (it + Z.of_nat (List.length l1)) l2
    | o => o
    end.
Proof.
  induction l1 as [ | ch l1 IH ]; intros s it.
  - simpl. now rewrite Z.add_0_r.
  - cbn [app lex_loop List.length].
    destruct (step F buf s it ch); try reflexivity.
    rewrite IH. replace (it + 1 + Z.of_nat (List.length l1))
      with (it + Z.of_nat (S (List.length l1))) by lia. reflexivity.
Qed.

(** The box is well formed after every turn. *)
Lemma step_box_ok (s : tLexer) (it : Z) (ch : ascii) (s' : tLexer) :
  box_ok (geom s) -> step F buf s it ch = Running s' -> box_ok (geom s').
Proof.
  intros Hs H. destruct (step_geom s it ch s' H) as [-> | [(_ & _ & ->) | (_ & _ & _ & ->)]].
  - exact Hs.
  - apply box_unset_ok, layer_change_box_unset.
  - now apply gcode_end_box_ok.
Qed.

End LexerFacts.

(** * Claims on the geometry *)

Lemma lex_box_ok (F : bool) (buf : list ascii) (s : tLexer) :
  lex F buf = Running s -> box_ok (geom s).
Proof.
  unfold lex. apply (lex_loop_invariant F buf (fun s => box_ok (geom s))).
  - intros s0 it ch s' H0 H. now apply (step_box_ok F buf s0 it ch).
  - repeat split; left; split; reflexivity.
Qed.

Lemma step_mode_change (F : bool) (buf : list ascii) (s : tLexer) (it : Z)
      (ch : ascii) (s' : tLexer) :
  step F buf s it ch = Running s' ->
  isAbsPos (geom s') <> isAbsPos (geom s) ->
  state s = ST_GCODE /\ is_line_end ch = true
  /\ (code (end_of_token buf s) = G_ 90 \/ code (end_of_token buf s) = G_ 91).
Proof.
  intros H Hne.
  destruct (step_geom F buf s it ch s' H)
    as [E | [(_ & _ & E) | (St & _ & Hl & E)]]; rewrite E in Hne.
  - now contradiction Hne.
  - now contradiction Hne.
  - repeat split; auto.
    destruct (Z.eq_dec (code (end_of_token buf s)) (G_ 90)) as [ | N90 ]; auto.
    destruct (Z.eq_dec (code (end_of_token buf s)) (G_ 91)) as [ | N91 ]; auto.
    contradiction Hne. now apply gcode_end_mode_kept.
Qed.

Lemma step_command_end (F : bool) (buf : list ascii) (s : tLexer) (it : Z)
      (ch : ascii) :
  state s = ST_GCODE -> is_line_end ch = true ->
  exists s', step F buf s it ch = Running s'
             /\ geom s' = gcode_end (end_of_token buf s) (geom s).
Proof.
  intros St Hl. unfold step, switch_state. rewrite St. eexists. split; [ reflexivity | ].
  rewrite geom_end_of_turn. unfold step_GCODE.
  assert (Hn : is_number_char s ch = false).
  { unfold is_line_end in Hl. apply orb_prop in Hl.
    destruct Hl as [Hl | Hl]; apply Ascii.eqb_eq in Hl; subst ch;
      unfold is_number_char; simpl; now rewrite !andb_false_r. }
  assert (Ha : axis_of_char ch = None).
  { unfold is_line_end in Hl. apply orb_prop in Hl.
    destruct Hl as [Hl | Hl]; apply Ascii.eqb_eq in Hl; now subst ch. }
  rewrite Hn, Ha, Hl. now destruct (Ascii.eqb ch LF).
Qed.

(** C3. The positioning mode starts as absolute. At the end of a command
    line (a line feed or a semicolon read in the state ST_GCODE) the command
    is applied to the geometry: the code G90 makes the mode absolute, G91
    relative, any other code keeps it, and no other turn of the lexer changes
    it. For a linear move (G0, G1) each axis whose parameter is set takes the
    value of the parameter in absolute mode and has it added in relative
    mode; an axis whose parameter is not set keeps its coordinate. *)
Theorem positioning_mode_and_axis_update :
  isAbsPos (geom init_lexer) = true
  /\ (forall (F : bool) (buf : list ascii) (s : tLexer) (it : Z) (ch : ascii),
        state s = ST_GCODE -> is_line_end ch = true ->
        exists s', step F buf s it ch = Running s'
                   /\ geom s' = gcode_end (end_of_token buf s) (geom s))
  /\ (forall (c : tCmd) (g : tGeom),
        code c = G_ 90 -> isAbsPos (gcode_end c g) = true)
  /\ (forall (c : tCmd) (g : tGeom),
        code c = G_ 91 -> isAbsPos (gcode_end c g) = false)
  /\ (forall (c : tCmd) (g : tGeom),
        code c <> G_ 90 -> code c <> G_ 91 ->
        isAbsPos (gcode_end c g) = isAbsPos g)
  /\ (forall (F : bool) (buf : list ascii) (s : tLexer) (it : Z) (ch : ascii)
             (s' : tLexer),
        step F buf s it ch = Running s' ->
        isAbsPos (geom s') <> isAbsPos (geom s) ->
        state s = ST_GCODE /\ is_line_end ch = true
        /\ (code (end_of_token buf s) = G_ 90 \/ code (end_of_token buf s) = G_ 91))
  /\ (forall (c : tCmd) (g : tGeom),
        code c = G_ 0 \/ code c = G_ 1 ->
        x (gcode_end c g)
        = (if IS_SET (paramX c)
           then (if isAbsPos g then paramX c else f_add (x g) (paramX c))
           else x g)
        /\ y (gcode_end c g)
           = (if IS_SET (paramY c)
              then (if isAbsPos g then paramY c else f_add (y g) (paramY c))
              else y g)
        /\ z (gcode_end c g)
           = (if IS_SET (paramZ c)
              then (if isAbsPos g then paramZ c else f_add (z g) (paramZ c))
              else z g)).
Proof.
  split; [ reflexivity | ].
  split; [ exact step_command_end | ].
  split; [ intros c g H; now rewrite gcode_end_G90 | ].
  split; [ intros c g H; now rewrite gcode_end_G91 | ].
  split; [ exact gcode_end_mode_kept | ].
  split; [ exact step_mode_change | ].
  exact gcode_end_linear.
Qed.

(** The file "G1 X5 / G91 / G1 X2 Y1 / G90 / G1 Z3": x is set to 5, then 2
    is added to it; y is not set and stays so; z is set to 3 in the absolute
    mode that G90 brings back. *)
Lemma positioning_mode_and_axis_update_witness :
  (exists s', step false [] (set_state init_lexer ST_GCODE) 0 LF = Running s')
  /\ isAbsPos (gcode_end (mkCmd (G_ 91) NAN NAN NAN NAN) init_geom) = false
  /\ exists s, lex false (unlines ["G1 X5"; "G91"; "G1 X2 Y1"; "G90"; "G1 Z3"])
               = Running s
       /\ x (geom s) = f_of_Z 7 /\ y (geom s) = NAN /\ z (geom s) = f_of_Z 3
       /\ isAbsPos (geom s) = true.
Proof.
  split; [ | split ].
  - destruct (proj1 (proj2 positioning_mode_and_axis_update)
                false [] (set_state init_lexer ST_GCODE) 0 LF eq_refl eq_refl)
      as (s' & H & _).
    exists s'. exact H.
  - apply (proj1 (proj2 (proj2 (proj2 positioning_mode_and_axis_update)))).
    reflexivity.
  - eexists. split; [ vm_compute; reflexivity | ].
    vm_compute. auto.
Defined.

(** * Claims on the tokens of the metadata *)

Ltac lexer_simpl_in H :=
  cbn [state param aToken valueToken lineStart lineNr origThumbnailLines
       origThumbnail cmd geom slots set_state set_param set_aToken
       set_valueToken set_lineStart set_lineNr set_origThumbnailLines
       set_origThumbnail set_cmd set_geom set_slots tok_start tok_length
       is_null null_token] in H.

Ltac lexer_simpl :=
  cbn [state param aToken valueToken lineStart lineNr origThumbnailLines
       origThumbnail cmd geom slots set_state set_param set_aToken
       set_valueToken set_lineStart set_lineNr set_origThumbnailLines
       set_origThumbnail set_cmd set_geom set_slots tok_start tok_length
       is_null null_token].

(** All the ways through the [switch (state)]. *)
Ltac switch_split H :=
  unfold switch_state in H;
  match type of H with
  | context [match state ?s with _ => _ end] => destruct (state s) eqn:?
  end;
  unfold step_LINE_START, step_FIND_LINE_START, step_GCODE, step_COMMENT,
    step_PARAMETER_VALUE, step_THUMBNAIL, step_THUMBNAIL_TAIL in H;
  cbv zeta in H;
  repeat (lexer_simpl_in H;
          match type of H with
          | context [key_slot ?b ?t] => destruct (key_slot b t) eqn:?
          | context [if ?b then _ else _] => destruct b eqn:?
          | context [match ?o with Some _ => _ | None => _ end] => destruct o eqn:?
          end);
  lexer_simpl_in H;
  try discriminate H.

Ltac switch_cases H := switch_split H; injection H as <-; lexer_simpl.

Lemma key_slot_range (buf : list ascii) (t : tPToken) (k : tSlot) :
  key_slot buf t = Some k -> k <> nozzleTemp1 /\ k <> thumbnail.
Proof.
  unfold key_slot. intro H. break_ifs_in H; try discriminate;
    injection H as <-; split; discriminate.
Qed.

Lemma set_slot_same (m : tSlots) (k : tSlot) (t : tPToken) : set_slot m k t k = t.
Proof. unfold set_slot. now destruct k. Qed.

Lemma set_slot_other (m : tSlots) (k k' : tSlot) (t : tPToken) :
  k <> k' -> set_slot m k t k' = m k'.
Proof. unfold set_slot. destruct k, k'; simpl; congruence. Qed.

Lemma tSlot_eq_dec (a b : tSlot) : {a = b} + {a <> b}.
Proof. decide equality. Defined.

Lemma tSlot_eqb_eq (a b : tSlot) : tSlot_eqb a b = true <-> a = b.
Proof. destruct a, b; simpl; split; congruence. Qed.

Lemma switch_state_slot_start (F : bool) (buf : list ascii) (s : tLexer) (it : Z)
      (ch : ascii) (s' : tLexer) (k : tSlot) (a : Z) :
  switch_state F buf s it ch = Running s' ->
  tok_start (slots s k) = Some a -> tok_start (slots s' k) = Some a.
Proof.
  intros H Hk. switch_cases H; try assumption;
    match goal with
    | |- context [set_slot _ ?k0 _ k] =>
      destruct (tSlot_eq_dec k0 k) as [ <- | N ];
        [ rewrite set_slot_same | rewrite set_slot_other by exact N; exact Hk ]
    end; simpl; congruence.
Qed.

Lemma lexer_inv_end_of_turn (F : bool) (s : tLexer) (it : Z) (ch : ascii) :
  lexer_inv F s -> lexer_inv F (end_of_turn s it ch).
Proof.
  unfold lexer_inv.
  now rewrite state_end_of_turn, valueToken_end_of_turn, slots_end_of_turn,
    origThumbnail_end_of_turn.
Qed.

Lemma lexer_inv_init (F : bool) : lexer_inv F init_lexer.
Proof.
  unfold lexer_inv; simpl. repeat split; try discriminate; try congruence.
Qed.

Lemma is_null_true (t : tPToken) : is_null t = true <-> tok_start t = None.
Proof. unfold is_null. destruct (tok_start t); split; congruence. Qed.

Lemma is_null_false (t : tPToken) : is_null t = false <-> tok_start t <> None.
Proof. unfold is_null. destruct (tok_start t); split; congruence. Qed.

Ltac norm_hyps :=
  repeat match goal with
         | E : is_null _ = true |- _ => apply is_null_true in E
         | E : is_null _ = false |- _ => apply is_null_false in E
         | E : tSlot_eqb _ _ = true |- _ => apply tSlot_eqb_eq in E; subst
         | E : _ && _ = true |- _ => apply andb_prop in E; destruct E
         | E : _ && _ = false |- _ => apply andb_false_iff in E; destruct E
         end.

Ltac split_slots :=
  unfold set_slot in *;
  repeat match goal with
         | |- context [if tSlot_eqb ?a ?b then _ else _] =>
           destruct (tSlot_eqb a b) eqn:?
         | _ : context [if tSlot_eqb ?a ?b then _ else _] |- _ =>
           destruct (tSlot_eqb a b) eqn:?
         end;
  cbn [tok_start tok_length] in *.

(** Modus ponens with the premises that follow from the equations at hand. *)
Ltac saturate :=
  repeat match goal with
         | E : Some _ = Some _ |- _ => injection E as E; try subst
         end;
  repeat match goal with
         | Himp : ?P -> ?Q |- _ =>
           let HP := fresh in
           assert (HP : P) by congruence; specialize (Himp HP); clear HP
         end.

Ltac inv_solve :=
  saturate;
  try solve [ intuition congruence ];
  try solve [ match goal with
              | s : tLexer |- _ =>
                destruct (tok_start (slots s nozzleTemp1)) eqn:?;
                saturate; intuition congruence
              end ].

Lemma switch_state_inv (F : bool) (buf : list ascii) (s : tLexer) (it : Z)
      (ch : ascii) (s' : tLexer) :
  lexer_inv F s -> switch_state F buf s it ch = Running s' -> lexer_inv F s'.
Proof.
  unfold lexer_inv. intros (Hpv & Hth & H0 & H1 & H10 & Ht & Htt) H.
  assert (Hv : state s <> ST_PARAMETER_VALUE -> valueToken s = None).
  { intro N. destruct (valueToken s) eqn:Ev; [ | reflexivity ].
    contradiction N. apply Hpv. discriminate. }
  switch_cases H;
    try (rewrite Hv in * by discriminate);
    try match goal with
        | E : key_slot _ _ = Some _ |- _ => destruct (key_slot_range _ _ _ E)
        end;
    norm_hyps;
    repeat split; intros; split_slots; norm_hyps;
    try discriminate; try congruence; try tauto; inv_solve.
Qed.

Lemma switch_state_no_fault (F : bool) (buf : list ascii) (s : tLexer) (it : Z)
      (ch : ascii) :
  lexer_inv F s -> switch_state F buf s it ch <> Fault.
Proof.
  unfold lexer_inv. intros (Hpv & _ & _ & _ & _ & Ht & Htt) H.
  switch_split H; norm_hyps; subst; saturate; intuition congruence.
Qed.

Lemma capturing_end_of_turn (s : tLexer) (it : Z) (ch : ascii) (k : tSlot) :
  capturing (end_of_turn s it ch) k <-> capturing s k.
Proof.
  unfold capturing. now rewrite state_end_of_turn, valueToken_end_of_turn.
Qed.

(** A token that has a start and is not being written stays as it is. *)
Lemma switch_state_frozen (F : bool) (buf : list ascii) (s : tLexer) (it : Z)
      (ch : ascii) (s' : tLexer) (k : tSlot) :
  lexer_inv F s ->
  switch_state F buf s it ch = Running s' ->
  tok_start (slots s k) <> None ->
  ~ capturing s k ->
  slots s' k = slots s k /\ ~ capturing s' k.
Proof.
  unfold lexer_inv, capturing.
  intros (Hpv & Hth & H0 & H1 & H10 & Ht & Htt) H Hk Hc.
  assert (Hv : state s <> ST_PARAMETER_VALUE -> valueToken s = None).
  { intro N. destruct (valueToken s) eqn:Ev; [ | reflexivity ].
    contradiction N. apply Hpv. discriminate. }
  switch_cases H;
    try (rewrite Hv in * by discriminate);
    norm_hyps;
    (split;
     [ try reflexivity;
       match goal with
       | |- set_slot _ ?k0 _ k = _ =>
         destruct (tSlot_eq_dec k0 k) as [ <- | N ];
           [ exfalso | now rewrite set_slot_other by exact N ]
       end
     | intros [Hn | [Hn Hs]]; try discriminate ]);
    try tauto; try congruence; inv_solve.
Qed.

Lemma step_lexer_inv (F : bool) (buf : list ascii) (s : tLexer) (it : Z)
      (ch : ascii) (s' : tLexer) :
  lexer_inv F s -> step F buf s it ch = Running s' -> lexer_inv F s'.
Proof.
  intros Hs H. apply step_inv in H. destruct H as (s1 & H1 & ->).
  apply lexer_inv_end_of_turn. exact (switch_state_inv F buf s it ch s1 Hs H1).
Qed.

Lemma step_no_fault (F : bool) (buf : list ascii) (s : tLexer) (it : Z) (ch : ascii) :
  lexer_inv F s -> step F buf s it ch <> Fault.
Proof.
  intros Hs. unfold step.
  destruct (switch_state F buf s it ch) eqn:E; try discriminate.
  now apply switch_state_no_fault in E.
Qed.

(** The pass never uses a null pointer. *)
Lemma lex_loop_no_fault (F : bool) (buf l : list ascii) :
  forall s it, lexer_inv F s -> lex_loop F buf s it l <> Fault.
Proof.
  induction l as [ | ch l IH ]; simpl; intros s it Hs; [ discriminate | ].
  destruct (step F buf s it ch) as [ s1 | | ] eqn:E; try discriminate.
  - apply IH. exact (step_lexer_inv F buf s it ch s1 Hs E).
  - now apply step_no_fault in E.
Qed.

Lemma lex_no_fault (F : bool) (buf : list ascii) : lex F buf <> Fault.
Proof.
  unfold lex. exact (lex_loop_no_fault F buf buf init_lexer 0 (lexer_inv_init F)).
Qed.

Lemma lex_loop_slot_start (F : bool) (buf l : list ascii) (k : tSlot) (a : Z) :
  forall s it s',
    lex_loop F buf s it l = Running s' ->
    tok_start (slots s k) = Some a -> tok_start (slots s' k) = Some a.
Proof.
  induction l as [ | ch l IH ]; simpl; intros s it s' H Hk.
  - now injection H as <-.
  - destruct (step F buf s it ch) as [ s1 | | ] eqn:E; try discriminate.
    apply (IH s1 (it + 1) s' H).
    apply step_inv in E. destruct E as (s2 & E & ->).
    rewrite slots_end_of_turn.
    exact (switch_state_slot_start F buf s it ch s2 k a E Hk).
Qed.

Lemma lex_loop_frozen (F : bool) (buf l : list ascii) (k : tSlot) :
  forall s it s',
    lexer_inv F s ->
    lex_loop F buf s it l = Running s' ->
    tok_start (slots s k) <> None ->
    ~ capturing s k ->
    slots s' k = slots s k.
Proof.
  induction l as [ | ch l IH ]; simpl; intros s it s' Hs H Hk Hc.
  - now injection H as <-.
  - destruct (step F buf s it ch) as [ s1 | | ] eqn:E; try discriminate.
    pose proof (step_lexer_inv F buf s it ch s1 Hs E) as Hs1.
    apply step_inv in E. destruct E as (s2 & E & ->).
    destruct (switch_state_frozen F buf s it ch s2 k Hs E Hk Hc) as [Hsl Hc2].
    rewrite <- Hsl, <- (slots_end_of_turn s2 it ch).
    apply (IH _ (it + 1) s' Hs1 H).
    + rewrite slots_end_of_turn, Hsl. exact Hk.
    + now rewrite capturing_end_of_turn.
Qed.

Lemma lex_upto_split (F : bool) (buf : list ascii) (n m : nat) (s2 : tLexer) :
  (n <= m)%nat ->
  lex_upto F buf m = Running s2 ->
  exists s1 it l,
    lex_upto F buf n = Running s1 /\ lex_loop F buf s1 it l = Running s2.
Proof.
  intros Hnm H. unfold lex_upto in *.
  assert (Hsplit : firstn m buf = firstn n buf ++ skipn n (firstn m buf)).
  { rewrite <- (firstn_skipn n (firstn m buf)) at 1.
    now rewrite firstn_firstn, Nat.min_l. }
  rewrite Hsplit, lex_loop_app in H.
  destruct (lex_loop F buf init_lexer 0 (firstn n buf)) as [ s1 | | ];
    try discriminate.
  eauto.
Qed.

Lemma lex_upto_inv (F : bool) (buf : list ascii) (n : nat) (s : tLexer) :
  lex_upto F buf n = Running s -> lexer_inv F s.
Proof.
  unfold lex_upto. apply (lex_loop_invariant F buf (lexer_inv F)).
  - intros s0 it ch s' H0 H. exact (step_lexer_inv F buf s0 it ch s' H0 H).
  - apply lexer_inv_init.
Qed.

(** A later match of a key whose token has a start is thrown away: the rest
    of the line is skipped and no token changes. *)
Lemma step_duplicate_key (F : bool) (buf : list ascii) (s : tLexer) (it : Z)
      (k : tSlot) :
  state s = ST_COMMENT ->
  valueToken s = None ->
  tok_start (aToken s) <> None ->
  0 < tok_length (aToken s) ->
  key_slot buf (aToken s) = Some k ->
  tok_start (slots s k) <> None ->
  exists s', step F buf s it "="%char = Running s'
             /\ state s' = ST_FIND_LINE_START /\ valueToken s' = None
             /\ slots s' = slots s.
Proof.
  intros St Hv Ha Hlen Hkey Hk. unfold step, switch_state. rewrite St.
  unfold step_COMMENT. change (Ascii.eqb "=" LF) with false. cbv iota.
  destruct (tok_start (aToken s)) as [ a | ] eqn:Ea; [ | contradiction ].
  change (Ascii.eqb "=" " ") with false. rewrite andb_false_l.
  change (Ascii.eqb "=" "=") with true. cbv iota zeta.
  replace (tok_length (aToken s) =? 0) with false by (symmetry; apply Z.eqb_neq; lia).
  rewrite Hkey. lexer_simpl.
  apply is_null_false in Hk. rewrite Hk.
  eexists. split; [ reflexivity | ].
  rewrite state_end_of_turn, valueToken_end_of_turn, slots_end_of_turn.
  now lexer_simpl.
Qed.

(** C8. Only the first value of a key is captured. Once the token of a key
    has a start, the start never changes; once it has a start and the lexer
    is no longer writing it (the line of the value, or the thumbnail block,
    has ended), the token, start and length, never changes again, whatever
    follows in the file. A later comment with the same key is discarded: the
    lexer skips the rest of that line. In a file with the lines
    "; layer_height = 0.2" and "; layer_height = 0.3" the token is "0.2". *)
Theorem first_value_wins :
  (forall (F : bool) (buf : list ascii) (n m : nat) (s1 s2 : tLexer) (k : tSlot),
     (n <= m)%nat ->
     lex_upto F buf n = Running s1 ->
     lex_upto F buf m = Running s2 ->
     tok_start (slots s1 k) <> None ->
     tok_start (slots s2 k) = tok_start (slots s1 k)
     /\ (~ capturing s1 k -> slots s2 k = slots s1 k))
  /\ (forall (F : bool) (buf : list ascii) (s : tLexer) (it : Z) (k : tSlot),
        state s = ST_COMMENT ->
        valueToken s = None ->
        tok_start (aToken s) <> None ->
        0 < tok_length (aToken s) ->
        key_slot buf (aToken s) = Some k ->
        tok_start (slots s k) <> None ->
        exists s', step F buf s it "="%char = Running s'
                   /\ state s' = ST_FIND_LINE_START /\ valueToken s' = None
                   /\ slots s' = slots s)
  /\ (exists s, lex false input_two_layer_heights = Running s
                /\ token_chars input_two_layer_heights (slots s layerHeight)
                   = chars "0.2").
Proof.
  split; [ | split ].
  - intros F buf n m s1 s2 k Hnm H1 H2 Hk.
    destruct (lex_upto_split F buf n m s2 Hnm H2) as (s1' & it & l & H1' & Hl).
    rewrite H1 in H1'. injection H1' as <-.
    split.
    + destruct (tok_start (slots s1 k)) as [ a | ] eqn:Ea; [ | contradiction ].
      exact (lex_loop_slot_start F buf l k a s1 it s2 Hl Ea).
    + intro Hc.
      exact (lex_loop_frozen F buf l k s1 it s2 (lex_upto_inv F buf n s1 H1) Hl Hk Hc).
  - exact step_duplicate_key.
  - eexists. split; vm_compute; reflexivity.
Qed.

Lemma first_value_wins_witness :
  exists s1 s2,
    lex_upto false input_two_layer_heights 21%nat = Running s1
    /\ lex_upto false input_two_layer_heights 48%nat = Running s2
    /\ tok_start (slots s2 layerHeight) = tok_start (slots s1 layerHeight)
    /\ slots s2 layerHeight = slots s1 layerHeight.
Proof.
  eexists. eexists.
  split; [ vm_compute; reflexivity | ].
  split; [ vm_compute; reflexivity | ].
  split.
  - apply (proj1 first_value_wins false input_two_layer_heights 21%nat 48%nat);
      [ lia | vm_compute; reflexivity | vm_compute; reflexivity
      | vm_compute; discriminate ].
  - apply (proj1 first_value_wins false input_two_layer_heights 21%nat 48%nat);
      [ lia | vm_compute; reflexivity | vm_compute; reflexivity
      | vm_compute; discriminate
      | intros [H | [H _]]; vm_compute in H; discriminate H ].
Defined.

(** * The calls of the callback and the rewritten file *)

Lemma check_missing_calls (cb : tCallback) (s : tLexer) (l : list (tSlot * tMessage)) :
  Forall (fun p => is_warning (snd p) = true) l ->
  forall tr tr' go_on,
    check_missing cb s l tr = (tr', go_on) ->
    exists cs,
      tr' = tr ++ List.map EvCallback cs
      /\ Forall (fun c => is_warning_call c = true /\ call_line c = lineNr s) cs
      /\ (go_on = true -> Forall (fun c => call_ret c = 1) cs)
      /\ (go_on = false ->
          exists cs' c, cs = cs' ++ [c] /\ call_ret c <> 1
                        /\ Forall (fun c => call_ret c = 1) cs').
Proof.
  induction 1 as [ | [k msg] l Hmsg Hl IH ]; simpl; intros tr tr' go_on H.
  - injection H as <- <-. exists []. rewrite app_nil_r.
    repeat split; auto. discriminate.
  - destruct (is_missing (slots s k)); [ | now apply IH ].
    destruct (cb tr msg (lineNr s) =? 1) eqn:E.
    + apply IH in H. destruct H as (cs & -> & Hcs & Hgo & Hstop).
      exists (mkCall msg (lineNr s) (cb tr msg (lineNr s)) :: cs).
      unfold invoke. rewrite <- app_assoc. simpl. split; [ reflexivity | ].
      split; [ constructor; auto | ].
      apply Z.eqb_eq in E. split.
      * intro Hg. constructor; auto.
      * intro Hg. destruct (Hstop Hg) as (cs' & c & -> & Hc & Hcs').
        exists (mkCall msg (lineNr s) (cb tr msg (lineNr s)) :: cs'), c.
        repeat split; auto.
    + injection H as <- <-. apply Z.eqb_neq in E.
      exists [mkCall msg (lineNr s) (cb tr msg (lineNr s))].
      unfold invoke. simpl. repeat split; auto; try discriminate.
      intros _. exists [], (mkCall msg (lineNr s) (cb tr msg (lineNr s))).
      repeat split; auto.
Qed.

Lemma checked_tokens_warnings :
  Forall (fun p => is_warning (snd p) = true) checked_tokens.
Proof. repeat constructor. Qed.

Lemma lineNr_correct_minZ (buf : list ascii) (s : tLexer) :
  lineNr (correct_minZ buf s) = lineNr s.
Proof. unfold correct_minZ. now break_ifs. Qed.

Lemma remaining_file_fwrite (F : bool) (io : tIO) (buf : list ascii) (s : tLexer)
      (ws : list tWrite) (ok : bool) :
  remaining_file F io buf s = (ws, ok) ->
  Forall (fun w => exists bytes, w = fwrite bytes) ws.
Proof.
  unfold remaining_file. intro H.
  break_ifs_in H; injection H as <- <-; repeat constructor; eauto.
Qed.

#[local] Arguments check_missing : simpl never.
#[local] Arguments header : simpl never.
#[local] Arguments remaining_file : simpl never.
#[local] Arguments lex : simpl never.
#[local] Arguments correct_minZ : simpl never.

Lemma Created_eq (F : bool) (V : string) (io : tIO) (cb : tCallback) (s : tLexer)
      (cs : list tCall) (ws : list tWrite) (tail tr : list tEvent) (res : Z) :
  lex F (file_bytes io) = Running s ->
  Forall (fun c => is_warning_call c = true /\ call_line c = lineNr s
                   /\ call_ret c = 1) cs ->
  Forall (fun w => exists bytes, w = fwrite bytes) ws ->
  tr = List.map EvCallback cs
       ++ EvCreate
       :: List.map EvWrite
            (header F V (file_bytes io) (correct_minZ (file_bytes io) s))
       ++ List.map EvWrite ws ++ tail ->
  (res = 1 /\ tail = [])
  \/ (res = 0 /\ exists c, call_msg c = MSGT_ERR_FILE_WRITE
                           /\ tail = [EvCallback c]) ->
  tCourse F V io cb (mkReturn res tr).
Proof. intros H1 H2 H3 -> H4. now apply Created. Qed.

Ltac list_eq :=
  cbn [List.map app];
  rewrite <- ?app_assoc, <- ?app_comm_cons, ?app_nil_r;
  cbn [List.map app];
  reflexivity.

Lemma processFile_course (F : bool) (V : string) (io : tIO) (cb : tCallback) :
  exists r, processFile F V io cb = Some r /\ tCourse F V io cb r.
Proof.
  unfold processFile, on_error, invoke.
  destruct (fopen_rb_ok io) eqn:Eo; cbn [negb].
  2:{ eexists. split; [ reflexivity | ].
      apply NoPass; [ left; eexists; split; [ | reflexivity ]; reflexivity | auto ]. }
  destruct (Z.of_nat (List.length (file_bytes io)) <? 1) eqn:El.
  { eexists. split; [ reflexivity | ]. apply NoPass; [ now right | ].
    right; left. apply Z.ltb_lt in El. destruct (file_bytes io); [ reflexivity | ].
    simpl in El. lia. }
  destruct (malloc_ok io) eqn:Em; cbn [negb].
  2:{ eexists. split; [ reflexivity | ].
      apply NoPass; [ left; eexists; split; [ | reflexivity ]; reflexivity | auto ]. }
  destruct (fread_ok io) eqn:Er; cbn [negb].
  2:{ eexists. split; [ reflexivity | ].
      apply NoPass; [ left; eexists; split; [ | reflexivity ]; reflexivity
                    | auto 6 ]. }
  destruct (lex F (file_bytes io)) as [ s | | ] eqn:Elex.
  3:{ now apply lex_no_fault in Elex. }
  2:{ eexists. split; [ reflexivity | ]. apply NoPass; auto. }
  destruct (check_missing cb (correct_minZ (file_bytes io) s) checked_tokens [])
    as [tr go_on] eqn:Ec.
  destruct (check_missing_calls cb _ _ checked_tokens_warnings _ _ _ Ec)
    as (cs & Htr & Hcs & Hgo & Hstop).
  cbn [app] in Htr. subst tr. rewrite lineNr_correct_minZ in *.
  destruct go_on; cbn [negb].
  - specialize (Hgo eq_refl).
    assert (Hall : Forall (fun c => is_warning_call c = true
                                    /\ call_line c = lineNr s /\ call_ret c = 1) cs).
    { rewrite Forall_forall in *. intros c Hc.
      destruct (Hcs c Hc). split; [ | split ]; auto. }
    destruct (fopen_wb_ok io); cbn [negb].
    + destruct (ferror_fp io).
      * eexists. split; [ reflexivity | ].
        eapply (Created_eq F V io cb s cs [] [EvCallback _]);
          [ exact Elex | exact Hall | constructor | | ].
        -- list_eq.
        -- right. split; [ reflexivity | ]. eexists. split; [ | reflexivity ]. reflexivity.
      * destruct (remaining_file F io (file_bytes io) (correct_minZ (file_bytes io) s))
          as [ws ok] eqn:Erem.
        pose proof (remaining_file_fwrite _ _ _ _ _ _ Erem) as Hws.
        destruct ok.
        -- eexists. split; [ reflexivity | ].
           eapply (Created_eq F V io cb s cs ws []);
             [ exact Elex | exact Hall | exact Hws | | now left ].
           list_eq.
        -- eexists. split; [ reflexivity | ].
           eapply (Created_eq F V io cb s cs ws [EvCallback _]);
             [ exact Elex | exact Hall | exact Hws | | ].
           ++ list_eq.
           ++ right. split; [ reflexivity | ]. eexists. split; [ | reflexivity ].
              reflexivity.
    + eexists. split; [ reflexivity | ].
      apply (NotCreated F V io cb s cs); auto.
  - destruct (Hstop eq_refl) as (cs' & c & -> & Hc & Hcs').
    eexists. split; [ reflexivity | ].
    apply Forall_app in Hcs. destruct Hcs as [Hcs1 Hcs2].
    inversion Hcs2 as [ | ? ? [Hw Hl] _ ]; subst.
    rewrite map_app. cbn [List.map]. apply (Refused F V io cb s cs' c); auto.
    rewrite Forall_forall in *. intros c' Hc'.
    destruct (Hcs1 c' Hc'). split; [ | split ]; auto.
Qed.

(** * The header *)

Lemma thumbnail_runs_fwrite (l : list ascii) :
  forall run w, In w (thumbnail_runs l run) -> exists bytes, w = fwrite bytes.
Proof.
  induction l as [ | ch l IH ]; simpl; intros run w H; [ destruct H | ].
  destruct (is_base64 ch); [ now apply IH in H | ].
  destruct run; [ now apply IH in H | ].
  destruct H as [ <- | H ]; [ eauto | now apply IH in H ].
Qed.

(** Splits [In w (header ...)] into the calls of the header and drops those
    whose format is another one. *)
Ltac header_cases H :=
  unfold header in H;
  repeat (rewrite in_app_iff in H || cbn [In] in H);
  repeat match type of H with
         | _ \/ _ => destruct H as [H | H]
         end;
  try contradiction;
  try match type of H with
      | fprintf ?f _ = fprintf ?g _ =>
        let Hf := fresh "Hf" in
        let Ha := fresh "Ha" in
        injection H as Hf Ha;
        try (vm_compute in Hf; discriminate Hf)
      end.

Lemma header_nozzle_1_temperature (F : bool) (V : string) (buf : list ascii)
      (s : tLexer) (args : list tArg) :
  In (fprintf fmt_nozzle_1_temperature args) (header F V buf s) <->
  f_lt f_tenth (nozzleTemp1Val buf s) = true
  /\ args = [ArgFloat (nozzleTemp1Val buf s)].
Proof.
  split.
  - intro H. header_cases H.
    + destruct (hasThumbnail s); [ | destruct H ].
      destruct H as [H | H]; [ injection H as Hf _; vm_compute in Hf; discriminate Hf | ].
      apply in_app_iff in H. destruct H as [H | [H | []]].
      * apply thumbnail_runs_fwrite in H. destruct H as (b & H). discriminate H.
      * injection H as Hf _. vm_compute in Hf. discriminate Hf.
    + destruct (f_lt f_tenth (nozzleTemp1Val buf s)); [ | destruct H ].
      destruct H as [H | []]. injection H as <-. auto.
  - intros [Hlt ->]. unfold header. rewrite !in_app_iff. right. right. right. left.
    rewrite Hlt. now left.
Qed.

Lemma header_file_total_lines (F : bool) (V : string) (buf : list ascii)
      (s : tLexer) (args : list tArg) :
  In (fprintf fmt_file_total_lines args) (header F V buf s) <->
  args = [ArgULong (file_total_lines F buf s)].
Proof.
  split.
  - intro H. header_cases H.
    + destruct (hasThumbnail s); [ | destruct H ].
      destruct H as [H | H]; [ injection H as Hf _; vm_compute in Hf; discriminate Hf | ].
      apply in_app_iff in H. destruct H as [H | [H | []]].
      * apply thumbnail_runs_fwrite in H. destruct H as (b & H). discriminate H.
      * injection H as Hf _. vm_compute in Hf. discriminate Hf.
    + congruence.
    + destruct (f_lt f_tenth (nozzleTemp1Val buf s)); [ | destruct H ].
      destruct H as [H | []]. injection H as Hf _. vm_compute in Hf. discriminate Hf.
  - intros ->. unfold header. rewrite !in_app_iff. right. right. left. now left.
Qed.

Lemma header_thumbnail (F : bool) (V : string) (buf : list ascii) (s : tLexer)
      (args : list tArg) :
  In (fprintf fmt_thumbnail args) (header F V buf s) <->
  hasThumbnail s = true /\ args = [].
Proof.
  split.
  - intro H. header_cases H.
    + destruct (hasThumbnail s); [ | destruct H ].
      destruct H as [H | H]; [ injection H as <-; auto | ].
      apply in_app_iff in H. destruct H as [H | [H | []]].
      * apply thumbnail_runs_fwrite in H. destruct H as (b & H). discriminate H.
      * injection H as Hf _. vm_compute in Hf. discriminate Hf.
    + destruct (f_lt f_tenth (nozzleTemp1Val buf s)); [ | destruct H ].
      destruct H as [H | []]. injection H as Hf _. vm_compute in Hf. discriminate Hf.
  - intros [Hth ->]. unfold header. rewrite !in_app_iff. right. left.
    rewrite Hth. now left.
Qed.

(** * Traces *)

Lemma writes_of_callbacks (cs : list tCall) (tr : list tEvent) :
  writes_of (List.map EvCallback cs ++ tr) = writes_of tr.
Proof. induction cs; simpl; auto. Qed.

Lemma writes_of_writes (ws : list tWrite) (tr : list tEvent) :
  writes_of (List.map EvWrite ws ++ tr) = ws ++ writes_of tr.
Proof. induction ws; simpl; congruence. Qed.

Lemma calls_of_callbacks (cs : list tCall) (tr : list tEvent) :
  calls_of (List.map EvCallback cs ++ tr) = cs ++ calls_of tr.
Proof. induction cs; simpl; congruence. Qed.

Lemma calls_of_writes (ws : list tWrite) (tr : list tEvent) :
  calls_of (List.map EvWrite ws ++ tr) = calls_of tr.
Proof. induction ws; simpl; auto. Qed.

Lemma file_after_callbacks (cs : list tCall) (tr : list tEvent) :
  file_after (List.map EvCallback cs ++ tr) = file_after tr.
Proof. induction cs; simpl; auto. Qed.

Lemma after_create_callbacks (cs : list tCall) (tr : list tEvent) :
  after_create (List.map EvCallback cs ++ tr) = after_create tr.
Proof. induction cs; simpl; auto. Qed.

Lemma in_callbacks (cs : list tCall) (e : tEvent) :
  In e (List.map EvCallback cs) -> exists c, e = EvCallback c /\ In c cs.
Proof.
  intro H. apply in_map_iff in H. destruct H as (c & <- & Hc). eauto.
Qed.

Lemma in_writes (ws : list tWrite) (w : tWrite) :
  In (EvWrite w) (List.map EvWrite ws) <-> In w ws.
Proof.
  rewrite in_map_iff. split.
  - intros (w' & E & H). now injection E as <-.
  - intro H. eauto.
Qed.

(** The trace of a run that created the file anew. *)
Lemma created_trace (cs : list tCall) (h ws : list tWrite) (tail : list tEvent)
      (tr : list tEvent) :
  tr = List.map EvCallback cs ++ EvCreate :: List.map EvWrite h
       ++ List.map EvWrite ws ++ tail ->
  tail = [] \/ (exists c, tail = [EvCallback c]) ->
  writes_of tr = h ++ ws
  /\ file_after tr = Rewritten (h ++ ws)
  /\ calls_of tr = cs ++ calls_of tail
  /\ after_create tr = List.map EvWrite h ++ List.map EvWrite ws ++ tail.
Proof.
  intros -> Htail.
  assert (Hw : writes_of tail = []) by (destruct Htail as [-> | (c & ->)]; reflexivity).
  rewrite writes_of_callbacks, file_after_callbacks, calls_of_callbacks,
    after_create_callbacks.
  cbn [writes_of file_after calls_of after_create].
  rewrite !writes_of_writes, !calls_of_writes, Hw, app_nil_r. auto.
Qed.

(** C4. Every warning about missing metadata reaches the callback after the
    pass is over (the pass has run to its end, and the call carries the line
    number the pass ended with) and before the file is created anew (the only
    call that can follow the creation is the report of a write error). If
    the callback answers a warning with anything but 1, [processFile]
    returns 0, the file is left unchanged and that call is the last thing
    done: the callback stops the run neither during the pass nor while the
    file is written. *)
Theorem warnings_after_pass_before_rewrite :
  forall (F : bool) (V : string) (io : tIO) (cb : tCallback) (r : tReturn),
    processFile F V io cb = Some r ->
    (forall c, In c (calls_of (trace r)) -> is_warning_call c = true ->
               exists s, lex F (file_bytes io) = Running s
                         /\ call_line c = lineNr s)
    /\ (forall c, In c (calls_of (after_create (trace r))) ->
                  call_msg c = MSGT_ERR_FILE_WRITE)
    /\ (forall c, In c (calls_of (trace r)) -> is_warning_call c = true ->
                  call_ret c <> 1 ->
                  res r = 0 /\ file_after (trace r) = Unchanged
                  /\ exists tr, trace r = tr ++ [EvCallback c]).
Proof.
  intros F V io cb r H.
  destruct (processFile_course F V io cb) as (r' & H' & Hcourse).
  rewrite H in H'. injection H' as <-.
  destruct Hcourse as [ r [(c0 & Hc0 & ->) | ->] _
                      | s cs c0 Hlex Hcs Hw Hl Hret
                      | s cs c0 Hlex Hcs Hmsg
                      | s cs ws tail rs Hlex Hcs Hws Htail ];
    cbn [trace res].
  - cbn. split; [ | split ]; try contradiction.
    + intros c1 [<- | []] Hc1. congruence.
    + intros c1 [<- | []] Hc1. congruence.
  - cbn. repeat split; contradiction.
  - rewrite calls_of_callbacks, after_create_callbacks, file_after_callbacks.
    cbn [calls_of after_create file_after app]. rewrite Forall_forall in Hcs.
    split; [ | split ]; [ | contradiction | ].
    + intros c Hin _. exists s. split; [ exact Hlex | ].
      apply in_app_iff in Hin. destruct Hin as [Hin | [<- | []]]; auto.
      now apply Hcs.
    + intros c Hin _ Hc. apply in_app_iff in Hin.
      destruct Hin as [Hin | [<- | []]]; [ | eauto ].
      apply Hcs in Hin. tauto.
  - rewrite calls_of_callbacks, after_create_callbacks, file_after_callbacks.
    cbn [calls_of after_create file_after app]. rewrite Forall_forall in Hcs.
    assert (Hc0 : is_warning_call c0 = false)
      by (unfold is_warning_call; now rewrite Hmsg).
    split; [ | split ]; [ | contradiction | ].
    + intros c Hin Hc. exists s. split; [ exact Hlex | ].
      apply in_app_iff in Hin. destruct Hin as [Hin | [<- | []]]; [ | congruence ].
      now apply Hcs.
    + intros c Hin Hw Hc. apply in_app_iff in Hin.
      destruct Hin as [Hin | [<- | []]]; [ | congruence ].
      apply Hcs in Hin. tauto.
  - assert (Htail' : tail = [] \/ exists c, tail = [EvCallback c])
      by (destruct Htail as [[_ ->] | (_ & c & _ & ->)]; eauto).
    destruct (created_trace cs (header F V (file_bytes io)
                                  (correct_minZ (file_bytes io) s))
                            ws tail _ eq_refl Htail')
      as (_ & _ & Hcalls & Hafter).
    rewrite Hcalls, Hafter, !calls_of_writes. rewrite Forall_forall in Hcs.
    assert (Hcalls_tail : forall c, In c (calls_of tail) ->
                                    call_msg c = MSGT_ERR_FILE_WRITE).
    { destruct Htail as [[_ ->] | (_ & c1 & Hm & ->)]; cbn; [ contradiction | ].
      now intros c [<- | []]. }
    split; [ | split ]; [ | exact Hcalls_tail | ].
    + intros c Hin Hc. exists s. split; [ exact Hlex | ].
      apply in_app_iff in Hin. destruct Hin as [Hin | Hin]; [ now apply Hcs | ].
      apply Hcalls_tail in Hin. unfold is_warning_call in Hc.
      rewrite Hin in Hc. discriminate Hc.
    + intros c Hin Hw Hc. apply in_app_iff in Hin.
      destruct Hin as [Hin | Hin]; [ apply Hcs in Hin; tauto | ].
      apply Hcalls_tail in Hin. unfold is_warning_call in Hw.
      rewrite Hin in Hw. discriminate Hw.
Qed.

Lemma warnings_after_pass_before_rewrite_witness :
  processFile false "1.0" (io_ok input_plain) cb_stop
  = Some (mkReturn 0 [EvCallback (mkCall MSGT_WARN_NO_FILAMENT_USED 3 0)])
  /\ file_after [EvCallback (mkCall MSGT_WARN_NO_FILAMENT_USED 3 0)] = Unchanged.
Proof.
  assert (Hrun : processFile false "1.0" (io_ok input_plain) cb_stop
                 = Some (mkReturn 0 [EvCallback (mkCall MSGT_WARN_NO_FILAMENT_USED 3 0)]))
    by (vm_compute; reflexivity).
  split; [ exact Hrun | ].
  destruct (proj2 (proj2 (warnings_after_pass_before_rewrite
                            false "1.0" (io_ok input_plain) cb_stop _ Hrun))
                  (mkCall MSGT_WARN_NO_FILAMENT_USED 3 0))
    as (_ & H2 & _).
  - left. reflexivity.
  - reflexivity.
  - discriminate.
  - exact H2.
Defined.

(** C10. For a file of size zero that can be opened, [processFile] returns 1
    and does nothing else: the callback is not called, the file is not
    created anew. *)
Theorem empty_file_is_success :
  forall (F : bool) (V : string) (io : tIO) (cb : tCallback),
    file_bytes io = [] ->
    fopen_rb_ok io = true ->
    processFile F V io cb = Some (mkReturn 1 [])
    /\ calls_of (trace (mkReturn 1 [])) = []
    /\ file_after (trace (mkReturn 1 [])) = Unchanged.
Proof.
  intros F V io cb Hb Ho. unfold processFile. rewrite Ho, Hb. auto.
Qed.

Lemma empty_file_is_success_witness :
  processFile true "1.0" (io_ok []) cb_stop = Some (mkReturn 1 []).
Proof.
  apply (empty_file_is_success true "1.0" (io_ok []) cb_stop); reflexivity.
Defined.

(** * The dual nozzle *)

Lemma nozzleTemp1Val_p_float (buf : list ascii) (s : tLexer) :
  nozzleTemp1Val buf s = p_float buf (slots s nozzleTemp1).
Proof.
  unfold nozzleTemp1Val, p_float, is_captured, is_empty_token, is_null.
  destruct (tok_start (slots s nozzleTemp1)); simpl; [ | reflexivity ].
  rewrite Z.ltb_antisym. now destruct (tok_length (slots s nozzleTemp1) <=? 0).
Qed.

Lemma slots_correct_minZ (buf : list ascii) (s : tLexer) :
  slots (correct_minZ buf s) = slots s.
Proof. unfold correct_minZ. now break_ifs. Qed.

(** * The predicted number of lines *)

Lemma size_t_add_l (a b : Z) : size_t (size_t a + b) = size_t (a + b).
Proof. unfold size_t. apply Zplus_mod_idemp_l. Qed.

Lemma size_t_sub_l (a b : Z) : size_t (size_t a - b) = size_t (a - b).
Proof. unfold size_t. apply Zminus_mod_idemp_l. Qed.

Lemma size_t_idem (a : Z) : size_t (size_t a) = size_t a.
Proof. unfold size_t. apply Z.mod_mod. discriminate. Qed.

Lemma lineNr_switch_state (F : bool) (buf : list ascii) (s : tLexer) (it : Z)
      (ch : ascii) (s' : tLexer) :
  switch_state F buf s it ch = Running s' -> lineNr s' = lineNr s.
Proof. intro H. switch_cases H; reflexivity. Qed.

Lemma lineNr_step (F : bool) (buf : list ascii) (s : tLexer) (it : Z) (ch : ascii)
      (s' : tLexer) :
  step F buf s it ch = Running s' ->
  lineNr s' = if Ascii.eqb ch LF then size_t (lineNr s + 1) else lineNr s.
Proof.
  intro H. apply step_inv in H. destruct H as (s1 & H1 & ->).
  apply lineNr_switch_state in H1. unfold end_of_turn.
  destruct (Ascii.eqb ch LF); lexer_simpl; [ now rewrite H1 | ].
  now destruct (Ascii.eqb ch CR).
Qed.

Lemma line_feeds_nonneg (l : list ascii) : 0 <= line_feeds l.
Proof. induction l as [ | ch l IH ]; simpl; [ lia | destruct (Ascii.eqb ch LF); lia ]. Qed.

(** The pass counts the lines: one more than there are line feeds. *)
Lemma lineNr_lex_loop (F : bool) (buf l : list ascii) :
  forall s it s',
    lex_loop F buf s it l = Running s' ->
    size_t (lineNr s') = size_t (lineNr s + line_feeds l).
Proof.
  induction l as [ | ch l IH ]; simpl; intros s it s' H.
  - injection H as <-. now rewrite Z.add_0_r.
  - destruct (step F buf s it ch) as [ s1 | | ] eqn:E; try discriminate.
    rewrite (IH s1 (it + 1) s' H), (lineNr_step F buf s it ch s1 E).
    destruct (Ascii.eqb ch LF).
    + rewrite size_t_add_l. f_equal. lia.
    + f_equal.
Qed.

Lemma lineNr_wrapped (F : bool) (buf : list ascii) (s : tLexer) :
  lex F buf = Running s -> lineNr s = size_t (lineNr s).
Proof.
  unfold lex.
  apply (lex_loop_invariant F buf (fun s => lineNr s = size_t (lineNr s))).
  - intros s0 it ch s' H0 H. rewrite (lineNr_step F buf s0 it ch s' H).
    destruct (Ascii.eqb ch LF); [ now rewrite size_t_idem | exact H0 ].
  - reflexivity.
Qed.

Lemma lineNr_lex (F : bool) (buf : list ascii) (s : tLexer) :
  lex F buf = Running s -> lineNr s = size_t (1 + line_feeds buf).
Proof.
  intro H. rewrite (lineNr_wrapped F buf s H).
  exact (lineNr_lex_loop F buf buf init_lexer 0 s H).
Qed.

(** The field file_total_lines in terms of the input: the lines the pass
    counted, the 24 lines of the header that are always written, one for the
    thumbnail line and one for the line of the second nozzle when they are
    written, less the lines counted for the original thumbnail when its
    removal is compiled in. *)
Lemma file_total_lines_formula (F : bool) (buf : list ascii) (s : tLexer) :
  lex F buf = Running s ->
  file_total_lines F buf (correct_minZ buf s)
  = (1 + line_feeds buf + 24
     + b2z (hasThumbnail s)
     + b2z (f_lt f_tenth (p_float buf (slots s nozzleTemp1)))
     - (if F then origThumbnailLines s else 0)) mod 2 ^ 64.
Proof.
  intro H. unfold file_total_lines, header_lineNr, hasThumbnail.
  rewrite slots_correct_minZ, lineNr_correct_minZ.
  assert (Ho : origThumbnailLines (correct_minZ buf s) = origThumbnailLines s)
    by (unfold correct_minZ; now break_ifs).
  rewrite Ho, (lineNr_lex F buf s H).
  assert (Hsec : is_captured (slots s nozzleTemp1)
                 && f_lt f_tenth (p_float buf (slots s nozzleTemp1))
                 = f_lt f_tenth (p_float buf (slots s nozzleTemp1))).
  { destruct (is_captured (slots s nozzleTemp1)) eqn:Ec; [ reflexivity | ].
    rewrite <- nozzleTemp1Val_p_float. unfold nozzleTemp1Val. now rewrite Ec. }
  rewrite Hsec.
  set (L := 1 + line_feeds buf).
  set (sec := f_lt f_tenth (p_float buf (slots s nozzleTemp1))).
  set (t := if negb (is_null (slots s thumbnail))
               || (0 <? tok_length (slots s thumbnail)) then 1 else 0).
  set (n1 := if sec then size_t (size_t L + 1) else size_t L).
  set (n2 := if F then size_t (n1 - origThumbnailLines s) else n1).
  assert (H1 : size_t n1 = size_t (L + b2z sec)).
  { subst n1. destruct sec; simpl.
    - now rewrite size_t_idem, size_t_add_l.
    - now rewrite size_t_idem, Z.add_0_r. }
  assert (H2 : size_t n2
               = size_t (L + b2z sec - (if F then origThumbnailLines s else 0))).
  { subst n2. destruct F.
    - now rewrite size_t_idem, <- size_t_sub_l, H1, size_t_sub_l.
    - now rewrite Z.sub_0_r. }
  change (ulong (size_t (n2 + 24 + t))) with (size_t (size_t (n2 + 24 + t))).
  rewrite size_t_idem, <- Z.add_assoc, <- size_t_add_l, H2, size_t_add_l.
  unfold size_t, b2z. fold t. f_equal. lia.
Qed.

(** C9, at the input where the code leaves it: the two files have three
    lines each, no thumbnail data, no second nozzle. For the plain one the field is 3 + 24. For the one whose
    thumbnail block is opened and never closed the callback is warned that
    the thumbnail is missing, and still the thumbnail line is written, with
    no data, and counted: the field is 3 + 24 + 1. With the removal of the
    original thumbnail compiled in, the lines of the open block are taken
    off the field although the whole input is written back. *)
Theorem open_thumbnail_is_counted :
  (exists r,
      processFile false "1.0" (io_ok input_plain) cb_continue = Some r
      /\ In (EvWrite (fprintf fmt_file_total_lines [ArgULong 27])) (trace r)
      /\ ~ In (EvWrite (fprintf fmt_thumbnail [])) (trace r))
  /\ (exists s,
         lex false input_open_thumbnail = Running s
         /\ lineNr s = 3
         /\ is_captured (slots s thumbnail) = false
         /\ is_captured (slots s nozzleTemp1) = false)
  /\ (exists r,
         processFile false "1.0" (io_ok input_open_thumbnail) cb_continue = Some r
         /\ In (EvCallback (mkCall MSGT_WARN_NO_THUMBNAIL 3 1)) (trace r)
         /\ In (EvWrite (fprintf fmt_thumbnail [])) (trace r)
         /\ In (EvWrite (fprintf fmt_file_total_lines [ArgULong 28])) (trace r))
  /\ (exists r,
         processFile true "1.0" (io_ok input_open_thumbnail) cb_continue = Some r
         /\ In (EvWrite (fprintf fmt_file_total_lines [ArgULong 25])) (trace r)
         /\ In (EvWrite (fwrite input_open_thumbnail)) (trace r)).
Proof.
  split; [ | split; [ | split ] ].
  - eexists. split; [ vm_compute; reflexivity | ].
    split; [ vm_compute; auto 40 | ].
    vm_compute. intro H.
    repeat match type of H with
           | _ \/ _ => destruct H as [H | H]; [ discriminate H | ]
           end.
    exact H.
  - eexists. split; [ vm_compute; reflexivity | ].
    repeat split; vm_compute; reflexivity.
  - eexists. split; [ vm_compute; reflexivity | ].
    repeat split; vm_compute; auto 40.
  - eexists. split; [ vm_compute; reflexivity | ].
    repeat split; vm_compute; auto 40.
Qed.

(** * A file that was processed before *)

Lemma token_chars_after (pre body : list ascii) (n : Z) :
  token_chars (pre ++ body) (mkToken (Some (Z.of_nat (List.length pre))) n)
  = firstn (Z.to_nat n) body.
Proof.
  unfold token_chars; cbn [tok_start tok_length]. rewrite Nat2Z.id.
  now rewrite skipn_app, skipn_all, Nat.sub_diag.
Qed.

Lemma end_of_turn_word_char (s : tLexer) (it : Z) (ch : ascii) :
  isspace ch = false -> end_of_turn s it ch = s.
Proof.
  intro H. unfold end_of_turn.
  destruct (Ascii.eqb ch LF) eqn:E1;
    [ apply Ascii.eqb_eq in E1; subst ch; discriminate H | ].
  destruct (Ascii.eqb ch CR) eqn:E2;
    [ apply Ascii.eqb_eq in E2; subst ch; discriminate H | ].
  reflexivity.
Qed.

Lemma not_space_not (ch c : ascii) :
  isspace ch = false -> isspace c = true -> Ascii.eqb ch c = false.
Proof.
  intros H Hc. destruct (Ascii.eqb ch c) eqn:E; [ | reflexivity ].
  apply Ascii.eqb_eq in E. subst ch. congruence.
Qed.

(** The first character of the first word of a comment. *)
Lemma step_comment_first (F : bool) (buf : list ascii) (s : tLexer) (it : Z)
      (ch : ascii) :
  state s = ST_COMMENT -> tok_start (aToken s) = None -> isspace ch = false ->
  step F buf s it ch = Running (set_aToken s (mkToken (Some it) 1)).
Proof.
  intros St Ha Hch. unfold step, switch_state. rewrite St. unfold step_COMMENT.
  rewrite (not_space_not ch LF Hch eq_refl), Ha, Hch. cbn [negb].
  now rewrite end_of_turn_word_char.
Qed.

(** A later character of a word of a comment. *)
Lemma step_comment_word (F : bool) (buf : list ascii) (s : tLexer) (it a n : Z)
      (ch : ascii) :
  state s = ST_COMMENT -> aToken s = mkToken (Some a) n -> is_word_char ch = true ->
  step F buf s it ch
  = Running (set_aToken s (mkToken (Some a) (size_t (it - a + 1)))).
Proof.
  intros St Ha Hch. unfold is_word_char in Hch. apply andb_prop in Hch.
  destruct Hch as [Hsp Heq]. apply negb_true_iff in Hsp, Heq.
  unfold step, switch_state. rewrite St. unfold step_COMMENT.
  rewrite (not_space_not ch LF Hsp eq_refl), Ha. cbn [tok_start tok_length].
  rewrite (not_space_not ch " " Hsp eq_refl), Heq, Hsp. cbn [negb andb].
  now rewrite end_of_turn_word_char.
Qed.

(** A space after a word that is neither of the two markers. *)
Lemma step_comment_space (F : bool) (buf : list ascii) (s : tLexer) (it : Z) :
  state s = ST_COMMENT -> tok_start (aToken s) <> None ->
  p_cmpToken buf (aToken s) "post-processed by sm2pspp" <> 0 ->
  p_cmpToken buf (aToken s) "thumbnail begin" <> 0 ->
  step F buf s it " " = Running s.
Proof.
  intros St Ha H1 H2. unfold step, switch_state. rewrite St. unfold step_COMMENT.
  change (Ascii.eqb " " LF) with false. cbv iota.
  destruct (tok_start (aToken s)); [ | contradiction ].
  apply Z.eqb_neq in H1, H2. rewrite H1, H2.
  change (Ascii.eqb " " " ") with true. change (Ascii.eqb " " "=") with false.
  change (negb (isspace " ")) with false. cbn [andb].
  now destruct (0 <? tok_length (aToken s)).
Qed.

(** The space after the marker: the file was processed before. *)
Lemma step_comment_marker (F : bool) (buf : list ascii) (s : tLexer) (it : Z) :
  state s = ST_COMMENT -> tok_start (aToken s) <> None ->
  0 < tok_length (aToken s) ->
  p_cmpToken buf (aToken s) "post-processed by sm2pspp" = 0 ->
  step F buf s it " " = OnSuccess.
Proof.
  intros St Ha Hlen H1. unfold step, switch_state. rewrite St. unfold step_COMMENT.
  change (Ascii.eqb " " LF) with false. cbv iota.
  destruct (tok_start (aToken s)); [ | contradiction ].
  apply Z.ltb_lt in Hlen. rewrite Hlen, H1. reflexivity.
Qed.

(** The characters of a word move the end of the token along. *)
Lemma lex_loop_word (F : bool) (buf : list ascii) (w l : list ascii) :
  forallb is_word_char w = true ->
  forall (s : tLexer) (it a n : Z),
    state s = ST_COMMENT -> aToken s = mkToken (Some a) n ->
    0 <= it - a -> it - a + Z.of_nat (List.length w) < 2 ^ 64 ->
    w <> [] ->
    lex_loop F buf s it (w ++ l)
    = lex_loop F buf
        (set_aToken s (mkToken (Some a) (it - a + Z.of_nat (List.length w))))
        (it + Z.of_nat (List.length w)) l.
Proof.
  induction w as [ | ch w IH ]; intros Hw s it a n St Ha Hlo Hhi Hne;
    [ contradiction | ].
  cbn [forallb] in Hw. apply andb_prop in Hw. destruct Hw as [Hch Hw].
  cbn [app lex_loop]. rewrite (step_comment_word F buf s it a n ch St Ha Hch).
  assert (Hsz : size_t (it - a + 1) = it - a + 1).
  { unfold size_t. apply Z.mod_small. cbn [List.length] in Hhi. lia. }
  rewrite Hsz. destruct w as [ | c w ].
  - cbn [app List.length]. replace (it - a + Z.of_nat 1) with (it - a + 1) by lia.
    replace (it + Z.of_nat 1) with (it + 1) by lia. reflexivity.
  - rewrite (IH Hw _ (it + 1) a (it - a + 1));
      [ | exact St | reflexivity | lia | cbn [List.length] in *; lia | discriminate ].
    cbn [List.length]. unfold set_aToken; cbn.
    f_equal; [ f_equal; f_equal; lia | lia ].
Qed.

Lemma p_cmpToken_after (pre body : list ascii) (n : Z) (rhs : string) :
  p_cmpToken (pre ++ body) (mkToken (Some (Z.of_nat (List.length pre))) n) rhs
  = cmp_chars (firstn (Z.to_nat n) body) (chars rhs).
Proof. unfold p_cmpToken. now rewrite token_chars_after. Qed.

(** In a comment whose first word has not begun, the marker and the space
    after it end the pass. *)
Lemma lex_marker (F : bool) (pre rest : list ascii) (s0 : tLexer) :
  lex_loop F (pre ++ marker ++ rest) init_lexer 0 pre = Running s0 ->
  state s0 = ST_COMMENT ->
  tok_start (aToken s0) = None ->
  lex F (pre ++ marker ++ rest) = OnSuccess.
Proof.
  intros Hpre St Ha. unfold lex. rewrite lex_loop_app, Hpre.
  set (buf := pre ++ marker ++ rest). set (a := Z.of_nat (List.length pre)).
  change (0 + a) with a.
  change (marker ++ rest)
    with ("p"%char :: chars "ost-processed"
          ++ " "%char :: chars "by" ++ " "%char :: chars "sm2pspp"
          ++ " "%char :: rest).
  assert (Ha0 : 0 <= a) by (subst a; lia).
  cbn [lex_loop]. rewrite (step_comment_first F buf s0 a "p" St Ha eq_refl).
  rewrite (lex_loop_word F buf (chars "ost-processed") _ eq_refl _ (a + 1) a 1);
    [ | exact St | reflexivity | lia | cbn; lia | discriminate ].
  replace (a + 1 - a + Z.of_nat (List.length (chars "ost-processed")))
    with 14 by (cbn; lia).
  replace (a + 1 + Z.of_nat (List.length (chars "ost-processed")))
    with (a + 14) by (cbn; lia).
  cbn [lex_loop]. rewrite step_comment_space;
    [ | exact St | discriminate
      | cbn [aToken set_aToken]; subst buf a; rewrite p_cmpToken_after;
        vm_compute; discriminate
      | cbn [aToken set_aToken]; subst buf a; rewrite p_cmpToken_after;
        vm_compute; discriminate ].
  rewrite (lex_loop_word F buf (chars "by") _ eq_refl _ (a + 14 + 1) a 14);
    [ | exact St | reflexivity | lia | cbn; lia | discriminate ].
  replace (a + 14 + 1 - a + Z.of_nat (List.length (chars "by")))
    with 17 by (cbn; lia).
  replace (a + 14 + 1 + Z.of_nat (List.length (chars "by")))
    with (a + 17) by (cbn; lia).
  cbn [lex_loop]. rewrite step_comment_space;
    [ | exact St | discriminate
      | cbn [aToken set_aToken]; subst buf a; rewrite p_cmpToken_after;
        vm_compute; discriminate
      | cbn [aToken set_aToken]; subst buf a; rewrite p_cmpToken_after;
        vm_compute; discriminate ].
  rewrite (lex_loop_word F buf (chars "sm2pspp") _ eq_refl _ (a + 17 + 1) a 17);
    [ | exact St | reflexivity | lia | cbn; lia | discriminate ].
  replace (a + 17 + 1 - a + Z.of_nat (List.length (chars "sm2pspp")))
    with 25 by (cbn; lia).
  cbn [lex_loop]. rewrite step_comment_marker;
    [ reflexivity | exact St | discriminate | reflexivity | ].
  cbn [aToken set_aToken]. subst buf a. rewrite p_cmpToken_after.
  vm_compute. reflexivity.
Qed.

Lemma processFile_marker (F : bool) (V : string) (io : tIO) (cb : tCallback)
      (pre rest : list ascii) (s0 : tLexer) :
  file_bytes io = pre ++ marker ++ rest ->
  fopen_rb_ok io = true -> malloc_ok io = true -> fread_ok io = true ->
  lex_loop F (file_bytes io) init_lexer 0 pre = Running s0 ->
  state s0 = ST_COMMENT ->
  tok_start (aToken s0) = None ->
  processFile F V io cb = Some (mkReturn 1 []).
Proof.
  intros Hb Ho Hm Hr Hpre St Ha. unfold processFile.
  rewrite Ho, Hm, Hr. cbn [negb].
  destruct (Z.of_nat (List.length (file_bytes io)) <? 1); [ reflexivity | ].
  rewrite Hb in Hpre |- *. now rewrite (lex_marker F pre rest s0 Hpre St Ha).
Qed.

Lemma print_prefix (print : list ascii -> list tArg -> list ascii) :
  copies_plain_chars print ->
  forall (p f : list ascii) (args : list tArg),
    Forall (fun c => c <> "%"%char) p -> print (p ++ f) args = p ++ print f args.
Proof.
  intros Hprint p f args Hp. induction Hp as [ | c p Hc Hp IH ]; [ reflexivity | ].
  cbn [app]. now rewrite Hprint, IH.
Qed.

Lemma header_starts_with_marker (F : bool) (V : string) (buf : list ascii)
      (s : tLexer) :
  exists f ws, header F V buf s = fprintf ((";"%char :: marker) ++ f) [] :: ws.
Proof. unfold header. cbn [app]. eexists. eexists. reflexivity. Qed.

(** A file that [processFile] has written starts with the marker. *)
Lemma rewritten_starts_with_marker (F : bool) (V : string) (io : tIO)
      (cb : tCallback) (r : tReturn) (ws : list tWrite)
      (print : list ascii -> list tArg -> list ascii) :
  copies_plain_chars print ->
  processFile F V io cb = Some r ->
  file_after (trace r) = Rewritten ws ->
  exists rest, rendered print ws = ";"%char :: marker ++ rest.
Proof.
  intros Hprint H Hfile.
  destruct (processFile_course F V io cb) as (r' & H' & Hcourse).
  rewrite H in H'. injection H' as <-.
  destruct Hcourse as [ r [(c0 & Hc0 & ->) | ->] _
                      | s cs c0 Hlex Hcs Hw Hl Hret
                      | s cs c0 Hlex Hcs Hmsg
                      | s cs ws' tail res Hlex Hcs Hws Htail ];
    cbn [trace] in Hfile; try discriminate Hfile.
  1,2: rewrite file_after_callbacks in Hfile; discriminate Hfile.
  assert (Htail' : tail = [] \/ exists c, tail = [EvCallback c])
    by (destruct Htail as [[_ ->] | (_ & c & _ & ->)]; eauto).
  destruct (created_trace cs (header F V (file_bytes io)
                                (correct_minZ (file_bytes io) s))
                          ws' tail _ eq_refl Htail')
    as (_ & Hf & _ & _).
  assert (E : ws = header F V (file_bytes io) (correct_minZ (file_bytes io) s)
                   ++ ws') by (rewrite Hf in Hfile; congruence).
  subst ws.
  destruct (header_starts_with_marker F V (file_bytes io)
                                      (correct_minZ (file_bytes io) s))
    as (f & hs & ->).
  unfold rendered. cbn [app flat_map].
  change (print (";"%char :: marker ++ f) [])
    with (print ((";"%char :: marker) ++ f) []).
  rewrite (print_prefix print Hprint (";"%char :: marker) f []).
  - eexists. cbn [app]. rewrite <- app_assoc. reflexivity.
  - repeat constructor; discriminate.
Qed.

(** C2. When the lexer is in a comment whose first word has not begun and
    the bytes that follow are the marker "post-processed by sm2pspp" and a
    space, [processFile] returns 1 at once: the callback is not called and
    the file is not created anew, so that its bytes are as they were. This
    is so for every file that [processFile] has written, whose first line is
    the comment with the marker: to convert a converted file changes
    nothing. *)
Theorem processed_file_is_left_unchanged :
  (forall (F : bool) (V : string) (io : tIO) (cb : tCallback)
          (pre rest : list ascii) (s0 : tLexer),
     file_bytes io = pre ++ marker ++ rest ->
     fopen_rb_ok io = true -> malloc_ok io = true -> fread_ok io = true ->
     lex_loop F (file_bytes io) init_lexer 0 pre = Running s0 ->
     state s0 = ST_COMMENT ->
     tok_start (aToken s0) = None ->
     processFile F V io cb = Some (mkReturn 1 [])
     /\ file_after (trace (mkReturn 1 [])) = Unchanged)
  /\ (forall (F : bool) (V : string) (io : tIO) (cb : tCallback) (rest : list ascii),
        file_bytes io = ";"%char :: marker ++ rest ->
        fopen_rb_ok io = true -> malloc_ok io = true -> fread_ok io = true ->
        processFile F V io cb = Some (mkReturn 1 []))
  /\ (forall (F : bool) (V : string) (io : tIO) (cb : tCallback) (r : tReturn)
             (ws : list tWrite)
             (print : list ascii -> list tArg -> list ascii)
             (io' : tIO) (cb' : tCallback),
        copies_plain_chars print ->
        processFile F V io cb = Some r ->
        file_after (trace r) = Rewritten ws ->
        file_bytes io' = rendered print ws ->
        fopen_rb_ok io' = true -> malloc_ok io' = true -> fread_ok io' = true ->
        processFile F V io' cb' = Some (mkReturn 1 [])).
Proof.
  assert (Hfirst : forall (F : bool) (V : string) (io : tIO) (cb : tCallback)
                          (rest : list ascii),
             file_bytes io = ";"%char :: marker ++ rest ->
             fopen_rb_ok io = true -> malloc_ok io = true -> fread_ok io = true ->
             processFile F V io cb = Some (mkReturn 1 [])).
  { intros F V io cb rest Hb Ho Hm Hr.
    apply (processFile_marker F V io cb [";"%char] rest
             (set_state (set_aToken init_lexer null_token) ST_COMMENT));
      auto; reflexivity. }
  split; [ | split ].
  - intros F V io cb pre rest s0 Hb Ho Hm Hr Hpre St Ha. split; [ | reflexivity ].
    exact (processFile_marker F V io cb pre rest s0 Hb Ho Hm Hr Hpre St Ha).
  - exact Hfirst.
  - intros F V io cb r ws print io' cb' Hprint H Hfile Hb Ho Hm Hr.
    destruct (rewritten_starts_with_marker F V io cb r ws print Hprint H Hfile)
      as (rest & Hrest).
    apply (Hfirst F V io' cb' rest); auto. congruence.
Qed.

Lemma processed_file_is_left_unchanged_witness :
  processFile false "1.0" (io_ok input_processed) cb_stop = Some (mkReturn 1 [])
  /\ exists r ws,
       processFile false "1.0" (io_ok input_plain) cb_continue = Some r
       /\ file_after (trace r) = Rewritten ws
       /\ processFile false "1.0" (io_ok (rendered print_format ws)) cb_stop
          = Some (mkReturn 1 []).
Proof.
  split.
  - apply (proj1 (proj2 processed_file_is_left_unchanged)
             false "1.0" (io_ok input_processed) cb_stop
             (chars "1.0 (x)" ++ LF :: unlines ["G1 X1 E1"]));
      reflexivity.
  - destruct (processFile_course false "1.0" (io_ok input_plain) cb_continue)
      as (r & Hr & _).
    assert (Hfile : exists ws, file_after (trace r) = Rewritten ws).
    { vm_compute in Hr. injection Hr as <-. eexists. reflexivity. }
    destruct Hfile as (ws & Hfile). exists r, ws.
    split; [ exact Hr | ]. split; [ exact Hfile | ].
    apply (proj2 (proj2 processed_file_is_left_unchanged)
             false "1.0" (io_ok input_plain) cb_continue r ws print_format
             (io_ok (rendered print_format ws)) cb_stop);
      auto; try reflexivity.
    intros c f args _. reflexivity.
Defined.

(** * Further properties: the run as a whole *)

(** X1. The pass never uses a null pointer ([valueToken] in the state
    ST_PARAMETER_VALUE, [origThumbnail.start] in the thumbnail states), for
    no input; hence [processFile] returns for every file, environment and
    callback. *)
Theorem pass_never_faults :
  (forall (F : bool) (buf : list ascii), lex F buf <> Fault)
  /\ (forall (F : bool) (buf : list ascii) (n : nat), lex_upto F buf n <> Fault)
  /\ (forall (F : bool) (V : string) (io : tIO) (cb : tCallback),
         exists r, processFile F V io cb = Some r).
Proof.
  split; [ exact lex_no_fault | split ].
  - intros F buf n. unfold lex_upto. apply lex_loop_no_fault, lexer_inv_init.
  - intros F V io cb. destruct (processFile_course F V io cb) as (r & H & _). eauto.
Qed.

(** X2. When the pass runs to the end, [lineNr] is one more than the number
    of line feeds of the input, modulo 2^64; a carriage return counts for
    nothing. *)
Theorem line_number_counts_line_feeds :
  forall (F : bool) (buf : list ascii) (s : tLexer),
    lex F buf = Running s ->
    lineNr s = (1 + line_feeds buf) mod 2 ^ 64.
Proof. exact lineNr_lex. Qed.

Lemma line_number_counts_line_feeds_witness :
  exists s, lex false input_two_layer_heights = Running s /\ lineNr s = 4.
Proof.
  assert (Hlex : exists s, lex false input_two_layer_heights = Running s)
    by (eexists; vm_compute; reflexivity).
  destruct Hlex as (s & Hlex). exists s. split; [ exact Hlex | ].
  rewrite (line_number_counts_line_feeds false input_two_layer_heights s Hlex).
  reflexivity.
Defined.

(** X3. The result is 1 or 0, never the -1 that the comment of
    [processFile] promises for an abort by the callback. With 1 every call
    of the callback was a warning answered with 1; with 0 the last thing
    done was a call of the callback, the report of an error or a warning it
    did not answer with 1. *)
Theorem result_and_last_call :
  forall (F : bool) (V : string) (io : tIO) (cb : tCallback) (r : tReturn),
    processFile F V io cb = Some r ->
    (res r = 1 \/ res r = 0)
    /\ (res r = 1 ->
        Forall (fun c => is_warning_call c = true /\ call_ret c = 1)
               (calls_of (trace r)))
    /\ (res r = 0 ->
        exists tr c, trace r = tr ++ [EvCallback c]
                     /\ (is_warning_call c = false \/ call_ret c <> 1)).
Proof.
  intros F V io cb r H.
  destruct (processFile_course F V io cb) as (r' & H' & Hcourse).
  rewrite H in H'. injection H' as <-.
  destruct Hcourse as [ r [(c0 & Hc0 & ->) | ->] _
                      | s cs c0 Hlex Hcs Hw Hl Hret
                      | s cs c0 Hlex Hcs Hmsg
                      | s cs ws tail rs Hlex Hcs Hws Htail ];
    cbn [trace res].
  - split; [ now right | split; [ discriminate | ] ].
    intros _. exists [], c0. split; [ reflexivity | now left ].
  - split; [ now left | split; [ constructor | discriminate ] ].
  - split; [ now right | split; [ discriminate | ] ].
    intros _. exists (List.map EvCallback cs), c0. split; [ reflexivity | now right ].
  - split; [ now right | split; [ discriminate | ] ].
    intros _. exists (List.map EvCallback cs), c0. split; [ reflexivity | ].
    left. unfold is_warning_call. now rewrite Hmsg.
  - destruct Htail as [[-> ->] | (-> & c1 & Hm & ->)].
    + split; [ now left | split; [ | discriminate ] ].
      intros _. rewrite calls_of_callbacks. cbn [calls_of].
      rewrite !calls_of_writes. cbn [calls_of]. rewrite app_nil_r.
      rewrite Forall_forall in *. intros c Hc. destruct (Hcs c Hc) as (? & _ & ?).
      auto.
    + split; [ now right | split; [ discriminate | ] ].
      intros _. eexists. exists c1. split.
      * rewrite app_comm_cons, !app_assoc. reflexivity.
      * left. unfold is_warning_call. now rewrite Hm.
Qed.

Lemma result_and_last_call_witness :
  exists tr c,
    [EvCallback (mkCall MSGT_WARN_NO_FILAMENT_USED 3 0)] = tr ++ [EvCallback c]
    /\ (is_warning_call c = false \/ call_ret c <> 1).
Proof.
  assert (Hrun : processFile false "1.0" (io_ok input_plain) cb_stop
                 = Some (mkReturn 0 [EvCallback (mkCall MSGT_WARN_NO_FILAMENT_USED 3 0)]))
    by (vm_compute; reflexivity).
  exact (proj2 (proj2 (result_and_last_call false "1.0" (io_ok input_plain) cb_stop
                         _ Hrun)) eq_refl).
Defined.

(** * Further properties: the micro-parsers *)

Lemma p_uint_token_chars (buf : list ascii) (t : tPToken) :
  p_uint buf t = p_uint_chars (token_chars buf t).
Proof.
  unfold p_uint. destruct (is_empty_token t) eqn:E; [ | reflexivity ].
  rewrite token_chars_empty by assumption. reflexivity.
Qed.

Lemma uint_step (v d : Z) : uint (uint v * 10 + d) = uint (v * 10 + d).
Proof.
  unfold uint. rewrite Z.add_mod, Z.mul_mod_idemp_l, <- Z.add_mod by lia.
  reflexivity.
Qed.

Lemma p_uint_loop_decimal (ds rest : list ascii) :
  forallb isdigit ds = true ->
  match rest with [] => True | ch :: _ => isdigit ch = false end ->
  forall v,
    p_uint_loop (ds ++ rest) (uint v)
    = uint (fold_left (fun v ch => v * 10 + digit_val ch) ds v).
Proof.
  intros Hds Hrest. induction ds as [ | d ds IH ]; intro v.
  - simpl. destruct rest as [ | ch rest ]; [ reflexivity | ].
    simpl. now rewrite Hrest.
  - simpl in Hds. apply andb_prop in Hds. destruct Hds as [Hd Hds].
    cbn [app p_uint_loop fold_left]. rewrite Hd.
    fold (digit_val d). rewrite uint_step. now apply IH.
Qed.

(** X4. [p_uint] reads the digits at the head of the token as a decimal
    number and returns it modulo 2^32; what follows the first character that
    is no digit is not looked at. *)
Theorem p_uint_decimal_mod :
  forall (buf : list ascii) (aToken : tPToken) (ds rest : list ascii),
    token_chars buf aToken = ds ++ rest ->
    forallb isdigit ds = true ->
    match rest with [] => True | ch :: _ => isdigit ch = false end ->
    p_uint buf aToken = decimal ds mod 2 ^ 32.
Proof.
  intros buf aToken ds rest Hview Hds Hrest.
  rewrite p_uint_token_chars, Hview. unfold p_uint_chars, decimal.
  exact (p_uint_loop_decimal ds rest Hds Hrest 0).
Qed.

Lemma p_uint_decimal_mod_witness :
  p_uint (chars "4294967297 X1") (token_of (chars "4294967297 X1")) = 1.
Proof.
  rewrite (p_uint_decimal_mod (chars "4294967297 X1") (token_of (chars "4294967297 X1"))
             (chars "4294967297") (chars " X1"));
    reflexivity.
Defined.

Lemma unit_not_digit (u : ascii) (k : Z) :
  unit_seconds u = Some k -> isdigit u = false.
Proof.
  unfold unit_seconds. intro H.
  destruct (Ascii.eqb u "d") eqn:Ed; [ apply Ascii.eqb_eq in Ed; now subst u | ].
  destruct (Ascii.eqb u "h") eqn:Eh; [ apply Ascii.eqb_eq in Eh; now subst u | ].
  destruct (Ascii.eqb u "m") eqn:Em; [ apply Ascii.eqb_eq in Em; now subst u | ].
  destruct (Ascii.eqb u "s") eqn:Es; [ apply Ascii.eqb_eq in Es; now subst u | ].
  discriminate.
Qed.

Lemma p_dtms_loop_unit (u : ascii) (k : Z) (rest : list ascii) (res val : Z) :
  unit_seconds u = Some k ->
  p_dtms_loop (u :: rest) res val = p_dtms_loop rest (size_t (res + val * k)) 0.
Proof.
  intro H. pose proof (unit_not_digit u k H) as Hd.
  cbn [p_dtms_loop]. rewrite Hd. unfold unit_seconds in H.
  destruct (Ascii.eqb u "d"); [ now injection H as <- | ].
  destruct (Ascii.eqb u "h"); [ now injection H as <- | ].
  destruct (Ascii.eqb u "m"); [ now injection H as <- | ].
  destruct (Ascii.eqb u "s"); [ injection H as <-; now rewrite Z.mul_1_r | ].
  discriminate.
Qed.

Lemma p_dtms_loop_other (ch : ascii) (rest : list ascii) (res val : Z) :
  isdigit ch = false -> is_unit ch = false ->
  p_dtms_loop (ch :: rest) res val = p_dtms_loop rest res val.
Proof.
  intros Hd Hu. cbn [p_dtms_loop]. rewrite Hd.
  unfold is_unit, unit_seconds in Hu.
  destruct (Ascii.eqb ch "d"); [ discriminate | ].
  destruct (Ascii.eqb ch "h"); [ discriminate | ].
  destruct (Ascii.eqb ch "m"); [ discriminate | ].
  destruct (Ascii.eqb ch "s"); [ discriminate | ].
  reflexivity.
Qed.

Lemma is_unit_cases (ch : ascii) :
  (exists k, unit_seconds ch = Some k) \/ is_unit ch = false.
Proof. unfold is_unit. destruct (unit_seconds ch); eauto. Qed.

(** The value of [val] counts modulo 2^64 only. *)
Lemma p_dtms_loop_val_mod (l : list ascii) :
  forall res val, p_dtms_loop l res (size_t val) = p_dtms_loop l res val.
Proof.
  induction l as [ | ch l IH ]; intros res val; [ reflexivity | ].
  destruct (isdigit ch) eqn:Ed.
  - cbn [p_dtms_loop]. rewrite Ed. f_equal. unfold size_t.
    rewrite Z.add_mod, Z.mul_mod_idemp_l, <- Z.add_mod by lia. reflexivity.
  - destruct (is_unit_cases ch) as [(k & Hk) | Hu].
    + rewrite !(p_dtms_loop_unit ch k) by assumption. f_equal. unfold size_t.
      rewrite Z.add_mod, Z.mul_mod_idemp_l, <- Z.add_mod by lia. reflexivity.
    + rewrite !p_dtms_loop_other by assumption. apply IH.
Qed.

Lemma p_dtms_loop_range (l : list ascii) :
  forall res val,
    0 <= res < 2 ^ 64 -> 0 <= p_dtms_loop l res val < 2 ^ 64.
Proof.
  induction l as [ | ch l IH ]; intros res val Hres; [ exact Hres | ].
  destruct (isdigit ch) eqn:Ed.
  - cbn [p_dtms_loop]. rewrite Ed. now apply IH.
  - destruct (is_unit_cases ch) as [(k & Hk) | Hu].
    + rewrite (p_dtms_loop_unit ch k) by assumption. apply IH.
      unfold size_t. apply Z.mod_pos_bound. lia.
    + rewrite p_dtms_loop_other by assumption. now apply IH.
Qed.

(** The value of [res] is carried to the end. *)
Lemma p_dtms_loop_res (l : list ascii) :
  forall res val,
    size_t (p_dtms_loop l res val) = size_t (res + p_dtms_loop l 0 val).
Proof.
  induction l as [ | ch l IH ]; intros res val.
  - simpl. now rewrite Z.add_0_r.
  - destruct (isdigit ch) eqn:Ed.
    + cbn [p_dtms_loop]. rewrite Ed. apply IH.
    + destruct (is_unit_cases ch) as [(k & Hk) | Hu].
      * rewrite !(p_dtms_loop_unit ch k) by assumption.
        rewrite IH.
        rewrite <- (Z.mod_small (p_dtms_loop l (size_t (0 + val * k)) 0) (2 ^ 64))
          by (apply p_dtms_loop_range; unfold size_t; apply Z.mod_pos_bound; lia).
        fold (size_t (p_dtms_loop l (size_t (0 + val * k)) 0)). rewrite IH.
        generalize (p_dtms_loop l 0 0) (val * k). intros a b.
        unfold size_t. change (2 ^ 64) with 18446744073709551616.
        Z.div_mod_to_equations. lia.
      * rewrite !p_dtms_loop_other by assumption. apply IH.
Qed.

Lemma p_dtms_loop_segment (w : list ascii) (u : ascii) (k : Z) (rest : list ascii) :
  forallb (fun ch => negb (is_unit ch)) w = true ->
  unit_seconds u = Some k ->
  forall res val,
    p_dtms_loop (w ++ u :: rest) res val
    = p_dtms_loop rest
        (size_t (res + fold_left (fun v ch => v * 10 + digit_val ch)
                                 (filter isdigit w) val * k)) 0.
Proof.
  intros Hw Hu. induction w as [ | ch w IH ]; intros res val.
  - simpl. now apply p_dtms_loop_unit.
  - simpl in Hw. apply andb_prop in Hw. destruct Hw as [Hch Hw].
    apply negb_true_iff in Hch.
    cbn [app filter]. destruct (isdigit ch) eqn:Ed.
    + cbn [p_dtms_loop fold_left]. rewrite Ed.
      fold (digit_val ch). rewrite p_dtms_loop_val_mod. now apply IH.
    + rewrite p_dtms_loop_other by assumption. now apply IH.
Qed.

(** X5. [p_dtms] adds up the segments of the token. A segment is closed by
    a unit letter (d, h, m, s); the digits in front of the letter, read as a
    decimal number, are multiplied by the seconds of the unit; every other
    character in the segment is skipped, so that "1x2h" counts as 12 hours.
    The sum is taken modulo 2^64. *)
Theorem p_dtms_adds_segments :
  forall (w : list ascii) (u : ascii) (k : Z) (rest : list ascii),
    forallb (fun ch => negb (is_unit ch)) w = true ->
    unit_seconds u = Some k ->
    p_dtms_chars (w ++ u :: rest)
    = (decimal (filter isdigit w) * k + p_dtms_chars rest) mod 2 ^ 64.
Proof.
  intros w u k rest Hw Hu. unfold p_dtms_chars.
  rewrite (p_dtms_loop_segment w u k rest Hw Hu). fold (decimal (filter isdigit w)).
  rewrite Z.add_0_l.
  rewrite <- (Z.mod_small (p_dtms_loop rest _ 0) (2 ^ 64)).
  - change (size_t (p_dtms_loop rest (size_t (decimal (filter isdigit w) * k)) 0)
            = size_t (decimal (filter isdigit w) * k + p_dtms_loop rest 0 0)).
    rewrite p_dtms_loop_res. unfold size_t. now rewrite Z.add_mod_idemp_l by lia.
  - apply p_dtms_loop_range. unfold size_t. apply Z.mod_pos_bound. lia.
Qed.

Lemma p_dtms_adds_segments_witness :
  p_dtms_chars (chars "1x2h 30m") = 12 * 3600 + 30 * 60.
Proof.
  change (chars "1x2h 30m") with (chars "1x2" ++ "h"%char :: chars " 30m").
  rewrite (p_dtms_adds_segments (chars "1x2") "h" 3600 (chars " 30m"));
    reflexivity.
Defined.

(** * Further properties: the thumbnail of the header *)

Lemma thumbnail_runs_open (r : list ascii) :
  forallb is_base64 r = true -> forall run, thumbnail_runs r run = [].
Proof.
  induction r as [ | ch r IH ]; intros H run; [ reflexivity | ].
  simpl in H. apply andb_prop in H. destruct H as [Hch Hr].
  cbn [thumbnail_runs]. rewrite Hch. now apply IH.
Qed.

Lemma thumbnail_runs_closed (c : ascii) (r : list ascii) :
  is_base64 c = false -> forallb is_base64 r = true ->
  forall l run,
    fwrite_bytes (thumbnail_runs (l ++ c :: r) run) = run ++ filter is_base64 l.
Proof.
  intros Hc Hr. induction l as [ | ch l IH ]; intro run.
  - cbn [app thumbnail_runs filter]. rewrite Hc, (thumbnail_runs_open r Hr).
    destruct run; [ reflexivity | ]. cbn [fwrite_bytes]. reflexivity.
  - cbn [app thumbnail_runs filter]. destruct (is_base64 ch).
    + rewrite IH, <- app_assoc. reflexivity.
    + destruct run as [ | b run ]; [ apply IH | ].
      cbn [fwrite_bytes]. now rewrite IH.
Qed.

(** X6. The loop that copies the thumbnail into the header writes the
    Base64 characters of the token, in their order, and no other character,
    up to the last character of the token that is none; the Base64
    characters after that one are never written. A token of Base64
    characters only leads to no call of [fwrite] at all. *)
Theorem thumbnail_copy_drops_open_run :
  (forall (l r : list ascii) (c : ascii),
     is_base64 c = false -> forallb is_base64 r = true ->
     fwrite_bytes (thumbnail_runs (l ++ c :: r) []) = filter is_base64 l)
  /\ (forall r : list ascii,
        forallb is_base64 r = true -> thumbnail_runs r [] = []).
Proof.
  split.
  - intros l r c Hc Hr. exact (thumbnail_runs_closed c r Hc Hr l []).
  - intros r Hr. exact (thumbnail_runs_open r Hr []).
Qed.

Lemma thumbnail_copy_drops_open_run_witness :
  fwrite_bytes (thumbnail_runs (chars "; iVBO" ++ LF :: chars "Rw0K") [])
  = chars "iVBO"
  /\ thumbnail_runs (chars "iVBORw0K") [] = [].
Proof.
  split.
  - rewrite (proj1 thumbnail_copy_drops_open_run (chars "; iVBO") (chars "Rw0K") LF);
      reflexivity.
  - apply (proj2 thumbnail_copy_drops_open_run); reflexivity.
Defined.

(** * Further properties: the code of a command *)

Lemma G_low_bits (n : Z) : 0 <= n < 65536 -> G_ n mod 65536 = n.
Proof.
  intro Hn. unfold G_, GCODE.
  change 65536 with (2 ^ 16). rewrite <- Z.land_ones by lia.
  rewrite Z.land_lor_distr_l, !Z.land_ones by lia.
  replace (uint n) with n by (unfold uint; rewrite Z.mod_small; lia).
  rewrite (Z.mod_small n) by (change (2 ^ 16) with 65536; lia).
  change (uint (Z.shiftl (uint (char_code "G")) 16) mod 2 ^ 16) with 0.
  reflexivity.
Qed.

Lemma G_bit_16 (n : Z) : 0 <= n < 65536 -> G_ (n + 65536) = G_ n.
Proof.
  intro Hn. unfold G_, GCODE.
  replace (uint (n + 65536)) with (n + 65536)
    by (unfold uint; rewrite Z.mod_small; lia).
  replace (uint n) with n by (unfold uint; rewrite Z.mod_small; lia).
  assert (Hland : Z.land n 65536 = 0).
  { apply Z.bits_inj'. intros i Hi. rewrite Z.land_spec, Z.bits_0.
    change 65536 with (2 ^ 16). rewrite Z.pow2_bits_eqb by lia.
    destruct (Z.eqb_spec 16 i) as [ <- | N ]; [ | apply andb_false_r ].
    rewrite andb_true_r. apply Z.testbit_false; [ lia | ].
    rewrite Z.div_small; [ reflexivity | change (2 ^ 16) with 65536; lia ]. }
  rewrite (Z.add_nocarry_lxor n 65536 Hland), (Z.lxor_lor n 65536 Hland).
  rewrite (Z.lor_comm n), Z.lor_assoc. reflexivity.
Qed.

(** X7. The code of a command tells the numbers below 65536 apart: such a
    command acts on the geometry only if its number is 0, 1, 90 or 91. The
    code does not tell 65536 more from the number itself, as bit 16 is set in
    the code of every command G: G65536 moves like G0 and G65626 sets the
    positioning mode like G90. *)
Theorem command_numbers_below_65536 :
  (forall a b : Z, 0 <= a < 65536 -> 0 <= b < 65536 -> G_ a = G_ b -> a = b)
  /\ (forall (n : Z) (c : tCmd) (g : tGeom),
        0 <= n < 65536 -> n <> 0 -> n <> 1 -> n <> 90 -> n <> 91 ->
        code c = G_ n -> gcode_end c g = g)
  /\ (forall (n : Z) (c : tCmd) (g : tGeom),
        0 <= n < 65536 -> code c = G_ (n + 65536) ->
        gcode_end c g = gcode_end (mkCmd (G_ n) (paramX c) (paramY c) (paramZ c)
                                         (paramE c)) g).
Proof.
  assert (Hinj : forall a b : Z,
             0 <= a < 65536 -> 0 <= b < 65536 -> G_ a = G_ b -> a = b).
  { intros a b Ha Hb H. rewrite <- (G_low_bits a Ha), <- (G_low_bits b Hb).
    now rewrite H. }
  split; [ exact Hinj | split ].
  - intros n c g Hn N0 N1 N90 N91 Hc. unfold gcode_end. rewrite Hc.
    assert (E : forall m, 0 <= m < 65536 -> n <> m -> (G_ n =? G_ m) = false).
    { intros m Hm N. apply Z.eqb_neq. intro H. apply N. now apply Hinj. }
    rewrite !E by lia. reflexivity.
  - intros n c g Hn Hc. destruct c as [cd px py pz pe]. simpl in Hc. subst cd.
    now rewrite G_bit_16.
Qed.

Lemma command_numbers_below_65536_witness :
  G_ 28 <> G_ 92
  /\ gcode_end (mkCmd (G_ 28) NAN NAN NAN NAN) init_geom = init_geom
  /\ gcode_end (mkCmd (G_ 65626) NAN NAN NAN NAN) init_geom
     = gcode_end (mkCmd (G_ 90) NAN NAN NAN NAN) init_geom.
Proof.
  split; [ | split ].
  - intro H. apply (proj1 command_numbers_below_65536) in H; lia.
  - apply (proj1 (proj2 command_numbers_below_65536) 28); try lia; reflexivity.
  - apply (proj2 (proj2 command_numbers_below_65536) 90
             (mkCmd (G_ 65626) NAN NAN NAN NAN)); [ lia | reflexivity ].
Defined.

(** * Further properties: the tokens stay inside the buffer *)

Lemma aToken_end_of_turn (s : tLexer) (it : Z) (ch : ascii) :
  aToken (end_of_turn s it ch) = aToken s.
Proof. unfold end_of_turn. now break_ifs. Qed.

Lemma tok_ok_mono (n m : Z) (t : tPToken) : n <= m -> tok_ok n t -> tok_ok m t.
Proof. unfold tok_ok. destruct (tok_start t); intros; lia. Qed.

Lemma size_t_small (z : Z) : 0 <= z < 2 ^ 64 -> size_t z = z.
Proof. intro H. unfold size_t. now apply Z.mod_small. Qed.

Ltac tok_cases :=
  unfold tok_ok, null_token in *; cbn [tok_start tok_length] in *;
  repeat match goal with
         | E : tok_start ?t = _, H : context [match tok_start ?t with _ => _ end] |- _ =>
           rewrite E in H
         | E : tok_start ?t = _ |- context [match tok_start ?t with _ => _ end] =>
           rewrite E
         end;
  repeat match goal with
         | H : context [match tok_start ?t with _ => _ end] |- _ =>
           destruct (tok_start t) eqn:?
         | |- context [match tok_start ?t with _ => _ end] =>
           destruct (tok_start t) eqn:?
         end;
  try congruence;
  rewrite ?size_t_small by lia;
  try lia.

Lemma switch_state_bounds (F : bool) (buf : list ascii) (s : tLexer) (it : Z)
      (ch : ascii) (s1 : tLexer) :
  lexer_inv F s -> bounds_inv it s -> 0 <= it -> it + 1 < 2 ^ 64 ->
  switch_state F buf s it ch = Running s1 -> bounds_mid it ch s s1.
Proof.
  unfold lexer_inv, bounds_inv, bounds_mid.
  intros (_ & Hvt & _) (Hls & Ha & Hsl & Ho & Hth & Hg) H0 Hmax H.
  pose proof (Hsl thumbnail) as Hslt.
  assert (Hmono : forall k, tok_ok (it + 1) (slots s k))
    by (intro k; apply (tok_ok_mono it); [ lia | apply Hsl ]).
  assert (Hamono : tok_ok (it + 1) (aToken s))
    by (apply (tok_ok_mono it); [ lia | exact Ha ]).
  assert (Homono : tok_ok (it + 1) (origThumbnail s))
    by (apply (tok_ok_mono it); [ lia | exact Ho ]).
  switch_cases H; norm_hyps.
  all: repeat match goal with
              | Himp : ?x = ?x -> _ |- _ => specialize (Himp eq_refl)
              | Himp : forall a, Some ?z = Some a -> _ |- _ =>
                specialize (Himp z eq_refl)
              end.
  all: try match goal with
           | E : valueToken _ = Some ?k |- _ =>
             pose proof (Hsl k);
             assert (k <> thumbnail) by congruence
           end.
  all: split; [ reflexivity | split; [ try exact Hamono | split; [ try exact Hmono
       | split; [ try exact Homono
       | split; [ | try exact Hg; try (intro; assumption); try discriminate;
                    try congruence ] ] ] ] ].
  all: try solve [ tok_cases ].
  all: try match goal with
           | |- forall k : tSlot, tok_ok _ (set_slot _ ?k0 _ k) =>
             intro k; destruct (tSlot_eq_dec k0 k) as [ <- | N ];
               [ rewrite set_slot_same
               | rewrite set_slot_other by exact N; apply Hmono ]
           | |- forall a : Z, tok_start (set_slot _ ?k0 _ thumbnail) = Some a -> _ =>
             intros a Ea;
             destruct (tSlot_eq_dec k0 thumbnail) as [ E | N ];
               [ try congruence; rewrite set_slot_same in Ea; cbn [tok_start] in Ea
               | rewrite set_slot_other in Ea by exact N ]
           | |- forall a : Z, tok_start (slots _ thumbnail) = Some a -> _ =>
             intros a Ea
           end.
  all: try solve [ tok_cases ].
  all: try solve [ left; first [ now apply Hth | replace a with z by congruence; assumption | replace a with z0 by congruence; assumption | congruence ] ].
  all: right; split; [ now apply Ascii.eqb_eq | congruence ].
Qed.

Lemma step_bounds (F : bool) (buf : list ascii) (s : tLexer) (it : Z) (ch : ascii)
      (s' : tLexer) :
  lexer_inv F s -> bounds_inv it s -> 0 <= it -> it + 1 < 2 ^ 64 ->
  step F buf s it ch = Running s' -> bounds_inv (it + 1) s'.
Proof.
  intros Hinv Hb H0 Hmax H. apply step_inv in H. destruct H as (s1 & H1 & ->).
  destruct (switch_state_bounds F buf s it ch s1 Hinv Hb H0 Hmax H1)
    as (Hls & Ha & Hsl & Ho & Hth & Hg).
  destruct Hb as (Hls0 & _).
  unfold bounds_inv.
  rewrite aToken_end_of_turn, slots_end_of_turn, origThumbnail_end_of_turn,
    state_end_of_turn.
  repeat split; try assumption.
  - unfold end_of_turn. break_ifs; lexer_simpl; lia.
  - unfold end_of_turn. break_ifs; lexer_simpl; lia.
  - intros a Ea. destruct (Hth a Ea) as [Hle | (-> & ->)].
    + unfold end_of_turn. break_ifs; lexer_simpl; lia.
    + unfold end_of_turn. change (Ascii.eqb LF LF) with true. lexer_simpl. lia.
Qed.

Lemma bounds_inv_init : bounds_inv 0 init_lexer.
Proof.
  unfold bounds_inv, tok_ok. simpl. repeat split; try lia; discriminate.
Qed.

Lemma lex_loop_bounds (F : bool) (buf l : list ascii) :
  forall s it s',
    lexer_inv F s -> bounds_inv it s -> 0 <= it ->
    it + Z.of_nat (List.length l) < 2 ^ 64 ->
    lex_loop F buf s it l = Running s' ->
    bounds_inv (it + Z.of_nat (List.length l)) s'.
Proof.
  induction l as [ | ch l IH ]; intros s it s' Hinv Hb H0 Hmax H.
  - simpl in *. injection H as <-. now rewrite Z.add_0_r.
  - cbn [lex_loop] in H. cbn [List.length] in *.
    destruct (step F buf s it ch) as [ s1 | | ] eqn:E; try discriminate.
    replace (it + Z.of_nat (S (List.length l)))
      with (it + 1 + Z.of_nat (List.length l)) in * by lia.
    apply (IH s1 (it + 1) s'); try assumption; try lia.
    + exact (step_lexer_inv F buf s it ch s1 Hinv E).
    + apply (step_bounds F buf s it ch s1 Hinv Hb H0); [ lia | exact E ].
Qed.


Lemma token_chars_length (buf : list ascii) (t : tPToken) :
  tok_ok (Z.of_nat (List.length buf)) t ->
  Z.of_nat (List.length (token_chars buf t)) = tok_length t.
Proof.
  unfold tok_ok, token_chars. destruct (tok_start t) as [ a | ].
  - intros (Ha & Hl & Hal). rewrite length_firstn, length_skipn. lia.
  - intros ->. reflexivity.
Qed.

(** X8. For an input of less than 2^64 bytes, every token the pass leaves
    behind is the null pointer with length 0 or lies inside the input: its
    start is an offset into the buffer and start plus length does not pass
    the end of the buffer, so that the parsers and the calls of [fwrite] that
    read the tokens after the pass read as many bytes as the length says and
    none outside the buffer. The start of the thumbnail data is never after
    the start of the current line. *)
Theorem tokens_inside_buffer :
  forall (F : bool) (buf : list ascii) (s : tLexer),
    Z.of_nat (List.length buf) < 2 ^ 64 ->
    lex F buf = Running s ->
    (forall k, tok_ok (Z.of_nat (List.length buf)) (slots s k)
               /\ Z.of_nat (List.length (token_chars buf (slots s k)))
                  = tok_length (slots s k))
    /\ tok_ok (Z.of_nat (List.length buf)) (origThumbnail s)
    /\ tok_ok (Z.of_nat (List.length buf)) (aToken s)
    /\ 0 <= lineStart s <= Z.of_nat (List.length buf).
Proof.
  intros F buf s Hlen H.
  pose proof (lex_loop_bounds F buf buf init_lexer 0 s (lexer_inv_init F)
                bounds_inv_init (Z.le_refl 0) Hlen H) as Hb.
  rewrite Z.add_0_l in Hb. destruct Hb as (Hls & Ha & Hsl & Ho & _).
  repeat split; try assumption; try lia.
  - apply Hsl.
  - apply token_chars_length, Hsl.
Qed.

Lemma tokens_inside_buffer_witness :
  exists s,
    lex true input_open_thumbnail = Running s
    /\ tok_ok (Z.of_nat (List.length input_open_thumbnail)) (slots s thumbnail)
    /\ tok_ok (Z.of_nat (List.length input_open_thumbnail)) (origThumbnail s).
Proof.
  assert (Hlex : exists s, lex true input_open_thumbnail = Running s)
    by (eexists; vm_compute; reflexivity).
  destruct Hlex as (s & Hlex). exists s.
  assert (Hlen : Z.of_nat (List.length input_open_thumbnail) < 2 ^ 64)
    by (vm_compute; reflexivity).
  destruct (tokens_inside_buffer true input_open_thumbnail s Hlen Hlex)
    as (Hsl & Ho & _).
  split; [ exact Hlex | split; [ apply Hsl | exact Ho ] ].
Defined.

(** * Further properties: what is written back *)

Lemma check_missing_messages (cb : tCallback) (s : tLexer)
      (l : list (tSlot * tMessage)) :
  Forall (fun p => is_warning (snd p) = true) l ->
  forall tr tr' go_on,
    check_missing cb s l tr = (tr', go_on) ->
    exists cs,
      tr' = tr ++ List.map EvCallback cs
      /\ Forall (fun c => is_warning_call c = true) cs
      /\ (exists n,
             List.map call_msg cs
             = firstn n (List.map snd
                           (filter (fun p => is_missing (slots s (fst p))) l)))
      /\ (go_on = true ->
          List.map call_msg cs
          = List.map snd (filter (fun p => is_missing (slots s (fst p))) l)).
Proof.
  induction 1 as [ | [k msg] l Hmsg Hl IH ]; intros tr tr' go_on H.
  - unfold check_missing in H. injection H as <- <-. exists [].
    rewrite app_nil_r.
    split; [ reflexivity | split; [ constructor | ] ].
    split; [ now exists 0%nat | reflexivity ].
  - unfold check_missing in H; fold check_missing in H. cbn [filter fst].
    destruct (is_missing (slots s k)); [ | now apply IH ].
    destruct (cb tr msg (lineNr s) =? 1).
    + apply IH in H. destruct H as (cs & -> & Hw & (n & Hn) & Hgo).
      exists (mkCall msg (lineNr s) (cb tr msg (lineNr s)) :: cs).
      unfold invoke. rewrite <- app_assoc. split; [ reflexivity | ].
      split; [ constructor; [ exact Hmsg | exact Hw ] | ].
      cbn [List.map call_msg snd]. split.
      * exists (S n). cbn [firstn]. now rewrite Hn.
      * intro Hg. now rewrite (Hgo Hg).
    + injection H as <- <-.
      exists [mkCall msg (lineNr s) (cb tr msg (lineNr s))].
      split; [ reflexivity | ].
      split; [ constructor; [ exact Hmsg | constructor ] | ].
      split; [ exists 1%nat; reflexivity | discriminate ].
Qed.

Lemma warnings_of_callbacks (cs : list tCall) (tr : list tEvent) :
  Forall (fun c => is_warning_call c = true) cs ->
  warnings_of (List.map EvCallback cs ++ tr)
  = List.map call_msg cs ++ warnings_of tr.
Proof.
  intro H. unfold warnings_of. rewrite calls_of_callbacks, map_app, filter_app.
  f_equal. induction H as [ | c cs Hc _ IH ]; [ reflexivity | ].
  cbn [List.map filter]. unfold is_warning_call in Hc. now rewrite Hc, IH.
Qed.

Lemma warnings_of_writes (ws : list tWrite) (tr : list tEvent) :
  warnings_of (List.map EvWrite ws ++ tr) = warnings_of tr.
Proof. unfold warnings_of. now rewrite calls_of_writes. Qed.

Lemma Some_inj (A : Type) (a b : A) : Some a = Some b -> a = b.
Proof. congruence. Qed.

Lemma created_warnings (cs : list tCall) (h ws : list tWrite) (tail tr : list tEvent) :
  tr = List.map EvCallback cs ++ EvCreate :: List.map EvWrite h
       ++ List.map EvWrite ws ++ tail ->
  Forall (fun c => is_warning_call c = true) cs ->
  tail = [] \/ (exists c, call_msg c = MSGT_ERR_FILE_WRITE /\ tail = [EvCallback c]) ->
  warnings_of tr = List.map call_msg cs.
Proof.
  intros -> Hw Htail. rewrite warnings_of_callbacks by exact Hw.
  unfold warnings_of at 1. cbn [calls_of].
  fold (warnings_of (List.map EvWrite h ++ List.map EvWrite ws ++ tail)).
  rewrite !warnings_of_writes.
  destruct Htail as [-> | (c & Hc & ->)].
  - cbn. now rewrite app_nil_r.
  - unfold warnings_of. cbn. rewrite Hc. cbn. now rewrite app_nil_r.
Qed.

(** The run of [processFile] after a pass that ran to its end. *)
Lemma processFile_anatomy (F : bool) (V : string) (io : tIO) (cb : tCallback)
      (r : tReturn) (s : tLexer) :
  processFile F V io cb = Some r ->
  lex F (file_bytes io) = Running s ->
  (exists n, warnings_of (trace r) = firstn n (missing_warnings s))
  /\ (forall ws,
         file_after (trace r) = Rewritten ws ->
         warnings_of (trace r) = missing_warnings s
         /\ ((ferror_fp io = true
              /\ ws = header F V (file_bytes io) (correct_minZ (file_bytes io) s)
              /\ res r = 0)
             \/ (ferror_fp io = false
                 /\ exists body ok,
                     remaining_file F io (file_bytes io)
                                    (correct_minZ (file_bytes io) s) = (body, ok)
                     /\ ws = header F V (file_bytes io)
                                    (correct_minZ (file_bytes io) s) ++ body
                     /\ res r = b2z ok))).
Proof.
  intros H Hlex. unfold processFile, on_error, invoke in H.
  assert (Hnone : forall r0 : tReturn,
             trace r0 = [] \/ (exists m l v, is_warning m = false
                                             /\ trace r0 = [EvCallback (mkCall m l v)]) ->
             (exists n, warnings_of (trace r0) = firstn n (missing_warnings s))
             /\ (forall ws, file_after (trace r0) = Rewritten ws -> False)).
  { intros r0 [-> | (m & l & v & Hm & ->)].
    - split; [ now exists 0%nat | discriminate ].
    - split; [ exists 0%nat | discriminate ].
      unfold warnings_of. cbn. now rewrite Hm. }
  assert (Hout : forall r0 : tReturn,
             trace r0 = [] \/ (exists m l v, is_warning m = false
                                             /\ trace r0 = [EvCallback (mkCall m l v)]) ->
             r = r0 ->
             (exists n, warnings_of (trace r) = firstn n (missing_warnings s))
             /\ (forall ws,
                    file_after (trace r) = Rewritten ws ->
                    warnings_of (trace r) = missing_warnings s
                    /\ ((ferror_fp io = true
                         /\ ws = header F V (file_bytes io)
                                        (correct_minZ (file_bytes io) s)
                         /\ res r = 0)
                        \/ (ferror_fp io = false
                            /\ exists body ok,
                                remaining_file F io (file_bytes io)
                                               (correct_minZ (file_bytes io) s)
                                = (body, ok)
                                /\ ws = header F V (file_bytes io)
                                               (correct_minZ (file_bytes io) s)
                                        ++ body
                                /\ res r = b2z ok)))).
  { intros r0 H0 ->. destruct (Hnone r0 H0) as [H1 H2].
    split; [ exact H1 | ]. intros ws Hws. destruct (H2 ws Hws). }
  destruct (fopen_rb_ok io); cbn [negb] in H.
  2:{ injection H as <-. eapply Hout; [ | reflexivity ]. right.
      do 3 eexists. split; [ | reflexivity ]. reflexivity. }
  destruct (Z.of_nat (List.length (file_bytes io)) <? 1).
  { injection H as <-. eapply Hout; [ | reflexivity ]. now left. }
  destruct (malloc_ok io); cbn [negb] in H.
  2:{ injection H as <-. eapply Hout; [ | reflexivity ]. right.
      do 3 eexists. split; [ | reflexivity ]. reflexivity. }
  destruct (fread_ok io); cbn [negb] in H.
  2:{ injection H as <-. eapply Hout; [ | reflexivity ]. right.
      do 3 eexists. split; [ | reflexivity ]. reflexivity. }
  rewrite Hlex in H.
  destruct (check_missing cb (correct_minZ (file_bytes io) s) checked_tokens [])
    as [tr go_on] eqn:Ec.
  destruct (check_missing_messages cb _ _ checked_tokens_warnings _ _ _ Ec)
    as (cs & Htr & Hw & (n & Hn) & Hgo).
  cbn [app] in Htr. subst tr.
  rewrite slots_correct_minZ in Hn, Hgo. fold (missing_warnings s) in Hn, Hgo.
  rewrite lineNr_correct_minZ in H.
  destruct go_on; cbn [negb] in H.
  2:{ injection H as <-. cbn [trace]. split.
      - exists n. rewrite <- (app_nil_r (List.map EvCallback cs)).
        rewrite warnings_of_callbacks by exact Hw. cbn. now rewrite app_nil_r.
      - intros ws Hws. rewrite <- (app_nil_r (List.map EvCallback cs)) in Hws.
        rewrite file_after_callbacks in Hws. discriminate Hws. }
  specialize (Hgo eq_refl).
  destruct (fopen_wb_ok io); cbn [negb] in H.
  2:{ injection H as <-. cbn [trace]. split.
      - exists n. rewrite warnings_of_callbacks by exact Hw. cbn.
        now rewrite app_nil_r.
      - intros ws Hws. rewrite file_after_callbacks in Hws. discriminate Hws. }
  set (h := header F V (file_bytes io) (correct_minZ (file_bytes io) s)) in *.
  assert (Hshape : exists body tail,
             trace r = List.map EvCallback cs
                       ++ EvCreate :: List.map EvWrite h
                       ++ List.map EvWrite body ++ tail
             /\ (tail = [] \/ exists c, call_msg c = MSGT_ERR_FILE_WRITE
                                        /\ tail = [EvCallback c])
             /\ ((ferror_fp io = true /\ body = [] /\ res r = 0)
                 \/ (ferror_fp io = false
                     /\ exists ok,
                         remaining_file F io (file_bytes io)
                                        (correct_minZ (file_bytes io) s) = (body, ok)
                         /\ res r = b2z ok))).
  { clear Hnone Hout. destruct (ferror_fp io).
    - apply Some_inj in H. subst r. cbn [trace res]. exists []. eexists [EvCallback _].
      split; [ list_eq | split; [ right | left; auto ] ].
      eexists. split; [ | reflexivity ]. reflexivity.
    - destruct (remaining_file F io (file_bytes io) (correct_minZ (file_bytes io) s))
        as [body ok] eqn:Erem.
      exists body.
      destruct ok; apply Some_inj in H; subst r; cbn [trace res].
      + exists []. split; [ list_eq | split; [ now left | right ] ].
        split; [ reflexivity | ]. now exists true.
      + eexists [EvCallback _]. split; [ list_eq | split; [ right | right ] ].
        * eexists. split; [ | reflexivity ]. reflexivity.
        * split; [ reflexivity | ]. now exists false. }
  destruct Hshape as (body & tail & Htrace & Htail & Hcase).
  assert (Hwarn : warnings_of (trace r) = missing_warnings s).
  { rewrite (created_warnings cs h body tail (trace r) Htrace Hw Htail).
    exact Hgo. }
  split; [ exists n; rewrite Hwarn, <- Hn; symmetry; exact Hgo | ].
  intros ws Hws. split; [ exact Hwarn | ].
  assert (Htail' : tail = [] \/ (exists c, tail = [EvCallback c])).
  { destruct Htail as [-> | (c & _ & ->)]; eauto. }
  destruct (created_trace cs h body tail (trace r) Htrace Htail') as (_ & Hf & _).
  rewrite Hf in Hws. injection Hws as <-.
  destruct Hcase as [(He & -> & Hres) | (He & ok & Hrem & Hres)].
  - left. rewrite app_nil_r. auto.
  - right. split; [ exact He | ]. exists body, ok. auto.
Qed.

Lemma rewritten_after_pass (F : bool) (V : string) (io : tIO) (cb : tCallback)
      (r : tReturn) (ws : list tWrite) :
  processFile F V io cb = Some r ->
  file_after (trace r) = Rewritten ws ->
  exists s, lex F (file_bytes io) = Running s.
Proof.
  intros H Hws.
  destruct (processFile_course F V io cb) as (r' & H' & Hcourse).
  rewrite H in H'. apply Some_inj in H'. subst r'.
  destruct Hcourse as [ r [(c0 & _ & ->) | ->] _ | s | s | s ]; eauto;
    discriminate Hws.
Qed.

Lemma origThumbnail_correct_minZ (buf : list ascii) (s : tLexer) :
  origThumbnail (correct_minZ buf s) = origThumbnail s.
Proof. unfold correct_minZ. now break_ifs. Qed.

Lemma fwrite_fails_false (io : tIO) (n : nat) (bytes : list ascii) :
  fwrite_fails io n bytes = false -> bytes <> [].
Proof. destruct bytes; [ discriminate | discriminate ]. Qed.

Lemma buffer_split (buf : list ascii) (a len : Z) :
  0 <= a -> 0 <= len ->
  buf = firstn (Z.to_nat a) buf
        ++ firstn (Z.to_nat len) (skipn (Z.to_nat a) buf)
        ++ skipn (Z.to_nat (a + len)) buf.
Proof.
  intros Ha Hl. rewrite Z2Nat.inj_add by assumption.
  rewrite (Nat.add_comm (Z.to_nat a)), <- skipn_skipn.
  now rewrite !firstn_skipn.
Qed.

Lemma tokens_bounds_after (F : bool) (buf : list ascii) (s : tLexer) :
  Z.of_nat (List.length buf) < 2 ^ 64 ->
  lex F buf = Running s ->
  tok_ok (Z.of_nat (List.length buf)) (origThumbnail s)
  /\ forall k, tok_ok (Z.of_nat (List.length buf)) (slots s k).
Proof.
  intros Hlen H.
  pose proof (lex_loop_bounds F buf buf init_lexer 0 s (lexer_inv_init F)
                bounds_inv_init (Z.le_refl 0) Hlen H) as Hb.
  rewrite Z.add_0_l in Hb. destruct Hb as (_ & _ & Hsl & Ho & _). auto.
Qed.

(** X10. When [processFile] returns 1 after it created the file anew, the
    file holds the header and after it the input: byte for byte in one call
    of [fwrite], or, with the removal of the original thumbnail compiled in
    and a block found, in two calls that write what is in front of the block
    and what is behind it, both not empty; nothing else of the input is left
    out and nothing is written twice. *)
Theorem input_is_written_back :
  forall (F : bool) (V : string) (io : tIO) (cb : tCallback) (r : tReturn)
         (s : tLexer) (ws : list tWrite),
    Z.of_nat (List.length (file_bytes io)) < 2 ^ 64 ->
    processFile F V io cb = Some r ->
    lex F (file_bytes io) = Running s ->
    res r = 1 ->
    file_after (trace r) = Rewritten ws ->
    exists body,
      ws = header F V (file_bytes io) (correct_minZ (file_bytes io) s) ++ body
      /\ (body = [fwrite (file_bytes io)]
          \/ (F = true
              /\ tok_length (origThumbnail s) <> 0
              /\ exists before after,
                  body = [fwrite before; fwrite after]
                  /\ before <> [] /\ after <> []
                  /\ file_bytes io
                     = before ++ token_chars (file_bytes io) (origThumbnail s)
                       ++ after)).
Proof.
  intros F V io cb r s ws Hlen H Hlex Hres Hws.
  destruct (processFile_anatomy F V io cb r s H Hlex) as [_ Hall].
  destruct (Hall ws Hws) as [_ [(_ & _ & H0) | (_ & body & ok & Hrem & -> & Hok)]];
    [ lia | ].
  exists body. split; [ reflexivity | ].
  destruct ok; [ | simpl in Hok; lia ].
  destruct (tokens_bounds_after F (file_bytes io) s Hlen Hlex) as [Ho _].
  unfold remaining_file in Hrem. rewrite origThumbnail_correct_minZ in Hrem.
  unfold tok_ok, token_chars in *.
  destruct (tok_start (origThumbnail s)) as [ a | ].
  - destruct F; cbn [andb] in Hrem.
    + destruct (tok_length (origThumbnail s) =? 0) eqn:E0; cbn [negb] in Hrem.
      * left. destruct (fwrite_fails io 0 (file_bytes io)); now injection Hrem as <-.
      * right. apply Z.eqb_neq in E0. split; [ reflexivity | split; [ exact E0 | ] ].
        destruct (fwrite_fails io 0 (firstn (Z.to_nat a) (file_bytes io))) eqn:E1;
          [ discriminate | ].
        destruct (fwrite_fails io 1
                    (skipn (Z.to_nat (a + tok_length (origThumbnail s)))
                           (file_bytes io))) eqn:E2; [ discriminate | ].
        injection Hrem as <-. do 2 eexists. split; [ reflexivity | ].
        split; [ exact (fwrite_fails_false io 0 _ E1) | ].
        split; [ exact (fwrite_fails_false io 1 _ E2) | ].
        apply buffer_split; lia.
    + left. destruct (fwrite_fails io 0 (file_bytes io)); now injection Hrem as <-.
  - left. destruct (fwrite_fails io 0 (file_bytes io)); now injection Hrem as <-.
Qed.

Lemma input_is_written_back_witness :
  exists r s ws body,
    processFile true "1.0" (io_ok input_thumbnail_middle) cb_continue = Some r
    /\ file_after (trace r) = Rewritten ws
    /\ ws = header true "1.0" input_thumbnail_middle
                   (correct_minZ input_thumbnail_middle s) ++ body
    /\ (body = [fwrite input_thumbnail_middle]
        \/ (true = true
            /\ tok_length (origThumbnail s) <> 0
            /\ exists before after,
                body = [fwrite before; fwrite after]
                /\ before <> [] /\ after <> []
                /\ input_thumbnail_middle
                   = before
                     ++ token_chars input_thumbnail_middle (origThumbnail s)
                     ++ after)).
Proof.
  assert (Hrun : exists r s ws,
             processFile true "1.0" (io_ok input_thumbnail_middle) cb_continue
             = Some r
             /\ lex true (file_bytes (io_ok input_thumbnail_middle)) = Running s
             /\ res r = 1
             /\ file_after (trace r) = Rewritten ws).
  { do 3 eexists. split; [ vm_compute; reflexivity | ].
    split; [ vm_compute; reflexivity | ].
    split; vm_compute; reflexivity. }
  destruct Hrun as (r & s & ws & Hrun & Hlex & Hres & Hws).
  assert (Hlen : Z.of_nat (List.length (file_bytes (io_ok input_thumbnail_middle)))
                 < 2 ^ 64) by (vm_compute; reflexivity).
  destruct (input_is_written_back true "1.0" (io_ok input_thumbnail_middle)
              cb_continue r s ws Hlen Hrun Hlex Hres Hws) as (body & Hbody & Hcase).
  exists r, s, ws, body. auto.
Defined.

(** X11. With the removal of the original thumbnail compiled in, a block
    that starts with the first byte of the file, or that ends with its last
    byte, makes one of the two calls of [fwrite] a call for no bytes, which
    counts as a write error: the file was created anew already, [processFile]
    reports MSGT_ERR_FILE_WRITE and returns 0, and the file is left with the
    header alone, or with the header and what was in front of the block. *)
Theorem removal_at_the_edge_loses_the_file :
  forall (V : string) (io : tIO) (cb : tCallback) (r : tReturn) (s : tLexer)
         (ws : list tWrite) (a : Z),
    processFile true V io cb = Some r ->
    lex true (file_bytes io) = Running s ->
    file_after (trace r) = Rewritten ws ->
    tok_start (origThumbnail s) = Some a ->
    tok_length (origThumbnail s) <> 0 ->
    a = 0 \/ Z.of_nat (List.length (file_bytes io)) <= a + tok_length (origThumbnail s) ->
    res r = 0
    /\ (exists tr c, trace r = tr ++ [EvCallback c]
                     /\ call_msg c = MSGT_ERR_FILE_WRITE)
    /\ (ws = header true V (file_bytes io) (correct_minZ (file_bytes io) s)
        \/ ws = header true V (file_bytes io) (correct_minZ (file_bytes io) s)
                ++ [fwrite (firstn (Z.to_nat a) (file_bytes io))])
    /\ (a = 0 ->
        ws = header true V (file_bytes io) (correct_minZ (file_bytes io) s)).
Proof.
  intros V io cb r s ws a H Hlex Hws Ha Hl Hedge.
  destruct (processFile_anatomy true V io cb r s H Hlex) as [_ Hall].
  assert (Hlast : res r = 0 ->
                  exists tr c, trace r = tr ++ [EvCallback c]
                               /\ call_msg c = MSGT_ERR_FILE_WRITE).
  { intro Hres.
    destruct (processFile_course true V io cb) as (r' & H' & Hcourse).
    rewrite H in H'. apply Some_inj in H'. subst r'.
    destruct Hcourse as [ r [(c0 & _ & ->) | ->] _
                        | s0 cs c0 _ _ _ _ _ | s0 cs c0 _ _ _
                        | s0 cs ws0 tail rs _ _ _ Htail ];
      cbn [res trace] in *; try discriminate Hws.
    - rewrite file_after_callbacks in Hws. discriminate Hws.
    - rewrite file_after_callbacks in Hws. discriminate Hws.
    - destruct Htail as [[-> _] | (_ & c1 & Hm & ->)];
        [ discriminate | ].
      eexists. exists c1. split; [ | exact Hm ].
      rewrite app_comm_cons, !app_assoc. reflexivity. }
  destruct (Hall ws Hws) as [_ [(_ & -> & H0) | (_ & body & ok & Hrem & -> & Hok)]].
  { split; [ exact H0 | split; [ exact (Hlast H0) | split; [ now left | reflexivity ] ] ]. }
  unfold remaining_file in Hrem. rewrite origThumbnail_correct_minZ, Ha in Hrem.
  cbn [andb] in Hrem.
  replace (tok_length (origThumbnail s) =? 0) with false in Hrem
    by (symmetry; now apply Z.eqb_neq).
  cbn [negb] in Hrem.
  destruct (fwrite_fails io 0 (firstn (Z.to_nat a) (file_bytes io))) eqn:E1.
  - injection Hrem as <- <-. rewrite app_nil_r.
    split; [ exact Hok | split; [ exact (Hlast Hok) | split; [ now left | reflexivity ] ] ].
  - destruct Hedge as [-> | Hend]; [ discriminate E1 | ].
    assert (Hnil : skipn (Z.to_nat (a + tok_length (origThumbnail s))) (file_bytes io)
                   = []) by (apply skipn_all2; lia).
    rewrite Hnil in Hrem. cbn [fwrite_fails] in Hrem. injection Hrem as <- <-.
    split; [ exact Hok | split; [ exact (Hlast Hok) | split; [ now right | ] ] ].
    intros ->. discriminate E1.
Qed.

Lemma removal_at_the_edge_loses_the_file_witness :
  (exists r ws,
      processFile true "1.0" (io_ok input_thumbnail_first) cb_continue = Some r
      /\ file_after (trace r) = Rewritten ws
      /\ res r = 0)
  /\ (exists r ws,
         processFile true "1.0" (io_ok input_thumbnail_last) cb_continue = Some r
         /\ file_after (trace r) = Rewritten ws
         /\ res r = 0).
Proof.
  split.
  - assert (Hrun : exists r s ws,
               processFile true "1.0" (io_ok input_thumbnail_first) cb_continue
               = Some r
               /\ lex true (file_bytes (io_ok input_thumbnail_first)) = Running s
               /\ file_after (trace r) = Rewritten ws
               /\ tok_start (origThumbnail s) = Some 0
               /\ tok_length (origThumbnail s) <> 0).
    { do 3 eexists. split; [ vm_compute; reflexivity | ].
      split; [ vm_compute; reflexivity | ].
      split; [ vm_compute; reflexivity | ].
      split; [ vm_compute; reflexivity | vm_compute; discriminate ]. }
    destruct Hrun as (r & s & ws & Hrun & Hlex & Hws & Ha & Hl).
    exists r, ws. split; [ exact Hrun | split; [ exact Hws | ] ].
    exact (proj1 (removal_at_the_edge_loses_the_file
                    "1.0" (io_ok input_thumbnail_first) cb_continue r s ws 0
                    Hrun Hlex Hws Ha Hl (or_introl eq_refl))).
  - assert (Hrun : exists r s ws,
               processFile true "1.0" (io_ok input_thumbnail_last) cb_continue
               = Some r
               /\ lex true (file_bytes (io_ok input_thumbnail_last)) = Running s
               /\ file_after (trace r) = Rewritten ws
               /\ tok_start (origThumbnail s) = Some 6
               /\ tok_length (origThumbnail s) = 47).
    { do 3 eexists. split; [ vm_compute; reflexivity | ].
      split; [ vm_compute; reflexivity | ].
      split; [ vm_compute; reflexivity | ].
      split; vm_compute; reflexivity. }
    destruct Hrun as (r & s & ws & Hrun & Hlex & Hws & Ha & Hl).
    exists r, ws. split; [ exact Hrun | split; [ exact Hws | ] ].
    refine (proj1 (removal_at_the_edge_loses_the_file
                     "1.0" (io_ok input_thumbnail_last) cb_continue r s ws 6
                     Hrun Hlex Hws Ha _ (or_intror _))).
    + rewrite Hl. discriminate.
    + rewrite Hl. vm_compute. discriminate.
Defined.

(** * Further properties: the number of lines of the new file *)

Lemma line_feeds_app (a b : list ascii) :
  line_feeds (a ++ b) = line_feeds a + line_feeds b.
Proof. induction a as [ | ch a IH ]; simpl; [ reflexivity | rewrite IH; lia ]. Qed.

Lemma chars_app (a b : string) : chars (a ++ b) = chars a ++ chars b.
Proof. induction a as [ | ch a IH ]; simpl; [ reflexivity | now rewrite <- IH ]. Qed.

Lemma writes_line_feeds_app (a b : list tWrite) :
  writes_line_feeds (a ++ b) = writes_line_feeds a + writes_line_feeds b.
Proof. induction a as [ | w a IH ]; simpl; [ reflexivity | rewrite IH; lia ]. Qed.

Lemma is_base64_not_LF (ch : ascii) : is_base64 ch = true -> Ascii.eqb ch LF = false.
Proof.
  intro H. destruct (Ascii.eqb ch LF) eqn:E; [ | reflexivity ].
  apply Ascii.eqb_eq in E. subst ch. discriminate H.
Qed.

Lemma thumbnail_runs_line_feeds (l : list ascii) :
  forall run, line_feeds run = 0 -> writes_line_feeds (thumbnail_runs l run) = 0.
Proof.
  induction l as [ | ch l IH ]; intros run Hrun; [ reflexivity | ].
  cbn [thumbnail_runs]. destruct (is_base64 ch) eqn:E.
  - apply IH. rewrite line_feeds_app, Hrun. simpl.
    now rewrite (is_base64_not_LF ch E).
  - destruct run as [ | b run ]; [ now apply IH | ].
    cbn [writes_line_feeds write_line_feeds]. rewrite Hrun, IH; reflexivity.
Qed.

(** The header has 24 line feeds, one more with the thumbnail line and one
    more with the line of the second nozzle. *)
Lemma header_line_feeds (F : bool) (V : string) (buf : list ascii) (s : tLexer) :
  line_feeds (chars V) = 0 ->
  writes_line_feeds (header F V buf s)
  = 24 + b2z (hasThumbnail s) + b2z (f_lt f_tenth (nozzleTemp1Val buf s)).
Proof.
  intro HV. unfold header. rewrite !writes_line_feeds_app.
  cbn [writes_line_feeds write_line_feeds].
  assert (H1 : line_feeds
                 (line (";post-processed by sm2pspp " ++ V
                        ++ " (https://github.com/daniel-starke/sm2pspp)")) = 1).
  { unfold line. rewrite line_feeds_app, !chars_app, !line_feeds_app, HV.
    reflexivity. }
  rewrite H1.
  assert (Ht : writes_line_feeds
                 (if hasThumbnail s
                  then fprintf fmt_thumbnail []
                       :: thumbnail_runs (token_chars buf (slots s thumbnail)) []
                       ++ [fprintf [LF] []]
                  else []) = b2z (hasThumbnail s)).
  { destruct (hasThumbnail s); [ | reflexivity ].
    cbn [writes_line_feeds write_line_feeds]. rewrite writes_line_feeds_app.
    rewrite thumbnail_runs_line_feeds by reflexivity. reflexivity. }
  rewrite Ht.
  assert (Hn : writes_line_feeds
                 (if f_lt f_tenth (nozzleTemp1Val buf s)
                  then [fprintf fmt_nozzle_1_temperature
                                [ArgFloat (nozzleTemp1Val buf s)]]
                  else []) = b2z (f_lt f_tenth (nozzleTemp1Val buf s))).
  { destruct (f_lt f_tenth (nozzleTemp1Val buf s)); reflexivity. }
  rewrite Hn.
  generalize (b2z (hasThumbnail s)) (b2z (f_lt f_tenth (nozzleTemp1Val buf s))).
  intros h n.
  repeat match goal with
         | |- context [line_feeds ?l] =>
           let v := eval vm_compute in (line_feeds l) in
           change (line_feeds l) with v
         end.
  lia.
Qed.

Lemma rendered_line_feeds (print : list ascii -> list tArg -> list ascii)
      (ws : list tWrite) :
  keeps_line_feeds print ->
  line_feeds (rendered print ws) = writes_line_feeds ws.
Proof.
  intro Hprint. unfold rendered.
  induction ws as [ | w ws IH ]; [ reflexivity | ].
  cbn [flat_map writes_line_feeds]. rewrite line_feeds_app, IH.
  destruct w; cbn [write_line_feeds]; [ now rewrite Hprint | reflexivity ].
Qed.

(** X12. Without the removal of the original thumbnail, the field
    file_total_lines of the header is right for the file that is written:
    when [processFile] returns 1, the number the header gives is one more
    than the number of line feeds of the new file, modulo 2^64, whatever the
    input was, provided the version string has no line feed. *)
Theorem file_total_lines_of_the_new_file :
  forall (V : string) (io : tIO) (cb : tCallback) (r : tReturn)
         (ws : list tWrite) (print : list ascii -> list tArg -> list ascii),
    keeps_line_feeds print ->
    line_feeds (chars V) = 0 ->
    processFile false V io cb = Some r ->
    res r = 1 ->
    file_after (trace r) = Rewritten ws ->
    exists n,
      In (fprintf fmt_file_total_lines [ArgULong n]) ws
      /\ (forall args, In (fprintf fmt_file_total_lines args) ws ->
                       args = [ArgULong n])
      /\ n = (1 + line_feeds (rendered print ws)) mod 2 ^ 64.
Proof.
  intros V io cb r ws print Hprint HV H Hres Hws.
  destruct (rewritten_after_pass false V io cb r ws H Hws) as (s & Hlex).
  destruct (processFile_anatomy false V io cb r s H Hlex) as [_ Hall].
  destruct (Hall ws Hws) as [_ [(_ & _ & H0) | (_ & body & ok & Hrem & -> & Hok)]];
    [ lia | ].
  destruct ok; [ | simpl in Hok; lia ].
  assert (Hbody : body = [fwrite (file_bytes io)]).
  { unfold remaining_file in Hrem. cbn [andb] in Hrem.
    destruct (tok_start (origThumbnail (correct_minZ (file_bytes io) s)));
      destruct (fwrite_fails io 0 (file_bytes io)); now injection Hrem as <-. }
  subst body.
  exists (file_total_lines false (file_bytes io) (correct_minZ (file_bytes io) s)).
  split; [ | split ].
  - apply in_or_app. left. now apply header_file_total_lines.
  - intros args Hin. apply in_app_or in Hin. destruct Hin as [Hin | [Hin | []]].
    + now apply header_file_total_lines in Hin.
    + discriminate Hin.
  - rewrite (rendered_line_feeds print _ Hprint), writes_line_feeds_app.
    rewrite (header_line_feeds false V _ _ HV).
    rewrite (file_total_lines_formula false (file_bytes io) s Hlex).
    unfold hasThumbnail. rewrite slots_correct_minZ.
    fold (hasThumbnail s).
    rewrite !nozzleTemp1Val_p_float, slots_correct_minZ.
    cbn [writes_line_feeds write_line_feeds]. f_equal. lia.
Qed.

Lemma file_total_lines_of_the_new_file_witness :
  exists r ws n,
    processFile false "1.0" (io_ok input_thumbnail_middle) cb_continue = Some r
    /\ file_after (trace r) = Rewritten ws
    /\ In (fprintf fmt_file_total_lines [ArgULong n]) ws
    /\ n = (1 + line_feeds (rendered print_format ws)) mod 2 ^ 64.
Proof.
  assert (Hrun : exists r ws,
             processFile false "1.0" (io_ok input_thumbnail_middle) cb_continue
             = Some r
             /\ res r = 1
             /\ file_after (trace r) = Rewritten ws).
  { do 2 eexists. split; [ vm_compute; reflexivity | ].
    split; vm_compute; reflexivity. }
  destruct Hrun as (r & ws & Hrun & Hres & Hws).
  assert (Hprint : keeps_line_feeds print_format) by (intros f args; reflexivity).
  destruct (file_total_lines_of_the_new_file
              "1.0" (io_ok input_thumbnail_middle) cb_continue r ws print_format
              Hprint eq_refl Hrun Hres Hws) as (n & Hin & _ & Hn).
  exists r, ws, n. auto.
Defined.

(** * Further properties: the program *)

Lemma check_missing_continues (cb : tCallback) (s : tLexer)
      (l : list (tSlot * tMessage)) :
  (forall tr msg line, cb tr msg line = 1) ->
  forall tr, snd (check_missing cb s l tr) = true.
Proof.
  intro Hcb. induction l as [ | [k msg] l IH ]; intro tr.
  - reflexivity.
  - unfold check_missing; fold check_missing.
    destruct (is_missing (slots s k)); [ | apply IH ].
    rewrite Hcb. cbn [Z.eqb Pos.eqb]. apply IH.
Qed.

(** X13. Without the removal of the original thumbnail, the program cannot
    fail on a file that can be read and written: given a file name, it ends
    with EXIT_SUCCESS whatever the bytes of the file are, as [errorCallback]
    answers every warning with 1. Without a file name it ends with
    EXIT_FAILURE. *)
Theorem program_succeeds_on_any_readable_file :
  (forall (V : string) (argc : Z) (bytes : list ascii),
     2 <= argc ->
     _tmain false V argc (io_ok bytes) = Some EXIT_SUCCESS)
  /\ (forall (F : bool) (V : string) (argc : Z) (io : tIO),
        argc < 2 -> _tmain F V argc io = Some EXIT_FAILURE).
Proof.
  split.
  - intros V argc bytes Hargc. unfold _tmain.
    replace (argc <? 2) with false by (symmetry; apply Z.ltb_ge; lia).
    assert (Hres : exists tr, processFile false V (io_ok bytes) errorCallback
                              = Some (mkReturn 1 tr)).
    { unfold processFile, io_ok.
      cbn [fopen_rb_ok malloc_ok fread_ok fopen_wb_ok ferror_fp file_bytes negb].
      destruct (Z.of_nat (List.length bytes) <? 1) eqn:El; [ eauto | ].
      destruct (lex false bytes) as [ s | | ] eqn:Elex; [ | eauto | ].
      2:{ now apply lex_no_fault in Elex. }
      pose proof (check_missing_continues errorCallback (correct_minZ bytes s)
                    checked_tokens (fun _ _ _ => eq_refl) []) as Hgo.
      destruct (check_missing errorCallback (correct_minZ bytes s) checked_tokens [])
        as [tr go_on].
      cbn [snd] in Hgo. subst go_on. cbn [negb].
      assert (Hrem : remaining_file false
                       (mkIO bytes true true true true false (fun _ => true))
                       bytes (correct_minZ bytes s) = ([fwrite bytes], true)).
      { unfold remaining_file. cbn [andb].
        assert (Hw : fwrite_fails
                       (mkIO bytes true true true true false (fun _ => true))
                       0 bytes = false).
        { destruct bytes; [ discriminate El | reflexivity ]. }
        rewrite Hw. now destruct (tok_start (origThumbnail (correct_minZ bytes s))). }
      rewrite Hrem. eauto. }
    destruct Hres as (tr & ->). reflexivity.
  - intros F V argc io Hargc. unfold _tmain.
    replace (argc <? 2) with true by (symmetry; apply Z.ltb_lt; lia).
    reflexivity.
Qed.

Lemma program_succeeds_on_any_readable_file_witness :
  _tmain false "1.0" 2 (io_ok input_open_thumbnail) = Some EXIT_SUCCESS
  /\ _tmain true "1.0" 1 (io_ok input_open_thumbnail) = Some EXIT_FAILURE.
Proof.
  split.
  - apply (proj1 program_succeeds_on_any_readable_file). lia.
  - apply (proj2 program_succeeds_on_any_readable_file). lia.
Defined.

(** * Further properties: lines that are no command G and no comment *)

Lemma step_find_line_start (F : bool) (buf : list ascii) (s : tLexer) (it : Z)
      (ch : ascii) :
  state s = ST_FIND_LINE_START ->
  Ascii.eqb ch LF = false ->
  exists v,
    step F buf s it ch = Running (set_lineStart s v).
Proof.
  intros St Hch. unfold step, switch_state. rewrite St.
  unfold step_FIND_LINE_START, end_of_turn. rewrite Hch.
  destruct (Ascii.eqb ch CR).
  - eexists. reflexivity.
  - exists (lineStart s). now destruct s.
Qed.

Lemma lex_loop_find_line_start (F : bool) (buf : list ascii) (rest : list ascii) :
  no_line_feed rest = true ->
  forall s it,
    state s = ST_FIND_LINE_START ->
    lex_loop F buf s it (rest ++ [LF])
    = Running (set_state
                 (set_lineStart (set_lineNr s (size_t (lineNr s + 1)))
                                (it + Z.of_nat (List.length rest) + 1))
                 ST_LINE_START).
Proof.
  induction rest as [ | ch rest IH ]; intros Hrest s it St.
  - cbn [app lex_loop]. unfold step, switch_state. rewrite St.
    unfold step_FIND_LINE_START, end_of_turn.
    change (Ascii.eqb LF LF) with true. cbn [List.length Z.of_nat].
    rewrite Z.add_0_r. now destruct s.
  - cbn [no_line_feed forallb] in Hrest. apply andb_prop in Hrest.
    destruct Hrest as [Hch Hrest]. apply negb_true_iff in Hch.
    cbn [app lex_loop].
    destruct (step_find_line_start F buf s it ch St Hch) as (v & ->).
    rewrite (IH Hrest (set_lineStart s v) (it + 1)) by (destruct s; exact St).
    replace (it + 1 + Z.of_nat (List.length rest) + 1)
      with (it + Z.of_nat (List.length (ch :: rest)) + 1)
      by (cbn [List.length]; lia).
    now destruct s.
Qed.

(** X14. A line whose first character is neither white space nor ';' nor
    'G' is skipped as a whole: at its line feed the lexer is where it was at
    the start of the line, but for the line count and the start of the line.
    No token, no parameter and nothing of the geometry changes: a comment
    behind such a command is not read, and a command M or T has no effect. *)
Theorem other_lines_are_skipped :
  forall (F : bool) (buf rest : list ascii) (s : tLexer) (it : Z) (ch : ascii),
    state s = ST_LINE_START ->
    Ascii.eqb ch ";" = false -> Ascii.eqb ch "G" = false -> isspace ch = false ->
    no_line_feed rest = true ->
    lex_loop F buf s it (ch :: rest ++ [LF])
    = Running (set_lineStart (set_lineNr s (size_t (lineNr s + 1)))
                             (it + Z.of_nat (List.length rest) + 2)).
Proof.
  intros F buf rest s it ch St Hsemi HG Hsp Hrest.
  cbn [lex_loop].
  assert (Hch : Ascii.eqb ch LF = false).
  { destruct (Ascii.eqb ch LF) eqn:E; [ | reflexivity ].
    apply Ascii.eqb_eq in E. subst ch. discriminate Hsp. }
  assert (Hstep : exists v, step F buf s it ch
                            = Running (set_lineStart (set_state s ST_FIND_LINE_START) v)).
  { unfold step, switch_state. rewrite St. unfold step_LINE_START, end_of_turn.
    rewrite Hsemi, HG, Hsp, Hch. cbn [negb].
    destruct (Ascii.eqb ch CR).
    - eexists. reflexivity.
    - exists (lineStart s). now destruct s. }
  destruct Hstep as (v & ->).
  rewrite (lex_loop_find_line_start F buf rest Hrest) by (now destruct s).
  replace (it + 1 + Z.of_nat (List.length rest) + 1)
    with (it + Z.of_nat (List.length rest) + 2) by lia.
  destruct s. cbn in St. now subst.
Qed.

Lemma other_lines_are_skipped_witness :
  lex_loop false (chars "M104 S200 ; layer_height = 0.3" ++ [LF]) init_lexer 0
           ("M"%char :: chars "104 S200 ; layer_height = 0.3" ++ [LF])
  = Running (set_lineStart (set_lineNr init_lexer 2) 31).
Proof.
  rewrite (other_lines_are_skipped false _ (chars "104 S200 ; layer_height = 0.3")
             init_lexer 0 "M"); reflexivity.
Defined.

(** * Further properties: the box after the first layer change *)

Lemma f_le_trans (a b c : float) :
  f_le a b = true -> f_le b c = true -> f_le a c = true.
Proof.
  unfold f_le, SFleb.
  destruct a as [sa | sa | | sa ma ea], b as [sb | sb | | sb mb eb],
           c as [sc | sc | | sc mc ec];
    cbn [SFcompare]; try discriminate; try reflexivity;
    try (destruct sa, sb, sc; cbn; congruence);
    try (destruct sa, sb; cbn; congruence);
    try (destruct sa, sc; cbn; congruence);
    try (destruct sb, sc; cbn; congruence).
  change (Pos.compare_cont Eq ma mb) with (Pos.compare ma mb).
  change (Pos.compare_cont Eq mb mc) with (Pos.compare mb mc).
  change (Pos.compare_cont Eq ma mc) with (Pos.compare ma mc).
  destruct sa, sb, sc; try discriminate; try reflexivity;
    destruct (Z.compare_spec ea eb), (Z.compare_spec eb ec), (Z.compare_spec ea ec);
    try lia; try discriminate; try reflexivity; subst;
    destruct (Pos.compare_spec ma mb), (Pos.compare_spec mb mc),
      (Pos.compare_spec ma mc);
    cbn; try lia; try discriminate; try reflexivity.
Qed.

Lemma f_lt_le (a b : float) : f_lt a b = true -> f_le a b = true.
Proof.
  unfold f_lt, f_le, SFltb, SFleb. destruct (SFcompare a b) as [ [ | | ] | ];
    congruence.
Qed.

Lemma axis_grows_refl (mn mx : float) :
  mn <> NAN -> mx <> NAN -> axis_grows mn mx mn mx.
Proof. intros H1 H2. split; now apply f_le_refl. Qed.

Lemma axis_grows_trans (a b a' b' a'' b'' : float) :
  axis_grows a b a' b' -> axis_grows a' b' a'' b'' -> axis_grows a b a'' b''.
Proof.
  intros [H1 H2] [H3 H4]. split.
  - exact (f_le_trans a'' a' a H3 H1).
  - exact (f_le_trans b b' b'' H2 H4).
Qed.

Lemma axis_grows_not_nan (a b a' b' : float) :
  axis_grows a b a' b' -> a' <> NAN /\ b' <> NAN.
Proof.
  intros [H1 H2]. split; [ now apply (f_le_not_nan a' a) | now apply (f_le_not_nan b b') ].
Qed.

Lemma widen_grows (mn mx v : float) :
  mn <> NAN -> mx <> NAN ->
  axis_grows mn mx (fst (widen mn mx v)) (snd (widen mn mx v)).
Proof.
  intros Hmn Hmx. unfold widen. cbn [fst snd]. split.
  - destruct (f_lt v mn) eqn:E; [ now apply f_lt_le | now apply f_le_refl ].
  - destruct (f_lt mx v) eqn:E; [ now apply f_lt_le | now apply f_le_refl ].
Qed.

Lemma widen_if_grows (guard mn mx v : float) :
  mn <> NAN -> mx <> NAN ->
  axis_grows mn mx (fst (widen_if guard mn mx v)) (snd (widen_if guard mn mx v)).
Proof.
  intros Hmn Hmx. unfold widen_if.
  destruct (IS_SET guard); [ now apply widen_grows | now apply axis_grows_refl ].
Qed.

Lemma widen_if_twice_grows (g1 g2 mn mx v1 v2 : float) :
  mn <> NAN -> mx <> NAN ->
  axis_grows mn mx
    (fst (widen_if g2 (fst (widen_if g1 mn mx v1)) (snd (widen_if g1 mn mx v1)) v2))
    (snd (widen_if g2 (fst (widen_if g1 mn mx v1)) (snd (widen_if g1 mn mx v1)) v2)).
Proof.
  intros Hmn Hmx.
  pose proof (widen_if_grows g1 mn mx v1 Hmn Hmx) as H1.
  destruct (axis_grows_not_nan _ _ _ _ H1) as [Ha Hb].
  exact (axis_grows_trans _ _ _ _ _ _ H1 (widen_if_grows g2 _ _ v2 Ha Hb)).
Qed.

Lemma linear_move_grows (c : tCmd) (g : tGeom) :
  box_ok g ->
  axis_grows (minX g) (maxX g) (minX (linear_move c g)) (maxX (linear_move c g))
  /\ axis_grows (minY g) (maxY g) (minY (linear_move c g)) (maxY (linear_move c g))
  /\ axis_grows (minZ g) (maxZ g) (minZ (linear_move c g)) (maxZ (linear_move c g)).
Proof.
  intros (Hx & Hy & Hz).
  apply axis_ok_not_nan in Hx, Hy, Hz.
  destruct Hx as [Hx1 Hx2], Hy as [Hy1 Hy2], Hz as [Hz1 Hz2].
  unfold linear_move.
  destruct (extrudes c); cbn [andb]; destruct (negb (prevExt g));
    cbn [minX minY minZ maxX maxY maxZ fst snd];
    repeat split;
    first [ now apply f_le_refl
          | now apply widen_if_grows
          | now apply widen_if_twice_grows ].
Qed.

Lemma gcode_end_grows (c : tCmd) (g : tGeom) :
  box_ok g -> hasLayerChange g = true -> box_grows g (gcode_end c g).
Proof.
  intros Hok Hl.
  destruct (linear_move_grows c g Hok) as ((X1 & X2) & (Y1 & Y2) & (Z1 & Z2)).
  destruct Hok as (Hx & Hy & Hz).
  apply axis_ok_not_nan in Hx, Hy, Hz.
  destruct Hx as [Hx1 Hx2], Hy as [Hy1 Hy2], Hz as [Hz1 Hz2].
  unfold box_grows, gcode_end.
  destruct ((code c =? G_ 0) || (code c =? G_ 1)).
  - repeat split; try assumption.
    unfold linear_move. now destruct (extrudes c).
  - destruct (code c =? G_ 90); [ | destruct (code c =? G_ 91) ];
      cbn [set_isAbsPos hasLayerChange minX minY minZ maxX maxY maxZ];
      repeat split; try assumption; now apply f_le_refl.
Qed.

Lemma box_grows_refl (g : tGeom) :
  box_ok g -> hasLayerChange g = true -> box_grows g g.
Proof.
  intros (Hx & Hy & Hz) Hl.
  apply axis_ok_not_nan in Hx, Hy, Hz.
  destruct Hx as [Hx1 Hx2], Hy as [Hy1 Hy2], Hz as [Hz1 Hz2].
  unfold box_grows. repeat split; try assumption; now apply f_le_refl.
Qed.

Lemma box_grows_trans (g1 g2 g3 : tGeom) :
  box_grows g1 g2 -> box_grows g2 g3 -> box_grows g1 g3.
Proof.
  unfold box_grows.
  intros (L1 & L2 & A1 & A2 & A3 & A4 & A5 & A6)
         (_ & L3 & B1 & B2 & B3 & B4 & B5 & B6).
  repeat split; try assumption;
    first [ eapply f_le_trans; [ eassumption | assumption ]
          | eapply f_le_trans; [ | eassumption ]; assumption ].
Qed.

Lemma step_box_grows (F : bool) (buf : list ascii) (s : tLexer) (it : Z) (ch : ascii)
      (s' : tLexer) :
  box_ok (geom s) -> hasLayerChange (geom s) = true ->
  step F buf s it ch = Running s' -> box_grows (geom s) (geom s').
Proof.
  intros Hok Hl H.
  destruct (step_geom F buf s it ch s' H)
    as [-> | [(_ & Hn & _) | (_ & _ & _ & ->)]].
  - now apply box_grows_refl.
  - congruence.
  - now apply gcode_end_grows.
Qed.

Lemma lex_loop_box_grows (F : bool) (buf l : list ascii) :
  forall s it s',
    box_ok (geom s) -> hasLayerChange (geom s) = true ->
    lex_loop F buf s it l = Running s' -> box_grows (geom s) (geom s').
Proof.
  induction l as [ | ch l IH ]; intros s it s' Hok Hl H.
  - cbn [lex_loop] in H. injection H as <-. now apply box_grows_refl.
  - cbn [lex_loop] in H.
    destruct (step F buf s it ch) as [ s1 | | ] eqn:E; try discriminate.
    pose proof (step_box_grows F buf s it ch s1 Hok Hl E) as H1.
    apply (box_grows_trans _ (geom s1)); [ exact H1 | ].
    apply (IH s1 (it + 1) s'); [ | | exact H ].
    + exact (step_box_ok F buf s it ch s1 Hok E).
    + now destruct H1 as (_ & H1 & _).
Qed.

(** X15. The box is reset once only. From the turn on that follows the
    first comment ";LAYER_CHANGE" the flag stays set, a later
    ";LAYER_CHANGE" resets nothing, and the box only grows: at any later
    turn each minimum is not greater and each maximum not smaller than it
    was. *)
Theorem box_only_grows_after_first_layer :
  forall (F : bool) (buf : list ascii) (n m : nat) (s1 s2 : tLexer),
    (n <= m)%nat ->
    lex_upto F buf n = Running s1 ->
    lex_upto F buf m = Running s2 ->
    hasLayerChange (geom s1) = true ->
    box_grows (geom s1) (geom s2).
Proof.
  intros F buf n m s1 s2 Hnm H1 H2 Hl.
  destruct (lex_upto_split F buf n m s2 Hnm H2) as (s1' & it & l & H1' & Hrun).
  rewrite H1 in H1'. injection H1' as <-.
  apply (lex_loop_box_grows F buf l s1 it s2); try assumption.
  unfold lex_upto in H1.
  apply (lex_loop_invariant F buf (fun s => box_ok (geom s))
           (fun s0 it0 ch s' H0 H => step_box_ok F buf s0 it0 ch s' H0 H)
           (firstn n buf) init_lexer 0 s1); [ | exact H1 ].
  repeat split; left; split; reflexivity.
Qed.

Lemma box_only_grows_after_first_layer_witness :
  exists s1 s2,
    lex_upto false input_two_layers 44%nat = Running s1
    /\ lex_upto false input_two_layers 73%nat = Running s2
    /\ box_grows (geom s1) (geom s2)
    /\ maxX (geom s1) = f_of_Z 1 /\ maxX (geom s2) = f_of_Z 2.
Proof.
  assert (Hrun : exists s1 s2,
             lex_upto false input_two_layers 44%nat = Running s1
             /\ lex_upto false input_two_layers 73%nat = Running s2
             /\ hasLayerChange (geom s1) = true
             /\ maxX (geom s1) = f_of_Z 1 /\ maxX (geom s2) = f_of_Z 2).
  { do 2 eexists. split; [ vm_compute; reflexivity | ].
    split; [ vm_compute; reflexivity | ].
    split; [ vm_compute; reflexivity | ].
    split; vm_compute; reflexivity. }
  destruct Hrun as (s1 & s2 & H1 & H2 & Hl & Hx1 & Hx2).
  exists s1, s2. split; [ exact H1 | split; [ exact H2 | ] ].
  split; [ | split; assumption ].
  apply (box_only_grows_after_first_layer false input_two_layers 44%nat 73%nat);
    [ lia | exact H1 | exact H2 | exact Hl ].
Defined.

(** * Further properties: the line of a commented parameter *)

Lemma is_blank_space (ch : ascii) : is_blank ch = true -> isspace ch = true.
Proof. unfold is_blank. intro H. now apply andb_prop in H. Qed.

Lemma is_blank_not_LF (ch : ascii) : is_blank ch = true -> Ascii.eqb ch LF = false.
Proof.
  unfold is_blank. intro H. apply andb_prop in H. destruct H as [_ H].
  now apply negb_true_iff in H.
Qed.

Lemma set_lineStart_same (s : tLexer) : set_lineStart s (lineStart s) = s.
Proof. now destruct s. Qed.

(** The end of a turn at a character that is no line feed. *)
Lemma end_of_turn_no_LF (s : tLexer) (it : Z) (ch : ascii) :
  Ascii.eqb ch LF = false -> exists v, end_of_turn s it ch = set_lineStart s v.
Proof.
  intro H. unfold end_of_turn. rewrite H. destruct (Ascii.eqb ch CR).
  - eexists. reflexivity.
  - exists (lineStart s). now rewrite set_lineStart_same.
Qed.

Lemma value_len_blank (a n : Z) (ws : list ascii) :
  forallb is_blank ws = true -> forall it, value_len a it n ws = n.
Proof.
  induction ws as [ | ch ws IH ]; intros H it; [ reflexivity | ].
  cbn [forallb] in H. apply andb_prop in H. destruct H as [Hch Hws].
  cbn [value_len]. rewrite (is_blank_space ch Hch). now apply IH.
Qed.

Lemma value_len_trimmed (a : Z) (t ws : list ascii) (c : ascii) :
  isspace c = false -> forallb is_blank ws = true ->
  forall it n, value_len a it n (t ++ c :: ws) = it + Z.of_nat (List.length t) - a + 1.
Proof.
  intros Hc Hws. induction t as [ | ch t IH ]; intros it n.
  - cbn [app value_len List.length]. rewrite Hc, value_len_blank by exact Hws.
    cbn. lia.
  - cbn [app value_len List.length]. rewrite IH. lia.
Qed.

Lemma same_but_refl (k : tSlot) (s : tLexer) : same_but k s s.
Proof. unfold same_but. auto. Qed.

Lemma same_but_trans (k : tSlot) (s1 s2 s3 : tLexer) :
  same_but k s1 s2 -> same_but k s2 s3 -> same_but k s1 s3.
Proof.
  unfold same_but. intros (A1 & A2 & A3 & A4) (B1 & B2 & B3 & B4).
  repeat split; try congruence. intros k' N. now rewrite B4, A4.
Qed.

Lemma same_but_lineStart (k : tSlot) (s : tLexer) (v : Z) :
  same_but k s (set_lineStart s v).
Proof. unfold same_but. now destruct s. Qed.

(** One character of the value of a parameter. *)
Lemma step_value_char (F : bool) (buf : list ascii) (s : tLexer) (it a n : Z)
      (ch : ascii) (k : tSlot) :
  state s = ST_PARAMETER_VALUE -> valueToken s = Some k ->
  slots s k = mkToken (Some a) n ->
  Ascii.eqb ch LF = false ->
  (k = nozzleTemp0 -> Ascii.eqb ch "," = false) ->
  0 <= it - a + 1 < 2 ^ 64 ->
  exists s1,
    step F buf s it ch = Running s1
    /\ state s1 = ST_PARAMETER_VALUE /\ valueToken s1 = Some k
    /\ slots s1 k = mkToken (Some a) (if isspace ch then n else it - a + 1)
    /\ same_but k s s1.
Proof.
  intros St Hv Hk Hch Hcomma Hr.
  destruct (end_of_turn_no_LF
              (if isspace ch then s
               else set_slots s (set_slot (slots s) k (mkToken (Some a) (it - a + 1))))
              it ch Hch) as (v & Hv').
  exists (set_lineStart
            (if isspace ch then s
             else set_slots s (set_slot (slots s) k (mkToken (Some a) (it - a + 1)))) v).
  split.
  - unfold step, switch_state. rewrite St. unfold step_PARAMETER_VALUE.
    rewrite Hch, Hv, Hk. cbn [tok_start].
    assert (Hc : Ascii.eqb ch "," && tSlot_eqb k nozzleTemp0 = false).
    { destruct (tSlot_eqb k nozzleTemp0) eqn:E; [ | apply andb_false_r ].
      apply tSlot_eqb_eq in E. now rewrite (Hcomma E). }
    rewrite Hc, (size_t_small (it - a + 1) Hr).
    destruct (isspace ch); cbn [negb]; now rewrite Hv'.
  - unfold same_but. destruct (isspace ch); lexer_simpl;
      repeat split; auto; try (now rewrite set_slot_same);
      intros k' N; now rewrite set_slot_other by congruence.
Qed.

(** The characters of the value after its first one, up to the line feed. *)
Lemma lex_loop_value (F : bool) (buf l : list ascii) (k : tSlot) (a : Z) :
  no_line_feed l = true ->
  (k = nozzleTemp0 -> forallb (fun ch => negb (Ascii.eqb ch ",")) l = true) ->
  forall (s : tLexer) (it n : Z),
    state s = ST_PARAMETER_VALUE -> valueToken s = Some k ->
    slots s k = mkToken (Some a) n ->
    0 <= it - a -> it - a + Z.of_nat (List.length l) < 2 ^ 64 ->
    exists s1,
      lex_loop F buf s it l = Running s1
      /\ state s1 = ST_PARAMETER_VALUE /\ valueToken s1 = Some k
      /\ slots s1 k = mkToken (Some a) (value_len a it n l)
      /\ same_but k s s1.
Proof.
  induction l as [ | ch l IH ]; intros Hl Hcomma s it n St Hv Hk Hlo Hhi.
  - exists s. cbn [lex_loop value_len]. repeat split; auto.
  - cbn [no_line_feed forallb] in Hl. apply andb_prop in Hl.
    destruct Hl as [Hch Hl]. apply negb_true_iff in Hch.
    cbn [List.length] in Hhi.
    assert (Hc : k = nozzleTemp0 -> Ascii.eqb ch "," = false).
    { intro E. specialize (Hcomma E). cbn [forallb] in Hcomma.
      apply andb_prop in Hcomma. destruct Hcomma as [Hcomma _].
      now apply negb_true_iff in Hcomma. }
    assert (Hcs : k = nozzleTemp0 -> forallb (fun ch => negb (Ascii.eqb ch ",")) l = true).
    { intro E. specialize (Hcomma E). cbn [forallb] in Hcomma.
      now apply andb_prop in Hcomma. }
    assert (Hr : 0 <= it - a + 1 < 2 ^ 64) by lia.
    destruct (step_value_char F buf s it a n ch k St Hv Hk Hch Hc Hr)
      as (s1 & Hstep & St1 & Hv1 & Hk1 & Hsame1).
    assert (Hlo1 : 0 <= it + 1 - a) by lia.
    assert (Hhi1 : it + 1 - a + Z.of_nat (List.length l) < 2 ^ 64) by lia.
    destruct (IH Hl Hcs s1 (it + 1) _ St1 Hv1 Hk1 Hlo1 Hhi1)
      as (s2 & Hrun & St2 & Hv2 & Hk2 & Hsame2).
    exists s2. cbn [lex_loop value_len]. rewrite Hstep.
    repeat split; auto.
    + exact (proj1 (same_but_trans k s s1 s2 Hsame1 Hsame2)).
    + exact (proj1 (proj2 (same_but_trans k s s1 s2 Hsame1 Hsame2))).
    + exact (proj1 (proj2 (proj2 (same_but_trans k s s1 s2 Hsame1 Hsame2)))).
    + exact (proj2 (proj2 (proj2 (same_but_trans k s s1 s2 Hsame1 Hsame2)))).
Qed.

Lemma not_space_not_r (ch c : ascii) :
  isspace ch = true -> isspace c = false -> Ascii.eqb ch c = false.
Proof.
  intros H Hc. destruct (Ascii.eqb ch c) eqn:E; [ | reflexivity ].
  apply Ascii.eqb_eq in E. subst ch. congruence.
Qed.

Lemma value_len_body (a : Z) (c1 : ascii) (tl ws : list ascii) :
  trimmed (c1 :: tl) = true -> forallb is_blank ws = true ->
  value_len a (a + 1) 1 (tl ++ ws) = Z.of_nat (List.length (c1 :: tl)).
Proof.
  intros Ht Hws. destruct tl as [ | c tl ].
  - cbn [app]. rewrite value_len_blank by exact Hws. reflexivity.
  - unfold trimmed in Ht. apply andb_prop in Ht. destruct Ht as [_ Ht].
    apply negb_true_iff in Ht.
    assert (Hne : c :: tl <> []) by discriminate.
    rewrite (app_removelast_last c1 Hne) in Ht |- *.
    change (last (c1 :: removelast (c :: tl) ++ [last (c :: tl) c1]) c1)
      with (last ((c1 :: removelast (c :: tl)) ++ [last (c :: tl) c1]) c1) in Ht.
    rewrite last_last in Ht.
    rewrite <- app_assoc. cbn [app].
    rewrite (value_len_trimmed a _ ws _ Ht Hws).
    cbn [List.length]. rewrite length_app. cbn [List.length]. lia.
Qed.

(** White space in front of the value. *)
Lemma lex_loop_value_blanks (F : bool) (buf ws l : list ascii) (k : tSlot) :
  forallb is_blank ws = true ->
  forall (s : tLexer) (it : Z),
    state s = ST_PARAMETER_VALUE -> valueToken s = Some k ->
    tok_start (slots s k) = None ->
    exists v,
      lex_loop F buf s it (ws ++ l)
      = lex_loop F buf (set_lineStart s v) (it + Z.of_nat (List.length ws)) l.
Proof.
  induction ws as [ | ch ws IH ]; intros Hws s it St Hv Hk.
  - exists (lineStart s). cbn [app List.length]. rewrite set_lineStart_same.
    now rewrite Z.add_0_r.
  - cbn [forallb] in Hws. apply andb_prop in Hws. destruct Hws as [Hch Hws].
    destruct (end_of_turn_no_LF s it ch (is_blank_not_LF ch Hch)) as (v & Hv').
    assert (Hstep : step F buf s it ch = Running (set_lineStart s v)).
    { unfold step, switch_state. rewrite St. unfold step_PARAMETER_VALUE.
      rewrite (is_blank_not_LF ch Hch), Hv, Hk, (is_blank_space ch Hch).
      cbn [negb]. now rewrite Hv'. }
    destruct (IH Hws (set_lineStart s v) (it + 1) St Hv Hk) as (v2 & Hrun).
    exists v2. cbn [app lex_loop]. rewrite Hstep, Hrun.
    replace (set_lineStart (set_lineStart s v) v2) with (set_lineStart s v2)
      by (now destruct s).
    replace (it + 1 + Z.of_nat (List.length ws))
      with (it + Z.of_nat (List.length (ch :: ws))) by (cbn [List.length]; lia).
    reflexivity.
Qed.

(** The value of a parameter is what is left of the line, without the
    white space around it. *)
Lemma lex_loop_value_line (F : bool) (pre ws2 body ws3 rest : list ascii)
      (k : tSlot) (s : tLexer) :
  Z.of_nat (List.length (pre ++ ws2 ++ body ++ ws3 ++ LF :: rest)) < 2 ^ 64 ->
  state s = ST_PARAMETER_VALUE -> valueToken s = Some k ->
  tok_start (slots s k) = None ->
  forallb is_blank ws2 = true -> forallb is_blank ws3 = true ->
  trimmed body = true -> no_line_feed body = true ->
  (k = nozzleTemp0 -> forallb (fun ch => negb (Ascii.eqb ch ",")) body = true) ->
  exists s',
    lex_loop F (pre ++ ws2 ++ body ++ ws3 ++ LF :: rest) s
             (Z.of_nat (List.length pre)) (ws2 ++ body ++ ws3 ++ [LF])
    = Running s'
    /\ state s' = ST_LINE_START /\ valueToken s' = None
    /\ token_chars (pre ++ ws2 ++ body ++ ws3 ++ LF :: rest) (slots s' k) = body
    /\ geom s' = geom s /\ lineNr s' = size_t (lineNr s + 1)
    /\ origThumbnail s' = origThumbnail s
    /\ forall k', k' <> k -> slots s' k' = slots s k'.
Proof.
  intros Hlen St Hv Hk Hws2 Hws3 Htrim Hbody Hcomma.
  set (buf := pre ++ ws2 ++ body ++ ws3 ++ LF :: rest) in *.
  destruct body as [ | c1 tl ]; [ discriminate Htrim | ].
  destruct (lex_loop_value_blanks F buf ws2 ((c1 :: tl) ++ ws3 ++ [LF]) k Hws2 s
              (Z.of_nat (List.length pre)) St Hv Hk) as (v & ->).
  set (a := Z.of_nat (List.length pre) + Z.of_nat (List.length ws2)).
  set (s0 := set_lineStart s v).
  assert (Hc1 : isspace c1 = false).
  { unfold trimmed in Htrim. apply andb_prop in Htrim.
    destruct Htrim as [Htrim _]. now apply negb_true_iff in Htrim. }
  assert (Hstep : step F buf s0 a c1
                  = Running (set_slots s0 (set_slot (slots s0) k (mkToken (Some a) 1)))).
  { unfold step, switch_state. subst s0. lexer_simpl. rewrite St.
    unfold step_PARAMETER_VALUE. lexer_simpl.
    rewrite (not_space_not c1 LF Hc1 eq_refl), Hv, Hk, Hc1. cbn [negb].
    now rewrite end_of_turn_word_char. }
  cbn [app lex_loop]. rewrite Hstep.
  set (s1 := set_slots s0 (set_slot (slots s0) k (mkToken (Some a) 1))).
  assert (Hlens : Z.of_nat (List.length buf)
                  = a + Z.of_nat (List.length (c1 :: tl)) + Z.of_nat (List.length ws3)
                    + 1 + Z.of_nat (List.length rest)).
  { subst buf a. repeat (rewrite length_app || cbn [List.length]). lia. }
  cbn [List.length] in Hlens.
  cbn [no_line_feed forallb] in Hbody. apply andb_prop in Hbody.
  destruct Hbody as [_ Hbody].
  assert (Hnl : no_line_feed (tl ++ ws3) = true).
  { unfold no_line_feed. rewrite forallb_app. apply andb_true_intro. split.
    - exact Hbody.
    - clear -Hws3. induction ws3 as [ | ch ws3 IH ]; [ reflexivity | ].
      cbn [forallb] in *. apply andb_prop in Hws3. destruct Hws3 as [Hch Hws3].
      rewrite (is_blank_not_LF ch Hch). cbn [negb andb]. now apply IH. }
  assert (Hcm : k = nozzleTemp0 ->
                forallb (fun ch => negb (Ascii.eqb ch ",")) (tl ++ ws3) = true).
  { intro E. specialize (Hcomma E). cbn [forallb] in Hcomma.
    apply andb_prop in Hcomma. destruct Hcomma as [_ Hcomma].
    rewrite forallb_app, Hcomma. cbn [andb].
    clear -Hws3. induction ws3 as [ | ch ws3 IH ]; [ reflexivity | ].
    cbn [forallb] in *. apply andb_prop in Hws3. destruct Hws3 as [Hch Hws3].
    rewrite (not_space_not_r ch "," (is_blank_space ch Hch) eq_refl).
    cbn [negb andb]. now apply IH. }
  rewrite app_assoc, lex_loop_app.
  assert (St1 : state s1 = ST_PARAMETER_VALUE) by exact St.
  assert (Hv1 : valueToken s1 = Some k) by exact Hv.
  assert (Hk1 : slots s1 k = mkToken (Some a) 1)
    by (subst s1; lexer_simpl; now rewrite set_slot_same).
  assert (Hlo1 : 0 <= a + 1 - a) by lia.
  assert (Hhi1 : a + 1 - a + Z.of_nat (List.length (tl ++ ws3)) < 2 ^ 64)
    by (rewrite length_app; lia).
  destruct (lex_loop_value F buf (tl ++ ws3) k a Hnl Hcm s1 (a + 1) 1
              St1 Hv1 Hk1 Hlo1 Hhi1)
    as (s2 & Hrun & St2 & Hv2 & Hk2 & Hsame2).
  rewrite Hrun. rewrite (value_len_body a c1 tl ws3 Htrim Hws3) in Hk2.
  cbn [lex_loop]. unfold step, switch_state. rewrite St2.
  unfold step_PARAMETER_VALUE, end_of_turn. change (Ascii.eqb LF LF) with true.
  cbv iota. eexists. split; [ reflexivity | ]. lexer_simpl.
  destruct Hsame2 as (G2 & L2 & O2 & S2).
  split; [ reflexivity | split; [ reflexivity | ] ].
  split.
  - rewrite Hk2. subst buf a.
    replace (Z.of_nat (List.length pre) + Z.of_nat (List.length ws2))
      with (Z.of_nat (List.length (pre ++ ws2))) by (rewrite length_app; lia).
    rewrite (app_assoc pre ws2), token_chars_after, Nat2Z.id.
    rewrite firstn_app, Nat.sub_diag, firstn_all. cbn [firstn].
    now rewrite app_nil_r.
  - rewrite G2, L2, O2. subst s1 s0. lexer_simpl.
    repeat split; auto.
    intros k' N. rewrite (S2 k' N). lexer_simpl. now rewrite set_slot_other by congruence.
Qed.

Lemma p_cmpTokenStart_chars (buf : list ascii) (t : tPToken) (rhs : string) :
  p_cmpTokenStart buf t rhs
  = cmp_chars (firstn (List.length (chars rhs)) (token_chars buf t)) (chars rhs).
Proof.
  unfold p_cmpTokenStart, p_cmpToken, token_chars. cbn [tok_start tok_length].
  destruct (tok_start t) as [ a | ]; [ | now rewrite firstn_nil ].
  rewrite firstn_firstn. f_equal. f_equal.
  destruct (Z.ltb_spec (Z.of_nat (List.length (chars rhs))) (tok_length t)); lia.
Qed.

Lemma key_slot_chars (buf : list ascii) (t : tPToken) :
  key_slot buf t = key_of (token_chars buf t).
Proof.
  unfold key_slot, key_of. rewrite p_cmpTokenStart_chars. reflexivity.
Qed.

Lemma marker_free_spec (l : list ascii) (n : nat) :
  marker_free l = true -> (n <= List.length l)%nat ->
  cmp_chars (firstn n l) (chars "post-processed by sm2pspp") <> 0
  /\ cmp_chars (firstn n l) (chars "thumbnail begin") <> 0.
Proof.
  unfold marker_free. intros H Hn. rewrite forallb_forall in H.
  specialize (H n). rewrite in_seq in H.
  assert (Hin : (0 <= n < 0 + S (List.length l))%nat) by lia.
  apply H in Hin. apply andb_prop in Hin. destruct Hin as [H1 H2].
  apply negb_true_iff in H1, H2. split; now apply Z.eqb_neq.
Qed.

(** White space in front of the first word of a comment. *)
Lemma lex_loop_comment_blanks (F : bool) (buf ws l : list ascii) :
  forallb is_blank ws = true ->
  forall (s : tLexer) (it : Z),
    state s = ST_COMMENT -> tok_start (aToken s) = None ->
    exists v,
      lex_loop F buf s it (ws ++ l)
      = lex_loop F buf (set_lineStart s v) (it + Z.of_nat (List.length ws)) l.
Proof.
  induction ws as [ | ch ws IH ]; intros Hws s it St Ha.
  - exists (lineStart s). cbn [app List.length]. rewrite set_lineStart_same.
    now rewrite Z.add_0_r.
  - cbn [forallb] in Hws. apply andb_prop in Hws. destruct Hws as [Hch Hws].
    destruct (end_of_turn_no_LF s it ch (is_blank_not_LF ch Hch)) as (v & Hv').
    assert (Hstep : step F buf s it ch = Running (set_lineStart s v)).
    { unfold step, switch_state. rewrite St. unfold step_COMMENT.
      rewrite (is_blank_not_LF ch Hch), Ha, (is_blank_space ch Hch).
      cbn [negb]. now rewrite Hv'. }
    destruct (IH Hws (set_lineStart s v) (it + 1) St Ha) as (v2 & Hrun).
    exists v2. cbn [app lex_loop]. rewrite Hstep, Hrun.
    replace (set_lineStart (set_lineStart s v) v2) with (set_lineStart s v2)
      by (now destruct s).
    replace (it + 1 + Z.of_nat (List.length ws))
      with (it + Z.of_nat (List.length (ch :: ws))) by (cbn [List.length]; lia).
    reflexivity.
Qed.

(** A character of the key that is neither '=' nor the line feed. *)
Lemma step_key_char (F : bool) (buf : list ascii) (s : tLexer) (it a n : Z)
      (ch : ascii) :
  state s = ST_COMMENT -> aToken s = mkToken (Some a) n ->
  Ascii.eqb ch LF = false -> Ascii.eqb ch "=" = false ->
  p_cmpToken buf (mkToken (Some a) n) "post-processed by sm2pspp" <> 0 ->
  p_cmpToken buf (mkToken (Some a) n) "thumbnail begin" <> 0 ->
  0 <= it - a + 1 < 2 ^ 64 ->
  exists v,
    step F buf s it ch
    = Running (set_lineStart
                 (set_aToken s (mkToken (Some a)
                                        (if isspace ch then n else it - a + 1))) v).
Proof.
  intros St Ha Hch Heq Hm1 Hm2 Hr.
  destruct (end_of_turn_no_LF
              (set_aToken s (mkToken (Some a) (if isspace ch then n else it - a + 1)))
              it ch Hch) as (v & Hv').
  exists v. unfold step, switch_state. rewrite St. unfold step_COMMENT.
  rewrite Hch, Ha. cbn [tok_start tok_length].
  apply Z.eqb_neq in Hm1, Hm2. rewrite Hm1, Hm2, Heq.
  rewrite (size_t_small (it - a + 1) Hr).
  assert (Hs : set_aToken s (mkToken (Some a) n) = s)
    by (destruct s; cbn in Ha; now subst).
  destruct (isspace ch) eqn:Esp; cbn [negb].
  - cbv iota in Hv' |- *. rewrite Hs in Hv' |- *.
    destruct (Ascii.eqb ch " " && (0 <? n)); now rewrite Hv'.
  - assert (Hnsp : Ascii.eqb ch " " = false) by (now apply not_space_not).
    rewrite Hnsp. cbn [andb]. now rewrite Hv'.
Qed.

(** The characters of the key after its first one. *)
Lemma lex_loop_key (F : bool) (buf l : list ascii) (a N : Z) :
  (forall n, 0 <= n <= N ->
             p_cmpToken buf (mkToken (Some a) n) "post-processed by sm2pspp" <> 0
             /\ p_cmpToken buf (mkToken (Some a) n) "thumbnail begin" <> 0) ->
  N < 2 ^ 64 ->
  no_line_feed l = true ->
  forallb (fun ch => negb (Ascii.eqb ch "=")) l = true ->
  forall (s : tLexer) (it n : Z),
    state s = ST_COMMENT -> aToken s = mkToken (Some a) n ->
    0 <= n <= it - a -> it + Z.of_nat (List.length l) - a <= N ->
    exists v,
      lex_loop F buf s it l
      = Running (set_lineStart
                   (set_aToken s (mkToken (Some a) (value_len a it n l))) v).
Proof.
  intros Hm HN. induction l as [ | ch l IH ]; intros Hl Heq s it n St Ha Hn Hend.
  - exists (lineStart s). cbn [lex_loop value_len].
    destruct s; cbn in Ha; now subst.
  - cbn [no_line_feed forallb] in Hl, Heq. apply andb_prop in Hl, Heq.
    destruct Hl as [Hch Hl], Heq as [Hce Heq]. apply negb_true_iff in Hch, Hce.
    cbn [List.length] in Hend.
    assert (Hn' : 0 <= n <= N) by lia.
    destruct (Hm n Hn') as [Hm1 Hm2].
    assert (Hr : 0 <= it - a + 1 < 2 ^ 64) by lia.
    destruct (step_key_char F buf s it a n ch St Ha Hch Hce Hm1 Hm2 Hr) as (v & Hstep).
    set (n1 := if isspace ch then n else it - a + 1) in *.
    set (s1 := set_lineStart (set_aToken s (mkToken (Some a) n1)) v) in *.
    assert (Hn1 : 0 <= n1 <= it + 1 - a) by (subst n1; destruct (isspace ch); lia).
    assert (Hend1 : it + 1 + Z.of_nat (List.length l) - a <= N) by lia.
    destruct (IH Hl Heq s1 (it + 1) n1 St eq_refl Hn1 Hend1) as (v2 & Hrun).
    exists v2. cbn [lex_loop value_len]. rewrite Hstep, Hrun.
    subst s1. now destruct s.
Qed.

(** White space behind the key. *)
Lemma lex_loop_key_blanks (F : bool) (buf ws l : list ascii) (a n : Z) :
  p_cmpToken buf (mkToken (Some a) n) "post-processed by sm2pspp" <> 0 ->
  p_cmpToken buf (mkToken (Some a) n) "thumbnail begin" <> 0 ->
  forallb is_blank ws = true ->
  forall (s : tLexer) (it : Z),
    state s = ST_COMMENT -> aToken s = mkToken (Some a) n ->
    0 <= it - a -> it - a + Z.of_nat (List.length ws) < 2 ^ 64 ->
    exists v,
      lex_loop F buf s it (ws ++ l)
      = lex_loop F buf (set_lineStart s v) (it + Z.of_nat (List.length ws)) l.
Proof.
  intros Hm1 Hm2. induction ws as [ | ch ws IH ]; intros Hws s it St Ha Hlo Hhi.
  - exists (lineStart s). cbn [app List.length]. rewrite set_lineStart_same.
    now rewrite Z.add_0_r.
  - cbn [forallb] in Hws. apply andb_prop in Hws. destruct Hws as [Hch Hws].
    cbn [List.length] in Hhi.
    assert (Hce : Ascii.eqb ch "=" = false)
      by (now apply not_space_not_r; [ apply is_blank_space | ]).
    assert (Hr : 0 <= it - a + 1 < 2 ^ 64) by lia.
    destruct (step_key_char F buf s it a n ch St Ha (is_blank_not_LF ch Hch) Hce
                Hm1 Hm2 Hr) as (v & Hstep).
    rewrite (is_blank_space ch Hch) in Hstep.
    assert (Hs : set_aToken s (mkToken (Some a) n) = s)
      by (destruct s; cbn in Ha; now subst).
    rewrite Hs in Hstep.
    assert (Hlo1 : 0 <= it + 1 - a) by lia.
    assert (Hhi1 : it + 1 - a + Z.of_nat (List.length ws) < 2 ^ 64) by lia.
    destruct (IH Hws (set_lineStart s v) (it + 1) St Ha Hlo1 Hhi1) as (v2 & Hrun).
    exists v2. cbn [app lex_loop]. rewrite Hstep, Hrun.
    replace (set_lineStart (set_lineStart s v) v2) with (set_lineStart s v2)
      by (now destruct s).
    replace (it + 1 + Z.of_nat (List.length ws))
      with (it + Z.of_nat (List.length (ch :: ws))) by (cbn [List.length]; lia).
    reflexivity.
Qed.

(** The '=' behind a key whose token has no start yet. *)
Lemma step_key_end (F : bool) (buf : list ascii) (s : tLexer) (it a n : Z)
      (k : tSlot) :
  state s = ST_COMMENT -> aToken s = mkToken (Some a) n -> 0 < n ->
  key_slot buf (mkToken (Some a) n) = Some k ->
  tok_start (slots s k) = None ->
  step F buf s it "="
  = Running (set_state (set_aToken (set_valueToken s (Some k)) null_token)
                       ST_PARAMETER_VALUE).
Proof.
  intros St Ha Hn Hkey Hk. unfold step, switch_state. rewrite St.
  unfold step_COMMENT. change (Ascii.eqb "=" LF) with false. cbv iota.
  rewrite Ha. cbn [tok_start tok_length].
  change (Ascii.eqb "=" " ") with false. cbn [andb].
  change (Ascii.eqb "=" "=") with true. cbv iota zeta.
  replace (n =? 0) with false by (symmetry; apply Z.eqb_neq; lia).
  rewrite Ha, Hkey. lexer_simpl.
  apply is_null_true in Hk. rewrite Hk.
  now rewrite end_of_turn_word_char.
Qed.

Lemma forallb_blank_no_line_feed (ws : list ascii) :
  forallb is_blank ws = true -> no_line_feed ws = true.
Proof.
  induction ws as [ | ch ws IH ]; [ reflexivity | ].
  cbn [forallb no_line_feed]. intro H. apply andb_prop in H. destruct H as [Hch Hws].
  rewrite (is_blank_not_LF ch Hch). cbn [negb andb]. now apply IH.
Qed.

(** X16. A line "; key = value" at the start of a line, its key one that
    [processFile] knows and whose token has no start yet, makes the token of
    the key the value: the text between the '=' and the line feed, without
    the white space around it (white space inside it is kept). For the key
    first_layer_temperature this is so for a value without a comma: there a
    comma ends the value of the first nozzle and opens that of the second
    one, which is the matter of the theorem on the two nozzle temperatures.
    White space around the key is skipped; the key "estimated printing time"
    may go on with any text. At the line feed the lexer is back at the start
    of a line; no other token, nothing of the geometry changes, and the line
    is counted. *)
Theorem parameter_line_is_captured :
  forall (F : bool) (pre ws0 kt ws1 ws2 body ws3 rest : list ascii) (k : tSlot)
         (s : tLexer),
    Z.of_nat (List.length
                (pre ++ (";"%char :: ws0 ++ kt ++ ws1
                         ++ "="%char :: ws2 ++ body ++ ws3 ++ [LF]) ++ rest))
    < 2 ^ 64 ->
    state s = ST_LINE_START ->
    tok_start (slots s k) = None ->
    forallb is_blank ws0 = true -> forallb is_blank ws1 = true ->
    forallb is_blank ws2 = true -> forallb is_blank ws3 = true ->
    trimmed kt = true -> no_line_feed kt = true ->
    forallb (fun ch => negb (Ascii.eqb ch "=")) kt = true ->
    marker_free kt = true -> key_of kt = Some k ->
    trimmed body = true -> no_line_feed body = true ->
    (k = nozzleTemp0 -> forallb (fun ch => negb (Ascii.eqb ch ",")) body = true) ->
    exists s',
      lex_loop F (pre ++ (";"%char :: ws0 ++ kt ++ ws1
                          ++ "="%char :: ws2 ++ body ++ ws3 ++ [LF]) ++ rest)
               s (Z.of_nat (List.length pre))
               (";"%char :: ws0 ++ kt ++ ws1
                ++ "="%char :: ws2 ++ body ++ ws3 ++ [LF])
      = Running s'
      /\ state s' = ST_LINE_START /\ valueToken s' = None
      /\ token_chars (pre ++ (";"%char :: ws0 ++ kt ++ ws1
                              ++ "="%char :: ws2 ++ body ++ ws3 ++ [LF]) ++ rest)
                     (slots s' k) = body
      /\ geom s' = geom s /\ lineNr s' = size_t (lineNr s + 1)
      /\ origThumbnail s' = origThumbnail s
      /\ forall k', k' <> k -> slots s' k' = slots s k'.
Proof.
  intros F pre ws0 kt ws1 ws2 body ws3 rest k s Hlen St Hk Hws0 Hws1 Hws2 Hws3
         Hkt Hktl Hkte Hmf Hkey Hbody Hbl Hcomma.
  set (buf := pre ++ (";"%char :: ws0 ++ kt ++ ws1
                      ++ "="%char :: ws2 ++ body ++ ws3 ++ [LF]) ++ rest) in *.
  set (p := Z.of_nat (List.length pre)).
  destruct kt as [ | c1 ktl ]; [ discriminate Hkt | ].
  assert (Hc1 : isspace c1 = false).
  { unfold trimmed in Hkt. apply andb_prop in Hkt. destruct Hkt as [Hkt _].
    now apply negb_true_iff in Hkt. }
  set (pre1 := pre ++ ";"%char :: ws0).
  set (a := Z.of_nat (List.length pre1)).
  set (tail1 := ws1 ++ "="%char :: ws2 ++ body ++ ws3 ++ LF :: rest).
  assert (Hbuf1 : buf = pre1 ++ (c1 :: ktl) ++ tail1).
  { subst buf pre1 tail1. repeat (rewrite <- app_assoc || cbn [app]). reflexivity. }
  set (pre2 := pre1 ++ (c1 :: ktl) ++ ws1 ++ ["="%char]).
  assert (Hbuf2 : buf = pre2 ++ ws2 ++ body ++ ws3 ++ LF :: rest).
  { subst buf pre2 pre1. repeat (rewrite <- app_assoc || cbn [app]). reflexivity. }
  assert (Ha : a = p + 1 + Z.of_nat (List.length ws0)).
  { subst a pre1 p. rewrite length_app. cbn [List.length]. lia. }
  assert (Hlen1 : a + Z.of_nat (List.length (c1 :: ktl)) + Z.of_nat (List.length ws1)
                  + 1 < 2 ^ 64).
  { rewrite Hbuf2 in Hlen. subst pre2 a. revert Hlen.
    repeat (rewrite length_app || cbn [List.length]). lia. }
  assert (Hp2 : Z.of_nat (List.length pre2)
                = a + Z.of_nat (List.length (c1 :: ktl)) + Z.of_nat (List.length ws1) + 1).
  { subst pre2 a. repeat (rewrite length_app || cbn [List.length]). lia. }
  cbn [List.length] in Hlen1, Hp2.
  (* the ';' *)
  cbn [lex_loop].
  assert (Hstep1 : step F buf s p ";"
                   = Running (set_state (set_aToken s null_token) ST_COMMENT)).
  { unfold step, switch_state. rewrite St. unfold step_LINE_START.
    change (Ascii.eqb ";" ";") with true. cbv iota.
    now rewrite end_of_turn_word_char. }
  rewrite Hstep1.
  set (s1 := set_state (set_aToken s null_token) ST_COMMENT).
  (* white space, and the first character of the key *)
  destruct (lex_loop_comment_blanks F buf ws0
              ((c1 :: ktl) ++ ws1 ++ "="%char :: ws2 ++ body ++ ws3 ++ [LF])
              Hws0 s1 (p + 1) eq_refl eq_refl) as (v1 & ->).
  replace (p + 1 + Z.of_nat (List.length ws0)) with a by lia.
  set (s2 := set_lineStart s1 v1).
  cbn [app lex_loop].
  rewrite (step_comment_first F buf s2 a c1 eq_refl eq_refl Hc1).
  set (s3 := set_aToken s2 (mkToken (Some a) 1)).
  (* the key *)
  assert (Htok : forall n, (n <= List.length (c1 :: ktl))%nat ->
                           token_chars buf (mkToken (Some a) (Z.of_nat n))
                           = firstn n (c1 :: ktl)).
  { intros n Hn. rewrite Hbuf1. subst a. rewrite token_chars_after, Nat2Z.id.
    rewrite firstn_app. replace (n - List.length (c1 :: ktl))%nat with 0%nat by lia.
    cbn [firstn]. now rewrite app_nil_r. }
  assert (Hm : forall n, 0 <= n <= Z.of_nat (List.length (c1 :: ktl)) ->
                         p_cmpToken buf (mkToken (Some a) n)
                                    "post-processed by sm2pspp" <> 0
                         /\ p_cmpToken buf (mkToken (Some a) n) "thumbnail begin" <> 0).
  { intros n Hn. unfold p_cmpToken.
    rewrite <- (Z2Nat.id n) by lia. rewrite Htok by lia.
    apply marker_free_spec; [ exact Hmf | lia ]. }
  cbn [no_line_feed forallb] in Hktl, Hkte. apply andb_prop in Hktl, Hkte.
  destruct Hktl as [_ Hktl], Hkte as [_ Hkte].
  assert (HN : Z.of_nat (List.length (c1 :: ktl)) < 2 ^ 64)
    by (cbn [List.length]; lia).
  assert (Hn3 : 0 <= 1 <= a + 1 - a) by lia.
  assert (Hend3 : a + 1 + Z.of_nat (List.length ktl) - a
                  <= Z.of_nat (List.length (c1 :: ktl)))
    by (cbn [List.length]; lia).
  destruct (lex_loop_key F buf ktl a (Z.of_nat (List.length (c1 :: ktl))) Hm HN
              Hktl Hkte s3 (a + 1) 1 eq_refl eq_refl Hn3 Hend3) as (v3 & Hrun3).
  rewrite lex_loop_app, Hrun3.
  assert (Hvl : value_len a (a + 1) 1 ktl = Z.of_nat (List.length (c1 :: ktl))).
  { rewrite <- (app_nil_r ktl) at 1. now apply value_len_body. }
  rewrite Hvl.
  set (n := Z.of_nat (List.length (c1 :: ktl))) in *.
  set (s4 := set_lineStart (set_aToken s3 (mkToken (Some a) n)) v3).
  (* white space and the '=' *)
  assert (Hn : 0 <= n <= n) by (subst n; lia).
  destruct (Hm n Hn) as [Hm1 Hm2].
  assert (Hlo4 : 0 <= a + 1 + Z.of_nat (List.length ktl) - a) by lia.
  assert (Hhi4 : a + 1 + Z.of_nat (List.length ktl) - a + Z.of_nat (List.length ws1)
                 < 2 ^ 64) by lia.
  destruct (lex_loop_key_blanks F buf ws1
              ("="%char :: ws2 ++ body ++ ws3 ++ [LF]) a n Hm1 Hm2 Hws1 s4
              (a + 1 + Z.of_nat (List.length ktl)) eq_refl eq_refl Hlo4 Hhi4)
    as (v4 & ->).
  set (s5 := set_lineStart s4 v4).
  cbn [lex_loop].
  assert (Hkey5 : key_slot buf (mkToken (Some a) n) = Some k).
  { rewrite key_slot_chars. subst n. rewrite Htok by lia.
    now rewrite firstn_all. }
  assert (Hn0 : 0 < n) by (subst n; cbn [List.length]; lia).
  rewrite (step_key_end F buf s5 _ a n k eq_refl eq_refl Hn0 Hkey5 Hk).
  set (s6 := set_state (set_aToken (set_valueToken s5 (Some k)) null_token)
                       ST_PARAMETER_VALUE).
  (* the value *)
  replace (a + 1 + Z.of_nat (List.length ktl) + Z.of_nat (List.length ws1) + 1)
    with (Z.of_nat (List.length pre2)) by lia.
  rewrite Hbuf2 in Hlen |- *.
  destruct (lex_loop_value_line F pre2 ws2 body ws3 rest k s6 Hlen eq_refl eq_refl Hk
              Hws2 Hws3 Hbody Hbl Hcomma)
    as (s' & Hrun & St' & Hv' & Htc & Hg & Hl & Ho & Hs).
  exists s'. split; [ exact Hrun | ].
  split; [ exact St' | split; [ exact Hv' | split; [ exact Htc | ] ] ].
  split; [ exact Hg | split; [ exact Hl | split; [ exact Ho | exact Hs ] ] ].
Qed.

Lemma parameter_line_is_captured_witness :
  (exists s',
      lex_loop false (chars "; layer_height = 0.25 " ++ LF :: chars "G1 X1")
               init_lexer 0 (chars "; layer_height = 0.25 " ++ [LF])
      = Running s'
      /\ token_chars (chars "; layer_height = 0.25 " ++ LF :: chars "G1 X1")
                     (slots s' layerHeight) = chars "0.25")
  /\ (exists s',
         lex_loop true
                  (chars ";estimated printing time (normal mode) = 1h 2m 3s" ++ [LF])
                  init_lexer 0
                  (chars ";estimated printing time (normal mode) = 1h 2m 3s" ++ [LF])
         = Running s'
         /\ token_chars
              (chars ";estimated printing time (normal mode) = 1h 2m 3s" ++ [LF])
              (slots s' estTime) = chars "1h 2m 3s").
Proof.
  split.
  - destruct (parameter_line_is_captured
                false [] (chars " ") (chars "layer_height") (chars " ") (chars " ")
                (chars "0.25") (chars " ") (chars "G1 X1") layerHeight init_lexer)
      as (s' & Hrun & _ & _ & Htc & _);
      try reflexivity.
    exists s'. split; [ exact Hrun | exact Htc ].
  - destruct (parameter_line_is_captured
                true [] [] (chars "estimated printing time (normal mode)")
                (chars " ") (chars " ") (chars "1h 2m 3s") [] [] estTime init_lexer)
      as (s' & Hrun & _ & _ & Htc & _);
      try reflexivity.
    exists s'. split; [ exact Hrun | exact Htc ].
Defined.

(** * Further properties: the float parser yields a number *)

Lemma fexp32 (e : Z) : fexp prec32 emax32 e = Z.max (e - 24) (-149).
Proof. reflexivity. Qed.

Lemma digits2_pos_size (p : positive) : digits2_pos p = Pos.size p.
Proof. induction p as [ p IH | p IH | ]; simpl; congruence. Qed.

Lemma Zdigits2_nonneg (m : Z) : 0 <= Zdigits2 m.
Proof. destruct m; simpl; lia. Qed.

Lemma Zdigits2_gt (m : Z) : 0 <= m -> m < 2 ^ Zdigits2 m.
Proof.
  destruct m as [ | p | p ]; intro H; [ simpl; lia | | lia ].
  simpl. rewrite digits2_pos_size.
  pose proof (Pos.size_gt p) as Hp.
  apply Pos2Z.pos_lt_pos in Hp. now rewrite Pos2Z.inj_pow in Hp.
Qed.

Lemma Zdigits2_le (m k : Z) : 0 <= m < 2 ^ k -> 0 <= k -> Zdigits2 m <= k.
Proof.
  destruct m as [ | p | p ]; intros [H0 H] Hk; [ simpl; lia | | lia ].
  simpl. rewrite digits2_pos_size.
  pose proof (Pos.size_le p) as Hp.
  apply Pos2Z.pos_le_pos in Hp. rewrite Pos2Z.inj_pow in Hp.
  change (Z.pos p~0) with (2 * Z.pos p) in Hp.
  assert (Hlt : 2 ^ Z.pos (Pos.size p) < 2 ^ (k + 1)).
  { rewrite Z.pow_add_r by lia. lia. }
  apply Z.pow_lt_mono_r_iff in Hlt; lia.
Qed.

Lemma Zdigits2_succ (m : Z) : 0 <= m -> Zdigits2 (m + 1) <= Zdigits2 m + 1.
Proof.
  intro H. pose proof (Zdigits2_gt m H) as Hg. pose proof (Zdigits2_nonneg m) as Hn.
  apply Zdigits2_le; [ | lia ].
  rewrite Z.pow_add_r by lia. lia.
Qed.

(** One shift to the right takes one digit off. *)
Lemma shr_1_digits (mrs : shr_record) :
  0 <= shr_m mrs ->
  0 <= shr_m (shr_1 mrs)
  /\ Zdigits2 (shr_m (shr_1 mrs)) = Z.max 0 (Zdigits2 (shr_m mrs) - 1).
Proof.
  destruct mrs as [m r s]. cbn [shr_m]. intro H.
  destruct m as [ | [ p | p | ] | p ];
    cbn [shr_1 shr_m Zdigits2 digits2_pos]; rewrite ?Pos2Z.inj_succ;
    try lia; split; lia.
Qed.

Lemma iter_shr_1_digits (n : positive) :
  forall (mrs : shr_record),
    0 <= shr_m mrs ->
    0 <= shr_m (iter_pos shr_1 n mrs)
    /\ Zdigits2 (shr_m (iter_pos shr_1 n mrs))
       = Z.max 0 (Zdigits2 (shr_m mrs) - Z.pos n).
Proof.
  induction n as [ n IH | n IH | ]; intros mrs H; cbn [iter_pos].
  - destruct (shr_1_digits mrs H) as [H1 E1].
    destruct (IH _ H1) as [H2 E2]. destruct (IH _ H2) as [H3 E3].
    split; [ exact H3 | ]. rewrite E3, E2, E1. lia.
  - destruct (IH _ H) as [H2 E2]. destruct (IH _ H2) as [H3 E3].
    split; [ exact H3 | ]. rewrite E3, E2. lia.
  - destruct (shr_1_digits mrs H) as [H1 E1]. split; [ exact H1 | ].
    rewrite E1. lia.
Qed.

Lemma shr_record_of_loc_m (m : Z) (l : location) : shr_m (shr_record_of_loc m l) = m.
Proof. destruct l as [ | [ | | ] ]; reflexivity. Qed.

(** The first rounding step: what is left of the mantissa and where the
    exponent goes. *)
Lemma shr_fexp_digits (m e : Z) (l : location) (D : Z) :
  0 <= m -> Zdigits2 m + e <= D -> -149 <= D ->
  0 <= shr_m (fst (shr_fexp prec32 emax32 m e l))
  /\ snd (shr_fexp prec32 emax32 m e l) <= Z.max e (Z.max (D - 24) (-149))
  /\ Zdigits2 (shr_m (fst (shr_fexp prec32 emax32 m e l)))
     + snd (shr_fexp prec32 emax32 m e l) <= D.
Proof.
  intros Hm HD HD0. unfold shr_fexp, shr. rewrite fexp32.
  pose proof (Zdigits2_nonneg m) as Hd.
  destruct (Z.max (Zdigits2 m + e - 24) (-149) - e) as [ | n | n ] eqn:En;
    cbn [fst snd]; rewrite ?shr_record_of_loc_m.
  - repeat split; lia.
  - assert (H0 : 0 <= shr_m (shr_record_of_loc m l))
      by (now rewrite shr_record_of_loc_m).
    destruct (iter_shr_1_digits n _ H0) as [H1 E1].
    rewrite shr_record_of_loc_m in E1.
    split; [ exact H1 | ]. rewrite E1. lia.
  - repeat split; lia.
Qed.

Lemma round_nearest_even_bounds (m : Z) (l : location) :
  0 <= m -> m <= round_nearest_even m l <= m + 1.
Proof.
  intro H. unfold round_nearest_even.
  destruct l as [ | [ | | ] ]; try lia. destruct (Z.even m); lia.
Qed.

Lemma Zdigits2_mono (a b : Z) : 0 <= a <= b -> Zdigits2 a <= Zdigits2 b.
Proof.
  intros [Ha Hab]. apply Zdigits2_le; [ | apply Zdigits2_nonneg ].
  pose proof (Zdigits2_gt b). lia.
Qed.

(** Rounding a mantissa that is not negative yields no NaN, and no
    infinity when the number is small enough. *)
Lemma binary_round_aux_sign (sx : bool) (mx ex : Z) (lx : location) :
  0 <= mx ->
  has_sign sx (binary_round_aux prec32 emax32 sx mx ex lx).
Proof.
  intro Hm. unfold binary_round_aux.
  destruct (shr_fexp prec32 emax32 mx ex lx) as [mrs' e'] eqn:E1.
  pose proof (Zdigits2_nonneg mx) as Hd.
  assert (HD : Zdigits2 mx + ex <= Z.max (Zdigits2 mx + ex) (-149)) by lia.
  assert (HD0 : -149 <= Z.max (Zdigits2 mx + ex) (-149)) by lia.
  destruct (shr_fexp_digits mx ex lx _ Hm HD HD0) as [H1 _].
  rewrite E1 in H1. cbn [fst] in H1.
  destruct (round_nearest_even_bounds (shr_m mrs') (loc_of_shr_record mrs') H1)
    as [H2 _].
  set (m2 := round_nearest_even (shr_m mrs') (loc_of_shr_record mrs')) in *.
  destruct (shr_fexp prec32 emax32 m2 e' loc_Exact) as [mrs'' e''] eqn:E2.
  assert (H2' : 0 <= m2) by lia.
  assert (HD2 : Zdigits2 m2 + e' <= Z.max (Zdigits2 m2 + e') (-149)) by lia.
  assert (HD20 : -149 <= Z.max (Zdigits2 m2 + e') (-149)) by lia.
  destruct (shr_fexp_digits m2 e' loc_Exact _ H2' HD2 HD20) as [H3 _].
  rewrite E2 in H3. cbn [fst] in H3.
  unfold has_sign.
  destruct (shr_m mrs'') as [ | p | p ]; [ now left | | lia ].
  destruct (e'' <=? emax32 - prec32); [ right; left; eauto | now right; right ].
Qed.

Lemma binary_round_aux_finite (sx : bool) (mx ex : Z) (lx : location) (D : Z) :
  0 <= mx -> Zdigits2 mx + ex <= D -> -149 <= D -> ex <= 104 -> D <= 127 ->
  binary_round_aux prec32 emax32 sx mx ex lx <> S754_infinity sx.
Proof.
  intros Hm HD HD0 Hex HD1. unfold binary_round_aux.
  destruct (shr_fexp prec32 emax32 mx ex lx) as [mrs' e'] eqn:E1.
  destruct (shr_fexp_digits mx ex lx D Hm HD HD0) as (H1 & He1 & Hd1).
  rewrite E1 in H1, He1, Hd1. cbn [fst snd] in H1, He1, Hd1.
  destruct (round_nearest_even_bounds (shr_m mrs') (loc_of_shr_record mrs') H1)
    as [H2 H2u].
  set (m2 := round_nearest_even (shr_m mrs') (loc_of_shr_record mrs')) in *.
  assert (Hdm2 : Zdigits2 m2 <= Zdigits2 (shr_m mrs') + 1).
  { etransitivity; [ apply (Zdigits2_mono m2 (shr_m mrs' + 1)); lia | ].
    now apply Zdigits2_succ. }
  destruct (shr_fexp prec32 emax32 m2 e' loc_Exact) as [mrs'' e''] eqn:E2.
  assert (H2' : 0 <= m2) by lia.
  assert (HD2 : Zdigits2 m2 + e' <= D + 1) by lia.
  assert (HD20 : -149 <= D + 1) by lia.
  destruct (shr_fexp_digits m2 e' loc_Exact (D + 1) H2' HD2 HD20) as (H3 & He3 & _).
  rewrite E2 in H3, He3. cbn [fst snd] in H3, He3.
  destruct (shr_m mrs'') as [ | p | p ]; try discriminate.
  replace (e'' <=? emax32 - prec32) with true; [ discriminate | ].
  symmetry. apply Z.leb_le. unfold emax32, prec32. lia.
Qed.

Lemma digits2_pos_iter_xO (p d : positive) :
  Z.pos (digits2_pos (Pos.iter xO p d)) = Z.pos (digits2_pos p) + Z.pos d.
Proof.
  induction d as [ | d IH ] using Pos.peano_ind.
  - cbn. lia.
  - rewrite Pos.iter_succ. cbn [digits2_pos]. rewrite Pos2Z.inj_succ, IH. lia.
Qed.

Lemma shl_align_digits (mx : positive) (ex ex' : Z) :
  Zdigits2 (Z.pos (fst (shl_align mx ex ex'))) + snd (shl_align mx ex ex')
  = Zdigits2 (Z.pos mx) + ex
  /\ snd (shl_align mx ex ex') <= ex.
Proof.
  unfold shl_align. destruct (ex' - ex) as [ | d | d ] eqn:E; cbn [fst snd Zdigits2].
  - lia.
  - lia.
  - rewrite digits2_pos_iter_xO. lia.
Qed.

Lemma binary_round_sign (sx : bool) (mx : positive) (ex : Z) :
  has_sign sx (binary_round prec32 emax32 sx mx ex).
Proof.
  unfold binary_round.
  destruct (shl_align mx ex _) as [mz ez]. now apply binary_round_aux_sign.
Qed.

Lemma binary_round_finite (sx : bool) (mx : positive) :
  Z.pos mx < 2 ^ 64 ->
  binary_round prec32 emax32 sx mx 0 <> S754_infinity sx.
Proof.
  intro H. unfold binary_round.
  pose proof (shl_align_digits mx 0
                (fexp prec32 emax32 (Z.pos (digits2_pos mx) + 0))) as [Hd He].
  destruct (shl_align mx 0 _) as [mz ez]. cbn [fst snd] in Hd, He.
  assert (Hdx : Zdigits2 (Z.pos mx) <= 64) by (apply Zdigits2_le; lia).
  pose proof (Zdigits2_nonneg (Z.pos mx)).
  apply (binary_round_aux_finite sx (Z.pos mz) ez loc_Exact 64); lia.
Qed.

Lemma f_of_Z_finite_nonneg (z : Z) :
  0 <= z < 2 ^ 64 -> is_finite_nonneg (f_of_Z z) = true.
Proof.
  intros [H0 H]. unfold f_of_Z, binary_normalize.
  destruct z as [ | p | p ]; [ reflexivity | | lia ].
  destruct (binary_round_sign false p 0) as [-> | [(m & e & ->) | E]];
    try reflexivity.
  now apply binary_round_finite in E.
Qed.

Lemma has_sign_nonneg (f : float) : has_sign false f -> is_nonneg f = true.
Proof. intros [-> | [(m & e & ->) | ->]]; reflexivity. Qed.

Lemma f_div_nonneg (a b : float) :
  is_finite_nonneg a = true -> is_positive b = true -> is_nonneg (f_div a b) = true.
Proof.
  destruct a as [sa | sa | | sa ma ea], b as [sb | sb | | sb mb eb];
    cbn; try discriminate; intros Ha Hb;
    try (destruct sa, sb; (reflexivity || discriminate)).
  apply negb_true_iff in Ha, Hb. subst sa sb.
  unfold f_div, SFdiv, SFdiv_core_binary.
  set (m' := match _ - _ - _ with Z0 => Z.pos ma | Z.pos _ => _ | Z.neg _ => 0 end).
  assert (Hm' : 0 <= m').
  { subst m'. destruct (_ - _ - _); try lia. apply Z.shiftl_nonneg. lia. }
  pose proof (Z.div_pos m' (Z.pos mb) Hm' (Pos2Z.is_pos mb)) as Hq.
  unfold Z.div in Hq. destruct (Z.div_eucl m' (Z.pos mb)) as [q r].
  cbn [fst] in Hq. apply has_sign_nonneg. now apply binary_round_aux_sign.
Qed.

Lemma f_add_nonneg (a b : float) :
  is_nonneg a = true -> is_nonneg b = true -> is_nonneg (f_add a b) = true.
Proof.
  destruct a as [sa | sa | | sa ma ea], b as [sb | sb | | sb mb eb];
    cbn; try discriminate; intros Ha Hb;
    try (destruct sa, sb; (reflexivity || discriminate)).
  apply negb_true_iff in Ha, Hb. subst sa sb.
  unfold f_add, SFadd. cbn [cond_Zopp Z.add binary_normalize].
  apply has_sign_nonneg, binary_round_sign.
Qed.

Lemma f_mul_unit_not_nan (sign : Z) (x : float) :
  sign = 1 \/ sign = -1 -> is_nonneg x = true ->
  IS_SET (f_mul (f_of_Z sign) x) = true.
Proof.
  assert (Hset : forall s f, has_sign s f -> IS_SET f = true).
  { intros s f [-> | [(m & e & ->) | ->]]; unfold IS_SET, f_eq, SFeqb; cbn.
    - reflexivity.
    - rewrite Z.compare_refl, Pos.compare_cont_refl. now destruct s.
    - now destruct s. }
  intros Hs Hx.
  assert (Hone : exists s m e, f_of_Z sign = S754_finite s m e).
  { destruct Hs as [-> | ->]; do 3 eexists; vm_compute; reflexivity. }
  destruct Hone as (s & m & e & ->).
  destruct x as [sx | sx | | sx mx ex]; try discriminate;
    unfold f_mul, SFmul.
  - now apply (Hset (xorb s sx)); left.
  - now apply (Hset (xorb s sx)); right; right.
  - apply (Hset (xorb s sx)). now apply binary_round_aux_sign.
Qed.

Lemma fracDiv_of_S (n : nat) : fracDiv_of (S n) = f_mul (fracDiv_of n) f_ten.
Proof. reflexivity. Qed.

Lemma fracDiv_of_positive (n : nat) : is_positive (fracDiv_of n) = true.
Proof.
  assert (Hinf : forall k, fracDiv_of (39 + k) = S754_infinity false).
  { induction k as [ | k IH ].
    - vm_compute. reflexivity.
    - rewrite Nat.add_succ_r, fracDiv_of_S, IH. reflexivity. }
  destruct (le_lt_dec 39 n) as [Hn | Hn].
  - replace n with (39 + (n - 39))%nat by lia. now rewrite Hinf.
  - do 39 (destruct n as [ | n ]; [ vm_compute; reflexivity | ]). lia.
Qed.

Lemma float_acc0_ok : float_acc_ok float_acc0.
Proof.
  unfold float_acc_ok, float_acc0. cbn. repeat split; try lia. now exists 0%nat.
Qed.

Lemma p_float_loop_ok (l : list ascii) :
  forall a, float_acc_ok a -> float_acc_ok (p_float_loop l a).
Proof.
  induction l as [ | ch l IH ]; intros a Ha; [ exact Ha | ].
  destruct Ha as (Hv & Hf & n & Hd).
  cbn [p_float_loop].
  destruct (isdigit ch); [ destruct (fa_isFrac a) | destruct (Ascii.eqb ch ".") ];
    try apply IH; unfold float_acc_ok; cbn [fa_val fa_frac fa_fracDiv];
    repeat split; try lia;
    try (apply Z.mod_pos_bound; lia); eauto.
  exists (S n). now rewrite fracDiv_of_S, Hd.
Qed.

Lemma p_float_result_is_set (sign : Z) (a : tFloatAcc) :
  sign = 1 \/ sign = -1 -> float_acc_ok a -> IS_SET (p_float_result sign a) = true.
Proof.
  intros Hs (Hv & Hf & n & Hd). unfold p_float_result.
  apply f_mul_unit_not_nan; [ exact Hs | ].
  apply f_add_nonneg.
  - pose proof (f_of_Z_finite_nonneg (fa_val a) Hv) as H.
    destruct (f_of_Z (fa_val a)) as [ s | s | | s m e ]; try discriminate; exact H.
  - apply f_div_nonneg; [ now apply f_of_Z_finite_nonneg | ].
    rewrite Hd. apply fracDiv_of_positive.
Qed.

(** X17. [p_float] never yields a NaN: whatever the bytes of the token are,
    the value is a number, so that [IS_SET] holds of it. Hence a parameter
    letter X, Y, Z or E of a command sets its parameter even when no number
    follows the letter. *)
Theorem p_float_is_a_number :
  (forall (buf : list ascii) (aToken : tPToken), IS_SET (p_float buf aToken) = true)
  /\ (forall (buf : list ascii) (s : tLexer),
        (param s = P_X -> IS_SET (paramX (end_of_token buf s)) = true)
        /\ (param s = P_Y -> IS_SET (paramY (end_of_token buf s)) = true)
        /\ (param s = P_Z -> IS_SET (paramZ (end_of_token buf s)) = true)
        /\ (param s = P_E -> IS_SET (paramE (end_of_token buf s)) = true)).
Proof.
  assert (H : forall (buf : list ascii) (aToken : tPToken),
             IS_SET (p_float buf aToken) = true).
  { intros buf t. rewrite p_float_token_chars. unfold p_float_chars.
    destruct (token_chars buf t) as [ | ch l ]; [ reflexivity | ].
    destruct (Ascii.eqb ch "-").
    - apply p_float_result_is_set; [ now right | ].
      apply p_float_loop_ok, float_acc0_ok.
    - apply p_float_result_is_set; [ now left | ].
      apply p_float_loop_ok, float_acc0_ok. }
  split; [ exact H | ].
  intros buf s. unfold end_of_token.
  repeat split; intros ->; cbn [paramX paramY paramZ paramE]; apply H.
Qed.

(** * Further properties: the line of a command *)

Lemma same_line_refl (s : tLexer) : same_line s s.
Proof. unfold same_line. auto 10. Qed.

Lemma same_line_trans (s1 s2 s3 : tLexer) :
  same_line s1 s2 -> same_line s2 s3 -> same_line s1 s3.
Proof.
  unfold same_line.
  intros (A1 & A2 & A3 & A4 & A5 & A6 & A7 & A8) (B1 & B2 & B3 & B4 & B5 & B6 & B7 & B8).
  repeat split; congruence.
Qed.

Lemma is_capital_facts (ch : ascii) :
  is_capital ch = true ->
  isdigit ch = false /\ isspace ch = false /\ Ascii.eqb ch "." = false
  /\ Ascii.eqb ch "-" = false /\ Ascii.eqb ch LF = false /\ Ascii.eqb ch ";" = false.
Proof.
  unfold is_capital, isdigit, isspace. intro H.
  apply andb_prop in H. destruct H as [H1 H2]. apply Z.leb_le in H1, H2.
  assert (Hne : forall c : ascii, (char_code c < 65 \/ 90 < char_code c) ->
                                  Ascii.eqb ch c = false).
  { intros c Hc. destruct (Ascii.eqb ch c) eqn:E; [ | reflexivity ].
    apply Ascii.eqb_eq in E. subst c. lia. }
  repeat split; try (apply Hne; cbn; lia).
  - apply andb_false_iff. right. apply Z.leb_gt. lia.
  - apply orb_false_iff. split.
    + apply Z.eqb_neq. lia.
    + apply andb_false_iff. right. apply Z.leb_gt. lia.
Qed.

Lemma digit_or_dot_facts (ch : ascii) :
  isdigit ch || Ascii.eqb ch "." || Ascii.eqb ch "-" = true ->
  isspace ch = false /\ Ascii.eqb ch LF = false /\ Ascii.eqb ch ";" = false
  /\ axis_of_char ch = None.
Proof.
  intro H.
  assert (Hr : 45 <= char_code ch <= 57).
  { apply orb_prop in H. destruct H as [H | H].
    - apply orb_prop in H. destruct H as [H | H].
      + unfold isdigit in H. apply andb_prop in H. destruct H as [H1 H2].
        apply Z.leb_le in H1, H2. lia.
      + apply Ascii.eqb_eq in H. subst ch. cbn. lia.
    - apply Ascii.eqb_eq in H. subst ch. cbn. lia. }
  assert (Hne : forall c : ascii, (char_code c < 45 \/ 57 < char_code c) ->
                                  Ascii.eqb ch c = false).
  { intros c Hc. destruct (Ascii.eqb ch c) eqn:E; [ | reflexivity ].
    apply Ascii.eqb_eq in E. subst c. lia. }
  repeat split; try (apply Hne; cbn; lia).
  - unfold isspace. apply orb_false_iff. split.
    + apply Z.eqb_neq. lia.
    + apply andb_false_iff. right. apply Z.leb_gt. lia.
  - unfold axis_of_char.
    rewrite (Hne "X"%char), (Hne "Y"%char), (Hne "Z"%char), (Hne "E"%char);
      try (cbn; lia). reflexivity.
Qed.

(** A character that continues the number of a parameter. *)
Lemma step_gcode_number (F : bool) (buf : list ascii) (s : tLexer) (it a n : Z)
      (ch : ascii) :
  state s = ST_GCODE -> aToken s = mkToken (Some a) n ->
  is_number_char s ch = true ->
  isdigit ch || Ascii.eqb ch "." || Ascii.eqb ch "-" = true ->
  0 <= n + 1 < 2 ^ 64 ->
  step F buf s it ch = Running (set_aToken s (mkToken (Some a) (n + 1))).
Proof.
  intros St Ha Hn Hch Hr. destruct (digit_or_dot_facts ch Hch) as (Hsp & _).
  unfold step, switch_state. rewrite St. unfold step_GCODE. rewrite Hn, Ha.
  cbn [tok_start tok_length]. rewrite (size_t_small (n + 1) Hr).
  now rewrite end_of_turn_word_char.
Qed.

(** A character that ends a token and not the line. *)
Lemma step_gcode_separator (F : bool) (buf : list ascii) (s : tLexer) (it : Z)
      (ch : ascii) :
  state s = ST_GCODE -> is_number_char s ch = false -> axis_of_char ch = None ->
  Ascii.eqb ch LF = false -> Ascii.eqb ch ";" = false -> Ascii.eqb ch CR = false ->
  step F buf s it ch
  = Running (set_param (set_cmd s (end_of_token buf s)) P_UNKNOWN).
Proof.
  intros St Hn Hax Hlf Hsemi Hcr. unfold step, switch_state. rewrite St.
  unfold step_GCODE. rewrite Hn, Hax. unfold is_line_end. rewrite Hlf, Hsemi.
  cbn [orb]. unfold end_of_turn. now rewrite Hlf, Hcr.
Qed.

(** The digits and dots of a number. *)
Lemma lex_loop_gcode_digits (F : bool) (buf l : list ascii) (a : Z) :
  forall (s : tLexer) (it n : Z),
    state s = ST_GCODE -> aToken s = mkToken (Some a) n ->
    forallb (fun c => isdigit c || (negb (tParam_is_G (param s)) && Ascii.eqb c ".")) l
    = true ->
    0 <= n -> n + Z.of_nat (List.length l) < 2 ^ 64 ->
    lex_loop F buf s it l
    = Running (set_aToken s (mkToken (Some a) (n + Z.of_nat (List.length l)))).
Proof.
  induction l as [ | ch l IH ]; intros s it n St Ha Hl Hn Hhi.
  - cbn [lex_loop List.length]. rewrite Z.add_0_r.
    destruct s; cbn in Ha; now subst.
  - cbn [forallb] in Hl. apply andb_prop in Hl. destruct Hl as [Hch Hl].
    cbn [List.length] in Hhi.
    assert (Hnum : is_number_char s ch = true).
    { unfold is_number_char. apply orb_prop in Hch. destruct Hch as [-> | Hch].
      - reflexivity.
      - apply andb_prop in Hch. destruct Hch as [-> ->].
        cbn. apply orb_true_r. }
    assert (Hcls : isdigit ch || Ascii.eqb ch "." || Ascii.eqb ch "-" = true).
    { apply orb_prop in Hch. destruct Hch as [-> | Hch]; [ reflexivity | ].
      apply andb_prop in Hch. destruct Hch as [_ ->].
      rewrite orb_true_r. reflexivity. }
    assert (Hr : 0 <= n + 1 < 2 ^ 64) by lia.
    cbn [lex_loop]. rewrite (step_gcode_number F buf s it a n ch St Ha Hnum Hcls Hr).
    rewrite (IH _ (it + 1) (n + 1)); [ | exact St | reflexivity | exact Hl | lia | lia ].
    replace (n + 1 + Z.of_nat (List.length l))
      with (n + Z.of_nat (S (List.length l))) by lia.
    now destruct s.
Qed.

Lemma is_number_char_space (s : tLexer) : is_number_char s " " = false.
Proof.
  unfold is_number_char. change (isdigit " ") with false.
  change (Ascii.eqb " " ".") with false. change (Ascii.eqb " " "-") with false.
  now rewrite andb_false_r, andb_false_r.
Qed.

Lemma is_number_char_capital (s : tLexer) (ch : ascii) :
  is_capital ch = true -> is_number_char s ch = false.
Proof.
  intro H. destruct (is_capital_facts ch H) as (Hd & _ & Hdot & Hm & _).
  unfold is_number_char. rewrite Hd, Hdot, Hm.
  now rewrite andb_false_r, andb_false_r.
Qed.

Lemma set_cmd_param_same (s : tLexer) :
  param s = P_UNKNOWN -> set_param (set_cmd s (cmd s)) P_UNKNOWN = s.
Proof. destruct s. cbn. now intros ->. Qed.

Lemma end_of_token_unknown (buf : list ascii) (s : tLexer) :
  param s = P_UNKNOWN -> end_of_token buf s = cmd s.
Proof. unfold end_of_token. now intros ->. Qed.

(** The number behind a letter that is no parameter: nothing is read. *)
Lemma lex_loop_gcode_ignored (F : bool) (buf l : list ascii) :
  forallb (fun c => isdigit c || Ascii.eqb c "." || Ascii.eqb c "-") l = true ->
  forall (s : tLexer) (it : Z),
    state s = ST_GCODE -> param s = P_UNKNOWN ->
    exists t, lex_loop F buf s it l = Running (set_aToken s t).
Proof.
  induction l as [ | ch l IH ]; intros Hl s it St Hp.
  - exists (aToken s). cbn [lex_loop]. now destruct s.
  - cbn [forallb] in Hl. apply andb_prop in Hl. destruct Hl as [Hch Hl].
    destruct (digit_or_dot_facts ch Hch) as (Hsp & Hlf & Hsemi & Hax).
    assert (Hstep : exists t, step F buf s it ch = Running (set_aToken s t)).
    { destruct (is_number_char s ch) eqn:En.
      - eexists. unfold step, switch_state. rewrite St. unfold step_GCODE.
        rewrite En. now rewrite end_of_turn_word_char.
      - exists (aToken s).
        rewrite (step_gcode_separator F buf s it ch St En Hax Hlf Hsemi
                   (not_space_not ch CR Hsp eq_refl)).
        rewrite (end_of_token_unknown buf s Hp), (set_cmd_param_same s Hp).
        now destruct s. }
    destruct Hstep as (t & Hstep).
    destruct (IH Hl (set_aToken s t) (it + 1) St Hp) as (t2 & Hrun).
    exists t2. cbn [lex_loop]. rewrite Hstep, Hrun. now destruct s.
Qed.

Lemma number_text_classes (l : list ascii) :
  number_text l = true ->
  forallb (fun c => isdigit c || Ascii.eqb c "." || Ascii.eqb c "-") l = true.
Proof.
  destruct l as [ | ch l ]; [ reflexivity | ].
  cbn [number_text forallb]. intro H. apply andb_prop in H. destruct H as [-> H].
  cbn [andb]. induction l as [ | c l IH ]; [ reflexivity | ].
  cbn [forallb] in *. apply andb_prop in H. destruct H as [-> H].
  cbn [orb andb]. now apply IH.
Qed.

(** A word of a command: the token that was open is read, and the number
    of the word becomes the open token of its parameter. *)
Lemma lex_loop_word_of_command (F : bool) (pre rest : list ascii)
      (w : ascii * list ascii) (s : tLexer) :
  Z.of_nat (List.length (pre ++ (" "%char :: fst w :: snd w) ++ rest)) < 2 ^ 64 ->
  state s = ST_GCODE -> word_ok w = true ->
  exists s1,
    lex_loop F (pre ++ (" "%char :: fst w :: snd w) ++ rest) s
             (Z.of_nat (List.length pre)) (" "%char :: fst w :: snd w)
    = Running s1
    /\ same_line s s1
    /\ end_of_token (pre ++ (" "%char :: fst w :: snd w) ++ rest) s1
       = word_cmd (end_of_token (pre ++ (" "%char :: fst w :: snd w) ++ rest) s) w.
Proof.
  destruct w as [c num]. cbn [fst snd]. intros Hlen St Hw.
  set (buf := pre ++ (" "%char :: c :: num) ++ rest) in *.
  set (p := Z.of_nat (List.length pre)).
  unfold word_ok in Hw. cbn [fst snd] in Hw. apply andb_prop in Hw.
  destruct Hw as [Hc Hnum].
  destruct (is_capital_facts c Hc) as (Hcd & Hcsp & Hcdot & Hcm & Hclf & Hcsemi).
  assert (Hlens : Z.of_nat (List.length buf)
                  = p + 2 + Z.of_nat (List.length num) + Z.of_nat (List.length rest)).
  { subst buf p. repeat (rewrite length_app || cbn [List.length]). lia. }
  (* the space *)
  cbn [lex_loop].
  rewrite (step_gcode_separator F buf s p " " St (is_number_char_space s)
             eq_refl eq_refl eq_refl eq_refl).
  set (s1 := set_param (set_cmd s (end_of_token buf s)) P_UNKNOWN).
  unfold word_cmd. cbn [fst snd].
  destruct (axis_of_char c) as [ ax | ] eqn:Eax.
  - (* a parameter *)
    assert (Hstep2 : step F buf s1 (p + 1) c
                     = Running (set_aToken (set_param s1 ax)
                                           (mkToken (Some (p + 1 + 1)) 0))).
    { unfold step, switch_state. subst s1. lexer_simpl. rewrite St.
      unfold step_GCODE. rewrite (is_number_char_capital _ c Hc), Eax.
      now rewrite end_of_turn_word_char. }
    rewrite Hstep2.
    set (s2 := set_aToken (set_param s1 ax) (mkToken (Some (p + 1 + 1)) 0)).
    assert (HaxG : tParam_is_G ax = false).
    { unfold axis_of_char in Eax.
      repeat match type of Eax with
             | (if ?b then _ else _) = _ => destruct b
             end; try discriminate; now injection Eax as <-. }
    assert (Hrun : lex_loop F buf s2 (p + 1 + 1) num
                   = Running (set_aToken s2 (mkToken (Some (p + 1 + 1))
                                                     (Z.of_nat (List.length num))))).
    { destruct num as [ | ch0 tl ].
      - cbn [lex_loop List.length]. reflexivity.
      - cbn [number_text] in Hnum. apply andb_prop in Hnum.
        destruct Hnum as [H0 Htl].
        assert (Hn0 : is_number_char s2 ch0 = true).
        { unfold is_number_char. subst s2 s1. lexer_simpl. rewrite HaxG.
          cbn [negb andb Z.eqb].
          destruct (isdigit ch0); [ reflexivity | ].
          destruct (Ascii.eqb ch0 "."); [ reflexivity | ].
          cbn [orb] in H0 |- *. exact H0. }
        assert (Hr : 0 <= 0 + 1 < 2 ^ 64) by lia.
        cbn [lex_loop].
        rewrite (step_gcode_number F buf s2 (p + 1 + 1) (p + 1 + 1) 0 ch0
                   St eq_refl Hn0 H0 Hr).
        rewrite (lex_loop_gcode_digits F buf tl (p + 1 + 1) _ (p + 1 + 1 + 1) (0 + 1));
          [ | exact St | reflexivity | | lia | cbn [List.length] in Hlens; lia ].
        + cbn [List.length].
          replace (0 + 1 + Z.of_nat (List.length tl))
            with (Z.of_nat (S (List.length tl))) by lia.
          reflexivity.
        + subst s2 s1. lexer_simpl. rewrite HaxG. cbn [negb andb]. exact Htl. }
    rewrite Hrun. eexists. split; [ reflexivity | ].
    split; [ subst s2 s1; unfold same_line; lexer_simpl; auto 10 | ].
    assert (Htok : token_chars buf (mkToken (Some (p + 1 + 1))
                                            (Z.of_nat (List.length num))) = num).
    { subst buf p.
      replace (Z.of_nat (List.length pre) + 1 + 1)
        with (Z.of_nat (List.length (pre ++ [" "%char; c])))
        by (rewrite length_app; cbn [List.length]; lia).
      change (pre ++ (" "%char :: c :: num) ++ rest)
        with (pre ++ ([" "%char; c] ++ num) ++ rest).
      rewrite <- app_assoc, (app_assoc pre), token_chars_after, Nat2Z.id.
      rewrite firstn_app, Nat.sub_diag, firstn_all. cbn [firstn].
      now rewrite app_nil_r. }
    unfold end_of_token at 1. subst s2 s1. lexer_simpl.
    rewrite p_float_token_chars, Htok.
    unfold axis_of_char in Eax.
    repeat match type of Eax with
           | (if ?b then _ else _) = _ => destruct b
           end; try discriminate; injection Eax as <-; reflexivity.
  - (* another letter *)
    assert (Hs1 : param s1 = P_UNKNOWN) by reflexivity.
    rewrite (step_gcode_separator F buf s1 (p + 1) c St
               (is_number_char_capital s1 c Hc) Eax Hclf Hcsemi
               (not_space_not c CR Hcsp eq_refl)).
    rewrite (end_of_token_unknown buf s1 Hs1), (set_cmd_param_same s1 Hs1).
    destruct (lex_loop_gcode_ignored F buf num (number_text_classes num Hnum) s1
                (p + 1 + 1) St Hs1) as (t & ->).
    eexists. split; [ reflexivity | ].
    split; [ subst s1; unfold same_line; lexer_simpl; auto 10 | ].
    unfold end_of_token at 1. subst s1. lexer_simpl. reflexivity.
Qed.

Lemma lex_loop_words_of_command (F : bool) (ws : list (ascii * list ascii)) :
  forall (pre rest : list ascii) (s : tLexer),
    Z.of_nat (List.length (pre ++ words_chars ws ++ rest)) < 2 ^ 64 ->
    state s = ST_GCODE -> forallb word_ok ws = true ->
    exists s1,
      lex_loop F (pre ++ words_chars ws ++ rest) s (Z.of_nat (List.length pre))
               (words_chars ws)
      = Running s1
      /\ same_line s s1
      /\ end_of_token (pre ++ words_chars ws ++ rest) s1
         = fold_left word_cmd ws (end_of_token (pre ++ words_chars ws ++ rest) s).
Proof.
  induction ws as [ | w ws IH ]; intros pre rest s Hlen St Hws.
  - exists s. cbn [words_chars flat_map lex_loop fold_left].
    split; [ reflexivity | split; [ apply same_line_refl | reflexivity ] ].
  - cbn [forallb] in Hws. apply andb_prop in Hws. destruct Hws as [Hw Hws].
    change (words_chars (w :: ws))
      with ((" "%char :: fst w :: snd w) ++ words_chars ws) in *.
    assert (Hb1 : pre ++ ((" "%char :: fst w :: snd w) ++ words_chars ws) ++ rest
                  = pre ++ (" "%char :: fst w :: snd w) ++ (words_chars ws ++ rest))
      by (now rewrite <- app_assoc).
    assert (Hb2 : pre ++ ((" "%char :: fst w :: snd w) ++ words_chars ws) ++ rest
                  = (pre ++ " "%char :: fst w :: snd w) ++ words_chars ws ++ rest)
      by (now rewrite <- !app_assoc).
    set (buf := pre ++ ((" "%char :: fst w :: snd w) ++ words_chars ws) ++ rest) in *.
    rewrite lex_loop_app.
    assert (Hlen1 : Z.of_nat (List.length
                                (pre ++ (" "%char :: fst w :: snd w)
                                 ++ (words_chars ws ++ rest))) < 2 ^ 64)
      by (now rewrite <- Hb1).
    destruct (lex_loop_word_of_command F pre (words_chars ws ++ rest) w s Hlen1 St Hw)
      as (s1 & Hrun1 & Hsame1 & Hcmd1).
    rewrite <- Hb1 in Hrun1, Hcmd1. rewrite Hrun1.
    assert (St1 : state s1 = ST_GCODE) by (destruct Hsame1 as (E & _); congruence).
    assert (Hlen2 : Z.of_nat (List.length
                                ((pre ++ " "%char :: fst w :: snd w)
                                 ++ words_chars ws ++ rest)) < 2 ^ 64)
      by (now rewrite <- Hb2).
    destruct (IH (pre ++ " "%char :: fst w :: snd w) rest s1 Hlen2 St1 Hws)
      as (s2 & Hrun2 & Hsame2 & Hcmd2).
    rewrite <- Hb2 in Hrun2, Hcmd2.
    replace (Z.of_nat (List.length (pre ++ " "%char :: fst w :: snd w)))
      with (Z.of_nat (List.length pre)
            + Z.of_nat (List.length (" "%char :: fst w :: snd w))) in Hrun2
      by (rewrite length_app; lia).
    exists s2. split; [ exact Hrun2 | ].
    split; [ exact (same_line_trans s s1 s2 Hsame1 Hsame2) | ].
    cbn [fold_left]. now rewrite Hcmd2, Hcmd1.
Qed.

Lemma forallb_isdigit_number (s : tLexer) (ds : list ascii) :
  forallb isdigit ds = true ->
  forallb (fun c => isdigit c || (negb (tParam_is_G (param s)) && Ascii.eqb c ".")) ds
  = true.
Proof.
  induction ds as [ | d ds IH ]; [ reflexivity | ].
  cbn [forallb]. intro H. apply andb_prop in H. destruct H as [-> H].
  cbn [orb andb]. now apply IH.
Qed.

(** X18. A line "G<digits> <word> ... <word>" at the start of a line, each
    word a capital letter and a number, is read as one command: its code is
    that of the digits behind the G, read by [p_uint]; the words X, Y, Z and
    E set their parameter to their number, read by [p_float], the last word
    of a letter counting; words of other letters (as F) are passed over; the
    parameters no word sets are not set (NaN). At the line feed the geometry
    is what the [switch (code)] makes of this command; no token of the
    metadata changes and the line is counted. *)
Theorem command_line_is_read :
  forall (F : bool) (pre ds rest : list ascii) (ws : list (ascii * list ascii))
         (s : tLexer),
    Z.of_nat (List.length
                (pre ++ ("G"%char :: ds ++ words_chars ws ++ [LF]) ++ rest))
    < 2 ^ 64 ->
    state s = ST_LINE_START ->
    forallb isdigit ds = true -> forallb word_ok ws = true ->
    exists s',
      lex_loop F (pre ++ ("G"%char :: ds ++ words_chars ws ++ [LF]) ++ rest) s
               (Z.of_nat (List.length pre))
               ("G"%char :: ds ++ words_chars ws ++ [LF])
      = Running s'
      /\ state s' = ST_LINE_START
      /\ cmd s' = fold_left word_cmd ws
                            (mkCmd (G_ (p_uint_chars ds)) NAN NAN NAN NAN)
      /\ geom s' = gcode_end (cmd s') (geom s)
      /\ slots s' = slots s
      /\ lineNr s' = size_t (lineNr s + 1).
Proof.
  intros F pre ds rest ws s Hlen St Hds Hws.
  set (buf := pre ++ ("G"%char :: ds ++ words_chars ws ++ [LF]) ++ rest) in *.
  set (p := Z.of_nat (List.length pre)).
  set (pre1 := pre ++ "G"%char :: ds).
  assert (Hb1 : buf = pre1 ++ words_chars ws ++ (LF :: rest)).
  { subst buf pre1. repeat (rewrite <- app_assoc || cbn [app]). reflexivity. }
  assert (Hp1 : Z.of_nat (List.length pre1) = p + 1 + Z.of_nat (List.length ds)).
  { subst pre1 p. rewrite length_app. cbn [List.length]. lia. }
  assert (Hlens : p + 1 + Z.of_nat (List.length ds) < 2 ^ 64).
  { rewrite Hb1 in Hlen. rewrite length_app in Hlen. lia. }
  (* the G *)
  cbn [lex_loop].
  set (s1 := set_state
               (set_aToken
                  (set_cmd (set_param s P_G) (mkCmd (code (cmd s)) NAN NAN NAN NAN))
                  (mkToken (Some (p + 1)) 0))
               ST_GCODE).
  assert (Hstep1 : step F buf s p "G" = Running s1).
  { unfold step, switch_state. rewrite St. unfold step_LINE_START.
    change (Ascii.eqb "G" ";") with false. change (Ascii.eqb "G" "G") with true.
    cbv iota zeta. now rewrite end_of_turn_word_char. }
  rewrite Hstep1.
  (* the digits *)
  rewrite lex_loop_app.
  rewrite (lex_loop_gcode_digits F buf ds (p + 1) s1 (p + 1) 0 eq_refl eq_refl
             (forallb_isdigit_number s1 ds Hds) (Z.le_refl 0));
    [ | lia ].
  rewrite Z.add_0_l.
  set (s2 := set_aToken s1 (mkToken (Some (p + 1)) (Z.of_nat (List.length ds)))).
  assert (Htok : token_chars buf (mkToken (Some (p + 1)) (Z.of_nat (List.length ds)))
                 = ds).
  { subst buf p.
    replace (Z.of_nat (List.length pre) + 1)
      with (Z.of_nat (List.length (pre ++ ["G"%char])))
      by (rewrite length_app; cbn [List.length]; lia).
    change (pre ++ ("G"%char :: ds ++ words_chars ws ++ [LF]) ++ rest)
      with (pre ++ (["G"%char] ++ ds ++ words_chars ws ++ [LF]) ++ rest).
    rewrite <- !app_assoc, (app_assoc pre), token_chars_after, Nat2Z.id.
    rewrite firstn_app, Nat.sub_diag, firstn_all. cbn [firstn].
    now rewrite app_nil_r. }
  assert (Hcmd2 : end_of_token buf s2
                  = mkCmd (G_ (p_uint_chars ds)) NAN NAN NAN NAN).
  { unfold end_of_token. subst s2 s1. lexer_simpl.
    now rewrite p_uint_token_chars, Htok. }
  (* the words *)
  rewrite lex_loop_app.
  assert (Hlen1 : Z.of_nat (List.length (pre1 ++ words_chars ws ++ LF :: rest))
                  < 2 ^ 64) by (now rewrite <- Hb1).
  destruct (lex_loop_words_of_command F ws pre1 (LF :: rest) s2 Hlen1 eq_refl Hws)
    as (s3 & Hrun3 & Hsame3 & Hcmd3).
  rewrite <- Hb1, Hp1 in Hrun3. rewrite <- Hb1, Hcmd2 in Hcmd3.
  rewrite Hrun3.
  (* the line feed *)
  destruct Hsame3 as (St3 & _ & _ & Hl3 & _ & _ & Hg3 & Hs3).
  cbn [lex_loop]. unfold step, switch_state. rewrite St3.
  subst s2 s1. lexer_simpl. unfold step_GCODE.
  assert (Hn : is_number_char s3 LF = false).
  { unfold is_number_char. change (isdigit LF) with false.
    change (Ascii.eqb LF ".") with false. change (Ascii.eqb LF "-") with false.
    now rewrite andb_false_r, andb_false_r. }
  rewrite Hn. change (axis_of_char LF) with (@None tParam).
  change (is_line_end LF) with true. change (Ascii.eqb LF LF) with true.
  cbv iota zeta. unfold end_of_turn. change (Ascii.eqb LF LF) with true.
  cbv iota. eexists. split; [ reflexivity | ]. lexer_simpl.
  rewrite Hcmd3, Hg3, Hs3, Hl3. lexer_simpl.
  repeat split; reflexivity.
Qed.

Lemma command_line_is_read_witness :
  exists s',
    lex_loop false (chars "G1 X10.5 Y-2 F1800 E0.3" ++ [LF]) init_lexer 0
             (chars "G1 X10.5 Y-2 F1800 E0.3" ++ [LF])
    = Running s'
    /\ cmd s' = mkCmd (G_ 1) (p_float_chars (chars "10.5")) (p_float_chars (chars "-2"))
                      NAN (p_float_chars (chars "0.3"))
    /\ geom s' = gcode_end (cmd s') (geom init_lexer).
Proof.
  destruct (command_line_is_read
              false [] (chars "1") []
              [("X"%char, chars "10.5"); ("Y"%char, chars "-2");
               ("F"%char, chars "1800"); ("E"%char, chars "0.3")] init_lexer)
    as (s' & Hrun & _ & Hcmd & Hgeom & _); try reflexivity.
  exists s'. split; [ exact Hrun | split; [ exact Hcmd | exact Hgeom ] ].
Defined.

(** * Further properties: the thumbnail block *)

Lemma char_at_after (pre : list ascii) (ch : ascii) (rest : list ascii) :
  char_at (pre ++ ch :: rest) (Z.of_nat (List.length pre)) = ch.
Proof.
  unfold char_at. rewrite Nat2Z.id, app_nth2, Nat.sub_diag by lia. reflexivity.
Qed.

Lemma cmp_chars_eq (a b : list ascii) : cmp_chars a b = 0 -> a = b.
Proof.
  revert b. induction a as [ | c a IH ]; intros [ | d b ]; cbn [cmp_chars];
    try discriminate; [ reflexivity | ].
  destruct (Ascii.eqb c d) eqn:E.
  - apply Ascii.eqb_eq in E. subst d. intro H. f_equal. now apply IH.
  - intro H. apply Ascii.eqb_neq in E. exfalso. apply E.
    assert (Hc : char_code c = char_code d) by lia.
    unfold char_code in Hc. apply N2Z.inj in Hc.
    rewrite <- (ascii_N_embedding c), <- (ascii_N_embedding d). now rewrite Hc.
Qed.

(** The ';' of a line of the block. *)
Lemma step_thumbnail_semicolon (F : bool) (buf : list ascii) (s : tLexer) (it : Z) :
  state s = ST_THUMBNAIL -> tok_start (slots s thumbnail) <> None ->
  step F buf s it ";" = Running (set_aToken s (mkToken (Some (it + 1)) 0)).
Proof.
  intros St Hk. unfold step, switch_state. rewrite St. unfold step_THUMBNAIL.
  change (Ascii.eqb ";" LF) with false. rewrite andb_false_r.
  destruct (tok_start (slots s thumbnail)); [ | contradiction ].
  change (Ascii.eqb ";" ";") with true. cbv iota.
  now rewrite end_of_turn_word_char.
Qed.

(** The token starts anew behind white space. *)
Lemma step_thumbnail_restart (F : bool) (buf : list ascii) (s : tLexer) (it a n : Z)
      (ch : ascii) :
  state s = ST_THUMBNAIL -> tok_start (slots s thumbnail) <> None ->
  aToken s = mkToken (Some a) n -> isspace (char_at buf a) = true ->
  Ascii.eqb ch ";" = false ->
  step F buf s it ch
  = Running (end_of_turn
               (set_aToken (count_thumbnail_line F s ch) (mkToken (Some it) 1)) it ch).
Proof.
  intros St Hk Ha Hsp Hsemi. unfold step, switch_state. rewrite St.
  unfold step_THUMBNAIL, count_thumbnail_line.
  destruct (F && Ascii.eqb ch LF); lexer_simpl;
    (destruct (tok_start (slots s thumbnail)); [ | contradiction ]);
    rewrite Hsemi, Ha; cbn [tok_start]; now rewrite Hsp.
Qed.

(** The token grows by the character and is not yet the end marker. *)
Lemma step_thumbnail_extend (F : bool) (buf : list ascii) (s : tLexer) (it a n : Z)
      (ch : ascii) :
  state s = ST_THUMBNAIL -> tok_start (slots s thumbnail) <> None ->
  aToken s = mkToken (Some a) n -> isspace (char_at buf a) = false ->
  Ascii.eqb ch ";" = false ->
  p_cmpToken buf (mkToken (Some a) (n + 1)) "thumbnail end" <> 0 ->
  0 <= n + 1 < 2 ^ 64 ->
  step F buf s it ch
  = Running (end_of_turn
               (set_aToken (count_thumbnail_line F s ch) (mkToken (Some a) (n + 1)))
               it ch).
Proof.
  intros St Hk Ha Hsp Hsemi Hm Hr. unfold step, switch_state. rewrite St.
  unfold step_THUMBNAIL, count_thumbnail_line. apply Z.eqb_neq in Hm.
  destruct (F && Ascii.eqb ch LF); lexer_simpl;
    (destruct (tok_start (slots s thumbnail)); [ | contradiction ]);
    rewrite Hsemi, Ha; cbn [tok_start tok_length]; rewrite Hsp;
    rewrite (size_t_small (n + 1) Hr); lexer_simpl; now rewrite Hm.
Qed.

(** The last character of the end marker. *)
Lemma step_thumbnail_end (F : bool) (buf : list ascii) (s : tLexer)
      (it a n tstart : Z) (ch : ascii) :
  state s = ST_THUMBNAIL -> tok_start (slots s thumbnail) = Some tstart ->
  aToken s = mkToken (Some a) n -> isspace (char_at buf a) = false ->
  isspace ch = false -> Ascii.eqb ch ";" = false ->
  p_cmpToken buf (mkToken (Some a) (n + 1)) "thumbnail end" = 0 ->
  0 <= n + 1 < 2 ^ 64 ->
  (F = true -> tok_start (origThumbnail s) <> None) ->
  step F buf s it ch
  = Running
      (let s1 := set_slots (set_aToken s (mkToken (Some a) (n + 1)))
                           (set_slot (slots s) thumbnail
                                     (mkToken (Some tstart)
                                              (size_t (lineStart s - tstart)))) in
       if F then
         set_state
           (set_origThumbnail s1
              (mkToken (tok_start (origThumbnail s))
                       (size_t (it - match tok_start (origThumbnail s) with
                                     | Some o => o
                                     | None => 0
                                     end))))
           ST_THUMBNAIL_TAIL
       else set_state s1 ST_FIND_LINE_START).
Proof.
  intros St Hk Ha Hsp Hch Hsemi Hm Hr Ho. unfold step, switch_state. rewrite St.
  unfold step_THUMBNAIL.
  rewrite (not_space_not ch LF Hch eq_refl), andb_false_r, Hk, Hsemi, Ha.
  cbn [tok_start tok_length]. rewrite Hsp, (size_t_small (n + 1) Hr). lexer_simpl.
  rewrite Hm. cbn [Z.eqb]. cbv zeta. lexer_simpl.
  destruct F.
  - destruct (tok_start (origThumbnail s)) as [ o | ] eqn:Eo;
      [ | now contradiction Ho ].
    now rewrite end_of_turn_word_char.
  - now rewrite end_of_turn_word_char.
Qed.

Lemma block_lines_trans (F : bool) (n m : Z) (s1 s2 s3 : tLexer) :
  block_lines F n s1 s2 -> block_lines F m s2 s3 -> block_lines F (n + m) s1 s3.
Proof.
  unfold block_lines.
  intros (A1 & A2 & A3 & A4 & A5 & A6 & A7 & A8 & A9)
         (B1 & B2 & B3 & B4 & B5 & B6 & B7 & B8 & B9).
  repeat split; try congruence.
  - rewrite B8, <- size_t_add_l, A8, size_t_add_l. f_equal. lia.
  - rewrite B9, <- size_t_add_l, A9, size_t_add_l. f_equal. destruct F; lia.
Qed.

Lemma is_base64_facts (ch : ascii) :
  is_base64 ch = true ->
  isspace ch = false /\ Ascii.eqb ch ";" = false /\ Ascii.eqb ch LF = false
  /\ Ascii.eqb ch CR = false.
Proof.
  intro H.
  assert (Hne : forall c : ascii, is_base64 c = false -> Ascii.eqb ch c = false).
  { intros c Hc. destruct (Ascii.eqb ch c) eqn:E; [ | reflexivity ].
    apply Ascii.eqb_eq in E. subst c. congruence. }
  repeat split; try (apply Hne; reflexivity).
  destruct (isspace ch) eqn:E; [ | reflexivity ].
  unfold isspace in E. unfold is_base64 in H.
  assert (Hr : char_code ch = 32 \/ 9 <= char_code ch <= 13).
  { apply orb_prop in E. destruct E as [E | E].
    - apply Z.eqb_eq in E. now left.
    - apply andb_prop in E. destruct E as [E1 E2]. apply Z.leb_le in E1, E2. now right. }
  assert (Hp : Ascii.eqb ch "+" = false).
  { destruct (Ascii.eqb ch "+") eqn:Ep; [ | reflexivity ].
    apply Ascii.eqb_eq in Ep. subst ch. cbn in Hr. lia. }
  assert (Hs : Ascii.eqb ch "/" = false).
  { destruct (Ascii.eqb ch "/") eqn:Ep; [ | reflexivity ].
    apply Ascii.eqb_eq in Ep. subst ch. cbn in Hr. lia. }
  assert (He : Ascii.eqb ch "=" = false).
  { destruct (Ascii.eqb ch "=") eqn:Ep; [ | reflexivity ].
    apply Ascii.eqb_eq in Ep. subst ch. cbn in Hr. lia. }
  rewrite Hp, Hs, He, !orb_false_r in H.
  apply orb_prop in H. destruct H as [H | H].
  - apply orb_prop in H. destruct H as [H | H];
      apply andb_prop in H; destruct H as [H1 H2]; apply Z.leb_le in H1, H2; lia.
  - apply andb_prop in H. destruct H as [H1 H2]. apply Z.leb_le in H1, H2. lia.
Qed.

(** Data is never taken for the end marker. *)
Lemma base64_not_end_marker (l : list ascii) :
  forallb is_base64 l = true ->
  cmp_chars l (chars "thumbnail end") <> 0
  /\ cmp_chars (l ++ [LF]) (chars "thumbnail end") <> 0.
Proof.
  intro H. split; intro E; apply cmp_chars_eq in E.
  - subst l. discriminate H.
  - assert (Hin : In LF (l ++ [LF])) by (apply in_or_app; right; now left).
    rewrite E in Hin. cbn in Hin.
    repeat match type of Hin with
           | _ \/ _ => destruct Hin as [Hin | Hin]; [ discriminate Hin | ]
           end.
    exact Hin.
Qed.

(** Characters that make the token grow. *)
Lemma lex_loop_thumbnail_extend (F : bool) (buf l : list ascii) (a : Z) :
  forall (s : tLexer) (it n : Z),
    state s = ST_THUMBNAIL -> tok_start (slots s thumbnail) <> None ->
    aToken s = mkToken (Some a) n -> isspace (char_at buf a) = false ->
    forallb (fun c => negb (Ascii.eqb c ";") && negb (Ascii.eqb c LF)
                      && negb (Ascii.eqb c CR)) l = true ->
    (forall k, 1 <= k <= Z.of_nat (List.length l) ->
               p_cmpToken buf (mkToken (Some a) (n + k)) "thumbnail end" <> 0) ->
    0 <= n -> n + Z.of_nat (List.length l) < 2 ^ 64 ->
    lex_loop F buf s it l
    = Running (set_aToken s (mkToken (Some a) (n + Z.of_nat (List.length l)))).
Proof.
  induction l as [ | ch l IH ]; intros s it n St Hk Ha Hsp Hl Hm Hn Hhi.
  - cbn [lex_loop List.length]. rewrite Z.add_0_r. destruct s; cbn in Ha; now subst.
  - cbn [forallb] in Hl. apply andb_prop in Hl. destruct Hl as [Hch Hl].
    apply andb_prop in Hch. destruct Hch as [Hch Hcr].
    apply andb_prop in Hch. destruct Hch as [Hsemi Hlf].
    apply negb_true_iff in Hsemi, Hlf, Hcr.
    cbn [List.length] in Hhi, Hm.
    assert (Hm1 : p_cmpToken buf (mkToken (Some a) (n + 1)) "thumbnail end" <> 0)
      by (apply Hm; lia).
    assert (Hr : 0 <= n + 1 < 2 ^ 64) by lia.
    cbn [lex_loop].
    rewrite (step_thumbnail_extend F buf s it a n ch St Hk Ha Hsp Hsemi Hm1 Hr).
    unfold count_thumbnail_line, end_of_turn. rewrite Hlf, Hcr, andb_false_r.
    rewrite (IH _ (it + 1) (n + 1)); [ | exact St | exact Hk | reflexivity | exact Hsp
                                       | exact Hl | | lia | lia ].
    + replace (n + 1 + Z.of_nat (List.length l))
        with (n + Z.of_nat (S (List.length l))) by lia.
      now destruct s.
    + intros k Hk'. replace (n + 1 + k) with (n + (1 + k)) by lia. apply Hm. lia.
Qed.

Lemma block_lines_LF (F : bool) (s : tLexer) (t : tPToken) (it : Z) :
  block_lines F 1 s
    (end_of_turn (set_aToken (count_thumbnail_line F s LF) t) it LF).
Proof.
  unfold block_lines, end_of_turn, count_thumbnail_line.
  change (Ascii.eqb LF LF) with true. rewrite andb_true_r.
  destruct F; lexer_simpl; repeat split; try reflexivity;
    rewrite ?size_t_idem, ?Z.add_0_r; reflexivity.
Qed.

Lemma lineStart_LF (F : bool) (s : tLexer) (t : tPToken) (it : Z) :
  lineStart (end_of_turn (set_aToken (count_thumbnail_line F s LF) t) it LF) = it + 1.
Proof.
  unfold end_of_turn, count_thumbnail_line.
  change (Ascii.eqb LF LF) with true. now destruct F.
Qed.

(** A line of data: it is counted, and the token of the thumbnail is as it
    was. *)
Lemma lex_loop_data_line (F : bool) (pre payload rest : list ascii) (s : tLexer) :
  Z.of_nat (List.length (pre ++ data_line payload ++ rest)) < 2 ^ 64 ->
  state s = ST_THUMBNAIL -> tok_start (slots s thumbnail) <> None ->
  forallb is_base64 payload = true ->
  exists s1,
    lex_loop F (pre ++ data_line payload ++ rest) s (Z.of_nat (List.length pre))
             (data_line payload)
    = Running s1
    /\ block_lines F 1 s s1
    /\ lineStart s1
       = Z.of_nat (List.length pre) + Z.of_nat (List.length (data_line payload)).
Proof.
  intros Hlen St Hk Hp.
  set (buf := pre ++ data_line payload ++ rest) in *.
  set (p := Z.of_nat (List.length pre)).
  assert (Hlens : Z.of_nat (List.length buf)
                  = p + 3 + Z.of_nat (List.length payload)
                    + Z.of_nat (List.length rest)).
  { subst buf p. unfold data_line.
    repeat (rewrite length_app || cbn [List.length]). lia. }
  assert (Hsp : char_at buf (p + 1) = " "%char).
  { subst buf p. unfold data_line.
    replace (Z.of_nat (List.length pre) + 1)
      with (Z.of_nat (List.length (pre ++ [";"%char])))
      by (rewrite length_app; cbn [List.length]; lia).
    change (pre ++ (";"%char :: " "%char :: payload ++ [LF]) ++ rest)
      with (pre ++ ([";"%char] ++ " "%char :: payload ++ [LF]) ++ rest).
    rewrite <- app_assoc, (app_assoc pre). cbn [app]. apply char_at_after. }
  unfold data_line at 1. cbn [lex_loop].
  rewrite (step_thumbnail_semicolon F buf s p St Hk).
  set (s1 := set_aToken s (mkToken (Some (p + 1)) 0)).
  assert (Hsp1 : isspace (char_at buf (p + 1)) = true) by (now rewrite Hsp).
  rewrite (step_thumbnail_restart F buf s1 (p + 1) (p + 1) 0 " " St Hk eq_refl Hsp1
             eq_refl).
  unfold count_thumbnail_line at 1. change (Ascii.eqb " " LF) with false.
  rewrite andb_false_r. unfold end_of_turn at 1.
  change (Ascii.eqb " " LF) with false. change (Ascii.eqb " " CR) with false.
  cbv iota.
  set (s2 := set_aToken s1 (mkToken (Some (p + 1)) 1)).
  destruct payload as [ | c1 tl ].
  - (* no data *)
    cbn [app lex_loop].
    rewrite (step_thumbnail_restart F buf s2 (p + 1 + 1) (p + 1) 1 LF St Hk eq_refl
               Hsp1 eq_refl).
    eexists. split; [ reflexivity | ]. split.
    + apply (block_lines_LF F s2).
    + rewrite lineStart_LF. unfold data_line. cbn [List.length app]. lia.
  - cbn [forallb] in Hp. apply andb_prop in Hp. destruct Hp as [Hc1 Htl].
    destruct (is_base64_facts c1 Hc1) as (Hc1sp & Hc1semi & Hc1lf & Hc1cr).
    cbn [app lex_loop].
    rewrite (step_thumbnail_restart F buf s2 (p + 1 + 1) (p + 1) 1 c1 St Hk eq_refl
               Hsp1 Hc1semi).
    unfold count_thumbnail_line at 1. rewrite Hc1lf, andb_false_r.
    rewrite (end_of_turn_word_char _ _ c1 Hc1sp).
    set (a := p + 1 + 1).
    set (s3 := set_aToken s2 (mkToken (Some a) 1)).
    assert (Htok : forall k, (k <= S (List.length (c1 :: tl)))%nat ->
                             token_chars buf (mkToken (Some a) (Z.of_nat k))
                             = firstn k ((c1 :: tl) ++ [LF])).
    { intros k Hk'. subst buf a p. unfold data_line.
      replace (Z.of_nat (List.length pre) + 1 + 1)
        with (Z.of_nat (List.length (pre ++ [";"%char; " "%char])))
        by (rewrite length_app; cbn [List.length]; lia).
      change (pre ++ (";"%char :: " "%char :: (c1 :: tl) ++ [LF]) ++ rest)
        with (pre ++ ([";"%char; " "%char] ++ ((c1 :: tl) ++ [LF])) ++ rest).
      rewrite <- !app_assoc, (app_assoc pre), token_chars_after, Nat2Z.id.
      rewrite (app_assoc (c1 :: tl)), firstn_app.
      replace (k - List.length ((c1 :: tl) ++ [LF]))%nat with 0%nat
        by (rewrite length_app; cbn [List.length] in *; lia).
      cbn [firstn]. now rewrite app_nil_r. }
    assert (Hc1at : isspace (char_at buf a) = false).
    { replace (char_at buf a) with c1; [ exact Hc1sp | ].
      subst buf a p. unfold data_line.
      replace (Z.of_nat (List.length pre) + 1 + 1)
        with (Z.of_nat (List.length (pre ++ [";"%char; " "%char])))
        by (rewrite length_app; cbn [List.length]; lia).
      change (pre ++ (";"%char :: " "%char :: (c1 :: tl) ++ [LF]) ++ rest)
        with (pre ++ ([";"%char; " "%char] ++ (c1 :: tl ++ [LF])) ++ rest).
      rewrite <- !app_assoc, (app_assoc pre). cbn [app].
      symmetry. apply char_at_after. }
    assert (Hm : forall k, 1 <= k <= Z.of_nat (List.length tl) ->
                           p_cmpToken buf (mkToken (Some a) (1 + k)) "thumbnail end"
                           <> 0).
    { intros k Hk'. unfold p_cmpToken.
      replace (1 + k) with (Z.of_nat (Z.to_nat (1 + k))) by lia.
      rewrite Htok by (cbn [List.length]; lia).
      rewrite firstn_app.
      replace (Z.to_nat (1 + k) - List.length (c1 :: tl))%nat with 0%nat
        by (cbn [List.length]; lia).
      cbn [firstn]. rewrite app_nil_r.
      apply base64_not_end_marker.
      assert (Hall : forallb is_base64 (c1 :: tl) = true)
        by (cbn [forallb]; now rewrite Hc1, Htl).
      rewrite <- (firstn_skipn (Z.to_nat (1 + k)) (c1 :: tl)), forallb_app in Hall.
      now apply andb_prop in Hall. }
    assert (Htl' : forallb (fun c => negb (Ascii.eqb c ";") && negb (Ascii.eqb c LF)
                                     && negb (Ascii.eqb c CR)) tl = true).
    { clear -Htl. induction tl as [ | c tl IH ]; [ reflexivity | ].
      cbn [forallb] in *. apply andb_prop in Htl. destruct Htl as [Hc Htl].
      destruct (is_base64_facts c Hc) as (_ & -> & -> & ->). cbn [negb andb].
      now apply IH. }
    cbn [List.length] in Hlens.
    rewrite lex_loop_app.
    rewrite (lex_loop_thumbnail_extend F buf tl a s3 (a + 1) 1 St Hk eq_refl Hc1at
               Htl' Hm); [ | lia | lia ].
    set (s4 := set_aToken s3 (mkToken (Some a) (1 + Z.of_nat (List.length tl)))).
    assert (Hm4 : p_cmpToken buf (mkToken (Some a) (1 + Z.of_nat (List.length tl) + 1))
                             "thumbnail end" <> 0).
    { unfold p_cmpToken.
      replace (1 + Z.of_nat (List.length tl) + 1)
        with (Z.of_nat (S (List.length (c1 :: tl))))
        by (cbn [List.length]; lia).
      rewrite Htok by lia.
      rewrite firstn_all2 by (rewrite length_app; cbn [List.length]; lia).
      apply base64_not_end_marker. cbn [forallb]. now rewrite Hc1, Htl. }
    assert (Hr4 : 0 <= 1 + Z.of_nat (List.length tl) + 1 < 2 ^ 64) by lia.
    cbn [lex_loop].
    rewrite (step_thumbnail_extend F buf s4 _ a _ LF St Hk eq_refl Hc1at eq_refl
               Hm4 Hr4).
    eexists. split; [ reflexivity | ]. split.
    + apply (block_lines_LF F s4).
    + rewrite lineStart_LF. unfold data_line. subst a.
      repeat (rewrite length_app || cbn [List.length]). lia.
Qed.

Lemma block_lines_refl (F : bool) (s : tLexer) : block_lines F 0 s s.
Proof.
  unfold block_lines. repeat split; try reflexivity.
  - now rewrite Z.add_0_r.
  - destruct F; now rewrite Z.add_0_r.
Qed.

Lemma lex_loop_data_lines (F : bool) (payloads : list (list ascii)) :
  forall (pre rest : list ascii) (s : tLexer),
    Z.of_nat (List.length (pre ++ data_lines payloads ++ rest)) < 2 ^ 64 ->
    state s = ST_THUMBNAIL -> tok_start (slots s thumbnail) <> None ->
    lineStart s = Z.of_nat (List.length pre) ->
    forallb (forallb is_base64) payloads = true ->
    exists s1,
      lex_loop F (pre ++ data_lines payloads ++ rest) s (Z.of_nat (List.length pre))
               (data_lines payloads)
      = Running s1
      /\ block_lines F (Z.of_nat (List.length payloads)) s s1
      /\ lineStart s1
         = Z.of_nat (List.length pre) + Z.of_nat (List.length (data_lines payloads)).
Proof.
  induction payloads as [ | pl pls IH ]; intros pre rest s Hlen St Hk Hls Hp.
  - exists s. cbn [data_lines flat_map lex_loop List.length].
    split; [ reflexivity | split; [ apply block_lines_refl | lia ] ].
  - cbn [forallb] in Hp. apply andb_prop in Hp. destruct Hp as [Hpl Hpls].
    change (data_lines (pl :: pls)) with (data_line pl ++ data_lines pls) in *.
    assert (Hb1 : pre ++ (data_line pl ++ data_lines pls) ++ rest
                  = pre ++ data_line pl ++ (data_lines pls ++ rest))
      by (now rewrite <- app_assoc).
    assert (Hb2 : pre ++ (data_line pl ++ data_lines pls) ++ rest
                  = (pre ++ data_line pl) ++ data_lines pls ++ rest)
      by (now rewrite <- !app_assoc).
    set (buf := pre ++ (data_line pl ++ data_lines pls) ++ rest) in *.
    rewrite lex_loop_app.
    assert (Hlen1 : Z.of_nat (List.length
                                (pre ++ data_line pl ++ (data_lines pls ++ rest)))
                    < 2 ^ 64) by (now rewrite <- Hb1).
    destruct (lex_loop_data_line F pre pl (data_lines pls ++ rest) s Hlen1 St Hk Hpl)
      as (s1 & Hrun1 & Hrel1 & Hls1).
    rewrite <- Hb1 in Hrun1. rewrite Hrun1.
    assert (St1 : state s1 = ST_THUMBNAIL)
      by (destruct Hrel1 as (E & _); congruence).
    assert (Hk1 : tok_start (slots s1 thumbnail) <> None)
      by (destruct Hrel1 as (_ & _ & _ & _ & _ & E & _); now rewrite E).
    assert (Hls1' : lineStart s1 = Z.of_nat (List.length (pre ++ data_line pl)))
      by (rewrite length_app; lia).
    assert (Hlen2 : Z.of_nat (List.length
                                ((pre ++ data_line pl) ++ data_lines pls ++ rest))
                    < 2 ^ 64) by (now rewrite <- Hb2).
    destruct (IH (pre ++ data_line pl) rest s1 Hlen2 St1 Hk1 Hls1' Hpls)
      as (s2 & Hrun2 & Hrel2 & Hls2).
    rewrite <- Hb2 in Hrun2.
    replace (Z.of_nat (List.length (pre ++ data_line pl)))
      with (Z.of_nat (List.length pre) + Z.of_nat (List.length (data_line pl)))
      in Hrun2, Hls2 by (rewrite length_app; lia).
    exists s2. split; [ exact Hrun2 | ]. split.
    + replace (Z.of_nat (List.length (pl :: pls)))
        with (1 + Z.of_nat (List.length pls)) by (cbn [List.length]; lia).
      exact (block_lines_trans F 1 _ s s1 s2 Hrel1 Hrel2).
    + rewrite Hls2, length_app. lia.
Qed.

(** The rest of the last line of the block, with the original thumbnail
    being removed. *)
Lemma lex_loop_thumbnail_tail (F : bool) (buf tail : list ascii) (o : Z) :
  no_line_feed tail = true ->
  forall (s : tLexer) (it : Z),
    state s = ST_THUMBNAIL_TAIL -> tok_start (origThumbnail s) = Some o ->
    lex_loop F buf s it (tail ++ [LF])
    = Running
        (set_lineStart
           (set_lineNr
              (set_state
                 (set_origThumbnail
                    s (mkToken (Some o)
                               (size_t (it + Z.of_nat (List.length tail) + 1 - o))))
                 ST_LINE_START)
              (size_t (lineNr s + 1)))
           (it + Z.of_nat (List.length tail) + 1)).
Proof.
  induction tail as [ | ch tail IH ]; intros Hl s it St Ho.
  - cbn [app lex_loop List.length]. unfold step, switch_state. rewrite St.
    unfold step_THUMBNAIL_TAIL. change (Ascii.eqb LF LF) with true. cbv iota.
    rewrite Ho. unfold end_of_turn. change (Ascii.eqb LF LF) with true. cbv iota.
    lexer_simpl. now rewrite Z.add_0_r.
  - cbn [no_line_feed forallb] in Hl. apply andb_prop in Hl.
    destruct Hl as [Hch Hl]. apply negb_true_iff in Hch.
    destruct (end_of_turn_no_LF s it ch Hch) as (v & Hv).
    cbn [app lex_loop]. unfold step, switch_state. rewrite St.
    unfold step_THUMBNAIL_TAIL. rewrite Hch, Hv.
    rewrite (IH Hl (set_lineStart s v) (it + 1) St Ho).
    cbn [List.length]. lexer_simpl.
    replace (it + 1 + Z.of_nat (List.length tail) + 1)
      with (it + Z.of_nat (S (List.length tail)) + 1) by lia.
    now destruct s.
Qed.

(** The last line of the block: the token of the thumbnail gets its length,
    the data up to the start of this line. *)
Lemma lex_loop_end_line (F : bool) (pre tail rest : list ascii) (s : tLexer)
      (tstart : Z) :
  Z.of_nat (List.length (pre ++ end_line tail ++ rest)) < 2 ^ 64 ->
  state s = ST_THUMBNAIL -> tok_start (slots s thumbnail) = Some tstart ->
  lineStart s = Z.of_nat (List.length pre) ->
  no_line_feed tail = true ->
  (F = true -> tok_start (origThumbnail s) <> None) ->
  exists s1,
    lex_loop F (pre ++ end_line tail ++ rest) s (Z.of_nat (List.length pre))
             (end_line tail)
    = Running s1
    /\ state s1 = ST_LINE_START /\ valueToken s1 = valueToken s
    /\ slots s1 thumbnail
       = mkToken (Some tstart) (size_t (Z.of_nat (List.length pre) - tstart))
    /\ (forall k, k <> thumbnail -> slots s1 k = slots s k)
    /\ geom s1 = geom s /\ lineNr s1 = size_t (lineNr s + 1)
    /\ origThumbnailLines s1 = origThumbnailLines s
    /\ origThumbnail s1
       = if F then
           mkToken (tok_start (origThumbnail s))
                   (size_t (Z.of_nat (List.length pre)
                            + Z.of_nat (List.length (end_line tail))
                            - match tok_start (origThumbnail s) with
                              | Some o => o
                              | None => 0
                              end))
         else origThumbnail s.
Proof.
  intros Hlen St Hk Hls Htail Ho.
  set (buf := pre ++ end_line tail ++ rest) in *.
  set (p := Z.of_nat (List.length pre)) in *.
  assert (Hk' : tok_start (slots s thumbnail) <> None) by congruence.
  assert (Hlens : Z.of_nat (List.length buf)
                  = p + 15 + Z.of_nat (List.length tail) + 1
                    + Z.of_nat (List.length rest)).
  { subst buf p. unfold end_line.
    repeat (rewrite length_app || cbn [List.length chars list_ascii_of_string]).
    lia. }
  assert (Hsp : char_at buf (p + 1) = " "%char).
  { subst buf p. unfold end_line.
    replace (Z.of_nat (List.length pre) + 1)
      with (Z.of_nat (List.length (pre ++ [";"%char])))
      by (rewrite length_app; cbn [List.length]; lia).
    change (pre ++ (chars "; thumbnail end" ++ tail ++ [LF]) ++ rest)
      with (pre ++ ([";"%char] ++ " "%char :: chars "thumbnail end" ++ tail ++ [LF])
            ++ rest).
    rewrite <- app_assoc, (app_assoc pre). cbn [app]. apply char_at_after. }
  assert (Hbuf2 : buf = (pre ++ [";"%char; " "%char])
                        ++ chars "thumbnail end" ++ tail ++ LF :: rest).
  { subst buf. unfold end_line. rewrite <- !app_assoc. reflexivity. }
  assert (Hp2 : Z.of_nat (List.length (pre ++ [";"%char; " "%char])) = p + 1 + 1)
    by (rewrite length_app; cbn [List.length]; lia).
  assert (Ht : char_at buf (p + 1 + 1) = "t"%char).
  { rewrite Hbuf2, <- Hp2. apply char_at_after. }
  assert (Htok : forall n, p_cmpToken buf (mkToken (Some (p + 1 + 1)) n)
                                      "thumbnail end"
                           = cmp_chars (firstn (Z.to_nat n)
                                               (chars "thumbnail end"
                                                ++ tail ++ LF :: rest))
                                       (chars "thumbnail end")).
  { intro n. rewrite Hbuf2, <- Hp2. apply p_cmpToken_after. }
  unfold end_line at 1.
  change (chars "; thumbnail end" ++ tail ++ [LF])
    with (";"%char :: " "%char :: "t"%char
          :: (chars "humbnail en" ++ "d"%char :: tail ++ [LF])).
  cbn [lex_loop].
  rewrite (step_thumbnail_semicolon F buf s p St Hk').
  set (s1 := set_aToken s (mkToken (Some (p + 1)) 0)).
  assert (Hsp1 : isspace (char_at buf (p + 1)) = true) by (now rewrite Hsp).
  rewrite (step_thumbnail_restart F buf s1 (p + 1) (p + 1) 0 " " St Hk' eq_refl Hsp1
             eq_refl).
  unfold count_thumbnail_line at 1, end_of_turn at 1.
  change (Ascii.eqb " " LF) with false. change (Ascii.eqb " " CR) with false.
  rewrite andb_false_r. cbv iota.
  set (s2 := set_aToken s1 (mkToken (Some (p + 1)) 1)).
  rewrite (step_thumbnail_restart F buf s2 (p + 1 + 1) (p + 1) 1 "t" St Hk' eq_refl
             Hsp1 eq_refl).
  unfold count_thumbnail_line at 1, end_of_turn at 1.
  change (Ascii.eqb "t" LF) with false. change (Ascii.eqb "t" CR) with false.
  rewrite andb_false_r. cbv iota.
  set (a := p + 1 + 1) in *.
  set (s3 := set_aToken s2 (mkToken (Some a) 1)).
  assert (Hat : isspace (char_at buf a) = false) by (now rewrite Ht).
  assert (Hm : forall k, 1 <= k <= Z.of_nat (List.length (chars "humbnail en")) ->
                         p_cmpToken buf (mkToken (Some a) (1 + k)) "thumbnail end"
                         <> 0).
  { intros k Hk2. cbn [List.length chars list_ascii_of_string] in Hk2.
    rewrite Htok.
    assert (Hcases : k = 1 \/ k = 2 \/ k = 3 \/ k = 4 \/ k = 5 \/ k = 6 \/ k = 7
                     \/ k = 8 \/ k = 9 \/ k = 10 \/ k = 11) by lia.
    repeat match type of Hcases with
           | _ \/ _ => destruct Hcases as [-> | Hcases]; [ vm_compute; discriminate | ]
           end.
    subst k. vm_compute. discriminate. }
  rewrite lex_loop_app.
  rewrite (lex_loop_thumbnail_extend F buf (chars "humbnail en") a s3 (a + 1) 1
             St Hk' eq_refl Hat eq_refl Hm);
    [ | lia | cbn [List.length chars list_ascii_of_string]; lia ].
  change (1 + Z.of_nat (List.length (chars "humbnail en"))) with 12.
  change (a + 1 + Z.of_nat (List.length (chars "humbnail en"))) with (a + 1 + 11).
  set (s4 := set_aToken s3 (mkToken (Some a) 12)).
  assert (Hm4 : p_cmpToken buf (mkToken (Some a) (12 + 1)) "thumbnail end" = 0).
  { rewrite Htok. vm_compute. reflexivity. }
  assert (Hr4 : 0 <= 12 + 1 < 2 ^ 64) by lia.
  cbn [lex_loop].
  rewrite (step_thumbnail_end F buf s4 (a + 1 + 11) a 12 tstart "d" St Hk eq_refl Hat
             eq_refl eq_refl Hm4 Hr4 Ho).
  cbv zeta. subst s4 s3 s2 s1. lexer_simpl.
  assert (Hend : a + 1 + 11 + 1 + Z.of_nat (List.length tail) + 1
                 = p + Z.of_nat (List.length (end_line tail))).
  { subst a. unfold end_line.
    repeat (rewrite length_app || cbn [List.length chars list_ascii_of_string]).
    lia. }
  destruct F.
  - destruct (tok_start (origThumbnail s)) as [ o | ] eqn:Eo;
      [ | now contradiction Ho ].
    rewrite (lex_loop_thumbnail_tail true buf tail o Htail);
      [ | reflexivity | reflexivity ].
    eexists. split; [ reflexivity | ]. lexer_simpl.
    rewrite set_slot_same, Hls, Hend.
    repeat split; try reflexivity.
    intros k N. now rewrite set_slot_other by congruence.
  - rewrite (lex_loop_find_line_start false buf tail Htail); [ | reflexivity ].
    eexists. split; [ reflexivity | ]. lexer_simpl.
    rewrite set_slot_same, Hls.
    repeat split; try reflexivity.
    intros k N. now rewrite set_slot_other by congruence.
Qed.

(** The space behind the words "thumbnail begin". *)
Lemma step_comment_thumbnail_begin (F : bool) (buf : list ascii) (s : tLexer)
      (it : Z) :
  state s = ST_COMMENT -> tok_start (aToken s) <> None ->
  0 < tok_length (aToken s) ->
  p_cmpToken buf (aToken s) "post-processed by sm2pspp" <> 0 ->
  p_cmpToken buf (aToken s) "thumbnail begin" = 0 ->
  tok_start (slots s thumbnail) = None ->
  step F buf s it " "
  = Running
      (set_state
         (set_aToken
            (if F && is_null (origThumbnail s)
             then set_origThumbnailLines
                    (set_origThumbnail
                       s (mkToken (Some (lineStart s))
                                  (tok_length (origThumbnail s)))) 1
             else s)
            null_token)
         ST_THUMBNAIL).
Proof.
  intros St Ha Hlen H1 H2 Hk. unfold step, switch_state. rewrite St.
  unfold step_COMMENT. change (Ascii.eqb " " LF) with false. cbv iota.
  destruct (tok_start (aToken s)); [ | contradiction ].
  apply Z.ltb_lt in Hlen. apply Z.eqb_neq in H1.
  change (Ascii.eqb " " " ") with true. rewrite Hlen, H1, H2. cbn [andb Z.eqb].
  cbv zeta. apply is_null_true in Hk.
  destruct (F && is_null (origThumbnail s)); lexer_simpl; rewrite Hk;
    reflexivity.
Qed.

(** The rest of the first line of the block: the data starts behind its
    line feed. *)
Lemma lex_loop_thumbnail_info (F : bool) (buf info : list ascii) :
  no_line_feed info = true ->
  forall (s : tLexer) (it : Z),
    state s = ST_THUMBNAIL -> tok_start (slots s thumbnail) = None ->
    lex_loop F buf s it (info ++ [LF])
    = Running
        (set_lineStart
           (set_lineNr
              (set_slots
                 (count_thumbnail_line F s LF)
                 (set_slot (slots s) thumbnail
                           (mkToken (Some (it + Z.of_nat (List.length info) + 1))
                                    (tok_length (slots s thumbnail)))))
              (size_t (lineNr s + 1)))
           (it + Z.of_nat (List.length info) + 1)).
Proof.
  induction info as [ | ch info IH ]; intros Hl s it St Hk.
  - cbn [app lex_loop List.length]. unfold step, switch_state. rewrite St.
    unfold step_THUMBNAIL, count_thumbnail_line.
    change (Ascii.eqb LF LF) with true. rewrite andb_true_r.
    unfold end_of_turn. change (Ascii.eqb LF LF) with true.
    destruct F; lexer_simpl; rewrite Hk; cbv iota; lexer_simpl;
      now rewrite Z.add_0_r.
  - cbn [no_line_feed forallb] in Hl. apply andb_prop in Hl.
    destruct Hl as [Hch Hl]. apply negb_true_iff in Hch.
    destruct (end_of_turn_no_LF s it ch Hch) as (v & Hv).
    cbn [app lex_loop]. unfold step, switch_state. rewrite St.
    unfold step_THUMBNAIL. rewrite Hch, andb_false_r, Hk, Hv.
    rewrite (IH Hl (set_lineStart s v) (it + 1) St Hk).
    cbn [List.length]. unfold count_thumbnail_line. lexer_simpl.
    replace (it + 1 + Z.of_nat (List.length info) + 1)
      with (it + Z.of_nat (S (List.length info)) + 1) by lia.
    destruct F; cbn [andb]; now destruct s.
Qed.

(** The first line of the block. *)
Lemma lex_loop_begin_line (F : bool) (pre info rest : list ascii) (s : tLexer) :
  Z.of_nat (List.length (pre ++ begin_line info ++ rest)) < 2 ^ 64 ->
  state s = ST_LINE_START -> tok_start (slots s thumbnail) = None ->
  (F = true -> tok_start (origThumbnail s) = None) ->
  no_line_feed info = true ->
  exists s1,
    lex_loop F (pre ++ begin_line info ++ rest) s (Z.of_nat (List.length pre))
             (begin_line info)
    = Running s1
    /\ state s1 = ST_THUMBNAIL /\ valueToken s1 = valueToken s
    /\ slots s1 thumbnail
       = mkToken (Some (Z.of_nat (List.length pre)
                        + Z.of_nat (List.length (begin_line info))))
                 (tok_length (slots s thumbnail))
    /\ (forall k, k <> thumbnail -> slots s1 k = slots s k)
    /\ geom s1 = geom s /\ lineNr s1 = size_t (lineNr s + 1)
    /\ lineStart s1
       = Z.of_nat (List.length pre) + Z.of_nat (List.length (begin_line info))
    /\ origThumbnail s1
       = (if F then mkToken (Some (lineStart s)) (tok_length (origThumbnail s))
          else origThumbnail s)
    /\ origThumbnailLines s1
       = (if F then size_t (1 + 1) else origThumbnailLines s).
Proof.
  intros Hlen St Hk Ho Hinfo.
  set (buf := pre ++ begin_line info ++ rest) in *.
  set (p := Z.of_nat (List.length pre)) in *.
  assert (Hlens : Z.of_nat (List.length buf)
                  = p + 18 + Z.of_nat (List.length info) + 1
                    + Z.of_nat (List.length rest)).
  { subst buf p. unfold begin_line.
    repeat (rewrite length_app || cbn [List.length chars list_ascii_of_string]).
    lia. }
  assert (Hbuf2 : buf = (pre ++ [";"%char; " "%char])
                        ++ chars "thumbnail begin " ++ info ++ LF :: rest).
  { subst buf. unfold begin_line. rewrite <- !app_assoc. reflexivity. }
  assert (Hp2 : Z.of_nat (List.length (pre ++ [";"%char; " "%char])) = p + 1 + 1)
    by (rewrite length_app; cbn [List.length]; lia).
  assert (Htok : forall n (m : string),
             p_cmpToken buf (mkToken (Some (p + 1 + 1)) n) m
             = cmp_chars (firstn (Z.to_nat n)
                                 (chars "thumbnail begin " ++ info ++ LF :: rest))
                         (chars m)).
  { intros n m. rewrite Hbuf2, <- Hp2. apply p_cmpToken_after. }
  unfold begin_line at 1.
  change (chars "; thumbnail begin " ++ info ++ [LF])
    with (";"%char :: " "%char :: "t"%char
          :: (chars "humbnail"
              ++ " "%char :: (chars "begin" ++ " "%char :: (info ++ [LF])))).
  (* the ';' and the space *)
  cbn [lex_loop].
  assert (Hstep1 : step F buf s p ";"
                   = Running (set_state (set_aToken s null_token) ST_COMMENT)).
  { unfold step, switch_state. rewrite St. unfold step_LINE_START.
    change (Ascii.eqb ";" ";") with true. cbv iota.
    now rewrite end_of_turn_word_char. }
  rewrite Hstep1.
  set (s1 := set_state (set_aToken s null_token) ST_COMMENT).
  assert (Hstep2 : step F buf s1 (p + 1) " " = Running s1).
  { unfold step, switch_state. subst s1. lexer_simpl. unfold step_COMMENT.
    lexer_simpl. reflexivity. }
  rewrite Hstep2.
  (* the two words *)
  set (a := p + 1 + 1) in *.
  rewrite (step_comment_first F buf s1 a "t" eq_refl eq_refl eq_refl).
  rewrite (lex_loop_word F buf (chars "humbnail") _ eq_refl _ (a + 1) a 1);
    [ | reflexivity | reflexivity | lia | cbn; lia | discriminate ].
  replace (a + 1 - a + Z.of_nat (List.length (chars "humbnail")))
    with 9 by (cbn; lia).
  replace (a + 1 + Z.of_nat (List.length (chars "humbnail")))
    with (a + 9) by (cbn; lia).
  cbn [lex_loop]. rewrite step_comment_space;
    [ | reflexivity | discriminate
      | cbn [aToken set_aToken]; rewrite Htok; vm_compute; discriminate
      | cbn [aToken set_aToken]; rewrite Htok; vm_compute; discriminate ].
  rewrite (lex_loop_word F buf (chars "begin") _ eq_refl _ (a + 9 + 1) a 9);
    [ | reflexivity | reflexivity | lia | cbn; lia | discriminate ].
  replace (a + 9 + 1 - a + Z.of_nat (List.length (chars "begin")))
    with 15 by (cbn; lia).
  replace (a + 9 + 1 + Z.of_nat (List.length (chars "begin")))
    with (a + 15) by (cbn; lia).
  cbn [lex_loop]. rewrite step_comment_thumbnail_begin;
    [ | reflexivity | discriminate | reflexivity
      | cbn [aToken set_aToken]; rewrite Htok; vm_compute; discriminate
      | cbn [aToken set_aToken]; rewrite Htok; vm_compute; reflexivity
      | exact Hk ].
  (* the rest of the line *)
  match goal with
  | |- context [lex_loop F buf ?st _ (info ++ [LF])] => set (s5 := st)
  end.
  assert (Ho5 : origThumbnail s5
                = (if F then mkToken (Some (lineStart s)) (tok_length (origThumbnail s))
                   else origThumbnail s)
                /\ origThumbnailLines s5 = (if F then 1 else origThumbnailLines s)
                /\ slots s5 = slots s /\ geom s5 = geom s /\ lineNr s5 = lineNr s
                /\ valueToken s5 = valueToken s).
  { subst s5 s1. destruct F.
    - lexer_simpl. rewrite (proj2 (is_null_true _) (Ho eq_refl)). cbn [andb].
      lexer_simpl. auto 10.
    - cbn [andb]. lexer_simpl. auto 10. }
  destruct Ho5 as (Ho5 & Hc5 & Hs5 & Hg5 & Hl5 & Hv5).
  assert (Hk5 : tok_start (slots s5 thumbnail) = None) by (now rewrite Hs5).
  rewrite (lex_loop_thumbnail_info F buf info Hinfo s5 _ eq_refl Hk5).
  assert (Hend : a + 15 + 1 + Z.of_nat (List.length info) + 1
                 = p + Z.of_nat (List.length (begin_line info))).
  { subst a. unfold begin_line.
    repeat (rewrite length_app || cbn [List.length chars list_ascii_of_string]).
    lia. }
  eexists. split; [ reflexivity | ].
  unfold count_thumbnail_line. change (Ascii.eqb LF LF) with true.
  rewrite andb_true_r.
  destruct F; cbn [andb]; lexer_simpl;
    rewrite set_slot_same, Hend, Hs5, Hg5, Hl5, Hv5, Ho5, ?Hc5;
    (repeat split; try reflexivity);
    intros k N; now rewrite set_slot_other by congruence.
Qed.

Lemma thumbnail_runs_payload (p l : list ascii) :
  forallb is_base64 p = true ->
  forall run,
    fwrite_bytes (thumbnail_runs (p ++ LF :: l) run)
    = run ++ p ++ fwrite_bytes (thumbnail_runs l []).
Proof.
  induction p as [ | c p IH ]; intros Hp run.
  - cbn [app thumbnail_runs]. change (is_base64 LF) with false. cbv iota.
    destruct run; reflexivity.
  - cbn [forallb] in Hp. apply andb_prop in Hp. destruct Hp as [Hc Hp].
    cbn [app thumbnail_runs]. rewrite Hc, (IH Hp), <- app_assoc. reflexivity.
Qed.

(** The header gets the data of the lines, and nothing else. *)
Lemma thumbnail_runs_data_lines (payloads : list (list ascii)) :
  forallb (forallb is_base64) payloads = true ->
  fwrite_bytes (thumbnail_runs (data_lines payloads) []) = List.concat payloads.
Proof.
  induction payloads as [ | p pls IH ]; intro H; [ reflexivity | ].
  cbn [forallb] in H. apply andb_prop in H. destruct H as [Hp Hpls].
  change (data_lines (p :: pls))
    with (";"%char :: " "%char :: (p ++ [LF]) ++ data_lines pls).
  cbn [thumbnail_runs]. change (is_base64 ";") with false.
  change (is_base64 " ") with false. cbv iota.
  rewrite <- app_assoc. cbn [app].
  rewrite (thumbnail_runs_payload p _ Hp), (IH Hpls). reflexivity.
Qed.

(** X19. A thumbnail block as PrusaSlicer writes it, at the start of a
    line: the line "; thumbnail begin <text>", lines "; <data>" of Base64
    characters, the line "; thumbnail end". After the block the token of the
    thumbnail is the lines of data, and the loop of the header that copies
    it writes the data of the lines one after the other, and nothing else.
    The lexer is back at the start of a line, the lines are counted, no
    other token and nothing of the geometry has changed. With the removal
    compiled in, the span of the original thumbnail is the block, line feeds
    included, and its lines are counted. *)
Theorem thumbnail_block_is_captured :
  forall (F : bool) (pre info tail rest : list ascii)
         (payloads : list (list ascii)) (s : tLexer),
    Z.of_nat (List.length
                (pre ++ (begin_line info ++ data_lines payloads ++ end_line tail)
                 ++ rest)) < 2 ^ 64 ->
    state s = ST_LINE_START ->
    lineStart s = Z.of_nat (List.length pre) ->
    tok_start (slots s thumbnail) = None ->
    (F = true -> tok_start (origThumbnail s) = None) ->
    no_line_feed info = true -> no_line_feed tail = true ->
    forallb (forallb is_base64) payloads = true ->
    exists s',
      lex_loop F (pre ++ (begin_line info ++ data_lines payloads ++ end_line tail)
                  ++ rest)
               s (Z.of_nat (List.length pre))
               (begin_line info ++ data_lines payloads ++ end_line tail)
      = Running s'
      /\ state s' = ST_LINE_START
      /\ token_chars (pre ++ (begin_line info ++ data_lines payloads ++ end_line tail)
                      ++ rest) (slots s' thumbnail)
         = data_lines payloads
      /\ fwrite_bytes
           (thumbnail_runs
              (token_chars (pre ++ (begin_line info ++ data_lines payloads
                                    ++ end_line tail) ++ rest)
                           (slots s' thumbnail)) [])
         = List.concat payloads
      /\ (forall k, k <> thumbnail -> slots s' k = slots s k)
      /\ geom s' = geom s
      /\ lineNr s' = size_t (lineNr s + 2 + Z.of_nat (List.length payloads))
      /\ (F = true ->
          token_chars (pre ++ (begin_line info ++ data_lines payloads
                               ++ end_line tail) ++ rest) (origThumbnail s')
          = begin_line info ++ data_lines payloads ++ end_line tail
          /\ size_t (origThumbnailLines s')
             = size_t (2 + Z.of_nat (List.length payloads)))
      /\ (F = false -> origThumbnail s' = origThumbnail s).
Proof.
  intros F pre info tail rest payloads s Hlen St Hls Hk Ho Hinfo Htail Hp.
  set (block := begin_line info ++ data_lines payloads ++ end_line tail) in *.
  set (buf := pre ++ block ++ rest) in *.
  set (p := Z.of_nat (List.length pre)) in *.
  set (pre1 := pre ++ begin_line info).
  set (pre2 := pre1 ++ data_lines payloads).
  assert (Hb0 : buf = pre ++ begin_line info
                      ++ (data_lines payloads ++ end_line tail ++ rest)).
  { subst buf block. now rewrite <- !app_assoc. }
  assert (Hb1 : buf = pre1 ++ data_lines payloads ++ (end_line tail ++ rest)).
  { subst buf block pre1. now rewrite <- !app_assoc. }
  assert (Hb2 : buf = pre2 ++ end_line tail ++ rest).
  { subst buf block pre2 pre1. now rewrite <- !app_assoc. }
  assert (Hp1 : Z.of_nat (List.length pre1)
                = p + Z.of_nat (List.length (begin_line info)))
    by (subst pre1 p; rewrite length_app; lia).
  assert (Hp2 : Z.of_nat (List.length pre2)
                = p + Z.of_nat (List.length (begin_line info))
                  + Z.of_nat (List.length (data_lines payloads)))
    by (subst pre2; rewrite length_app; lia).
  assert (Hblock : Z.of_nat (List.length block)
                   = Z.of_nat (List.length (begin_line info))
                     + Z.of_nat (List.length (data_lines payloads))
                     + Z.of_nat (List.length (end_line tail)))
    by (subst block; rewrite !length_app; lia).
  assert (Hlens : p + Z.of_nat (List.length block) <= Z.of_nat (List.length buf))
    by (subst buf p; rewrite !length_app; lia).
  (* the first line *)
  subst block. rewrite lex_loop_app.
  assert (Hlen0 : Z.of_nat (List.length
                              (pre ++ begin_line info
                               ++ (data_lines payloads ++ end_line tail ++ rest)))
                  < 2 ^ 64) by (now rewrite <- Hb0).
  destruct (lex_loop_begin_line F pre info _ s Hlen0 St Hk Ho Hinfo)
    as (s1 & Hrun1 & St1 & Hv1 & Hk1 & Hs1 & Hg1 & Hl1 & Hls1 & Ho1 & Hc1).
  rewrite <- Hb0 in Hrun1. fold p in Hrun1, Hk1, Hls1. rewrite Hrun1.
  (* the lines of data *)
  rewrite lex_loop_app.
  assert (Hlen1 : Z.of_nat (List.length
                              (pre1 ++ data_lines payloads ++ (end_line tail ++ rest)))
                  < 2 ^ 64) by (now rewrite <- Hb1).
  assert (Hk1' : tok_start (slots s1 thumbnail) <> None) by (now rewrite Hk1).
  assert (Hls1' : lineStart s1 = Z.of_nat (List.length pre1)) by lia.
  destruct (lex_loop_data_lines F payloads pre1 _ s1 Hlen1 St1 Hk1' Hls1' Hp)
    as (s2 & Hrun2 & Hrel2 & Hls2).
  rewrite <- Hb1, Hp1 in Hrun2. rewrite Hrun2.
  destruct Hrel2 as (St2 & Hv2 & _ & _ & Hg2 & Hs2 & Ho2 & Hl2 & Hc2).
  (* the last line *)
  assert (Hlen2 : Z.of_nat (List.length (pre2 ++ end_line tail ++ rest)) < 2 ^ 64)
    by (now rewrite <- Hb2).
  assert (St2' : state s2 = ST_THUMBNAIL) by congruence.
  assert (Hk2 : tok_start (slots s2 thumbnail)
                = Some (p + Z.of_nat (List.length (begin_line info))))
    by (now rewrite Hs2, Hk1).
  assert (Hls2' : lineStart s2 = Z.of_nat (List.length pre2)) by lia.
  assert (Ho2' : F = true -> tok_start (origThumbnail s2) <> None).
  { intros ->. rewrite Ho2, Ho1. discriminate. }
  destruct (lex_loop_end_line F pre2 tail rest s2 _ Hlen2 St2' Hk2 Hls2' Htail Ho2')
    as (s3 & Hrun3 & St3 & Hv3 & Hk3 & Hs3 & Hg3 & Hl3 & Hc3 & Ho3).
  rewrite <- Hb2, Hp2 in Hrun3.
  exists s3. split; [ exact Hrun3 | ].
  split; [ exact St3 | ].
  assert (Htc : token_chars buf (slots s3 thumbnail) = data_lines payloads).
  { rewrite Hk3, Hp2, <- Hp1.
    replace (Z.of_nat (List.length pre1)
             + Z.of_nat (List.length (data_lines payloads))
             - Z.of_nat (List.length pre1))
      with (Z.of_nat (List.length (data_lines payloads))) by lia.
    rewrite size_t_small by lia.
    rewrite Hb1, token_chars_after, Nat2Z.id.
    rewrite firstn_app, Nat.sub_diag, firstn_all. cbn [firstn].
    now rewrite app_nil_r. }
  split; [ exact Htc | ].
  split; [ rewrite Htc; now apply thumbnail_runs_data_lines | ].
  split.
  { intros k N. now rewrite (Hs3 k N), Hs2, (Hs1 k N). }
  split; [ congruence | ].
  split.
  { rewrite Hl3, <- (size_t_add_l (lineNr s2) 1), Hl2, size_t_add_l, Hl1.
    rewrite <- Z.add_assoc, size_t_add_l. f_equal. lia. }
  split.
  - intros ->. rewrite Ho3, Ho2, Ho1. cbn [tok_start]. rewrite Hls. split.
    + replace (Z.of_nat (List.length pre2) + Z.of_nat (List.length (end_line tail)) - p)
        with (Z.of_nat (List.length
                          (begin_line info ++ data_lines payloads ++ end_line tail)))
        by lia.
      rewrite size_t_small by lia.
      subst buf p. rewrite token_chars_after, Nat2Z.id.
      rewrite firstn_app, Nat.sub_diag, firstn_all. cbn [firstn].
      now rewrite app_nil_r.
    + rewrite Hc3, Hc2, Hc1. rewrite size_t_add_l. reflexivity.
  - intros ->. now rewrite Ho3, Ho2, Ho1.
Qed.

Lemma thumbnail_block_is_captured_witness :
  exists s',
    lex_loop true
             (chars "; thumbnail begin 16x16 8" ++ [LF]
              ++ chars "; iVBO" ++ [LF] ++ chars "; Rw0K" ++ [LF]
              ++ chars "; thumbnail end" ++ [LF] ++ chars "G1 X1")
             init_lexer 0
             (chars "; thumbnail begin 16x16 8" ++ [LF]
              ++ chars "; iVBO" ++ [LF] ++ chars "; Rw0K" ++ [LF]
              ++ chars "; thumbnail end" ++ [LF])
    = Running s'
    /\ fwrite_bytes
         (thumbnail_runs
            (token_chars
               (chars "; thumbnail begin 16x16 8" ++ [LF]
                ++ chars "; iVBO" ++ [LF] ++ chars "; Rw0K" ++ [LF]
                ++ chars "; thumbnail end" ++ [LF] ++ chars "G1 X1")
               (slots s' thumbnail)) [])
       = chars "iVBORw0K"
    /\ lineNr s' = 5
    /\ size_t (origThumbnailLines s') = 4.
Proof.
  destruct (thumbnail_block_is_captured
              true [] (chars "16x16 8") [] (chars "G1 X1")
              [chars "iVBO"; chars "Rw0K"] init_lexer)
    as (s' & Hrun & _ & _ & Hw & _ & _ & Hl & Ho & _);
    try reflexivity.
  exists s'. split; [ exact Hrun | ].
  split; [ exact Hw | ].
  split; [ exact Hl | ].
  exact (proj2 (Ho eq_refl)).
Defined.

(** * The warnings, and where they stop *)

(** The calls of the sequence of [ON_WARN]: one for each missing token, in
    order, up to the first call that is not answered 1. *)
Lemma check_missing_cut (cb : tCallback) (s : tLexer) (l : list (tSlot * tMessage)) :
  Forall (fun p => is_warning (snd p) = true) l ->
  forall tr tr' go_on,
    check_missing cb s l tr = (tr', go_on) ->
    exists cs,
      tr' = tr ++ List.map EvCallback cs
      /\ Forall (fun c => is_warning_call c = true) cs
      /\ List.map call_msg cs
         = firstn (List.length cs)
                  (List.map snd (filter (fun p => is_missing (slots s (fst p))) l))
      /\ (go_on = true ->
          Forall (fun c => call_ret c = 1) cs
          /\ List.map call_msg cs
             = List.map snd (filter (fun p => is_missing (slots s (fst p))) l))
      /\ (go_on = false ->
          exists cs1 c, cs = cs1 ++ [c] /\ call_ret c <> 1
                        /\ Forall (fun c => call_ret c = 1) cs1).
Proof.
  induction 1 as [ | [k msg] l Hmsg Hl IH ]; intros tr tr' go_on H.
  - unfold check_missing in H. injection H as <- <-. exists [].
    rewrite app_nil_r.
    split; [ reflexivity | split; [ constructor | split; [ reflexivity | ] ] ].
    split; [ intros _; split; [ constructor | reflexivity ] | discriminate ].
  - unfold check_missing in H; fold check_missing in H. cbn [filter fst].
    destruct (is_missing (slots s k)); [ | now apply IH ].
    destruct (cb tr msg (lineNr s) =? 1) eqn:E.
    + apply Z.eqb_eq in E. apply IH in H.
      destruct H as (cs & -> & Hw & Hn & Hgo & Hstop).
      exists (mkCall msg (lineNr s) (cb tr msg (lineNr s)) :: cs).
      unfold invoke. rewrite <- app_assoc. split; [ reflexivity | ].
      split; [ constructor; [ exact Hmsg | exact Hw ] | ].
      cbn [List.map call_msg snd List.length firstn]. split; [ now rewrite Hn | ].
      split.
      * intro Hg. destruct (Hgo Hg) as [Hr Hall].
        split; [ constructor; [ exact E | exact Hr ] | now rewrite Hall ].
      * intro Hg. destruct (Hstop Hg) as (cs1 & c & -> & Hc & Hcs1).
        exists (mkCall msg (lineNr s) (cb tr msg (lineNr s)) :: cs1), c.
        split; [ reflexivity | split; [ exact Hc | ] ].
        constructor; [ exact E | exact Hcs1 ].
    + apply Z.eqb_neq in E. injection H as <- <-.
      exists [mkCall msg (lineNr s) (cb tr msg (lineNr s))].
      split; [ reflexivity | ].
      split; [ constructor; [ exact Hmsg | constructor ] | ].
      split; [ reflexivity | ].
      split; [ discriminate | ].
      intros _. exists [], (mkCall msg (lineNr s) (cb tr msg (lineNr s))).
      split; [ reflexivity | split; [ exact E | constructor ] ].
Qed.

Lemma filter_warning_calls (cs : list tCall) :
  Forall (fun c => is_warning_call c = true) cs ->
  filter is_warning_call cs = cs.
Proof.
  induction 1 as [ | c cs Hc _ IH ]; [ reflexivity | ].
  cbn [filter]. now rewrite Hc, IH.
Qed.

(** The run of [processFile] once the file is read and the pass is over:
    the calls of the checks, and what comes behind them. *)
Lemma processFile_checks (F : bool) (V : string) (io : tIO) (cb : tCallback)
      (r : tReturn) (s : tLexer) :
  processFile F V io cb = Some r ->
  lex F (file_bytes io) = Running s ->
  fopen_rb_ok io = true -> malloc_ok io = true -> fread_ok io = true ->
  file_bytes io <> [] ->
  exists cs go_on tail,
    check_missing cb (correct_minZ (file_bytes io) s) checked_tokens []
    = (List.map EvCallback cs, go_on)
    /\ trace r = List.map EvCallback cs ++ tail
    /\ filter is_warning_call (calls_of tail) = []
    /\ (go_on = false -> tail = [] /\ res r = 0).
Proof.
  intros H Hlex Ho Hm Hr Hb. unfold processFile, on_error, invoke in H.
  rewrite Ho, Hm, Hr, Hlex in H. cbn [negb] in H.
  assert (El : (Z.of_nat (List.length (file_bytes io)) <? 1) = false).
  { apply Z.ltb_ge. destruct (file_bytes io); [ contradiction | ].
    cbn [List.length]. lia. }
  rewrite El in H.
  destruct (check_missing cb (correct_minZ (file_bytes io) s) checked_tokens [])
    as [tr go_on] eqn:Ec.
  destruct (check_missing_cut cb _ _ checked_tokens_warnings _ _ _ Ec)
    as (cs & Htr & _).
  cbn [app] in Htr. subst tr. exists cs, go_on.
  destruct go_on; cbn [negb] in H.
  2:{ apply Some_inj in H. subst r. exists []. cbn [trace res].
      rewrite app_nil_r. auto. }
  destruct (fopen_wb_ok io); cbn [negb] in H.
  2:{ apply Some_inj in H. subst r. eexists. cbn [trace res].
      split; [ reflexivity | ].
      split; [ reflexivity | ].
      split; [ reflexivity | discriminate ]. }
  destruct (ferror_fp io).
  { apply Some_inj in H. subst r. cbn [trace res].
    exists (EvCreate
            :: List.map EvWrite (header F V (file_bytes io)
                                        (correct_minZ (file_bytes io) s))
            ++ [EvCallback
                  (mkCall MSGT_ERR_FILE_WRITE
                          (header_lineNr F (file_bytes io)
                                         (correct_minZ (file_bytes io) s))
                          (cb (List.map EvCallback cs
                               ++ EvCreate
                               :: List.map EvWrite
                                    (header F V (file_bytes io)
                                            (correct_minZ (file_bytes io) s)))
                              MSGT_ERR_FILE_WRITE
                              (header_lineNr F (file_bytes io)
                                             (correct_minZ (file_bytes io) s))))]).
    split; [ reflexivity | ].
    split; [ now rewrite <- app_assoc | ].
    split; [ | discriminate ].
    cbn [calls_of]. now rewrite calls_of_writes. }
  destruct (remaining_file F io (file_bytes io) (correct_minZ (file_bytes io) s))
    as [body ok].
  destruct ok; apply Some_inj in H; subst r; cbn [trace res].
  - exists (EvCreate
            :: List.map EvWrite (header F V (file_bytes io)
                                        (correct_minZ (file_bytes io) s))
            ++ List.map EvWrite body).
    split; [ reflexivity | ].
    split; [ now rewrite <- !app_assoc | ].
    split; [ | discriminate ].
    cbn [calls_of]. rewrite calls_of_writes.
    rewrite <- (app_nil_r (List.map EvWrite body)). now rewrite calls_of_writes.
  - eexists (EvCreate
             :: List.map EvWrite (header F V (file_bytes io)
                                         (correct_minZ (file_bytes io) s))
             ++ List.map EvWrite body ++ [EvCallback _]).
    split; [ reflexivity | ].
    split; [ rewrite <- !app_assoc; reflexivity | ].
    split; [ | discriminate ].
    cbn [calls_of]. now rewrite !calls_of_writes.
Qed.

(** X9. When the file was read and the pass ran to its end, the warnings the
    callback is given are those of the tokens that are missing, one for
    each, in the order filament used, layer height, estimated time, nozzle
    temperature, plate temperature, print speed, thumbnail, and they stop at
    the first warning the callback does not answer with 1: every warning
    but the last was answered 1; either all of them were given and answered
    1, or the last one given was refused, and then it is the last event,
    the result is 0 and the file is as it was. No warning is given for the
    first layer height or for the second nozzle. *)
Theorem warnings_are_the_missing_tokens :
  forall (F : bool) (V : string) (io : tIO) (cb : tCallback) (r : tReturn)
         (s : tLexer),
    processFile F V io cb = Some r ->
    lex F (file_bytes io) = Running s ->
    fopen_rb_ok io = true -> malloc_ok io = true -> fread_ok io = true ->
    file_bytes io <> [] ->
    List.map call_msg (filter is_warning_call (calls_of (trace r)))
    = firstn (List.length (filter is_warning_call (calls_of (trace r))))
             (missing_warnings s)
    /\ (forall cs1 c cs2,
           filter is_warning_call (calls_of (trace r)) = cs1 ++ c :: cs2 ->
           cs2 <> [] -> call_ret c = 1)
    /\ ((List.map call_msg (filter is_warning_call (calls_of (trace r)))
         = missing_warnings s
         /\ Forall (fun c => call_ret c = 1)
                   (filter is_warning_call (calls_of (trace r))))
        \/ (exists cs1 c,
               filter is_warning_call (calls_of (trace r)) = cs1 ++ [c]
               /\ call_ret c <> 1
               /\ trace r = List.map EvCallback (cs1 ++ [c])
               /\ res r = 0
               /\ file_after (trace r) = Unchanged))
    /\ (file_after (trace r) <> Unchanged ->
        warnings_of (trace r) = missing_warnings s).
Proof.
  intros F V io cb r s H Hlex Ho Hm Hr Hb.
  destruct (processFile_checks F V io cb r s H Hlex Ho Hm Hr Hb)
    as (cs & go_on & tail & Hc & Htr & Htail & Hstop).
  destruct (check_missing_cut cb _ _ checked_tokens_warnings _ _ _ Hc)
    as (cs' & Hcs' & Hw & Hn & Hgo & Hcut).
  cbn [app] in Hcs'.
  assert (E : cs' = cs).
  { clear -Hcs'. revert cs' Hcs'.
    induction cs as [ | c cs IH ]; intros [ | c' cs' ] Hcs'; try discriminate;
      [ reflexivity | ].
    cbn [List.map] in Hcs'. injection Hcs' as -> Hcs'. f_equal. now apply IH. }
  subst cs'. rewrite slots_correct_minZ in Hn, Hgo.
  fold (missing_warnings s) in Hn, Hgo.
  assert (Hwc : filter is_warning_call (calls_of (trace r)) = cs).
  { rewrite Htr, calls_of_callbacks, filter_app, Htail, app_nil_r.
    now apply filter_warning_calls. }
  rewrite Hwc.
  assert (Hbut : forall cs1 c cs2, cs = cs1 ++ c :: cs2 -> cs2 <> [] -> call_ret c = 1).
  { intros cs1 c cs2 E Hne. destruct go_on.
    - destruct (Hgo eq_refl) as [Hall _]. rewrite Forall_forall in Hall.
      apply Hall. rewrite E. apply in_elt.
    - destruct (Hcut eq_refl) as (cs0 & c0 & E0 & _ & Hall).
      rewrite E0 in E.
      destruct (exists_last Hne) as (cs3 & c3 & ->).
      change (cs1 ++ c :: cs3 ++ [c3]) with (cs1 ++ (c :: cs3) ++ [c3]) in E.
      rewrite app_assoc in E. apply app_inj_tail in E. destruct E as [E _].
      rewrite Forall_forall in Hall. apply Hall. rewrite E. apply in_elt. }
  split; [ exact Hn | split; [ exact Hbut | split ] ].
  - destruct go_on.
    + left. destruct (Hgo eq_refl). auto.
    + right. destruct (Hcut eq_refl) as (cs1 & c & -> & Hret & _).
      destruct (Hstop eq_refl) as [-> Hres].
      exists cs1, c. rewrite app_nil_r in Htr.
      split; [ reflexivity | split; [ exact Hret | split; [ exact Htr | ] ] ].
      split; [ exact Hres | ].
      rewrite Htr, <- (app_nil_r (List.map EvCallback (cs1 ++ [c]))).
      now rewrite file_after_callbacks.
  - intro Hf. destruct (file_after (trace r)) as [ | ws ] eqn:Ef; [ contradiction | ].
    exact (proj1 (proj2 (processFile_anatomy F V io cb r s H Hlex) ws Ef)).
Qed.

Lemma warnings_are_the_missing_tokens_witness :
  exists r cs1 c,
    processFile false "1.0" (io_ok input_dual)
                (fun _ m _ => match m with MSGT_WARN_NO_LAYER_HEIGHT => 0 | _ => 1 end)
    = Some r
    /\ warnings_of (trace r) = [MSGT_WARN_NO_FILAMENT_USED; MSGT_WARN_NO_LAYER_HEIGHT]
    /\ filter is_warning_call (calls_of (trace r)) = cs1 ++ [c]
    /\ call_ret c <> 1 /\ res r = 0.
Proof.
  assert (Hrun : exists r s,
             processFile false "1.0" (io_ok input_dual)
                         (fun _ m _ => match m with
                                       | MSGT_WARN_NO_LAYER_HEIGHT => 0
                                       | _ => 1
                                       end) = Some r
             /\ lex false (file_bytes (io_ok input_dual)) = Running s
             /\ warnings_of (trace r)
                = [MSGT_WARN_NO_FILAMENT_USED; MSGT_WARN_NO_LAYER_HEIGHT]
             /\ List.map call_msg (filter is_warning_call (calls_of (trace r)))
                <> missing_warnings s).
  { do 2 eexists. split; [ vm_compute; reflexivity | ].
    split; [ vm_compute; reflexivity | ].
    split; [ vm_compute; reflexivity | vm_compute; discriminate ]. }
  destruct Hrun as (r & s & Hrun & Hlex & Hw & Hne).
  destruct (warnings_are_the_missing_tokens
              false "1.0" (io_ok input_dual) _ r s Hrun Hlex
              eq_refl eq_refl eq_refl)
    as (_ & _ & [[Hall _] | (cs1 & c & Hcs & Hret & _ & Hres & _)] & _);
    [ discriminate | contradiction | ].
  exists r, cs1, c.
  split; [ exact Hrun | split; [ exact Hw | ] ].
  split; [ exact Hcs | split; [ exact Hret | exact Hres ] ].
Defined.

(** * The two nozzle temperatures *)

(** The ';', the key and the '=' of a commented parameter whose token has no
    start yet: the value is read next. *)
Lemma lex_loop_key_part (F : bool) (pre ws0 kt ws1 tail : list ascii) (k : tSlot)
      (s : tLexer) :
  Z.of_nat (List.length (pre ++ (";"%char :: ws0 ++ kt ++ ws1 ++ ["="%char]) ++ tail))
  < 2 ^ 64 ->
  state s = ST_LINE_START ->
  tok_start (slots s k) = None ->
  forallb is_blank ws0 = true -> forallb is_blank ws1 = true ->
  trimmed kt = true -> no_line_feed kt = true ->
  forallb (fun ch => negb (Ascii.eqb ch "=")) kt = true ->
  marker_free kt = true -> key_of kt = Some k ->
  exists s1,
    lex_loop F (pre ++ (";"%char :: ws0 ++ kt ++ ws1 ++ ["="%char]) ++ tail) s
             (Z.of_nat (List.length pre)) (";"%char :: ws0 ++ kt ++ ws1 ++ ["="%char])
    = Running s1
    /\ state s1 = ST_PARAMETER_VALUE /\ valueToken s1 = Some k
    /\ slots s1 = slots s /\ geom s1 = geom s /\ lineNr s1 = lineNr s
    /\ origThumbnail s1 = origThumbnail s.
Proof.
  intros Hlen St Hk Hws0 Hws1 Hkt Hktl Hkte Hmf Hkey.
  set (buf := pre ++ (";"%char :: ws0 ++ kt ++ ws1 ++ ["="%char]) ++ tail) in *.
  set (p := Z.of_nat (List.length pre)).
  destruct kt as [ | c1 ktl ]; [ discriminate Hkt | ].
  assert (Hc1 : isspace c1 = false).
  { unfold trimmed in Hkt. apply andb_prop in Hkt. destruct Hkt as [Hkt _].
    now apply negb_true_iff in Hkt. }
  set (pre1 := pre ++ ";"%char :: ws0).
  set (a := Z.of_nat (List.length pre1)).
  assert (Hbuf1 : buf = pre1 ++ (c1 :: ktl) ++ (ws1 ++ "="%char :: tail)).
  { subst buf pre1. repeat (rewrite <- app_assoc || cbn [app]). reflexivity. }
  assert (Ha : a = p + 1 + Z.of_nat (List.length ws0)).
  { subst a pre1 p. rewrite length_app. cbn [List.length]. lia. }
  assert (Hlen1 : a + Z.of_nat (List.length (c1 :: ktl)) + Z.of_nat (List.length ws1)
                  + 1 < 2 ^ 64).
  { rewrite Hbuf1 in Hlen. subst a. revert Hlen.
    repeat (rewrite length_app || cbn [List.length]). lia. }
  cbn [List.length] in Hlen1.
  (* the ';' *)
  cbn [lex_loop].
  assert (Hstep1 : step F buf s p ";"
                   = Running (set_state (set_aToken s null_token) ST_COMMENT)).
  { unfold step, switch_state. rewrite St. unfold step_LINE_START.
    change (Ascii.eqb ";" ";") with true. cbv iota.
    now rewrite end_of_turn_word_char. }
  rewrite Hstep1.
  set (s1 := set_state (set_aToken s null_token) ST_COMMENT).
  (* white space, and the first character of the key *)
  destruct (lex_loop_comment_blanks F buf ws0 ((c1 :: ktl) ++ ws1 ++ ["="%char])
              Hws0 s1 (p + 1) eq_refl eq_refl) as (v1 & ->).
  replace (p + 1 + Z.of_nat (List.length ws0)) with a by lia.
  set (s2 := set_lineStart s1 v1).
  cbn [app lex_loop].
  rewrite (step_comment_first F buf s2 a c1 eq_refl eq_refl Hc1).
  set (s3 := set_aToken s2 (mkToken (Some a) 1)).
  (* the key *)
  assert (Htok : forall n, (n <= List.length (c1 :: ktl))%nat ->
                           token_chars buf (mkToken (Some a) (Z.of_nat n))
                           = firstn n (c1 :: ktl)).
  { intros n Hn. rewrite Hbuf1. subst a. rewrite token_chars_after, Nat2Z.id.
    rewrite firstn_app. replace (n - List.length (c1 :: ktl))%nat with 0%nat by lia.
    cbn [firstn]. now rewrite app_nil_r. }
  assert (Hm : forall n, 0 <= n <= Z.of_nat (List.length (c1 :: ktl)) ->
                         p_cmpToken buf (mkToken (Some a) n)
                                    "post-processed by sm2pspp" <> 0
                         /\ p_cmpToken buf (mkToken (Some a) n) "thumbnail begin" <> 0).
  { intros n Hn. unfold p_cmpToken.
    rewrite <- (Z2Nat.id n) by lia. rewrite Htok by lia.
    apply marker_free_spec; [ exact Hmf | lia ]. }
  cbn [no_line_feed forallb] in Hktl, Hkte. apply andb_prop in Hktl, Hkte.
  destruct Hktl as [_ Hktl], Hkte as [_ Hkte].
  assert (HN : Z.of_nat (List.length (c1 :: ktl)) < 2 ^ 64)
    by (cbn [List.length]; lia).
  assert (Hn3 : 0 <= 1 <= a + 1 - a) by lia.
  assert (Hend3 : a + 1 + Z.of_nat (List.length ktl) - a
                  <= Z.of_nat (List.length (c1 :: ktl)))
    by (cbn [List.length]; lia).
  destruct (lex_loop_key F buf ktl a (Z.of_nat (List.length (c1 :: ktl))) Hm HN
              Hktl Hkte s3 (a + 1) 1 eq_refl eq_refl Hn3 Hend3) as (v3 & Hrun3).
  rewrite lex_loop_app, Hrun3.
  assert (Hvl : value_len a (a + 1) 1 ktl = Z.of_nat (List.length (c1 :: ktl))).
  { rewrite <- (app_nil_r ktl) at 1. now apply value_len_body. }
  rewrite Hvl.
  set (n := Z.of_nat (List.length (c1 :: ktl))) in *.
  set (s4 := set_lineStart (set_aToken s3 (mkToken (Some a) n)) v3).
  (* white space and the '=' *)
  assert (Hn : 0 <= n <= n) by (subst n; lia).
  destruct (Hm n Hn) as [Hm1 Hm2].
  assert (Hlo4 : 0 <= a + 1 + Z.of_nat (List.length ktl) - a) by lia.
  assert (Hhi4 : a + 1 + Z.of_nat (List.length ktl) - a + Z.of_nat (List.length ws1)
                 < 2 ^ 64) by lia.
  destruct (lex_loop_key_blanks F buf ws1 ["="%char] a n Hm1 Hm2 Hws1 s4
              (a + 1 + Z.of_nat (List.length ktl)) eq_refl eq_refl Hlo4 Hhi4)
    as (v4 & ->).
  set (s5 := set_lineStart s4 v4).
  cbn [lex_loop].
  assert (Hkey5 : key_slot buf (mkToken (Some a) n) = Some k).
  { rewrite key_slot_chars. subst n. rewrite Htok by lia.
    now rewrite firstn_all. }
  assert (Hn0 : 0 < n) by (subst n; cbn [List.length]; lia).
  rewrite (step_key_end F buf s5 _ a n k eq_refl eq_refl Hn0 Hkey5 Hk).
  eexists. split; [ reflexivity | ]. lexer_simpl.
  repeat split; reflexivity.
Qed.

Lemma p_float_loop_snoc_stop (c : ascii) (l : list ascii) :
  digit_or_dot c = false ->
  forall a, p_float_loop (l ++ [c]) a = p_float_loop l a.
Proof.
  intros Hc. unfold digit_or_dot in Hc. apply orb_false_elim in Hc.
  destruct Hc as [Hd Hdot].
  induction l as [ | d l IH ]; intro a; cbn [app p_float_loop].
  - now rewrite Hd, Hdot.
  - destruct (isdigit d); [ destruct (fa_isFrac a); apply IH | ].
    destruct (Ascii.eqb d "."); [ apply IH | reflexivity ].
Qed.

(** A character behind a number that is neither a digit nor a dot (as the
    comma of the first nozzle temperature) does not change what the float
    parser reads. *)
Lemma p_float_chars_snoc_stop (c : ascii) (l : list ascii) :
  digit_or_dot c = false -> l <> [] ->
  p_float_chars (l ++ [c]) = p_float_chars l.
Proof.
  intros Hc Hl. destruct l as [ | d l ]; [ contradiction | ].
  cbn [app]. unfold p_float_chars. destruct (Ascii.eqb d "-").
  - now rewrite p_float_loop_snoc_stop.
  - change (d :: l ++ [c]) with ((d :: l) ++ [c]).
    now rewrite p_float_loop_snoc_stop.
Qed.

(** The comma behind the first nozzle temperature. *)
Lemma step_value_comma (F : bool) (buf : list ascii) (s : tLexer) (it a n : Z) :
  state s = ST_PARAMETER_VALUE -> valueToken s = Some nozzleTemp0 ->
  slots s nozzleTemp0 = mkToken (Some a) n ->
  0 <= it - a + 1 < 2 ^ 64 ->
  step F buf s it ","
  = Running (set_valueToken
               (set_slots s (set_slot (slots s) nozzleTemp0
                                      (mkToken (Some a) (it - a + 1))))
               (Some nozzleTemp1)).
Proof.
  intros St Hv Hk Hr. unfold step, switch_state. rewrite St.
  unfold step_PARAMETER_VALUE. change (Ascii.eqb "," LF) with false. cbv iota.
  rewrite Hv, Hk. cbn [tok_start]. change (Ascii.eqb "," ",") with true.
  change (tSlot_eqb nozzleTemp0 nozzleTemp0) with true. cbn [andb].
  rewrite (size_t_small (it - a + 1) Hr).
  now rewrite end_of_turn_word_char.
Qed.

(** The two values behind the '=' of the key first_layer_temperature. *)
Lemma lex_loop_dual_value (F : bool) (pre ws2 t0 ws3 t1 ws4 rest : list ascii)
      (s : tLexer) :
  Z.of_nat (List.length (pre ++ (ws2 ++ t0 ++ ","%char :: ws3 ++ t1 ++ ws4 ++ [LF])
                         ++ rest)) < 2 ^ 64 ->
  state s = ST_PARAMETER_VALUE -> valueToken s = Some nozzleTemp0 ->
  tok_start (slots s nozzleTemp0) = None ->
  tok_start (slots s nozzleTemp1) = None ->
  forallb is_blank ws2 = true -> forallb is_blank ws3 = true ->
  forallb is_blank ws4 = true ->
  starts_word t0 = true -> no_line_feed t0 = true ->
  forallb (fun ch => negb (Ascii.eqb ch ",")) t0 = true ->
  trimmed t1 = true -> no_line_feed t1 = true ->
  exists s',
    lex_loop F (pre ++ (ws2 ++ t0 ++ ","%char :: ws3 ++ t1 ++ ws4 ++ [LF]) ++ rest) s
             (Z.of_nat (List.length pre))
             (ws2 ++ t0 ++ ","%char :: ws3 ++ t1 ++ ws4 ++ [LF])
    = Running s'
    /\ state s' = ST_LINE_START /\ valueToken s' = None
    /\ token_chars (pre ++ (ws2 ++ t0 ++ ","%char :: ws3 ++ t1 ++ ws4 ++ [LF]) ++ rest)
                   (slots s' nozzleTemp0) = t0 ++ [","%char]
    /\ token_chars (pre ++ (ws2 ++ t0 ++ ","%char :: ws3 ++ t1 ++ ws4 ++ [LF]) ++ rest)
                   (slots s' nozzleTemp1) = t1
    /\ geom s' = geom s /\ lineNr s' = size_t (lineNr s + 1)
    /\ origThumbnail s' = origThumbnail s
    /\ forall k, k <> nozzleTemp0 -> k <> nozzleTemp1 -> slots s' k = slots s k.
Proof.
  intros Hlen St Hv Hk0 Hk1 Hws2 Hws3 Hws4 Ht0 Hl0 Hc0 Ht1 Hl1.
  set (buf := pre ++ (ws2 ++ t0 ++ ","%char :: ws3 ++ t1 ++ ws4 ++ [LF]) ++ rest) in *.
  destruct t0 as [ | c1 tl ]; [ discriminate Ht0 | ].
  cbn [starts_word] in Ht0. apply negb_true_iff in Ht0.
  destruct (lex_loop_value_blanks F buf ws2
              ((c1 :: tl) ++ ","%char :: ws3 ++ t1 ++ ws4 ++ [LF]) nozzleTemp0
              Hws2 s (Z.of_nat (List.length pre)) St Hv Hk0) as (v & ->).
  set (a := Z.of_nat (List.length pre) + Z.of_nat (List.length ws2)).
  set (s0 := set_lineStart s v).
  assert (Hlens : Z.of_nat (List.length buf)
                  = a + Z.of_nat (List.length (c1 :: tl)) + 1
                    + Z.of_nat (List.length (ws3 ++ t1 ++ ws4 ++ [LF]))
                    + Z.of_nat (List.length rest)).
  { subst buf a. repeat (rewrite length_app || cbn [List.length]). lia. }
  cbn [List.length] in Hlens.
  (* the first character of the first value *)
  assert (Hstep : step F buf s0 a c1
                  = Running (set_slots s0 (set_slot (slots s0) nozzleTemp0
                                                    (mkToken (Some a) 1)))).
  { unfold step, switch_state. subst s0. lexer_simpl. rewrite St.
    unfold step_PARAMETER_VALUE. lexer_simpl.
    rewrite (not_space_not c1 LF Ht0 eq_refl), Hv, Hk0, Ht0. cbn [negb].
    now rewrite end_of_turn_word_char. }
  cbn [app lex_loop]. rewrite Hstep.
  set (s1 := set_slots s0 (set_slot (slots s0) nozzleTemp0 (mkToken (Some a) 1))).
  (* the rest of the first value *)
  cbn [no_line_feed forallb] in Hl0, Hc0. apply andb_prop in Hl0, Hc0.
  destruct Hl0 as [_ Hl0], Hc0 as [_ Hc0].
  assert (Hk1' : slots s1 nozzleTemp0 = mkToken (Some a) 1)
    by (subst s1; lexer_simpl; now rewrite set_slot_same).
  assert (Hlo1 : 0 <= a + 1 - a) by lia.
  assert (Hhi1 : a + 1 - a + Z.of_nat (List.length tl) < 2 ^ 64) by lia.
  rewrite lex_loop_app.
  destruct (lex_loop_value F buf tl nozzleTemp0 a Hl0 (fun _ => Hc0) s1 (a + 1) 1
              St Hv Hk1' Hlo1 Hhi1)
    as (s2 & Hrun2 & St2 & Hv2 & Hk2 & Hsame2).
  rewrite Hrun2.
  (* the comma *)
  assert (Hr : 0 <= a + 1 + Z.of_nat (List.length tl) - a + 1 < 2 ^ 64) by lia.
  cbn [lex_loop].
  rewrite (step_value_comma F buf s2 _ a _ St2 Hv2 Hk2 Hr).
  set (n0 := a + 1 + Z.of_nat (List.length tl) - a + 1).
  set (s3 := set_valueToken
               (set_slots s2 (set_slot (slots s2) nozzleTemp0 (mkToken (Some a) n0)))
               (Some nozzleTemp1)).
  (* the second value *)
  set (pre3 := pre ++ ws2 ++ (c1 :: tl) ++ [","%char]).
  assert (Hbuf3 : buf = pre3 ++ ws3 ++ t1 ++ ws4 ++ LF :: rest).
  { subst buf pre3. repeat (rewrite <- app_assoc || cbn [app]). reflexivity. }
  assert (Hp3 : a + 1 + Z.of_nat (List.length tl) + 1 = Z.of_nat (List.length pre3)).
  { subst pre3 a. repeat (rewrite length_app || cbn [List.length]). lia. }
  rewrite Hp3.
  destruct Hsame2 as (G2 & L2 & O2 & S2).
  assert (Hk13 : tok_start (slots s3 nozzleTemp1) = None).
  { subst s3. lexer_simpl. rewrite set_slot_other by discriminate.
    rewrite (S2 nozzleTemp1) by discriminate. subst s1 s0. lexer_simpl.
    now rewrite set_slot_other by discriminate. }
  rewrite Hbuf3 in Hlen |- *.
  destruct (lex_loop_value_line F pre3 ws3 t1 ws4 rest nozzleTemp1 s3 Hlen St2
              eq_refl Hk13 Hws3 Hws4 Ht1 Hl1)
    as (s' & Hrun & St' & Hv' & Htc & Hg & Hl & Ho & Hs);
    [ discriminate | ].
  exists s'. split; [ exact Hrun | ].
  split; [ exact St' | split; [ exact Hv' | ] ].
  split.
  { rewrite (Hs nozzleTemp0) by discriminate. subst s3. lexer_simpl.
    rewrite set_slot_same. rewrite <- Hbuf3. subst buf a.
    replace (Z.of_nat (List.length pre) + Z.of_nat (List.length ws2))
      with (Z.of_nat (List.length (pre ++ ws2))) by (rewrite length_app; lia).
    replace (pre ++ (ws2 ++ (c1 :: tl) ++ ","%char :: ws3 ++ t1 ++ ws4 ++ [LF]) ++ rest)
      with ((pre ++ ws2) ++ ((c1 :: tl) ++ [","%char])
            ++ (ws3 ++ t1 ++ ws4 ++ [LF]) ++ rest)
      by (repeat (rewrite <- app_assoc || cbn [app]); reflexivity).
    rewrite token_chars_after. subst n0.
    match goal with
    | |- firstn ?n _ = _ =>
      replace n with (List.length ((c1 :: tl) ++ [","%char]))
        by (rewrite length_app; cbn [List.length]; lia)
    end.
    rewrite firstn_app, Nat.sub_diag, firstn_all. cbn [firstn].
    now rewrite app_nil_r. }
  split; [ exact Htc | ].
  split; [ rewrite Hg; subst s3; lexer_simpl; rewrite G2; reflexivity | ].
  split; [ rewrite Hl; subst s3; lexer_simpl; rewrite L2; reflexivity | ].
  split; [ rewrite Ho; subst s3; lexer_simpl; rewrite O2; reflexivity | ].
  intros k N0 N1. rewrite (Hs k N1). subst s3. lexer_simpl.
  rewrite set_slot_other by congruence. rewrite (S2 k N0). subst s1 s0. lexer_simpl.
  now rewrite set_slot_other by congruence.
Qed.

(** C7. A comment line "; first_layer_temperature = <t0>,<t1>" at the start
    of a line, anywhere in a file in which the key was not met before: the
    comma closes the value of the primary nozzle and opens that of the
    secondary one. The token of the primary nozzle is [t0] and the comma,
    that of the secondary one is [t1] without the white space around it;
    they stay so to the end of the pass, where the float parser reads them
    as it reads [t0] and [t1]: as 210 and 200 for the value "210,200". When
    the file is rewritten, the line ";nozzle_1_temperature" is among the
    writes if and only if the secondary value, as the float parser reads its
    token, is greater than 0.1f. *)
Theorem dual_nozzle_temperature :
  (forall (F : bool) (pre ws0 ws1 ws2 t0 ws3 t1 ws4 rest : list ascii) (s : tLexer),
     Z.of_nat (List.length
                 (pre ++ dual_temperature_line ws0 ws1 ws2 t0 ws3 t1 ws4 ++ rest))
     < 2 ^ 64 ->
     lex_loop F (pre ++ dual_temperature_line ws0 ws1 ws2 t0 ws3 t1 ws4 ++ rest)
              init_lexer 0 pre = Running s ->
     state s = ST_LINE_START ->
     tok_start (slots s nozzleTemp0) = None ->
     forallb is_blank ws0 = true -> forallb is_blank ws1 = true ->
     forallb is_blank ws2 = true -> forallb is_blank ws3 = true ->
     forallb is_blank ws4 = true ->
     starts_word t0 = true -> no_line_feed t0 = true ->
     forallb (fun ch => negb (Ascii.eqb ch ",")) t0 = true ->
     trimmed t1 = true -> no_line_feed t1 = true ->
     exists s1,
       lex_loop F (pre ++ dual_temperature_line ws0 ws1 ws2 t0 ws3 t1 ws4 ++ rest)
                init_lexer 0 (pre ++ dual_temperature_line ws0 ws1 ws2 t0 ws3 t1 ws4)
       = Running s1
       /\ token_chars (pre ++ dual_temperature_line ws0 ws1 ws2 t0 ws3 t1 ws4 ++ rest)
                      (slots s1 nozzleTemp0) = t0 ++ [","%char]
       /\ token_chars (pre ++ dual_temperature_line ws0 ws1 ws2 t0 ws3 t1 ws4 ++ rest)
                      (slots s1 nozzleTemp1) = t1
       /\ forall s',
           lex F (pre ++ dual_temperature_line ws0 ws1 ws2 t0 ws3 t1 ws4 ++ rest)
           = Running s' ->
           slots s' nozzleTemp0 = slots s1 nozzleTemp0
           /\ slots s' nozzleTemp1 = slots s1 nozzleTemp1
           /\ p_float (pre ++ dual_temperature_line ws0 ws1 ws2 t0 ws3 t1 ws4 ++ rest)
                      (slots s' nozzleTemp0) = p_float_chars t0
           /\ p_float (pre ++ dual_temperature_line ws0 ws1 ws2 t0 ws3 t1 ws4 ++ rest)
                      (slots s' nozzleTemp1) = p_float_chars t1)
  /\ (p_float_chars (chars "210") = f_of_Z 210
      /\ p_float_chars (chars "200") = f_of_Z 200)
  /\ (forall (F : bool) (V : string) (io : tIO) (cb : tCallback) (r : tReturn)
             (s : tLexer),
        processFile F V io cb = Some r ->
        lex F (file_bytes io) = Running s ->
        In EvCreate (trace r) ->
        ((exists args,
             In (EvWrite (fprintf fmt_nozzle_1_temperature args)) (trace r))
         <-> f_lt f_tenth (p_float (file_bytes io) (slots s nozzleTemp1)) = true)).
Proof.
  split; [ | split; [ split; vm_compute; reflexivity | ] ].
  - intros F pre ws0 ws1 ws2 t0 ws3 t1 ws4 rest s Hlen Hpre St Hk0
           Hws0 Hws1 Hws2 Hws3 Hws4 Ht0 Hl0 Hc0 Ht1 Hl1.
    set (ln := dual_temperature_line ws0 ws1 ws2 t0 ws3 t1 ws4) in *.
    set (buf := pre ++ ln ++ rest) in *.
    set (kp := ";"%char :: ws0 ++ chars "first_layer_temperature" ++ ws1 ++ ["="%char]).
    set (vp := ws2 ++ t0 ++ ","%char :: ws3 ++ t1 ++ ws4 ++ [LF]).
    assert (Hln : ln = kp ++ vp) by reflexivity.
    assert (Hb1 : buf = pre ++ kp ++ (vp ++ rest)).
    { subst buf. rewrite Hln. now rewrite <- app_assoc. }
    assert (Hb2 : buf = (pre ++ kp) ++ vp ++ rest).
    { rewrite Hb1. now rewrite <- app_assoc. }
    assert (Hinv : lexer_inv F s).
    { exact (lex_loop_invariant F buf (lexer_inv F) (step_lexer_inv F buf)
               pre init_lexer 0 s (lexer_inv_init F) Hpre). }
    assert (Hk1 : tok_start (slots s nozzleTemp1) = None).
    { destruct Hinv as (_ & _ & _ & _ & Hn & _).
      destruct (tok_start (slots s nozzleTemp1)) eqn:E; [ | reflexivity ].
      exfalso. apply Hn; [ discriminate | exact Hk0 ]. }
    (* the key *)
    assert (Hlen1 : Z.of_nat (List.length (pre ++ kp ++ (vp ++ rest))) < 2 ^ 64)
      by (now rewrite <- Hb1).
    destruct (lex_loop_key_part F pre ws0 (chars "first_layer_temperature") ws1
                (vp ++ rest) nozzleTemp0 s Hlen1 St Hk0 Hws0 Hws1
                eq_refl eq_refl eq_refl eq_refl eq_refl)
      as (s0 & Hrun0 & St0 & Hv0 & Hs0 & _).
    fold kp in Hrun0. rewrite <- Hb1 in Hrun0.
    (* the values *)
    assert (Hlen2 : Z.of_nat (List.length ((pre ++ kp) ++ vp ++ rest)) < 2 ^ 64)
      by (now rewrite <- Hb2).
    assert (Hk00 : tok_start (slots s0 nozzleTemp0) = None) by (now rewrite Hs0).
    assert (Hk10 : tok_start (slots s0 nozzleTemp1) = None) by (now rewrite Hs0).
    destruct (lex_loop_dual_value F (pre ++ kp) ws2 t0 ws3 t1 ws4 rest s0 Hlen2 St0 Hv0
                Hk00 Hk10 Hws2 Hws3 Hws4 Ht0 Hl0 Hc0 Ht1 Hl1)
      as (s1 & Hrun1 & St1 & Hv1 & Htc0 & Htc1 & _).
    fold vp in Hrun1, Htc0, Htc1. rewrite <- Hb2 in Hrun1, Htc0, Htc1.
    assert (Hrun : lex_loop F buf init_lexer 0 (pre ++ ln) = Running s1).
    { rewrite lex_loop_app, Hpre, Hln, lex_loop_app. cbn [Z.add].
      rewrite Hrun0.
      replace (Z.of_nat (List.length pre) + Z.of_nat (List.length kp))
        with (Z.of_nat (List.length (pre ++ kp))) by (rewrite length_app; lia).
      exact Hrun1. }
    exists s1. split; [ exact Hrun | ].
    split; [ exact Htc0 | split; [ exact Htc1 | ] ].
    intros s' Hlex.
    assert (Hinv1 : lexer_inv F s1).
    { exact (lex_loop_invariant F buf (lexer_inv F) (step_lexer_inv F buf)
               (pre ++ ln) init_lexer 0 s1 (lexer_inv_init F) Hrun). }
    unfold lex in Hlex.
    assert (Hb3 : buf = (pre ++ ln) ++ rest) by (subst buf; now rewrite <- app_assoc).
    rewrite Hb3 in Hlex at 2. rewrite lex_loop_app, Hrun in Hlex.
    assert (Hn0 : tok_start (slots s1 nozzleTemp0) <> None).
    { intro E. unfold token_chars in Htc0. rewrite E in Htc0.
      destruct t0; discriminate Htc0. }
    assert (Hn1 : tok_start (slots s1 nozzleTemp1) <> None).
    { intro E. unfold token_chars in Htc1. rewrite E in Htc1.
      subst t1. discriminate Ht1. }
    assert (Hf0 : slots s' nozzleTemp0 = slots s1 nozzleTemp0).
    { apply (lex_loop_frozen F buf rest nozzleTemp0 s1 _ s' Hinv1 Hlex Hn0).
      unfold capturing. rewrite Hv1. intros [Hc | [Hc _]]; discriminate Hc. }
    assert (Hf1 : slots s' nozzleTemp1 = slots s1 nozzleTemp1).
    { apply (lex_loop_frozen F buf rest nozzleTemp1 s1 _ s' Hinv1 Hlex Hn1).
      unfold capturing. rewrite Hv1. intros [Hc | [Hc _]]; discriminate Hc. }
    split; [ exact Hf0 | split; [ exact Hf1 | ] ].
    rewrite Hf0, Hf1, !p_float_token_chars, Htc0, Htc1.
    split; [ | reflexivity ].
    apply p_float_chars_snoc_stop; [ reflexivity | ].
    destruct t0; [ discriminate Ht0 | discriminate ].
  - intros F V io cb r s H Hlex Hcreate.
    destruct (processFile_course F V io cb) as (r' & H' & Hcourse).
    rewrite H in H'. injection H' as <-.
    destruct Hcourse as [ r [(c0 & Hc0 & ->) | ->] _
                        | s' cs c0 Hlex' Hcs Hw Hl Hret
                        | s' cs c0 Hlex' Hcs Hmsg
                        | s' cs ws tail res Hlex' Hcs Hws Htail ];
      cbn [trace] in *.
    + destruct Hcreate as [Hc | []]. discriminate Hc.
    + destruct Hcreate.
    + apply in_app_iff in Hcreate. destruct Hcreate as [Hc | [Hc | []]];
        [ apply in_callbacks in Hc; destruct Hc as (c & Hc & _) | ]; discriminate Hc.
    + apply in_app_iff in Hcreate. destruct Hcreate as [Hc | [Hc | []]];
        [ apply in_callbacks in Hc; destruct Hc as (c & Hc & _) | ]; discriminate Hc.
    + rewrite Hlex in Hlex'. injection Hlex' as <-.
      rewrite <- nozzleTemp1Val_p_float.
      assert (Hval : nozzleTemp1Val (file_bytes io) (correct_minZ (file_bytes io) s)
                     = nozzleTemp1Val (file_bytes io) s)
        by (unfold nozzleTemp1Val; now rewrite slots_correct_minZ).
      split.
      * intros (args & Hin).
        apply in_app_iff in Hin. destruct Hin as [Hin | Hin];
          [ apply in_callbacks in Hin; destruct Hin as (c & Hc & _); discriminate Hc | ].
        destruct Hin as [Hin | Hin]; [ discriminate Hin | ].
        apply in_app_iff in Hin. destruct Hin as [Hin | Hin].
        -- apply in_writes, header_nozzle_1_temperature in Hin.
           rewrite Hval in Hin. tauto.
        -- apply in_app_iff in Hin. destruct Hin as [Hin | Hin].
           ++ apply in_writes in Hin. rewrite Forall_forall in Hws.
              apply Hws in Hin. destruct Hin as (b & Hb). discriminate Hb.
           ++ destruct Htail as [[_ ->] | (_ & c & _ & ->)];
                [ destruct Hin | destruct Hin as [Hc | []]; discriminate Hc ].
      * intro Hlt. exists [ArgFloat (nozzleTemp1Val (file_bytes io) s)].
        apply in_app_iff. right. right. apply in_app_iff. left.
        apply in_writes, header_nozzle_1_temperature. now rewrite Hval.
Qed.

Lemma dual_nozzle_temperature_witness :
  (exists s,
      lex false (unlines ["G1 X1"; "; layer_height = 0.2";
                          "; first_layer_temperature = 210,200"; "G1 X1"; "G1 X2"])
      = Running s
      /\ p_float (unlines ["G1 X1"; "; layer_height = 0.2";
                           "; first_layer_temperature = 210,200"; "G1 X1"; "G1 X2"])
                 (slots s nozzleTemp0) = f_of_Z 210
      /\ p_float (unlines ["G1 X1"; "; layer_height = 0.2";
                           "; first_layer_temperature = 210,200"; "G1 X1"; "G1 X2"])
                 (slots s nozzleTemp1) = f_of_Z 200)
  /\ exists r args,
       processFile false "1.0"
                   (io_ok (unlines ["G1 X1"; "; layer_height = 0.2";
                                    "; first_layer_temperature = 210,200";
                                    "G1 X1"; "G1 X2"]))
                   cb_continue = Some r
       /\ In (EvWrite (fprintf fmt_nozzle_1_temperature args)) (trace r).
Proof.
  set (buf := unlines ["G1 X1"; "; layer_height = 0.2";
                       "; first_layer_temperature = 210,200"; "G1 X1"; "G1 X2"]).
  assert (Hbuf : buf = unlines ["G1 X1"; "; layer_height = 0.2"]
                       ++ dual_temperature_line [" "%char] [" "%char] [" "%char]
                            (chars "210") [] (chars "200") []
                       ++ input_plain) by reflexivity.
  assert (Hlex : exists s, lex false buf = Running s)
    by (eexists; vm_compute; reflexivity).
  destruct Hlex as (s & Hlex).
  assert (Hpre : exists s0,
             lex_loop false buf init_lexer 0 (unlines ["G1 X1"; "; layer_height = 0.2"])
             = Running s0
             /\ state s0 = ST_LINE_START /\ tok_start (slots s0 nozzleTemp0) = None).
  { eexists. split; [ vm_compute; reflexivity | split; reflexivity ]. }
  destruct Hpre as (s0 & Hpre & St0 & Hk0).
  rewrite Hbuf in Hpre, Hlex.
  destruct (proj1 dual_nozzle_temperature false
                  (unlines ["G1 X1"; "; layer_height = 0.2"])
                  [" "%char] [" "%char] [" "%char] (chars "210") [] (chars "200") []
                  input_plain s0)
    as (s1 & _ & _ & _ & Hfin); try reflexivity; try assumption.
  destruct (Hfin s Hlex) as (_ & _ & Hp0 & Hp1).
  destruct (proj1 (proj2 dual_nozzle_temperature)) as [H210 H200].
  rewrite H210 in Hp0. rewrite H200 in Hp1. rewrite <- Hbuf in Hp0, Hp1, Hlex.
  split.
  - exists s. split; [ exact Hlex | split; [ exact Hp0 | exact Hp1 ] ].
  - destruct (processFile_course false "1.0" (io_ok buf) cb_continue) as (r & Hr & _).
    exists r.
    assert (Hcreate : In EvCreate (trace r)).
    { vm_compute in Hr. injection Hr as <-. cbn. auto 10. }
    destruct (proj2 (proj2 dual_nozzle_temperature) false "1.0"
                    (io_ok buf) cb_continue r s Hr Hlex Hcreate)
      as [_ Hemit].
    destruct Hemit as (args & Hargs).
    + change (file_bytes (io_ok buf)) with buf. rewrite Hp1. reflexivity.
    + exists args. split; [ exact Hr | exact Hargs ].
Defined.

(** * The bounding box and the text of the file *)

(** ** Lines that are no commands *)

Ltac comment_cases H St :=
  cbv zeta in H;
  repeat (lexer_simpl_in H;
          match type of H with
          | context [key_slot ?b ?t] => destruct (key_slot b t) eqn:?
          | context [if ?b then _ else _] => destruct b eqn:?
          | context [match ?o with Some _ => _ | None => _ end] => destruct o eqn:?
          end);
  lexer_simpl_in H; try discriminate H; injection H as <-; lexer_simpl;
  rewrite ?St; repeat split; try discriminate.

(** In a comment, a thumbnail or a skipped line no turn leads into a
    command, and only the line feed leads to the start of a line. *)
Lemma switch_state_in_comment (F : bool) (buf : list ascii) (s : tLexer) (it : Z)
      (ch : ascii) (s' : tLexer) :
  in_comment s -> switch_state F buf s it ch = Running s' ->
  state s' <> ST_GCODE
  /\ (Ascii.eqb ch LF = false -> state s' <> ST_LINE_START)
  /\ cmd s' = cmd s.
Proof.
  intros [H1 H2] H. unfold switch_state in H.
  destruct (state s) eqn:St; try contradiction.
  - injection H as <-. unfold step_FIND_LINE_START.
    destruct (Ascii.eqb ch LF); lexer_simpl; rewrite ?St;
      repeat split; try discriminate.
  - unfold step_COMMENT in H. comment_cases H St.
  - unfold step_PARAMETER_VALUE in H. comment_cases H St.
  - unfold step_THUMBNAIL in H. comment_cases H St.
  - unfold step_THUMBNAIL_TAIL in H. comment_cases H St.
Qed.

Lemma cmd_end_of_turn (s : tLexer) (it : Z) (ch : ascii) :
  cmd (end_of_turn s it ch) = cmd s.
Proof. unfold end_of_turn. now break_ifs. Qed.

Lemma step_in_comment (F : bool) (buf : list ascii) (s : tLexer) (it : Z)
      (ch : ascii) (s' : tLexer) :
  in_comment s -> step F buf s it ch = Running s' ->
  state s' <> ST_GCODE
  /\ (Ascii.eqb ch LF = false -> in_comment s')
  /\ cmd s' = cmd s
  /\ (geom s' = geom s \/ geom s' = layer_change (geom s)).
Proof.
  intros Hc H. pose proof (step_geom F buf s it ch s' H) as Hg.
  apply step_inv in H. destruct H as (s1 & H1 & ->).
  destruct (switch_state_in_comment F buf s it ch s1 Hc H1) as (N1 & N2 & E).
  rewrite state_end_of_turn, cmd_end_of_turn.
  split; [ exact N1 | ].
  split; [ intro El; split; rewrite state_end_of_turn; auto | ].
  split; [ exact E | ].
  destruct Hg as [Hg | [(_ & _ & Hg) | (St & _)]]; auto.
  destruct Hc as [_ Hc]. contradiction.
Qed.

(** What is left of a line that is no command, up to its line feed: the
    lexer is in no command after it, the box is as it was or reset. *)
Lemma lex_loop_in_comment (F : bool) (buf l : list ascii) :
  no_line_feed l = true ->
  forall (s : tLexer) (it : Z) (s' : tLexer),
    in_comment s ->
    lex_loop F buf s it (l ++ [LF]) = Running s' ->
    state s' <> ST_GCODE
    /\ (geom s' = geom s \/ geom s' = layer_change (geom s)).
Proof.
  induction l as [ | ch l IH ]; intros Hl s it s' Hc H.
  - cbn [app lex_loop] in H.
    destruct (step F buf s it LF) as [ s1 | | ] eqn:E; try discriminate.
    injection H as <-.
    destruct (step_in_comment F buf s it LF s1 Hc E) as (N & _ & _ & Hg). auto.
  - cbn [no_line_feed forallb] in Hl. apply andb_prop in Hl.
    destruct Hl as [Hch Hl]. apply negb_true_iff in Hch.
    cbn [app lex_loop] in H.
    destruct (step F buf s it ch) as [ s1 | | ] eqn:E; try discriminate.
    destruct (step_in_comment F buf s it ch s1 Hc E) as (_ & Hc1 & _ & Hg1).
    destruct (IH Hl s1 (it + 1) s' (Hc1 Hch) H) as (N & Hg).
    split; [ exact N | ].
    destruct Hg1 as [E1 | E1]; rewrite E1 in Hg; [ exact Hg | ].
    right. destruct Hg as [-> | ->]; reflexivity.
Qed.

(** White space at the start of a line. *)
Lemma lex_loop_line_blanks (F : bool) (buf ws l : list ascii) :
  forallb is_blank ws = true ->
  forall (s : tLexer) (it : Z),
    state s = ST_LINE_START ->
    exists v,
      lex_loop F buf s it (ws ++ l)
      = lex_loop F buf (set_lineStart s v) (it + Z.of_nat (List.length ws)) l.
Proof.
  induction ws as [ | ch ws IH ]; intros Hws s it St.
  - exists (lineStart s). cbn [app List.length]. rewrite set_lineStart_same.
    now rewrite Z.add_0_r.
  - cbn [forallb] in Hws. apply andb_prop in Hws. destruct Hws as [Hch Hws].
    destruct (end_of_turn_no_LF s it ch (is_blank_not_LF ch Hch)) as (v & Hv').
    assert (Hstep : step F buf s it ch = Running (set_lineStart s v)).
    { unfold step, switch_state. rewrite St. unfold step_LINE_START.
      pose proof (is_blank_space ch Hch) as Hsp.
      assert (E1 : Ascii.eqb ch ";" = false).
      { destruct (Ascii.eqb ch ";") eqn:E; [ | reflexivity ].
        apply Ascii.eqb_eq in E. subst ch. discriminate Hsp. }
      assert (E2 : Ascii.eqb ch "G" = false).
      { destruct (Ascii.eqb ch "G") eqn:E; [ | reflexivity ].
        apply Ascii.eqb_eq in E. subst ch. discriminate Hsp. }
      rewrite E1, E2, Hsp. cbn [negb]. now rewrite Hv'. }
    destruct (IH Hws (set_lineStart s v) (it + 1) St) as (v2 & Hrun).
    exists v2. cbn [app lex_loop]. rewrite Hstep, Hrun.
    replace (set_lineStart (set_lineStart s v) v2) with (set_lineStart s v2)
      by (now destruct s).
    replace (it + 1 + Z.of_nat (List.length ws))
      with (it + Z.of_nat (List.length (ch :: ws))) by (cbn [List.length]; lia).
    reflexivity.
Qed.

(** ** Command lines *)

Lemma space_facts (ch : ascii) :
  isspace ch = true ->
  isdigit ch = false /\ Ascii.eqb ch "." = false /\ Ascii.eqb ch "-" = false
  /\ Ascii.eqb ch ";" = false /\ Ascii.eqb ch "G" = false /\ axis_of_char ch = None.
Proof.
  intro H.
  assert (Hr : char_code ch <= 32).
  { unfold isspace in H. apply orb_prop in H. destruct H as [H | H].
    - apply Z.eqb_eq in H. lia.
    - apply andb_prop in H. destruct H as [_ H]. apply Z.leb_le in H. lia. }
  assert (Hne : forall c : ascii, 32 < char_code c -> Ascii.eqb ch c = false).
  { intros c Hc. destruct (Ascii.eqb ch c) eqn:E; [ | reflexivity ].
    apply Ascii.eqb_eq in E. subst c. lia. }
  repeat split; try (apply Hne; cbn; lia).
  - unfold isdigit. apply andb_false_iff. left. apply Z.leb_gt. lia.
  - unfold axis_of_char.
    rewrite (Hne "X"%char), (Hne "Y"%char), (Hne "Z"%char), (Hne "E"%char);
      try (cbn; lia). reflexivity.
Qed.

(** White space in a command ends the token that is open, and no more. *)
Lemma step_gcode_blank (F : bool) (buf : list ascii) (s : tLexer) (it : Z)
      (ch : ascii) :
  state s = ST_GCODE -> is_blank ch = true ->
  exists v,
    step F buf s it ch
    = Running (set_lineStart (set_param (set_cmd s (end_of_token buf s)) P_UNKNOWN) v).
Proof.
  intros St Hch.
  destruct (space_facts ch (is_blank_space ch Hch)) as (Hd & Hdot & Hm & Hsc & _ & Hax).
  destruct (end_of_turn_no_LF (set_param (set_cmd s (end_of_token buf s)) P_UNKNOWN)
                              it ch (is_blank_not_LF ch Hch)) as (v & Hv).
  exists v. unfold step, switch_state. rewrite St. unfold step_GCODE.
  assert (Hn : is_number_char s ch = false).
  { unfold is_number_char. rewrite Hd, Hdot, Hm.
    now rewrite andb_false_r, andb_false_r. }
  rewrite Hn, Hax. unfold is_line_end. rewrite (is_blank_not_LF ch Hch), Hsc.
  cbn [orb]. cbv zeta. now rewrite Hv.
Qed.

Lemma lex_loop_gcode_blanks (F : bool) (buf ws : list ascii) :
  forallb is_blank ws = true ->
  forall (s : tLexer) (it : Z),
    state s = ST_GCODE ->
    exists s1,
      lex_loop F buf s it ws = Running s1
      /\ state s1 = ST_GCODE
      /\ end_of_token buf s1 = end_of_token buf s
      /\ geom s1 = geom s /\ slots s1 = slots s.
Proof.
  induction ws as [ | ch ws IH ]; intros Hws s it St.
  - exists s. cbn [lex_loop]. auto.
  - cbn [forallb] in Hws. apply andb_prop in Hws. destruct Hws as [Hch Hws].
    destruct (step_gcode_blank F buf s it ch St Hch) as (v & Hstep).
    set (s1 := set_lineStart (set_param (set_cmd s (end_of_token buf s)) P_UNKNOWN) v)
      in *.
    destruct (IH Hws s1 (it + 1) St) as (s2 & Hrun & St2 & He2 & Hg2 & Hs2).
    exists s2. cbn [lex_loop]. rewrite Hstep.
    split; [ exact Hrun | split; [ exact St2 | ] ].
    split; [ rewrite He2; reflexivity | ].
    split; [ rewrite Hg2; reflexivity | rewrite Hs2; reflexivity ].
Qed.

(** The end of a command line: a line feed, or the ';' of a comment. *)
Lemma step_gcode_line_end (F : bool) (buf : list ascii) (s : tLexer) (it : Z)
      (ch : ascii) :
  state s = ST_GCODE -> is_line_end ch = true ->
  exists s',
    step F buf s it ch = Running s'
    /\ geom s' = gcode_end (end_of_token buf s) (geom s)
    /\ cmd s' = end_of_token buf s
    /\ state s' = (if Ascii.eqb ch LF then ST_LINE_START else ST_COMMENT)
    /\ slots s' = slots s.
Proof.
  intros St Hl. unfold step, switch_state. rewrite St. eexists.
  split; [ reflexivity | ].
  rewrite geom_end_of_turn, cmd_end_of_turn, state_end_of_turn, slots_end_of_turn.
  unfold step_GCODE.
  assert (Hn : is_number_char s ch = false).
  { unfold is_line_end in Hl. apply orb_prop in Hl.
    destruct Hl as [Hl | Hl]; apply Ascii.eqb_eq in Hl; subst ch;
      unfold is_number_char; simpl; now rewrite !andb_false_r. }
  assert (Ha : axis_of_char ch = None).
  { unfold is_line_end in Hl. apply orb_prop in Hl.
    destruct Hl as [Hl | Hl]; apply Ascii.eqb_eq in Hl; now subst ch. }
  rewrite Hn, Ha, Hl. cbv zeta. destruct (Ascii.eqb ch LF); lexer_simpl; auto.
Qed.

(** 'G', the number and the words of a command at the start of a line:
    the command that the end of the line will find. *)
Lemma lex_loop_command_chars (F : bool) (pre ds rest : list ascii)
      (ws : list (ascii * list ascii)) (s : tLexer) :
  Z.of_nat (List.length (pre ++ command_chars ds ws ++ rest)) < 2 ^ 64 ->
  state s = ST_LINE_START ->
  forallb isdigit ds = true -> forallb word_ok ws = true ->
  exists s1,
    lex_loop F (pre ++ command_chars ds ws ++ rest) s (Z.of_nat (List.length pre))
             (command_chars ds ws)
    = Running s1
    /\ state s1 = ST_GCODE
    /\ end_of_token (pre ++ command_chars ds ws ++ rest) s1 = line_cmd ds ws
    /\ geom s1 = geom s /\ slots s1 = slots s.
Proof.
  intros Hlen St Hds Hws. unfold command_chars in *.
  set (buf := pre ++ ("G"%char :: ds ++ words_chars ws) ++ rest) in *.
  set (p := Z.of_nat (List.length pre)).
  set (pre1 := pre ++ "G"%char :: ds).
  assert (Hb1 : buf = pre1 ++ words_chars ws ++ rest).
  { subst buf pre1. repeat (rewrite <- app_assoc || cbn [app]). reflexivity. }
  assert (Hp1 : Z.of_nat (List.length pre1) = p + 1 + Z.of_nat (List.length ds)).
  { subst pre1 p. rewrite length_app. cbn [List.length]. lia. }
  assert (Hlens : p + 1 + Z.of_nat (List.length ds) < 2 ^ 64).
  { rewrite Hb1 in Hlen. rewrite length_app in Hlen. lia. }
  (* the G *)
  cbn [lex_loop].
  set (s1 := set_state
               (set_aToken
                  (set_cmd (set_param s P_G) (mkCmd (code (cmd s)) NAN NAN NAN NAN))
                  (mkToken (Some (p + 1)) 0))
               ST_GCODE).
  assert (Hstep1 : step F buf s p "G" = Running s1).
  { unfold step, switch_state. rewrite St. unfold step_LINE_START.
    change (Ascii.eqb "G" ";") with false. change (Ascii.eqb "G" "G") with true.
    cbv iota zeta. now rewrite end_of_turn_word_char. }
  rewrite Hstep1.
  (* the digits *)
  rewrite lex_loop_app.
  rewrite (lex_loop_gcode_digits F buf ds (p + 1) s1 (p + 1) 0 eq_refl eq_refl
             (forallb_isdigit_number s1 ds Hds) (Z.le_refl 0));
    [ | lia ].
  rewrite Z.add_0_l.
  set (s2 := set_aToken s1 (mkToken (Some (p + 1)) (Z.of_nat (List.length ds)))).
  assert (Htok : token_chars buf (mkToken (Some (p + 1)) (Z.of_nat (List.length ds)))
                 = ds).
  { subst buf p.
    replace (Z.of_nat (List.length pre) + 1)
      with (Z.of_nat (List.length (pre ++ ["G"%char])))
      by (rewrite length_app; cbn [List.length]; lia).
    change (pre ++ ("G"%char :: ds ++ words_chars ws) ++ rest)
      with (pre ++ (["G"%char] ++ ds ++ words_chars ws) ++ rest).
    rewrite <- !app_assoc, (app_assoc pre), token_chars_after, Nat2Z.id.
    rewrite firstn_app, Nat.sub_diag, firstn_all. cbn [firstn].
    now rewrite app_nil_r. }
  assert (Hcmd2 : end_of_token buf s2
                  = mkCmd (G_ (p_uint_chars ds)) NAN NAN NAN NAN).
  { unfold end_of_token. subst s2 s1. lexer_simpl.
    now rewrite p_uint_token_chars, Htok. }
  (* the words *)
  assert (Hlen1 : Z.of_nat (List.length (pre1 ++ words_chars ws ++ rest)) < 2 ^ 64)
    by (now rewrite <- Hb1).
  destruct (lex_loop_words_of_command F ws pre1 rest s2 Hlen1 eq_refl Hws)
    as (s3 & Hrun3 & Hsame3 & Hcmd3).
  rewrite <- Hb1, Hp1 in Hrun3. rewrite <- Hb1, Hcmd2 in Hcmd3.
  exists s3. split; [ exact Hrun3 | ].
  destruct Hsame3 as (St3 & _ & _ & _ & _ & _ & Hg3 & Hs3).
  split; [ rewrite St3; reflexivity | ].
  split; [ exact Hcmd3 | ].
  split; [ rewrite Hg3; reflexivity | rewrite Hs3; reflexivity ].
Qed.

(** A command line at the start of a line, up to the character that ends
    it: the [switch (code)] is applied to the command of its text. *)
Lemma lex_loop_command_line (F : bool) (pre indent ds gap rest : list ascii)
      (ws : list (ascii * list ascii)) (term : ascii) (s : tLexer) :
  Z.of_nat (List.length
              (pre ++ (indent ++ command_chars ds ws ++ gap ++ [term]) ++ rest))
  < 2 ^ 64 ->
  state s = ST_LINE_START ->
  forallb is_blank indent = true -> forallb isdigit ds = true ->
  forallb word_ok ws = true -> forallb is_blank gap = true ->
  is_line_end term = true ->
  exists s1,
    lex_loop F (pre ++ (indent ++ command_chars ds ws ++ gap ++ [term]) ++ rest) s
             (Z.of_nat (List.length pre))
             (indent ++ command_chars ds ws ++ gap ++ [term])
    = Running s1
    /\ geom s1 = gcode_end (line_cmd ds ws) (geom s)
    /\ cmd s1 = line_cmd ds ws
    /\ state s1 = (if Ascii.eqb term LF then ST_LINE_START else ST_COMMENT)
    /\ slots s1 = slots s.
Proof.
  intros Hlen St Hin Hds Hws Hgap Hterm.
  set (buf := pre ++ (indent ++ command_chars ds ws ++ gap ++ [term]) ++ rest) in *.
  destruct (lex_loop_line_blanks F buf indent (command_chars ds ws ++ gap ++ [term])
              Hin s (Z.of_nat (List.length pre)) St) as (v & ->).
  set (s0 := set_lineStart s v).
  assert (Hb1 : buf = (pre ++ indent) ++ command_chars ds ws ++ (gap ++ term :: rest)).
  { subst buf. repeat (rewrite <- app_assoc || cbn [app]). reflexivity. }
  replace (Z.of_nat (List.length pre) + Z.of_nat (List.length indent))
    with (Z.of_nat (List.length (pre ++ indent))) by (rewrite length_app; lia).
  assert (Hlen1 : Z.of_nat (List.length
                              ((pre ++ indent) ++ command_chars ds ws
                               ++ (gap ++ term :: rest))) < 2 ^ 64)
    by (now rewrite <- Hb1).
  destruct (lex_loop_command_chars F (pre ++ indent) ds (gap ++ term :: rest) ws s0
              Hlen1 St Hds Hws) as (s1 & Hrun1 & St1 & Hc1 & Hg1 & Hs1).
  rewrite <- Hb1 in Hrun1, Hc1.
  rewrite lex_loop_app, Hrun1.
  destruct (lex_loop_gcode_blanks F buf gap Hgap s1
              (Z.of_nat (List.length (pre ++ indent))
               + Z.of_nat (List.length (command_chars ds ws))) St1)
    as (s2 & Hrun2 & St2 & Hc2 & Hg2 & Hs2).
  rewrite lex_loop_app, Hrun2. cbn [lex_loop].
  destruct (step_gcode_line_end F buf s2
              (Z.of_nat (List.length (pre ++ indent))
               + Z.of_nat (List.length (command_chars ds ws))
               + Z.of_nat (List.length gap)) term St2 Hterm)
    as (s3 & Hstep & Hg3 & Hc3 & St3 & Hs3).
  rewrite Hstep. exists s3. split; [ reflexivity | ].
  rewrite Hg3, Hc3, Hc2, Hc1, Hg2, Hg1, Hs3, Hs2, Hs1. subst s0. lexer_simpl.
  auto.
Qed.

(** ** The command a line shows *)

Lemma code_fold_word_cmd (ws : list (ascii * list ascii)) :
  forall c, code (fold_left word_cmd ws c) = code c.
Proof.
  induction ws as [ | w ws IH ]; intro c; [ reflexivity | ].
  cbn [fold_left]. rewrite IH. unfold word_cmd.
  destruct (axis_of_char (fst w)) as [ [ | | | | | ] | ]; reflexivity.
Qed.

Lemma axis_of_char_E (ch : ascii) :
  axis_of_char ch = Some P_E <-> Ascii.eqb ch "E" = true.
Proof.
  unfold axis_of_char.
  destruct (Ascii.eqb ch "X") eqn:EX;
    [ apply Ascii.eqb_eq in EX; subst ch; split; discriminate | ].
  destruct (Ascii.eqb ch "Y") eqn:EY;
    [ apply Ascii.eqb_eq in EY; subst ch; split; discriminate | ].
  destruct (Ascii.eqb ch "Z") eqn:EZ;
    [ apply Ascii.eqb_eq in EZ; subst ch; split; discriminate | ].
  destruct (Ascii.eqb ch "E"); split; congruence.
Qed.

Lemma axis_of_char_axis (a : tAxis) (ch : ascii) :
  axis_of_char ch = Some (match a with AX => P_X | AY => P_Y | AZ => P_Z end)
  <-> Ascii.eqb ch (axis_letter a) = true.
Proof.
  unfold axis_of_char.
  destruct (Ascii.eqb ch "X") eqn:EX;
    [ apply Ascii.eqb_eq in EX; subst ch; destruct a; split; (discriminate || reflexivity)
    | ].
  destruct (Ascii.eqb ch "Y") eqn:EY;
    [ apply Ascii.eqb_eq in EY; subst ch; destruct a; split; (discriminate || reflexivity)
    | ].
  destruct (Ascii.eqb ch "Z") eqn:EZ;
    [ apply Ascii.eqb_eq in EZ; subst ch; destruct a; split; (discriminate || reflexivity)
    | ].
  destruct (Ascii.eqb ch "E") eqn:EE;
    destruct a; cbn [axis_letter]; rewrite ?EX, ?EY, ?EZ; split; discriminate.
Qed.

(** The material feed of a command is the number of its last word E. *)
Lemma paramE_fold_word_cmd (ws : list (ascii * list ascii)) :
  forall c,
    paramE (fold_left word_cmd ws c)
    = match word_value "E" ws with
      | Some t => p_float_chars t
      | None => paramE c
      end.
Proof.
  induction ws as [ | w ws IH ]; intro c; [ reflexivity | ].
  cbn [fold_left word_value]. rewrite IH.
  destruct (word_value "E" ws); [ reflexivity | ].
  unfold word_cmd.
  destruct (Ascii.eqb (fst w) "E") eqn:E.
  - apply axis_of_char_E in E. now rewrite E.
  - destruct (axis_of_char (fst w)) as [ [ | | | | | ] | ] eqn:Ea; try reflexivity.
    apply axis_of_char_E in Ea. congruence.
Qed.

(** The parameter of an axis is the number of the last word of its letter. *)
Lemma axis_param_fold_word_cmd (a : tAxis) (ws : list (ascii * list ascii)) :
  forall c,
    axis_param a (fold_left word_cmd ws c)
    = match word_value (axis_letter a) ws with
      | Some t => p_float_chars t
      | None => axis_param a c
      end.
Proof.
  induction ws as [ | w ws IH ]; intro c; [ reflexivity | ].
  cbn [fold_left word_value]. rewrite IH.
  destruct (word_value (axis_letter a) ws); [ reflexivity | ].
  unfold word_cmd.
  destruct (Ascii.eqb (fst w) (axis_letter a)) eqn:E.
  - apply axis_of_char_axis in E. rewrite E. now destruct a.
  - destruct (axis_of_char (fst w)) as [ p | ] eqn:Ea; [ | reflexivity ].
    destruct p, a; try reflexivity;
      exfalso;
      match goal with
      | H : axis_of_char _ = Some P_X |- _ => apply (axis_of_char_axis AX) in H
      | H : axis_of_char _ = Some P_Y |- _ => apply (axis_of_char_axis AY) in H
      | H : axis_of_char _ = Some P_Z |- _ => apply (axis_of_char_axis AZ) in H
      end; cbn [axis_letter] in *; congruence.
Qed.

Lemma p_float_chars_is_set (l : list ascii) : IS_SET (p_float_chars l) = true.
Proof.
  unfold p_float_chars. destruct l as [ | ch l ]; [ reflexivity | ].
  destruct (Ascii.eqb ch "-").
  - apply p_float_result_is_set; [ now right | ].
    apply p_float_loop_ok, float_acc0_ok.
  - apply p_float_result_is_set; [ now left | ].
    apply p_float_loop_ok, float_acc0_ok.
Qed.

Lemma extrudes_line_cmd (ds : list ascii) (ws : list (ascii * list ascii)) :
  extrudes (line_cmd ds ws) = feeds ws.
Proof.
  unfold extrudes, feeds, line_cmd. rewrite paramE_fold_word_cmd.
  destruct (word_value "E" ws) as [ t | ]; [ | reflexivity ].
  now rewrite p_float_chars_is_set.
Qed.

Lemma digit_val_range (ch : ascii) : isdigit ch = true -> 0 <= digit_val ch <= 9.
Proof.
  unfold isdigit, digit_val. intro H. apply andb_prop in H.
  destruct H as [H1 H2]. apply Z.leb_le in H1, H2. lia.
Qed.

Lemma decimal_nonneg (ds : list ascii) : forallb isdigit ds = true -> 0 <= decimal ds.
Proof.
  unfold decimal. intro H.
  assert (G : forall v, 0 <= v ->
                        0 <= fold_left (fun v ch => v * 10 + digit_val ch) ds v).
  { induction ds as [ | d ds IH ]; intros v Hv; [ exact Hv | ].
    cbn [forallb] in H. apply andb_prop in H. destruct H as [Hd Hds].
    cbn [fold_left]. apply (IH Hds). pose proof (digit_val_range d Hd). lia. }
  apply G. lia.
Qed.

(** The number of a command below 65536 is what [p_uint] reads. *)
Lemma p_uint_chars_decimal (ds : list ascii) :
  forallb isdigit ds = true -> decimal ds < 65536 -> p_uint_chars ds = decimal ds.
Proof.
  intros Hds Hlt. unfold p_uint_chars.
  pose proof (p_uint_loop_decimal ds [] Hds I 0) as H.
  rewrite app_nil_r in H. change (uint 0) with 0 in H. rewrite H.
  fold (decimal ds). unfold uint. apply Z.mod_small.
  pose proof (decimal_nonneg ds Hds). lia.
Qed.

(** Below 65536 the code of a command is that of G0 or G1 only for the
    numbers 0 and 1. *)
Lemma linear_code (ds : list ascii) (ws : list (ascii * list ascii)) :
  forallb isdigit ds = true -> decimal ds < 65536 ->
  (code (line_cmd ds ws) =? G_ 0) || (code (line_cmd ds ws) =? G_ 1)
  = is_linear_move ds.
Proof.
  intros Hds Hlt. unfold line_cmd, is_linear_move.
  rewrite code_fold_word_cmd. cbn [code].
  rewrite (p_uint_chars_decimal ds Hds Hlt).
  pose proof (decimal_nonneg ds Hds) as H0.
  assert (Hinj : forall m, 0 <= m < 65536 ->
                           (G_ (decimal ds) =? G_ m) = (decimal ds =? m)).
  { intros m Hm. destruct (Z.eqb_spec (decimal ds) m) as [ -> | N ].
    - apply Z.eqb_refl.
    - apply Z.eqb_neq. intro E. apply N.
      rewrite <- (G_low_bits (decimal ds)), <- (G_low_bits m) by lia.
      now rewrite E. }
  rewrite (Hinj 0), (Hinj 1) by lia. reflexivity.
Qed.

(** A line that is no linear move with a material feed leaves the box. *)
Lemma gcode_end_line_unset (ds : list ascii) (ws : list (ascii * list ascii))
      (g : tGeom) :
  forallb isdigit ds = true -> decimal ds < 65536 ->
  is_linear_move ds && feeds ws = false ->
  box_unset g -> box_unset (gcode_end (line_cmd ds ws) g).
Proof.
  intros Hds Hlt Hno Hg.
  rewrite <- (linear_code ds ws Hds Hlt), <- (extrudes_line_cmd ds ws) in Hno.
  destruct (gcode_end_no_extrusion (line_cmd ds ws) g Hno)
    as (E1 & E2 & E3 & E4 & E5 & E6).
  unfold box_unset. rewrite E1, E2, E3, E4, E5, E6. exact Hg.
Qed.

(** ** A file of lines without an extruding move *)

Lemma no_line_feed_app (l1 l2 : list ascii) :
  no_line_feed (l1 ++ l2) = no_line_feed l1 && no_line_feed l2.
Proof. unfold no_line_feed. apply forallb_app. Qed.

Lemma forallb_isdigit_no_line_feed (ds : list ascii) :
  forallb isdigit ds = true -> no_line_feed ds = true.
Proof.
  induction ds as [ | d ds IH ]; [ reflexivity | ].
  cbn [forallb no_line_feed]. intro H. apply andb_prop in H. destruct H as [Hd Hds].
  fold (no_line_feed ds). rewrite (IH Hds), andb_true_r.
  apply negb_true_iff. destruct (Ascii.eqb d LF) eqn:E; [ | reflexivity ].
  apply Ascii.eqb_eq in E. subst d. discriminate Hd.
Qed.

Lemma words_chars_no_line_feed (ws : list (ascii * list ascii)) :
  forallb word_ok ws = true -> no_line_feed (words_chars ws) = true.
Proof.
  induction ws as [ | w ws IH ]; [ reflexivity | ].
  cbn [forallb]. intro H. apply andb_prop in H. destruct H as [Hw Hws].
  unfold words_chars. cbn [flat_map]. fold (words_chars ws).
  change ((" "%char :: fst w :: snd w) ++ words_chars ws)
    with ([" "%char; fst w] ++ snd w ++ words_chars ws).
  rewrite !no_line_feed_app, (IH Hws), andb_true_r.
  unfold word_ok in Hw. apply andb_prop in Hw. destruct Hw as [Hc Hn].
  destruct (is_capital_facts (fst w) Hc) as (_ & _ & _ & _ & Hlf & _).
  apply andb_true_intro. split.
  - cbn [no_line_feed forallb]. rewrite Hlf. reflexivity.
  - pose proof (number_text_classes (snd w) Hn) as Hcl.
    clear -Hcl. induction (snd w) as [ | c l IH ]; [ reflexivity | ].
    cbn [forallb no_line_feed] in *. apply andb_prop in Hcl.
    destruct Hcl as [Hc Hl]. fold (no_line_feed l). rewrite (IH Hl), andb_true_r.
    destruct (digit_or_dot_facts c Hc) as (_ & E & _). now rewrite E.
Qed.

(** A line is a text without a line feed, and a line feed. *)
Lemma line_chars_body (ln : tLine) :
  line_ok ln = true ->
  exists body, line_chars ln = body ++ [LF] /\ no_line_feed body = true.
Proof.
  destruct ln as [ indent ds ws gap c | indent body | indent text ];
    cbn [line_ok line_chars]; intro H.
  - repeat (apply andb_prop in H; destruct H as [H ?]).
    exists (indent ++ command_chars ds ws ++ gap ++ comment_chars c).
    split; [ now rewrite <- !app_assoc | ].
    unfold command_chars.
    change ("G"%char :: ds ++ words_chars ws)
      with (["G"%char] ++ ds ++ words_chars ws).
    rewrite !no_line_feed_app.
    rewrite (forallb_blank_no_line_feed indent), (forallb_blank_no_line_feed gap),
      (forallb_isdigit_no_line_feed ds), (words_chars_no_line_feed ws)
      by assumption.
    now rewrite H0.
  - apply andb_prop in H. destruct H as [Hin Hb].
    exists (indent ++ ";"%char :: body).
    split; [ now rewrite <- app_assoc | ].
    change (";"%char :: body) with ([";"%char] ++ body).
    rewrite !no_line_feed_app, (forallb_blank_no_line_feed indent Hin), Hb.
    reflexivity.
  - repeat (apply andb_prop in H; destruct H as [H ?]).
    exists (indent ++ text).
    split; [ now rewrite <- app_assoc | ].
    now rewrite no_line_feed_app, (forallb_blank_no_line_feed indent H), H0.
Qed.

Lemma box_unset_after (g g' : tGeom) :
  box_unset g -> g' = g \/ g' = layer_change g -> box_unset g'.
Proof.
  intros Hg [-> | ->]; [ exact Hg | apply layer_change_box_unset ].
Qed.

(** A line of one of the three forms that is no linear move with a
    material feed leaves the box unset, wherever the lexer is when the line
    starts, a command apart. *)
Lemma line_keeps_box_unset (F : bool) (pre rest : list ascii) (ln : tLine)
      (s s' : tLexer) :
  Z.of_nat (List.length (pre ++ line_chars ln ++ rest)) < 2 ^ 64 ->
  state s <> ST_GCODE -> box_unset (geom s) ->
  line_ok ln = true -> extruding_line ln = false ->
  lex_loop F (pre ++ line_chars ln ++ rest) s (Z.of_nat (List.length pre))
           (line_chars ln) = Running s' ->
  state s' <> ST_GCODE /\ box_unset (geom s').
Proof.
  intros Hlen Hst Hbox Hok Hno H.
  set (buf := pre ++ line_chars ln ++ rest) in *.
  assert (Hcase : state s = ST_LINE_START \/ in_comment s).
  { destruct (state s) eqn:St; try (now left); try contradiction;
      right; split; rewrite St; discriminate. }
  destruct Hcase as [St | Hc].
  2:{ destruct (line_chars_body ln Hok) as (body & Hbody & Hnl).
      rewrite Hbody in H.
      apply (lex_loop_in_comment F buf body Hnl) in H; [ | exact Hc ].
      destruct H as (N & Hg).
      split; [ exact N | exact (box_unset_after _ _ Hbox Hg) ]. }
  destruct ln as [ indent ds ws gap c | indent body | indent text ];
    cbn [line_ok line_chars extruding_line] in *.
  - (* a command *)
    apply andb_prop in Hok. destruct Hok as [Hok Hcm].
    apply andb_prop in Hok. destruct Hok as [Hok Hgap].
    apply andb_prop in Hok. destruct Hok as [Hok Hws].
    apply andb_prop in Hok. destruct Hok as [Hok Hlt].
    apply andb_prop in Hok. destruct Hok as [Hin Hds].
    apply Z.ltb_lt in Hlt.
    assert (Hunset : box_unset (gcode_end (line_cmd ds ws) (geom s)))
      by (apply gcode_end_line_unset; assumption).
    destruct c as [ cbody | ]; cbn [comment_chars app] in *.
    + assert (Hb : buf = pre ++ (indent ++ command_chars ds ws ++ gap ++ [";"%char])
                         ++ (cbody ++ LF :: rest)).
      { subst buf. repeat (rewrite <- app_assoc || cbn [app]). reflexivity. }
      assert (Hlen' : Z.of_nat (List.length
                                  (pre ++ (indent ++ command_chars ds ws ++ gap
                                           ++ [";"%char]) ++ (cbody ++ LF :: rest)))
                      < 2 ^ 64) by (now rewrite <- Hb).
      destruct (lex_loop_command_line F pre indent ds gap (cbody ++ LF :: rest) ws
                  ";" s Hlen' St Hin Hds Hws Hgap eq_refl)
        as (s1 & Hrun & Hg1 & _ & St1 & _).
      rewrite <- Hb in Hrun.
      replace (indent ++ command_chars ds ws ++ gap ++ ";"%char :: cbody ++ [LF])
        with ((indent ++ command_chars ds ws ++ gap ++ [";"%char]) ++ cbody ++ [LF])
        in H by (repeat (rewrite <- app_assoc || cbn [app]); reflexivity).
      rewrite lex_loop_app, Hrun in H.
      cbn [no_line_feed forallb] in Hcm. apply andb_prop in Hcm.
      destruct Hcm as [_ Hcm].
      apply (lex_loop_in_comment F buf cbody Hcm) in H;
        [ | split; rewrite St1; discriminate ].
      destruct H as (N & Hg).
      split; [ exact N | ].
      apply (box_unset_after (geom s1)); [ now rewrite Hg1 | exact Hg ].
    + assert (Hlen' : Z.of_nat (List.length
                                  (pre ++ (indent ++ command_chars ds ws ++ gap
                                           ++ [LF]) ++ rest)) < 2 ^ 64)
        by exact Hlen.
      destruct (lex_loop_command_line F pre indent ds gap rest ws LF s Hlen' St
                  Hin Hds Hws Hgap eq_refl)
        as (s1 & Hrun & Hg1 & _ & St1 & _).
      fold buf in Hrun. rewrite H in Hrun. injection Hrun as ->.
      split; [ rewrite St1; discriminate | now rewrite Hg1 ].
  - (* a comment *)
    apply andb_prop in Hok. destruct Hok as [Hin Hb].
    destruct (lex_loop_line_blanks F buf indent (";"%char :: body ++ [LF]) Hin s
                (Z.of_nat (List.length pre)) St) as (v & Hrun).
    rewrite Hrun in H. cbn [lex_loop] in H.
    assert (Hstep : step F buf (set_lineStart s v)
                         (Z.of_nat (List.length pre) + Z.of_nat (List.length indent))
                         ";"
                    = Running (set_state (set_aToken (set_lineStart s v) null_token)
                                         ST_COMMENT)).
    { unfold step, switch_state. lexer_simpl. rewrite St. unfold step_LINE_START.
      change (Ascii.eqb ";" ";") with true. cbv iota.
      now rewrite end_of_turn_word_char. }
    rewrite Hstep in H.
    apply (lex_loop_in_comment F buf body Hb) in H; [ | split; discriminate ].
    destruct H as (N & Hg).
    split; [ exact N | exact (box_unset_after _ _ Hbox Hg) ].
  - (* another line *)
    apply andb_prop in Hok. destruct Hok as [Hok Hnl].
    apply andb_prop in Hok. destruct Hok as [Hin Hso].
    destruct (lex_loop_line_blanks F buf indent (text ++ [LF]) Hin s
                (Z.of_nat (List.length pre)) St) as (v & Hrun).
    rewrite Hrun in H.
    destruct text as [ | c text ]; cbn [app lex_loop] in H.
    + assert (Hstep : step F buf (set_lineStart s v)
                           (Z.of_nat (List.length pre) + Z.of_nat (List.length indent))
                           LF
                      = Running (end_of_turn (set_lineStart s v)
                                   (Z.of_nat (List.length pre)
                                    + Z.of_nat (List.length indent)) LF)).
      { unfold step, switch_state. lexer_simpl. rewrite St. reflexivity. }
      rewrite Hstep in H. injection H as <-.
      rewrite state_end_of_turn, geom_end_of_turn. lexer_simpl.
      split; [ rewrite St; discriminate | exact Hbox ].
    + cbn [starts_other] in Hso.
      apply andb_prop in Hso. destruct Hso as [Hso Hsc].
      apply andb_prop in Hso. destruct Hso as [Hsp HG].
      apply negb_true_iff in Hsp, HG, Hsc.
      assert (Hstep : step F buf (set_lineStart s v)
                           (Z.of_nat (List.length pre) + Z.of_nat (List.length indent))
                           c
                      = Running (set_state (set_lineStart s v) ST_FIND_LINE_START)).
      { unfold step, switch_state. lexer_simpl. rewrite St. unfold step_LINE_START.
        rewrite Hsc, HG, Hsp. cbn [negb]. now rewrite end_of_turn_word_char. }
      rewrite Hstep in H.
      cbn [no_line_feed forallb] in Hnl. apply andb_prop in Hnl.
      destruct Hnl as [_ Hnl].
      apply (lex_loop_in_comment F buf text Hnl) in H; [ | split; discriminate ].
      destruct H as (N & Hg).
      split; [ exact N | exact (box_unset_after _ _ Hbox Hg) ].
Qed.

Lemma lines_keep_box_unset (F : bool) (lines : list tLine) :
  forall (pre rest : list ascii) (s s' : tLexer),
    Z.of_nat (List.length (pre ++ file_chars lines ++ rest)) < 2 ^ 64 ->
    state s <> ST_GCODE -> box_unset (geom s) ->
    forallb line_ok lines = true -> existsb extruding_line lines = false ->
    lex_loop F (pre ++ file_chars lines ++ rest) s (Z.of_nat (List.length pre))
             (file_chars lines) = Running s' ->
    state s' <> ST_GCODE /\ box_unset (geom s').
Proof.
  induction lines as [ | ln lines IH ]; intros pre rest s s' Hlen Hst Hbox Hok Hno H.
  - cbn [file_chars flat_map lex_loop] in H. injection H as <-. auto.
  - cbn [forallb] in Hok. apply andb_prop in Hok. destruct Hok as [Hln Hok].
    cbn [existsb] in Hno. apply orb_false_elim in Hno. destruct Hno as [Hnl Hno].
    unfold file_chars in *. cbn [flat_map] in *. fold (file_chars lines) in *.
    set (buf := pre ++ (line_chars ln ++ file_chars lines) ++ rest) in *.
    assert (Hb1 : buf = pre ++ line_chars ln ++ (file_chars lines ++ rest)).
    { subst buf. now rewrite <- app_assoc. }
    assert (Hb2 : buf = (pre ++ line_chars ln) ++ file_chars lines ++ rest).
    { rewrite Hb1. now rewrite <- app_assoc. }
    rewrite lex_loop_app in H.
    destruct (lex_loop F buf s (Z.of_nat (List.length pre)) (line_chars ln))
      as [ s1 | | ] eqn:E1; try discriminate.
    assert (Hlen1 : Z.of_nat (List.length
                                (pre ++ line_chars ln ++ (file_chars lines ++ rest)))
                    < 2 ^ 64) by (now rewrite <- Hb1).
    rewrite Hb1 in E1.
    destruct (line_keeps_box_unset F pre (file_chars lines ++ rest) ln s s1
                Hlen1 Hst Hbox Hln Hnl E1) as (Hst1 & Hbox1).
    assert (Hlen2 : Z.of_nat (List.length
                                ((pre ++ line_chars ln) ++ file_chars lines ++ rest))
                    < 2 ^ 64) by (now rewrite <- Hb2).
    replace (Z.of_nat (List.length pre) + Z.of_nat (List.length (line_chars ln)))
      with (Z.of_nat (List.length (pre ++ line_chars ln))) in H
      by (rewrite length_app; lia).
    rewrite Hb2 in H.
    exact (IH (pre ++ line_chars ln) rest s1 s' Hlen2 Hst1 Hbox1 Hok Hno H).
Qed.

(** ** A move that feeds material enters the box *)

Lemma is_set_not_nan (v : float) : IS_SET v = true -> v <> NAN.
Proof. intros H E. subst v. discriminate H. Qed.

(** The value is inside the widened pair. *)
Lemma widen_holds (mn mx v : float) :
  mn <> NAN -> mx <> NAN -> v <> NAN ->
  f_le (fst (widen mn mx v)) v = true /\ f_le v (snd (widen mn mx v)) = true.
Proof.
  intros Hmn Hmx Hv. unfold widen. cbn [fst snd]. split.
  - destruct (f_lt v mn) eqn:E; [ now apply f_le_refl | now apply f_not_lt_le ].
  - destruct (f_lt mx v) eqn:E; [ now apply f_le_refl | now apply f_not_lt_le ].
Qed.

Lemma axis_grows_holds (mn mx mn' mx' v : float) :
  axis_grows mn mx mn' mx' ->
  f_le mn v = true /\ f_le v mx = true ->
  f_le mn' v = true /\ f_le v mx' = true.
Proof.
  intros [H1 H2] [H3 H4]. split.
  - exact (f_le_trans mn' mn v H1 H3).
  - exact (f_le_trans v mx mx' H4 H2).
Qed.

Lemma axis_ok_box (a : tAxis) (g : tGeom) :
  box_ok g -> axis_ok (axis_min a g) (axis_max a g).
Proof. intros (Hx & Hy & Hz). now destruct a. Qed.

Lemma widen_if_holds (guard mn mx v : float) :
  IS_SET guard = true -> mn <> NAN -> mx <> NAN -> v <> NAN ->
  f_le (fst (widen_if guard mn mx v)) v = true
  /\ f_le v (snd (widen_if guard mn mx v)) = true.
Proof.
  intros Hg Hmn Hmx Hv. unfold widen_if. rewrite Hg. now apply widen_holds.
Qed.

Lemma widen_before_ok (b : bool) (guard mn mx v : float) :
  axis_ok mn mx ->
  axis_ok (fst (if b then widen_if guard mn mx v else (mn, mx)))
          (snd (if b then widen_if guard mn mx v else (mn, mx))).
Proof. intro H. destruct b; [ now apply widen_if_ok | exact H ]. Qed.

(** A linear move with a material feed: the position it leads to is in the
    box on every axis it names; the position it starts from is in the box
    when the move before fed no material. *)
Lemma linear_move_enters_box (c : tCmd) (g : tGeom) (a : tAxis) :
  box_ok g -> extrudes c = true ->
  (IS_SET (axis_param a c) = true ->
   IS_SET (axis_pos a (linear_move c g)) = true ->
   f_le (axis_min a (linear_move c g)) (axis_pos a (linear_move c g)) = true
   /\ f_le (axis_pos a (linear_move c g)) (axis_max a (linear_move c g)) = true)
  /\ (prevExt g = false -> IS_SET (axis_pos a g) = true ->
      f_le (axis_min a (linear_move c g)) (axis_pos a g) = true
      /\ f_le (axis_pos a g) (axis_max a (linear_move c g)) = true).
Proof.
  intros Hok He.
  pose proof (axis_ok_box a g Hok) as Ha.
  unfold linear_move. rewrite He. cbn [andb].
  split.
  - intros Hp Hpos.
    destruct a; cbn [axis_param axis_pos axis_min axis_max x y z minX minY minZ
                     maxX maxY maxZ] in *;
      match goal with
      | |- f_le (fst (widen_if _ (fst (if ?b then widen_if ?g0 ?mn ?mx ?v0 else _))
                               _ _)) _ = true /\ _ =>
        destruct (axis_ok_not_nan _ _ (widen_before_ok b g0 mn mx v0 Ha)) as [N1 N2];
          apply widen_if_holds; [ exact Hp | exact N1 | exact N2
                                  | now apply is_set_not_nan ]
      end.
  - intros Hprev Hpos. rewrite Hprev. cbn [negb].
    destruct (axis_ok_not_nan _ _ Ha) as [Hmn Hmx].
    destruct a; cbn [axis_param axis_pos axis_min axis_max x y z minX minY minZ
                     maxX maxY maxZ] in *;
      (eapply axis_grows_holds;
       [ apply widen_if_grows;
         [ exact (proj1 (axis_ok_not_nan _ _ (widen_if_ok _ _ _ _ Ha)))
         | exact (proj2 (axis_ok_not_nan _ _ (widen_if_ok _ _ _ _ Ha))) ]
       | apply widen_if_holds; auto; now apply is_set_not_nan ]).
Qed.

(** ** The box after the pass and in the header *)

Lemma hasLayerChange_gcode_end (c : tCmd) (g : tGeom) :
  hasLayerChange (gcode_end c g) = hasLayerChange g.
Proof.
  unfold gcode_end, linear_move.
  repeat match goal with |- context [if ?b then _ else _] => destruct b end;
    reflexivity.
Qed.

Lemma step_layer_change_kept (F : bool) (buf : list ascii) (s : tLexer) (it : Z)
      (ch : ascii) (s' : tLexer) :
  step F buf s it ch = Running s' ->
  hasLayerChange (geom s) = true -> hasLayerChange (geom s') = true.
Proof.
  intros H Hf.
  destruct (step_geom F buf s it ch s' H) as [-> | [(_ & _ & ->) | (_ & _ & _ & ->)]].
  - exact Hf.
  - reflexivity.
  - now rewrite hasLayerChange_gcode_end.
Qed.

Lemma lex_loop_layer_change_kept (F : bool) (buf l : list ascii) :
  forall s it s',
    lex_loop F buf s it l = Running s' ->
    hasLayerChange (geom s) = true -> hasLayerChange (geom s') = true.
Proof.
  intros s it s' H Hf.
  exact (lex_loop_invariant F buf (fun s => hasLayerChange (geom s) = true)
           (fun s0 it0 ch s1 H0 H1 => step_layer_change_kept F buf s0 it0 ch s1 H1 H0)
           l s it s' Hf H).
Qed.

Lemma box_within_refl (g : tGeom) : box_ok g -> box_within g g.
Proof.
  intros Hok a. destruct (axis_ok_not_nan _ _ (axis_ok_box a g Hok)) as [H1 H2].
  now apply axis_grows_refl.
Qed.

Lemma box_within_trans (g1 g2 g3 : tGeom) :
  box_within g1 g2 -> box_within g2 g3 -> box_within g1 g3.
Proof.
  intros H1 H2 a. exact (axis_grows_trans _ _ _ _ _ _ (H1 a) (H2 a)).
Qed.

Lemma gcode_end_within (c : tCmd) (g : tGeom) :
  box_ok g -> box_within g (gcode_end c g).
Proof.
  intros Hok. unfold gcode_end.
  destruct ((code c =? G_ 0) || (code c =? G_ 1)).
  - destruct (linear_move_grows c g Hok) as (Hx & Hy & Hz).
    intros [ | | ]; assumption.
  - destruct (code c =? G_ 90); [ | destruct (code c =? G_ 91) ];
      try exact (box_within_refl g Hok);
      intro a; destruct (axis_ok_not_nan _ _ (axis_ok_box a g Hok)) as [H1 H2];
      destruct a; now apply axis_grows_refl.
Qed.

(** A turn that is not the reset widens the box or leaves it. *)
Lemma step_box_within (F : bool) (buf : list ascii) (s : tLexer) (it : Z)
      (ch : ascii) (s' : tLexer) :
  box_ok (geom s) -> step F buf s it ch = Running s' ->
  hasLayerChange (geom s') = hasLayerChange (geom s) ->
  box_within (geom s) (geom s').
Proof.
  intros Hok H Hf.
  destruct (step_geom F buf s it ch s' H)
    as [E | [(_ & Hl & E) | (_ & _ & _ & E)]]; rewrite E in *.
  - now apply box_within_refl.
  - rewrite Hl in Hf. discriminate Hf.
  - now apply gcode_end_within.
Qed.

(** As long as the box is not reset, it only grows. *)
Lemma lex_loop_box_within (F : bool) (buf l : list ascii) :
  forall s it s',
    box_ok (geom s) ->
    lex_loop F buf s it l = Running s' ->
    hasLayerChange (geom s) = true \/ hasLayerChange (geom s') = false ->
    box_within (geom s) (geom s').
Proof.
  induction l as [ | ch l IH ]; intros s it s' Hok H Hf.
  - cbn [lex_loop] in H. injection H as <-. now apply box_within_refl.
  - cbn [lex_loop] in H.
    destruct (step F buf s it ch) as [ s1 | | ] eqn:E; try discriminate.
    pose proof (step_box_ok F buf s it ch s1 Hok E) as Hok1.
    assert (Hf1 : hasLayerChange (geom s1) = hasLayerChange (geom s)).
    { destruct Hf as [Hf | Hf].
      - now rewrite Hf, (step_layer_change_kept F buf s it ch s1 E Hf).
      - destruct (hasLayerChange (geom s1)) eqn:E1.
        + rewrite (lex_loop_layer_change_kept F buf l s1 _ s' H E1) in Hf.
          discriminate Hf.
        + destruct (hasLayerChange (geom s)) eqn:E0; [ | reflexivity ].
          rewrite (step_layer_change_kept F buf s it ch s1 E E0) in E1.
          discriminate E1. }
    apply (box_within_trans _ (geom s1)).
    + now apply (step_box_within F buf s it ch).
    + apply (IH s1 (it + 1) s' Hok1 H).
      destruct Hf as [Hf | Hf]; [ left; now rewrite Hf1 | now right ].
Qed.

Lemma axis_pos_linear_move (a : tAxis) (c : tCmd) (g : tGeom) :
  axis_pos a (linear_move c g)
  = move_axis (isAbsPos g) (axis_pos a g) (axis_param a c).
Proof. unfold linear_move. destruct (extrudes c), a; reflexivity. Qed.

(** Each of the six lines of the box is in the header once, with the value
    of the box it names. *)
Lemma header_box_field (F : bool) (V : string) (buf : list ascii) (s : tLexer)
      (f : tBoxField) (args : list tArg) :
  In (fprintf (box_format f) args) (header F V buf s)
  <-> args = [ArgFloat (box_value f (geom s))].
Proof.
  split.
  - intro H. destruct f; cbn [box_format box_value] in *; header_cases H;
      try congruence;
      try (destruct (hasThumbnail s); [ | destruct H ];
           destruct H as [H | H];
           [ injection H as Hf _; vm_compute in Hf; discriminate Hf | ];
           apply in_app_iff in H; destruct H as [H | [H | []]];
           [ apply thumbnail_runs_fwrite in H; destruct H as (b & H); discriminate H
           | injection H as Hf _; vm_compute in Hf; discriminate Hf ]);
      try (destruct (f_lt f_tenth (nozzleTemp1Val buf s)); [ | destruct H ];
           destruct H as [H | []]; injection H as Hf _;
           vm_compute in Hf; discriminate Hf).
  - intros ->. unfold header. rewrite !in_app_iff. do 4 right.
    destruct f; cbn [box_format box_value In]; auto 12.
Qed.

Lemma header_box_value_correct_minZ (f : tBoxField) (buf : list ascii) (s : tLexer) :
  box_value f (geom (correct_minZ buf s)) = header_box_value f buf s.
Proof.
  unfold correct_minZ, header_box_value.
  destruct (is_captured (slots s firstLayerHeight)
            && f_lt (minZ (geom s)) (maxZ (geom s))); destruct f; reflexivity.
Qed.

(** When the file is created anew, the lines of the box among the writes
    are those of the header. *)
Lemma created_box_field (F : bool) (V : string) (io : tIO) (cb : tCallback)
      (r : tReturn) (s : tLexer) (f : tBoxField) (args : list tArg) :
  processFile F V io cb = Some r ->
  lex F (file_bytes io) = Running s ->
  In EvCreate (trace r) ->
  (In (EvWrite (fprintf (box_format f) args)) (trace r)
   <-> args = [ArgFloat (header_box_value f (file_bytes io) s)]).
Proof.
  intros H Hlex Hcreate.
  destruct (processFile_course F V io cb) as (r' & H' & Hcourse).
  rewrite H in H'. injection H' as <-.
  destruct Hcourse as [ r [(c0 & Hc0 & ->) | ->] _
                      | s' cs c0 Hlex' Hcs Hw Hl Hret
                      | s' cs c0 Hlex' Hcs Hmsg
                      | s' cs ws tail res Hlex' Hcs Hws Htail ];
    cbn [trace] in *.
  - destruct Hcreate as [Hc | []]. discriminate Hc.
  - destruct Hcreate.
  - apply in_app_iff in Hcreate. destruct Hcreate as [Hc | [Hc | []]];
      [ apply in_callbacks in Hc; destruct Hc as (c & Hc & _) | ]; discriminate Hc.
  - apply in_app_iff in Hcreate. destruct Hcreate as [Hc | [Hc | []]];
      [ apply in_callbacks in Hc; destruct Hc as (c & Hc & _) | ]; discriminate Hc.
  - rewrite Hlex in Hlex'. injection Hlex' as <-.
    rewrite <- header_box_value_correct_minZ, <- header_box_field.
    split.
    + intro Hin.
      apply in_app_iff in Hin. destruct Hin as [Hin | Hin];
        [ apply in_callbacks in Hin; destruct Hin as (c & Hc & _); discriminate Hc | ].
      destruct Hin as [Hin | Hin]; [ discriminate Hin | ].
      apply in_app_iff in Hin. destruct Hin as [Hin | Hin].
      * apply in_writes in Hin. exact Hin.
      * apply in_app_iff in Hin. destruct Hin as [Hin | Hin].
        -- apply in_writes in Hin. rewrite Forall_forall in Hws.
           apply Hws in Hin. destruct Hin as (b & Hb). discriminate Hb.
        -- destruct Htail as [[_ ->] | (_ & c & _ & ->)];
             [ destruct Hin | destruct Hin as [Hc | []]; discriminate Hc ].
    + intro Hin. apply in_app_iff. right. right. apply in_app_iff. left.
      now apply in_writes.
Qed.

(** A linear move with a material feed at the start of a line: what it
    puts into the box is in the box after the pass when the box is not
    reset behind it. *)
Lemma extruding_line_enters_box (F : bool) (pre indent ds gap rest : list ascii)
      (ws : list (ascii * list ascii)) (term : ascii) (s0 s : tLexer) (a : tAxis) :
  Z.of_nat (List.length
              (pre ++ (indent ++ command_chars ds ws ++ gap ++ [term]) ++ rest))
  < 2 ^ 64 ->
  lex_loop F (pre ++ (indent ++ command_chars ds ws ++ gap ++ [term]) ++ rest)
           init_lexer 0 pre = Running s0 ->
  state s0 = ST_LINE_START ->
  forallb is_blank indent = true -> forallb isdigit ds = true ->
  forallb word_ok ws = true -> forallb is_blank gap = true ->
  is_line_end term = true ->
  is_linear_move ds = true -> feeds ws = true ->
  lex F (pre ++ (indent ++ command_chars ds ws ++ gap ++ [term]) ++ rest)
  = Running s ->
  hasLayerChange (geom s0) = true \/ hasLayerChange (geom s) = false ->
  (forall t,
      word_value (axis_letter a) ws = Some t ->
      IS_SET (move_axis (isAbsPos (geom s0)) (axis_pos a (geom s0)) (p_float_chars t))
      = true ->
      f_le (axis_min a (geom s))
           (move_axis (isAbsPos (geom s0)) (axis_pos a (geom s0)) (p_float_chars t))
      = true
      /\ f_le (move_axis (isAbsPos (geom s0)) (axis_pos a (geom s0)) (p_float_chars t))
              (axis_max a (geom s)) = true)
  /\ (prevExt (geom s0) = false -> IS_SET (axis_pos a (geom s0)) = true ->
      f_le (axis_min a (geom s)) (axis_pos a (geom s0)) = true
      /\ f_le (axis_pos a (geom s0)) (axis_max a (geom s)) = true).
Proof.
  intros Hlen Hpre St Hin Hds Hws Hgap Hterm Hlin Hfeed Hlex Hflag.
  set (ln := indent ++ command_chars ds ws ++ gap ++ [term]) in *.
  set (buf := pre ++ ln ++ rest) in *.
  assert (Hok0 : box_ok (geom s0)).
  { apply (lex_loop_invariant F buf (fun s => box_ok (geom s))
             (fun s1 it ch s2 H1 H2 => step_box_ok F buf s1 it ch s2 H1 H2)
             pre init_lexer 0 s0); [ | exact Hpre ].
    repeat split; left; split; reflexivity. }
  destruct (lex_loop_command_line F pre indent ds gap rest ws term s0 Hlen St
              Hin Hds Hws Hgap Hterm) as (s1 & Hrun & Hg1 & _).
  fold ln buf in Hrun.
  assert (Hlt : decimal ds < 65536).
  { unfold is_linear_move in Hlin. apply orb_prop in Hlin.
    destruct Hlin as [E | E]; apply Z.eqb_eq in E; lia. }
  assert (Hcode : (code (line_cmd ds ws) =? G_ 0) || (code (line_cmd ds ws) =? G_ 1)
                  = true) by (now rewrite linear_code).
  assert (Hext : extrudes (line_cmd ds ws) = true) by (now rewrite extrudes_line_cmd).
  assert (Hg1' : geom s1 = linear_move (line_cmd ds ws) (geom s0)).
  { rewrite Hg1. unfold gcode_end. now rewrite Hcode. }
  assert (Hok1 : box_ok (geom s1)) by (rewrite Hg1; now apply gcode_end_box_ok).
  (* the rest of the pass *)
  unfold lex in Hlex.
  assert (Hb : buf = (pre ++ ln) ++ rest) by (subst buf; now rewrite <- app_assoc).
  rewrite Hb in Hlex at 2. rewrite lex_loop_app, lex_loop_app, Hpre in Hlex.
  cbn [Z.add] in Hlex. rewrite Hrun in Hlex.
  assert (Hflag1 : hasLayerChange (geom s1) = true \/ hasLayerChange (geom s) = false).
  { destruct Hflag as [Hf | Hf]; [ left | now right ].
    now rewrite Hg1, hasLayerChange_gcode_end. }
  pose proof (lex_loop_box_within F buf rest s1 _ s Hok1 Hlex Hflag1 a) as Hgrow.
  destruct (linear_move_enters_box (line_cmd ds ws) (geom s0) a Hok0 Hext)
    as [Hend Hstart].
  rewrite <- Hg1' in Hend, Hstart.
  split.
  - intros t Ht Hset.
    assert (Hp : axis_param a (line_cmd ds ws) = p_float_chars t).
    { unfold line_cmd. now rewrite axis_param_fold_word_cmd, Ht. }
    assert (Hpos : axis_pos a (geom s1)
                   = move_axis (isAbsPos (geom s0)) (axis_pos a (geom s0))
                               (p_float_chars t)).
    { now rewrite Hg1', axis_pos_linear_move, Hp. }
    rewrite <- Hpos in *.
    apply (axis_grows_holds _ _ _ _ _ Hgrow).
    apply Hend; [ rewrite Hp; apply p_float_chars_is_set | exact Hset ].
  - intros Hprev Hset.
    apply (axis_grows_holds _ _ _ _ _ Hgrow). now apply Hstart.
Qed.

(** * The first layer change *)

(** The comment line ";LAYER_CHANGE" at the start of a line: the box is
    reset if no such line was read before, and not again. *)
Lemma lex_loop_layer_change_line (F : bool) (pre indent ws0 ws1 rest : list ascii)
      (s : tLexer) :
  Z.of_nat (List.length
              (pre ++ (indent ++ ";"%char :: ws0 ++ chars "LAYER_CHANGE" ++ ws1 ++ [LF])
               ++ rest)) < 2 ^ 64 ->
  state s = ST_LINE_START ->
  forallb is_blank indent = true -> forallb is_blank ws0 = true ->
  forallb is_blank ws1 = true ->
  exists s1,
    lex_loop F (pre ++ (indent ++ ";"%char :: ws0 ++ chars "LAYER_CHANGE" ++ ws1 ++ [LF])
                ++ rest) s (Z.of_nat (List.length pre))
             (indent ++ ";"%char :: ws0 ++ chars "LAYER_CHANGE" ++ ws1 ++ [LF])
    = Running s1
    /\ state s1 = ST_LINE_START
    /\ geom s1 = (if hasLayerChange (geom s) then geom s else layer_change (geom s))
    /\ slots s1 = slots s.
Proof.
  intros Hlen St Hin Hws0 Hws1.
  set (kt := chars "LAYER_CHANGE") in *.
  set (buf := pre ++ (indent ++ ";"%char :: ws0 ++ kt ++ ws1 ++ [LF]) ++ rest) in *.
  destruct (lex_loop_line_blanks F buf indent (";"%char :: ws0 ++ kt ++ ws1 ++ [LF])
              Hin s (Z.of_nat (List.length pre)) St) as (v0 & ->).
  set (s0 := set_lineStart s v0).
  set (p := Z.of_nat (List.length pre) + Z.of_nat (List.length indent)).
  set (pre1 := pre ++ indent ++ ";"%char :: ws0).
  set (a := Z.of_nat (List.length pre1)).
  assert (Hbuf1 : buf = pre1 ++ kt ++ (ws1 ++ LF :: rest)).
  { subst buf pre1. repeat (rewrite <- app_assoc || cbn [app]). reflexivity. }
  assert (Ha : a = p + 1 + Z.of_nat (List.length ws0)).
  { subst a pre1 p. repeat (rewrite length_app || cbn [List.length]). lia. }
  assert (Hlen1 : a + Z.of_nat (List.length kt) + Z.of_nat (List.length ws1) + 1
                  < 2 ^ 64).
  { rewrite Hbuf1 in Hlen. subst a. revert Hlen.
    repeat (rewrite length_app || cbn [List.length]). lia. }
  (* the ';' *)
  cbn [lex_loop].
  assert (Hstep1 : step F buf s0 p ";"
                   = Running (set_state (set_aToken s0 null_token) ST_COMMENT)).
  { unfold step, switch_state. subst s0. lexer_simpl. rewrite St.
    unfold step_LINE_START. change (Ascii.eqb ";" ";") with true. cbv iota.
    now rewrite end_of_turn_word_char. }
  rewrite Hstep1.
  set (s1 := set_state (set_aToken s0 null_token) ST_COMMENT).
  (* white space, and the first character of the word *)
  destruct (lex_loop_comment_blanks F buf ws0 (kt ++ ws1 ++ [LF])
              Hws0 s1 (p + 1) eq_refl eq_refl) as (v1 & ->).
  replace (p + 1 + Z.of_nat (List.length ws0)) with a by lia.
  set (s2 := set_lineStart s1 v1).
  change kt with ("L"%char :: chars "AYER_CHANGE") at 1.
  cbn [app lex_loop].
  rewrite (step_comment_first F buf s2 a "L" eq_refl eq_refl eq_refl).
  set (s3 := set_aToken s2 (mkToken (Some a) 1)).
  (* the word *)
  assert (Htok : forall n, (n <= List.length kt)%nat ->
                           token_chars buf (mkToken (Some a) (Z.of_nat n))
                           = firstn n kt).
  { intros n Hn. rewrite Hbuf1. subst a. rewrite token_chars_after, Nat2Z.id.
    rewrite firstn_app. replace (n - List.length kt)%nat with 0%nat by lia.
    cbn [firstn]. now rewrite app_nil_r. }
  assert (Hm : forall n, 0 <= n <= Z.of_nat (List.length kt) ->
                         p_cmpToken buf (mkToken (Some a) n)
                                    "post-processed by sm2pspp" <> 0
                         /\ p_cmpToken buf (mkToken (Some a) n) "thumbnail begin" <> 0).
  { intros n Hn. unfold p_cmpToken.
    rewrite <- (Z2Nat.id n) by lia. rewrite Htok by lia.
    apply marker_free_spec; [ reflexivity | lia ]. }
  assert (HN : Z.of_nat (List.length kt) < 2 ^ 64) by (cbn; lia).
  assert (Hn3 : 0 <= 1 <= a + 1 - a) by lia.
  assert (Hend3 : a + 1 + Z.of_nat (List.length (chars "AYER_CHANGE")) - a
                  <= Z.of_nat (List.length kt)) by (cbn; lia).
  destruct (lex_loop_key F buf (chars "AYER_CHANGE") a (Z.of_nat (List.length kt))
              Hm HN eq_refl eq_refl s3 (a + 1) 1 eq_refl eq_refl Hn3 Hend3)
    as (v3 & Hrun3).
  rewrite lex_loop_app, Hrun3.
  assert (Hvl : value_len a (a + 1) 1 (chars "AYER_CHANGE")
                = Z.of_nat (List.length kt)).
  { rewrite <- (app_nil_r (chars "AYER_CHANGE")) at 1.
    now apply (value_len_body a "L" (chars "AYER_CHANGE") []). }
  rewrite Hvl.
  set (n := Z.of_nat (List.length kt)) in *.
  set (s4 := set_lineStart (set_aToken s3 (mkToken (Some a) n)) v3).
  (* white space and the line feed *)
  assert (Hn : 0 <= n <= n) by (subst n; lia).
  destruct (Hm n Hn) as [Hm1 Hm2].
  assert (Hlo4 : 0 <= a + 1 + Z.of_nat (List.length (chars "AYER_CHANGE")) - a)
    by lia.
  assert (Hhi4 : a + 1 + Z.of_nat (List.length (chars "AYER_CHANGE")) - a
                 + Z.of_nat (List.length ws1) < 2 ^ 64) by (cbn in *; lia).
  destruct (lex_loop_key_blanks F buf ws1 [LF] a n Hm1 Hm2 Hws1 s4
              (a + 1 + Z.of_nat (List.length (chars "AYER_CHANGE")))
              eq_refl eq_refl Hlo4 Hhi4) as (v4 & ->).
  set (s5 := set_lineStart s4 v4).
  cbn [lex_loop]. unfold step, switch_state.
  assert (St5 : state s5 = ST_COMMENT) by reflexivity.
  rewrite St5. unfold step_COMMENT. change (Ascii.eqb LF LF) with true.
  cbv iota zeta. lexer_simpl.
  assert (Hcmp : p_cmpToken buf (aToken s5) "LAYER_CHANGE" = 0).
  { unfold p_cmpToken. subst s5 s4. lexer_simpl. subst n.
    rewrite (Htok (List.length kt) (Nat.le_refl _)), firstn_all. reflexivity. }
  rewrite Hcmp. change (0 =? 0) with true. cbn [andb].
  change (geom s5) with (geom s).
  destruct (hasLayerChange (geom s)); cbn [negb];
    (eexists; split; [ reflexivity | ]);
    rewrite state_end_of_turn, geom_end_of_turn, slots_end_of_turn;
    lexer_simpl; auto.
Qed.

(** A linear move changes a bound of the box to nothing but the position
    it starts from or the position it leads to. *)
Lemma linear_move_tight (c : tCmd) (g : tGeom) (a : tAxis) :
  (axis_min a (linear_move c g) = axis_min a g
   \/ axis_min a (linear_move c g) = axis_pos a g
   \/ axis_min a (linear_move c g) = axis_pos a (linear_move c g))
  /\ (axis_max a (linear_move c g) = axis_max a g
      \/ axis_max a (linear_move c g) = axis_pos a g
      \/ axis_max a (linear_move c g) = axis_pos a (linear_move c g)).
Proof.
  unfold linear_move, widen_if, widen.
  destruct a; cbn [axis_min axis_max axis_pos];
    repeat match goal with
           | |- context [if ?b then _ else _] => destruct b; cbn
           end; auto.
Qed.

(** The line of a linear move with a material feed at the start of a
    line: the geometry behind it. *)
Lemma extruding_line_step (F : bool) (pre indent ds gap rest : list ascii)
      (ws : list (ascii * list ascii)) (term : ascii) (s0 : tLexer) :
  Z.of_nat (List.length
              (pre ++ (indent ++ command_chars ds ws ++ gap ++ [term]) ++ rest))
  < 2 ^ 64 ->
  lex_loop F (pre ++ (indent ++ command_chars ds ws ++ gap ++ [term]) ++ rest)
           init_lexer 0 pre = Running s0 ->
  state s0 = ST_LINE_START ->
  forallb is_blank indent = true -> forallb isdigit ds = true ->
  forallb word_ok ws = true -> forallb is_blank gap = true ->
  is_line_end term = true ->
  is_linear_move ds = true ->
  exists s1,
    lex_loop F (pre ++ (indent ++ command_chars ds ws ++ gap ++ [term]) ++ rest)
             init_lexer 0 (pre ++ indent ++ command_chars ds ws ++ gap ++ [term])
    = Running s1
    /\ geom s1 = linear_move (line_cmd ds ws) (geom s0).
Proof.
  intros Hlen Hpre St Hin Hds Hws Hgap Hterm Hlin.
  destruct (lex_loop_command_line F pre indent ds gap rest ws term s0 Hlen St
              Hin Hds Hws Hgap Hterm) as (s1 & Hrun & Hg1 & _).
  exists s1. split.
  - rewrite lex_loop_app, Hpre. cbn [Z.add]. exact Hrun.
  - assert (Hlt : decimal ds < 65536).
    { unfold is_linear_move in Hlin. apply orb_prop in Hlin.
      destruct Hlin as [E | E]; apply Z.eqb_eq in E; lia. }
    rewrite Hg1. unfold gcode_end. now rewrite (linear_code ds ws Hds Hlt), Hlin.
Qed.

Lemma axis_param_line_cmd (a : tAxis) (ds : list ascii)
      (ws : list (ascii * list ascii)) :
  axis_param a (line_cmd ds ws)
  = match word_value (axis_letter a) ws with
    | Some t => p_float_chars t
    | None => NAN
    end.
Proof.
  unfold line_cmd. rewrite axis_param_fold_word_cmd.
  destruct (word_value (axis_letter a) ws); [ reflexivity | now destruct a ].
Qed.

(** * Claims on the bounding box *)

(** C1, as the specification has it, fails in its first half: the line
    "G1 X1 Y1 Z1 E1" is a linear move with a positive material feed along
    all three axes and puts the position (1, 1, 1) into the box; the comment
    ";LAYER_CHANGE" behind it resets the box, and the pass ends with
    [min > max] on every axis. *)
Lemma bounding_box_reset_counterexample :
  file_chars [L_command [] (chars "1")
                        [("X"%char, chars "1"); ("Y"%char, chars "1");
                         ("Z"%char, chars "1"); ("E"%char, chars "1")] [] None;
              L_comment [] (chars "LAYER_CHANGE")]
  = input_reset
  /\ extruding_line (L_command [] (chars "1")
                               [("X"%char, chars "1"); ("Y"%char, chars "1");
                                ("Z"%char, chars "1"); ("E"%char, chars "1")] [] None)
     = true
  /\ (exists s1,
         lex_loop false input_reset init_lexer 0 (unlines ["G1 X1 Y1 Z1 E1"])
         = Running s1
         /\ forall a, axis_min a (geom s1) = f_of_Z 1 /\ axis_max a (geom s1) = f_of_Z 1)
  /\ exists s, lex false input_reset = Running s
       /\ f_le (minX (geom (correct_minZ input_reset s)))
               (maxX (geom (correct_minZ input_reset s))) = false
       /\ f_le (minY (geom (correct_minZ input_reset s)))
               (maxY (geom (correct_minZ input_reset s))) = false
       /\ f_le (minZ (geom (correct_minZ input_reset s)))
               (maxZ (geom (correct_minZ input_reset s))) = false.
Proof.
  split; [ reflexivity | ].
  split; [ vm_compute; reflexivity | ].
  split.
  - eexists. split; [ vm_compute; reflexivity | ].
    intros [ | | ]; vm_compute; auto.
  - eexists. split; [ vm_compute; reflexivity | ].
    vm_compute. auto.
Qed.

(** The same without any layer change: the move "G1 E1" feeds material and
    names no axis, the position is not set, and the box stays unset. *)
Lemma extruding_move_without_axis :
  file_chars [L_command [] (chars "1") [("E"%char, chars "1")] [] None]
  = input_no_axis
  /\ extruding_line (L_command [] (chars "1") [("E"%char, chars "1")] [] None) = true
  /\ exists s, lex false input_no_axis = Running s
       /\ minX (geom (correct_minZ input_no_axis s)) = INFINITY
       /\ maxX (geom (correct_minZ input_no_axis s)) = NEG_INFINITY.
Proof.
  split; [ reflexivity | ].
  split; [ vm_compute; reflexivity | ].
  eexists. split; [ vm_compute; reflexivity | ].
  vm_compute. auto.
Qed.

(** The second half fails on a line that is not of the forms of [tLine]:
    in "G92E5" the word follows the number with no blank between, the code
    of the line before (G1) stays, and the line counts as a linear move with
    the feed 5, although neither line of the file is one. The box, unset
    after the first line, gets the position x = 1. *)
Lemma stale_code_counterexample :
  (exists s1, lex_loop false input_stale_code init_lexer 0 (unlines ["G1 X1"])
              = Running s1 /\ box_unset (geom s1))
  /\ exists s, lex false input_stale_code = Running s
               /\ minX (geom s) = f_of_Z 1 /\ maxX (geom s) = f_of_Z 1.
Proof.
  split; eexists; (split; [ vm_compute; reflexivity | ]);
    vm_compute; repeat split.
Qed.

(** Why the move is to be at the start of a line and its line ended: a
    move in a thumbnail block that is not closed is data of the thumbnail,
    and a move at the end of the file without a line feed is never applied.
    The box stays unset in both. *)
Lemma move_not_read_examples :
  (exists s, lex false input_move_in_thumbnail = Running s /\ box_unset (geom s))
  /\ (exists s, lex false input_move_not_ended = Running s /\ box_unset (geom s)).
Proof.
  split; eexists; (split; [ vm_compute; reflexivity | ]);
    vm_compute; repeat split.
Qed.

(** Why min_z of the header is set apart: the float parser reads a sign, and
    a negative first layer height lifts min_z (here from 1 to 6) above max_z
    (here 2). *)
Lemma negative_first_layer_height :
  exists s, lex false input_negative_height = Running s
            /\ f_le (minZ (geom s)) (maxZ (geom s)) = true
            /\ minZ (geom (correct_minZ input_negative_height s)) = f_of_Z 6
            /\ maxZ (geom (correct_minZ input_negative_height s)) = f_of_Z 2.
Proof.
  eexists. split; [ vm_compute; reflexivity | ].
  vm_compute. auto.
Qed.

(** C1, amended.
    (1) After the pass of any input each axis of the box is still at its
    sentinel pair (+inf for min, -inf for max) or has min <= max.
    (2) The comment line ";LAYER_CHANGE" at the start of a line resets the
    box to the sentinels if no such line was read before, and leaves the
    geometry as it is if one was.
    (3) A line of a linear move (G0 or G1, then words) with a positive
    material feed, met at the start of a line and ended by a line feed or a
    ';': behind the line the position on an axis is what the word of the
    axis makes of it (its number in absolute mode), and each bound of the
    box is what it was, the position the move starts from or the position it
    leads to. When the box is not reset behind the line (the first
    ;LAYER_CHANGE was read before it, or none is read at all), the box after
    the pass holds, on every axis the line names, the position the move
    leads to, if that is a number, and it holds the position the move starts
    from if the move before fed no material; so min <= max on that axis.
    (4) For an input of lines of the three forms (command lines with a
    number below 65536 and words after blanks, comment lines, other lines)
    none of which is a linear move with a positive material feed, all six
    values stay the sentinel infinities, after the pass and in the header.
    (5) When the file is created anew the header gives the six values of the
    box after the pass, but for min_z, from which the first layer height is
    subtracted exactly when it was captured and min_z < max_z. *)
Theorem bounding_box_after_pass :
  (forall (F : bool) (buf : list ascii) (s : tLexer),
      lex F buf = Running s -> box_ok (geom s))
  /\ (forall (F : bool) (pre indent ws0 ws1 rest : list ascii) (s : tLexer),
         Z.of_nat (List.length
                     (pre ++ (indent ++ ";"%char :: ws0 ++ chars "LAYER_CHANGE"
                              ++ ws1 ++ [LF]) ++ rest)) < 2 ^ 64 ->
         state s = ST_LINE_START ->
         forallb is_blank indent = true -> forallb is_blank ws0 = true ->
         forallb is_blank ws1 = true ->
         exists s1,
           lex_loop F (pre ++ (indent ++ ";"%char :: ws0 ++ chars "LAYER_CHANGE"
                               ++ ws1 ++ [LF]) ++ rest)
                    s (Z.of_nat (List.length pre))
                    (indent ++ ";"%char :: ws0 ++ chars "LAYER_CHANGE" ++ ws1 ++ [LF])
           = Running s1
           /\ state s1 = ST_LINE_START
           /\ hasLayerChange (geom s1) = true
           /\ (hasLayerChange (geom s) = false ->
               box_unset (geom s1)
               /\ forall a, axis_pos a (geom s1) = axis_pos a (geom s))
           /\ (hasLayerChange (geom s) = true -> geom s1 = geom s))
  /\ (forall (F : bool) (pre indent ds gap rest : list ascii)
             (ws : list (ascii * list ascii)) (term : ascii) (s0 : tLexer)
             (a : tAxis),
         Z.of_nat (List.length
                     (pre ++ (indent ++ command_chars ds ws ++ gap ++ [term]) ++ rest))
         < 2 ^ 64 ->
         lex_loop F (pre ++ (indent ++ command_chars ds ws ++ gap ++ [term]) ++ rest)
                  init_lexer 0 pre = Running s0 ->
         state s0 = ST_LINE_START ->
         forallb is_blank indent = true -> forallb isdigit ds = true ->
         forallb word_ok ws = true -> forallb is_blank gap = true ->
         is_line_end term = true ->
         is_linear_move ds = true -> feeds ws = true ->
         exists s1,
           lex_loop F (pre ++ (indent ++ command_chars ds ws ++ gap ++ [term]) ++ rest)
                    init_lexer 0
                    (pre ++ indent ++ command_chars ds ws ++ gap ++ [term])
           = Running s1
           /\ axis_pos a (geom s1)
              = match word_value (axis_letter a) ws with
                | Some t => move_axis (isAbsPos (geom s0)) (axis_pos a (geom s0))
                                      (p_float_chars t)
                | None => axis_pos a (geom s0)
                end
           /\ (forall t,
                  word_value (axis_letter a) ws = Some t ->
                  isAbsPos (geom s0) = true ->
                  axis_pos a (geom s1) = p_float_chars t
                  /\ IS_SET (axis_pos a (geom s1)) = true)
           /\ (axis_min a (geom s1) = axis_min a (geom s0)
               \/ axis_min a (geom s1) = axis_pos a (geom s0)
               \/ axis_min a (geom s1) = axis_pos a (geom s1))
           /\ (axis_max a (geom s1) = axis_max a (geom s0)
               \/ axis_max a (geom s1) = axis_pos a (geom s0)
               \/ axis_max a (geom s1) = axis_pos a (geom s1))
           /\ forall s,
               lex F (pre ++ (indent ++ command_chars ds ws ++ gap ++ [term]) ++ rest)
               = Running s ->
               hasLayerChange (geom s0) = true \/ hasLayerChange (geom s) = false ->
               (word_value (axis_letter a) ws <> None ->
                IS_SET (axis_pos a (geom s1)) = true ->
                f_le (axis_min a (geom s)) (axis_pos a (geom s1)) = true
                /\ f_le (axis_pos a (geom s1)) (axis_max a (geom s)) = true
                /\ f_le (axis_min a (geom s)) (axis_max a (geom s)) = true)
               /\ (prevExt (geom s0) = false ->
                   IS_SET (axis_pos a (geom s0)) = true ->
                   f_le (axis_min a (geom s)) (axis_pos a (geom s0)) = true
                   /\ f_le (axis_pos a (geom s0)) (axis_max a (geom s)) = true
                   /\ f_le (axis_min a (geom s)) (axis_max a (geom s)) = true))
  /\ (forall (F : bool) (lines : list tLine) (s : tLexer),
         Z.of_nat (List.length (file_chars lines)) < 2 ^ 64 ->
         forallb line_ok lines = true ->
         existsb extruding_line lines = false ->
         lex F (file_chars lines) = Running s ->
         box_unset (geom s)
         /\ forall f, header_box_value f (file_chars lines) s = box_value f init_geom)
  /\ (forall (F : bool) (V : string) (io : tIO) (cb : tCallback) (r : tReturn)
             (s : tLexer) (f : tBoxField) (args : list tArg),
         processFile F V io cb = Some r ->
         lex F (file_bytes io) = Running s ->
         In EvCreate (trace r) ->
         (In (EvWrite (fprintf (box_format f) args)) (trace r)
          <-> args = [ArgFloat (header_box_value f (file_bytes io) s)])).
Proof.
  split; [ exact lex_box_ok | ].
  split; [ | split; [ | split; [ | exact created_box_field ] ] ].
  - intros F pre indent ws0 ws1 rest s Hlen St Hin Hws0 Hws1.
    destruct (lex_loop_layer_change_line F pre indent ws0 ws1 rest s Hlen St
                Hin Hws0 Hws1) as (s1 & Hrun & St1 & Hg & _).
    exists s1. split; [ exact Hrun | split; [ exact St1 | ] ].
    rewrite Hg. destruct (hasLayerChange (geom s)) eqn:E.
    + split; [ exact E | split; [ discriminate | reflexivity ] ].
    + split; [ reflexivity | split; [ | discriminate ] ].
      intros _. split; [ apply layer_change_box_unset | ].
      intros [ | | ]; reflexivity.
  - intros F pre indent ds gap rest ws term s0 a Hlen Hpre St Hin Hds Hws Hgap
           Hterm Hlin Hfeed.
    destruct (extruding_line_step F pre indent ds gap rest ws term s0 Hlen Hpre St
                Hin Hds Hws Hgap Hterm Hlin) as (s1 & Hrun1 & Hg1).
    exists s1. split; [ exact Hrun1 | ].
    assert (Hpos : axis_pos a (geom s1)
                   = match word_value (axis_letter a) ws with
                     | Some t => move_axis (isAbsPos (geom s0)) (axis_pos a (geom s0))
                                           (p_float_chars t)
                     | None => axis_pos a (geom s0)
                     end).
    { rewrite Hg1, axis_pos_linear_move, axis_param_line_cmd.
      destruct (word_value (axis_letter a) ws); reflexivity. }
    split; [ exact Hpos | ].
    split.
    { intros t Ht Habs. rewrite Hpos, Ht. unfold move_axis.
      rewrite Habs, p_float_chars_is_set.
      split; [ reflexivity | apply p_float_chars_is_set ]. }
    destruct (linear_move_tight (line_cmd ds ws) (geom s0) a) as [Hmin Hmax].
    rewrite <- Hg1 in Hmin, Hmax.
    split; [ exact Hmin | split; [ exact Hmax | ] ].
    intros s Hlex Hflag.
    destruct (extruding_line_enters_box F pre indent ds gap rest ws term s0 s a
                Hlen Hpre St Hin Hds Hws Hgap Hterm Hlin Hfeed Hlex Hflag)
      as [Hend Hstart].
    split.
    + intros Hn Hset. rewrite Hpos in *.
      destruct (word_value (axis_letter a) ws) as [ t | ]; [ | contradiction ].
      destruct (Hend t eq_refl Hset) as [H1 H2].
      split; [ exact H1 | split; [ exact H2 | exact (f_le_trans _ _ _ H1 H2) ] ].
    + intros Hprev Hset. destruct (Hstart Hprev Hset) as [H1 H2].
      split; [ exact H1 | split; [ exact H2 | exact (f_le_trans _ _ _ H1 H2) ] ].
  - intros F lines s Hlen Hok Hno Hlex.
    assert (Hlen' : Z.of_nat (List.length ([] ++ file_chars lines ++ [])) < 2 ^ 64)
      by (now rewrite app_nil_r).
    unfold lex in Hlex.
    assert (Hun : box_unset (geom s)).
    { apply (lines_keep_box_unset F lines [] [] init_lexer s Hlen');
        [ discriminate | repeat split | exact Hok | exact Hno | ].
      cbn [app List.length]. rewrite app_nil_r. exact Hlex. }
    split; [ exact Hun | ].
    destruct Hun as (E1 & E2 & E3 & E4 & E5 & E6).
    intro f. unfold header_box_value. rewrite E3, E6.
    change (f_lt INFINITY NEG_INFINITY) with false. rewrite andb_false_r.
    destruct f; cbn [box_value]; rewrite ?E1, ?E2, ?E4, ?E5, ?E6; reflexivity.
Qed.

Lemma bounding_box_after_pass_witness :
  (exists s r,
      lex false input_box = Running s
      /\ f_le (minX (geom s)) (f_of_Z 3) = true
      /\ f_le (f_of_Z 3) (maxX (geom s)) = true
      /\ processFile false "1.0" (io_ok input_box) cb_continue = Some r
      /\ In (EvWrite (fprintf (box_format F_min_z) [ArgFloat f_zero])) (trace r))
  /\ (exists s, lex false input_plain = Running s /\ box_unset (geom s)).
Proof.
  split.
  - assert (Hrun : exists s0 s r,
               lex_loop false input_box init_lexer 0
                        (unlines ["; first_layer_height = 0.2"; ";LAYER_CHANGE";
                                  "G1 Z0.2"; "G1 X1 Y2"]) = Running s0
               /\ state s0 = ST_LINE_START
               /\ hasLayerChange (geom s0) = true
               /\ isAbsPos (geom s0) = true
               /\ lex false input_box = Running s
               /\ header_box_value F_min_z input_box s = f_zero
               /\ processFile false "1.0" (io_ok input_box) cb_continue = Some r
               /\ In EvCreate (trace r)).
    { do 3 eexists. split; [ vm_compute; reflexivity | ].
      split; [ reflexivity | split; [ reflexivity | split; [ reflexivity | ] ] ].
      split; [ vm_compute; reflexivity | ].
      split; [ vm_compute; reflexivity | ].
      split; [ vm_compute; reflexivity | ].
      cbn. auto 10. }
    destruct Hrun as (s0 & s & r & Hpre & St & Hflag & Habs & Hlex & Hz & Hr & Hc).
    exists s, r.
    destruct (proj1 (proj2 (proj2 bounding_box_after_pass)) false
                    (unlines ["; first_layer_height = 0.2"; ";LAYER_CHANGE";
                              "G1 Z0.2"; "G1 X1 Y2"])
                    [] (chars "1") [" "%char]
                    (chars " wall" ++ LF :: unlines ["G1 Z0.4 E1"])
                    [("X"%char, chars "3"); ("Y"%char, chars "4");
                     ("E"%char, chars "1")]
                    ";"%char s0 AX)
      as (s1 & _ & _ & Hnum & _ & _ & Hfin); try reflexivity; try assumption.
    destruct (Hnum (chars "3") eq_refl Habs) as [Hp Hset].
    destruct (proj1 (Hfin s Hlex (or_introl Hflag))) as (H1 & H2 & _);
      [ discriminate | exact Hset | ].
    rewrite Hp in H1, H2.
    split; [ exact Hlex | ].
    split; [ exact H1 | split; [ exact H2 | ] ].
    split; [ exact Hr | ].
    apply (proj2 (proj2 (proj2 (proj2 bounding_box_after_pass))) false "1.0"
                 (io_ok input_box) cb_continue r s F_min_z _ Hr Hlex Hc).
    change (file_bytes (io_ok input_box)) with input_box. now rewrite Hz.
  - assert (Hlex : exists s, lex false input_plain = Running s)
      by (eexists; vm_compute; reflexivity).
    destruct Hlex as (s & Hlex). exists s. split; [ exact Hlex | ].
    apply (proj1 (proj2 (proj2 (proj2 bounding_box_after_pass))) false
                 [L_command [] (chars "1") [("X"%char, chars "1")] [] None;
                  L_command [] (chars "1") [("X"%char, chars "2")] [] None]);
      [ vm_compute; reflexivity | reflexivity | reflexivity | exact Hlex ].
Defined.
